(* ===== verification/_CoqProject ===== *)
-Q . S2P
Prelude.v
Text.v
StrOps.v
Types.v
Tables.v
Regex.v
Channels.v
Fusion.v
Level.v
Session.v
Resources.v
Engine.v
Response.v
PyDict.v
EmotionTables.v
Emotion.v
EmotionSummary.v
AzureLLM.v
Ollama.v
Base64.v
Wav.v
Stt.v
ApiMonad.v
Api.v
ApiAsync.v
Tts.v
TestAudio.v
AudioHelper.v
Streamlit.v
Binary64.v
Scenarios.v
