(* ===== verification/Prelude.v ===== *)
(** * A verification development of Mental-ChatBot

    The program.  Mental-ChatBot is an Arabic (Omani dialect) mental-health
    chatbot.  A FastAPI backend ([src/backend/api/main.py]) and a Streamlit
    front end ([src/streamlit_app.py]) pass the user's text, typed or
    transcribed by [OmaniSTT] ([speech_to_Text/whisper.py], Gemini or
    Groq), to a language model client ([llm/openai_client.py] for Azure,
    [llm/ollama_client.py] for a local Ollama server) and speak the answer
    with [OmaniTTS] ([Text_to_Speech.py/arabic_tts.py]).  Two rule-based
    analysers sit beside that pipeline:
    - [guardrailes/crisis_detector.py], [CrisisDetectionSystem]: scores an
      utterance through three channels -- a keyword lexicon, a table of
      regular expressions, a table of dialect idioms --, fuses the per-type
      scores with the weights 0.3 / 0.5 / 0.4, maps the total to a
      [CrisisLevel] by an ordered rule list, keeps a per-session history of
      at most 10 turns with an escalation risk, and selects emergency
      resources and a reply template.  [assess_crisis_level] composes them.
    - [emotion/detector.py], [EmotionDetector]: a lexicon and dialect
      scorer with normalisation, an optional transformers model combined
      with the rules, a cultural adjustment (Islamic expressions, family
      words), and the read-outs [get_dominant_emotion] and
      [get_emotion_summary].
    The API and the UI call neither analyser (a finding of the manifest).
    The API holds three globals -- the STT engine, the Azure client and
    its own conversation history -- and writes temporary audio files.

    Files, in dependency order (_CoqProject), and what they model:
    - [Prelude] (this file): Python's comparisons on floats as boolean
      functions with reflection lemmas and the tactics [qcase] and
      [qrewrite]; [sum], [min], [max], the slice [l[-n:]] ([lastn]),
      [random.choice] ([py_choice], the random draw an argument); the
      [crisis] hint databases and shared lemmas on folds and options.
    - [Text] (module [PyStr]): [str.lower], [startswith], [p in s],
      [s.count(p)] and [not s.strip()] on the UTF-8 bytes of a string.
    - [StrOps] (module [PyStrOps]): [str.replace], [strip], [split()],
      [join], [upper], [len] (code points) and [endswith] of a tuple, with
      the round trip of [split] and [join].
    - [Types], [Tables]: [CrisisType], [CrisisLevel] and the four tables
      built by [CrisisDetectionSystem.__init__], literally.
    - [Regex]: the fragment [(a1|..|an).*(b1|..|bm)] that every pattern of
      the table uses, Python's backtracking matcher for it, [re.findall];
      sound and complete for a declarative match relation.
    - [Channels]: [_check_crisis_keywords], [_check_crisis_patterns],
      [_check_omani_expressions] and the invariant [result_wf].
    - [Fusion]: [_calculate_combined_score] for any iteration order of the
      Python [set] of types.
    - [Level]: [_determine_crisis_level], characterised by three
      upward-closed conditions; [Proper] for the equivalence [cs_equiv].
    - [Session]: [_analyze_session_patterns] written against the class
      [SessionStore] (the spec's injectable store), with a [gmap] instance
      for the Python dict; reachability as an inductive relation.
    - [Resources], [Engine], [Response]: [_get_relevant_resources],
      [assess_crisis_level] (state passing on the store, [None] where
      Python would raise) and [generate_crisis_response].
    - [PyDict]: Python's insertion-ordered [dict] as an association list.
    - [EmotionTables], [Emotion], [EmotionSummary]: the emotion detector:
      construction, [detect_emotions] and its five stages, the read-outs.
    - [AzureLLM]: [AzureOmaniTherapistLLM] and [create_azure_omani_llm]:
      configuration, prompt enrichment, the messages of a request, the
      conversation history and its summary; the HTTP exchange is the
      [Transport] parameter.
    - [Ollama]: [OmaniTherapistLLM] of [ollama_client.py]: the prompt with
      the last three exchanges, the payload, every outcome of the HTTP
      call ([PostOutcome]: answer, timeout, HTTP error, other error),
      [_postprocess_response], the fallbacks, the model checks.
    - [Base64]: [base64.b64encode] as [_audio_to_base64] calls it, on
      bytes as [Z] with [Z.shiftl], [Z.shiftr] and [Z.land], and a
      reference decoder.
    - [Wav]: [_save_temp_audio] of the STT module over a disk of byte
      lists -- numpy's float32 normalisation and scaling written with
      Stdlib's [SpecFloat] at precision 24, the [int16] cast as an x86-64
      build performs it, the little-endian frames and the 44-byte header
      of Python's [wave] -- and [get_audio_duration].
    - [Stt] (module [STT]): [OmaniSTT.__init__] with its [ValueError]s,
      [create_omani_stt], the two provider requests and answers,
      [_postprocess_omani_text], the synchronous wrapper and the setup
      instructions; the network and the disk are [STTEnv].
    - [ApiMonad]: a state and exception monad for the async handlers, with
      [try]/[except] ([try_except]) and [try]/[finally] ([try_finally]),
      the invariant combinator [preserves] and the tactic [preserves_tac].
    - [Api]: the globals of [main.py] as [ApiState] (the disk a [gmap] from
      paths to bytes), the helper [SimpleAudioHelper] and every route:
      [startup_event], [root], [health_check], [get_system_status],
      [send_message], [transcribe_audio], [process_audio],
      [clear_conversation], [get_conversation_history], [report_emergency];
      the reachable API states as an inductive relation over the routes.
      The clock, the temporary file names and the HTTP exchanges are
      [Context] parameters of a section; [load_dotenv] with Python's
      default [override=False].
    - [ApiAsync]: the asyncio event loop of the server.  [send_message]
      is cut at its two suspension points -- [await client.post] in the
      Azure client (openai_client.py line 138) and the exit of its
      [async with] -- into the tasks [send_start], [post_returned] and
      [exit_returned]; [clear_conversation] never awaits and runs whole.
      A configuration is the API state with the list of pending tasks, a
      schedule the list of the tasks the loop resumes, in order; a
      serial schedule resumes a request only while no other is
      suspended.
    - [Tts] (module [TTS]): engine selection, the voice settings, the
      default output file, the dispatch of [synthesize_speech], the
      [espeak] command line, the [gTTS] request, the [pyttsx3] voice
      selection, [preprocess_arabic_text], and [cleanup]/[__del__] over
      the set of existing paths; the engines' runs are [TTSEnv].
    - [TestAudio]: [Testcases/generate_test_audio.py], the test-audio
      generator, as runs of [synthesize_speech] with the speaker settings
      it writes into the settings dictionary.
    - [AudioHelper]: [frontend/audio_helper.py]: validation, MIME types,
      temporary files and [convert_to_wav] over a disk map, with
      [os.path.splitext] as CPython writes it.
    - [Streamlit] (module [StreamlitApp]): [streamlit_app.py]: one run of
      the script per input and browser session over the sessions'
      [st.session_state], the [@st.cache_resource] cache with the one LLM
      object every session shares, and the temporary files; the text and
      audio turns compose [Stt] and [AzureLLM].  Reachable application
      states are an inductive relation over runs.  A run starts with the
      imports of lines 33-34, resolved over a tree of files and the
      entries of [sys.path]; the repository has neither
      [src/stt/whisper_stt.py] nor [src/llm/azure_openai_client.py], so
      with its own tree every run raises [ModuleNotFoundError].  The
      other theorems of the file are about the script's functions, which
      run once the two modules exist; the model takes them to be the
      backend's [whisper.py] and [openai_client.py], whose factories
      have the names and signatures the script calls.
    - [Binary64]: the scores of [assess_crisis_level] as CPython computes
      them, in IEEE binary64 (Rocq's primitive floats), for a given
      iteration order of the set of types, beside the exact value of the
      same matches, with the refinement that links the exact value to
      [Fusion] and an exhaustive comparison of the two levels.
    - [Scenarios]: the spec's examples and the behaviours found, evaluated
      on the literal Arabic inputs.

    What the theorems show (the claim ids of the manifest).  Crisis
    engine: the two flags of an assessment by closed conditions on score
    and types (C1, C2); the inclusive boundary and the monotonicity of
    the level (C3, C4); the bound of 10 on every reachable history and
    the refinement of the stored window against the full log (C7, C8);
    that the verdict ignores the session (C9); the trend rule (C10).
    Binary64: the exact model scores the matches the float layer scores
    (C5); on every bounded single-type detection Python's level and the
    exact level agree except on five detections (C6).  Emotion detector:
    the adjustment key by key (C11), the dominant emotion is the first
    maximal entry, so ties follow the set order (C12).  Concurrent API
    requests: under every serial schedule the API's history and the
    client's agree (C13); the client's history stays whole exchanges
    under every schedule (C14); two overlapping sends (C15), or a clear
    during a send (C16), break the API's history.  Web API: a failed
    model call is stored as an answer the client does not have (C17); no
    upload leaves a temporary file (C18); the 10 MiB limit (C19);
    clearing resets both histories (C20); silence is reported as 500
    (C21); an empty [GROQ_API_KEY] in the shell disables the backend
    whatever [.env] says (C22).  Azure client: the request window (C23).
    Streamlit app: a run raises exactly when an import of lines 33-34
    fails, which the repository's own tree makes it do (C24); the audio
    turn leaves no file (C25); a clear in one session empties the
    history every session shares (C26).  Ollama client: every reply is
    non-empty and well ended (C27), the error replies (C28).  Speech to
    text: no asterisk survives (C29), the WAV file reads back its
    samples (C30), a negative peak beyond full scale wraps around (C31).
    Text to speech: the speaker settings of the test-audio generator are
    never read (C32); every Windows voice passes the Arabic-voice test
    (C33); [__del__] removes the file [synthesize_speech] returned
    (C34).  Audio helper: [convert_to_wav] leaks its temporary file when
    ffmpeg fails (C35).  Lemmas beside the claims evaluate the findings
    on literal inputs (the spec's first scenario, the float totals, the
    corrections of the STT) and show the library models sound (base64's
    round trip, the fuel of [re.findall]).

    Fuel and bounds.  [re.findall] runs with fuel [S (length s)]: each
    match consumes at least one byte, and [findall_fuel_enough] shows any
    larger fuel gives the same list.  [str.count], [not s.strip()],
    [str.replace] and [str.split] use the same bound: each step consumes
    at least one byte ([count_from_enough], [replace_from_enough],
    [split_from_enough]).  [base64] recurses on the groups of three bytes;
    its round trip is proved for every list of bytes in [0, 256).

    Modelling choices.
    - Text is a Stdlib [string], the UTF-8 bytes of the Python [str].  Every
      table string starts with a lead byte, so byte-level substring, count,
      replace and regex matches coincide with Python's code-point matches
      on valid UTF-8; [len] counts lead bytes.  [str.lower] and
      [str.upper] are modelled on the ASCII range; the tables hold no
      cased character.  The whitespace of [strip] and [split] is the 29
      code points [str.isspace] accepts, UTF-8 encoded.
    - The crisis engine's scores are exact rationals [Q] in every file
      but [Binary64], which computes them in binary64 as CPython does;
      the two agree on the matches ([exact_refines_matches]) and differ
      at the thresholds only where [Binary64] shows it.  The audio
      samples of [Wav] are float32 ([SpecFloat], precision 24, maximal
      exponent 128); the TTS volume is a binary64 float.
    - [datetime.now()], the environment variables, the transformers model,
      the HTTP exchanges, [random.choice]'s draw, Python's salted [hash],
      the temporary file names and the iteration order of a Python [set]
      are parameters; logging is not modelled (it returns nothing).
    - An async handler is a function of the state in [Api], which runs
      each request whole; [ApiAsync] refines [send_message] into its
      resumptions between awaits, the only points where asyncio switches
      requests.  The await inside [httpx.AsyncClient]'s context entry does
      not touch the globals and is merged with the first step.  The
      Streamlit sessions interleave
      as a sequence of whole script runs, each for one session, which is
      how the shared LLM object sees their messages.

    Bounds of the exhaustive check.  [single_type_float_agreement]
    enumerates every detection of one crisis type with a keyword count
    up to the size of its keyword table, a dialect count up to the size
    of its dialect table and at most six matches per pattern (113 955
    cases, computed by [vm_compute]).  It is a finite check and
    says nothing of larger counts: the disagreements grow with the bound
    (one at five matches, five at six).

    Not modelled: the HTML and [st] rendering calls of the Streamlit app
    (display only); the FastAPI app object, its CORS middleware and the
    uvicorn start-up (configuration, applied by libraries); the test
    drivers ([run_tests.py], [test_*.py]); [is_speech_detected] (librosa's
    RMS energy); the engines' audio output (external programs, the
    [TTSEnv] parameter); a partial failure of [shutil.rmtree] in
    [OmaniTTS.cleanup] (the model removes the whole tree); the await
    points of [transcribe_audio] ([audio.read()], the STT call) as
    tasks: its steps touch only its own temporary file and the STT
    object, which no route reassigns, and the [send_message] that
    [process_audio] awaits afterwards is the send task of [ApiAsync];
    packages outside the repository's tree (site-packages) that would
    provide [src.stt] or [src.llm]. *)

From Stdlib Require Export QArith Lqa Permutation.
From stdpp Require Export base list gmap strings.

Declare Scope crisis_scope.
Delimit Scope crisis_scope with crisis.

Create HintDb crisis.
Create Rewrite HintDb crisis.

(** ** Python comparisons on scores *)

Local Open Scope Q_scope.

(** [x >= y], [x < y] and [x > y] of Python, as the booleans the code
    branches on. *)
Definition py_ge (x y : Q) : bool := Qle_bool y x.
Definition py_lt (x y : Q) : bool := negb (Qle_bool y x).
Definition py_gt (x y : Q) : bool := negb (Qle_bool x y).

Notation "x >=? y" := (py_ge x y) (at level 70, no associativity) : crisis_scope.
Notation "x <? y" := (py_lt x y) (at level 70, no associativity) : crisis_scope.
Notation "x >? y" := (py_gt x y) (at level 70, no associativity) : crisis_scope.
Global Open Scope crisis_scope.

Lemma py_ge_iff x y : (x >=? y) = true <-> y <= x.
Proof. apply Qle_bool_iff. Qed.

Lemma py_ge_false x y : (x >=? y) = false <-> x < y.
Proof.
  unfold py_ge. rewrite <- not_true_iff_false, Qle_bool_iff.
  split; [apply Qnot_le_lt | intros H H'; apply (Qlt_not_le _ _ H H')].
Qed.

Lemma py_lt_iff x y : (x <? y) = true <-> x < y.
Proof. unfold py_lt. rewrite negb_true_iff. apply py_ge_false. Qed.

Lemma py_gt_iff x y : (x >? y) = true <-> y < x.
Proof. unfold py_gt. rewrite negb_true_iff. apply py_ge_false. Qed.

Lemma py_lt_false x y : (x <? y) = false <-> y <= x.
Proof. unfold py_lt. rewrite negb_false_iff. apply py_ge_iff. Qed.

Lemma py_gt_false x y : (x >? y) = false <-> x <= y.
Proof. unfold py_gt. rewrite negb_false_iff. apply Qle_bool_iff. Qed.

#[export] Instance py_ge_proper : Proper (Qeq ==> Qeq ==> eq) py_ge.
Proof. intros x x' Hx y y' Hy. unfold py_ge. now rewrite Hx, Hy. Qed.
#[export] Instance py_lt_proper : Proper (Qeq ==> Qeq ==> eq) py_lt.
Proof. intros x x' Hx y y' Hy. unfold py_lt. now rewrite Hx, Hy. Qed.
#[export] Instance py_gt_proper : Proper (Qeq ==> Qeq ==> eq) py_gt.
Proof. intros x x' Hx y y' Hy. unfold py_gt. now rewrite Hx, Hy. Qed.

Lemma py_ge_eq_l x y c : x == y -> (x >=? c) = (y >=? c).
Proof. intros H. by rewrite H. Qed.

Lemma py_ge_eq_r x y c : x == y -> (c >=? x) = (c >=? y).
Proof. intros H. now rewrite H. Qed.
Lemma py_gt_eq_l x y c : x == y -> (x >? c) = (y >? c).
Proof. intros H. now rewrite H. Qed.
Lemma py_gt_eq_r x y c : x == y -> (c >? x) = (c >? y).
Proof. intros H. now rewrite H. Qed.
Lemma py_lt_eq_l x y c : x == y -> (x <? c) = (y <? c).
Proof. intros H. now rewrite H. Qed.
Lemma py_lt_eq_r x y c : x == y -> (c <? x) = (c <? y).
Proof. intros H. now rewrite H. Qed.

(** [qrewrite H] replaces, with [H : x == y], [x] by [y] in every Python
    comparison of the goal, branches of conditionals included. *)
Ltac qrewrite H :=
  rewrite ?(py_ge_eq_l _ _ _ H), ?(py_ge_eq_r _ _ _ H), ?(py_gt_eq_l _ _ _ H),
          ?(py_gt_eq_r _ _ _ H), ?(py_lt_eq_l _ _ _ H), ?(py_lt_eq_r _ _ _ H).

(** [decide_true] closes a decidable proposition about closed terms by
    evaluating its decision procedure. *)
Ltac decide_true := apply (bool_decide_unpack _); vm_compute; exact I.

(** [qcase] splits the first Python comparison of the goal and turns both
    outcomes into order facts on [Q]. *)
Ltac qcase :=
  match goal with
  | |- context [py_ge ?x ?y] =>
      let E := fresh "Hge" in
      destruct (py_ge x y) eqn:E;
      [apply py_ge_iff in E | apply py_ge_false in E]
  | |- context [py_lt ?x ?y] =>
      let E := fresh "Hlt" in
      destruct (py_lt x y) eqn:E;
      [apply py_lt_iff in E | apply py_lt_false in E]
  | |- context [py_gt ?x ?y] =>
      let E := fresh "Hgt" in
      destruct (py_gt x y) eqn:E;
      [apply py_gt_iff in E | apply py_gt_false in E]
  end.

(** ** Python's [sum] *)

(** [sum(xs)] adds from left to right, starting at [0]. *)
Definition py_sum (xs : list Q) : Q := fold_left Qplus xs 0.

Lemma fold_left_Qplus_acc xs a :
  fold_left Qplus xs a == a + fold_left Qplus xs 0.
Proof.
  revert a. induction xs as [|x xs IH]; intros a; simpl.
  - ring.
  - rewrite (IH (a + x)), (IH (0 + x)). ring.
Qed.

Lemma py_sum_nil : py_sum [] == 0.
Proof. reflexivity. Qed.

Lemma py_sum_cons x xs : py_sum (x :: xs) == x + py_sum xs.
Proof. unfold py_sum. simpl. rewrite fold_left_Qplus_acc. ring. Qed.

Lemma py_sum_app xs ys : py_sum (xs ++ ys) == py_sum xs + py_sum ys.
Proof.
  induction xs as [|x xs IH]; simpl app.
  - rewrite py_sum_nil. ring.
  - rewrite !py_sum_cons, IH. ring.
Qed.

Lemma py_sum_nonneg xs : Forall (Qle 0) xs -> 0 <= py_sum xs.
Proof.
  induction 1 as [|x xs Hx _ IH].
  - apply Qle_refl.
  - rewrite py_sum_cons. lra.
Qed.

Lemma py_sum_perm xs ys : Permutation xs ys -> py_sum xs == py_sum ys.
Proof.
  induction 1 as [|x xs ys _ IH|x y xs|xs ys zs _ IH1 _ IH2].
  - reflexivity.
  - rewrite !py_sum_cons, IH. reflexivity.
  - rewrite !py_sum_cons. ring.
  - now rewrite IH1.
Qed.

#[export] Hint Resolve py_sum_nonneg : crisis.

(** ** Python's [min] and [max] *)

(** [min(a, b)] returns [a] unless [b < a]. *)
Definition py_min (a b : Q) : Q := if b <? a then b else a.

(** [max(xs)] of a non-empty iterable [x :: xs]: the first element,
    replaced by each later one that is greater. *)
Definition py_max_list (x : Q) (xs : list Q) : Q :=
  fold_left (fun m y => if y >? m then y else m) xs x.

Lemma py_min_le_l a b : py_min a b <= a.
Proof. unfold py_min. qcase; lra. Qed.

Lemma py_min_le_r a b : py_min a b <= b.
Proof. unfold py_min. qcase; lra. Qed.

Lemma py_min_glb a b c : c <= a -> c <= b -> c <= py_min a b.
Proof. unfold py_min. qcase; lra. Qed.

#[export] Hint Resolve py_min_le_l py_min_le_r py_min_glb : crisis.

Lemma py_max_list_spec x xs :
  x <= py_max_list x xs /\ Forall (fun y => y <= py_max_list x xs) xs /\
  (py_max_list x xs = x \/ In (py_max_list x xs) xs).
Proof.
  unfold py_max_list. revert x. induction xs as [|y xs IH]; intros x; simpl.
  - split; [lra | split; [constructor | by left]].
  - destruct (IH (if y >? x then y else x)) as (H1 & H2 & H3).
    revert H1 H2 H3. qcase; intros H1 H2 H3;
      (split; [lra | split; [constructor; [lra | exact H2] | ]]); naive_solver.
Qed.

Local Close Scope Q_scope.

(** ** Python list slices *)

(** [l[-n:]]: the last [n] elements, the whole list when it is shorter. *)
Definition lastn {A} (n : nat) (l : list A) : list A := drop (length l - n) l.

Lemma length_lastn {A} n (l : list A) : length (lastn n l) = min n (length l).
Proof. unfold lastn. rewrite length_drop. lia. Qed.

Lemma lastn_short {A} n (l : list A) : length l <= n -> lastn n l = l.
Proof. intros H. unfold lastn. replace (length l - n) with 0 by lia. done. Qed.

Lemma lastn_suffix {A} n (l : list A) : exists pre, l = pre ++ lastn n l.
Proof. exists (take (length l - n) l). unfold lastn. by rewrite take_drop. Qed.

(** Truncating before appending does not change the truncated result: the
    key step of the session-window refinement. *)
Lemma lastn_app_lastn {A} n (l m : list A) :
  lastn n (lastn n l ++ m) = lastn n (l ++ m).
Proof.
  unfold lastn. rewrite !length_app, length_drop.
  destruct (decide (length l <= n)) as [Hle|Hgt].
  - replace (length l - n) with 0 by lia. by rewrite drop_0, Nat.sub_0_r.
  - replace (length l - (length l - n) + length m - n) with (length m) by lia.
    replace (length l + length m - n) with (length l - n + length m) by lia.
    rewrite <- drop_drop, (drop_app_le l m (length l - n)) by lia. done.
Qed.

Lemma lastn_lastn {A} n (l : list A) : lastn n (lastn n l) = lastn n l.
Proof. apply lastn_short. rewrite length_lastn. lia. Qed.

Lemma lastn_app_exact {A} n (l m : list A) : length m = n -> lastn n (l ++ m) = m.
Proof.
  intros Hm. unfold lastn. rewrite length_app.
  replace (length l + length m - n) with (length l) by lia. apply drop_app_length.
Qed.

#[export] Hint Rewrite @length_lastn : crisis.

(** ** First success in a list of alternatives *)

(** [first_some f l]: the result of the first element of [l] on which [f]
    succeeds, the way a backtracking matcher tries alternatives in order. *)
Fixpoint first_some {A B} (f : A -> option B) (l : list A) : option B :=
  match l with
  | [] => None
  | x :: l' => match f x with Some y => Some y | None => first_some f l' end
  end.

Lemma first_some_sound {A B} (f : A -> option B) l y :
  first_some f l = Some y -> exists x, In x l /\ f x = Some y.
Proof.
  induction l as [|x l IH]; simpl; [discriminate|].
  destruct (f x) eqn:E.
  - intros [= <-]. eauto.
  - intros H. destruct (IH H) as (x' & ? & ?). eauto.
Qed.

Lemma first_some_complete {A B} (f : A -> option B) l x y :
  In x l -> f x = Some y -> exists y', first_some f l = Some y'.
Proof.
  induction l as [|x' l IH]; simpl; [done|].
  intros [-> | Hin] Hf.
  - rewrite Hf. eauto.
  - destruct (f x'); eauto.
Qed.

Lemma first_some_None {A B} (f : A -> option B) l :
  first_some f l = None <-> forall x, In x l -> f x = None.
Proof.
  induction l as [|x l IH]; simpl; [split; [done | auto]|].
  destruct (f x) eqn:E; split.
  - discriminate.
  - intros H. rewrite H in E by auto. discriminate.
  - intros H x' [<- | Hin]; [done | by apply IH].
  - intros H. apply IH. auto.
Qed.

(** ** Loop invariants of [for] loops written as folds *)

Lemma fold_left_invariant {A B} (P : A -> Prop) (f : A -> B -> A) (l : list B) a :
  P a -> (forall acc x, In x l -> P acc -> P (f acc x)) -> P (fold_left f l a).
Proof.
  revert a. induction l as [|x l IH]; intros a Ha Hstep; simpl; [done|].
  apply IH; [apply Hstep; simpl; auto | intros; apply Hstep; simpl; auto].
Qed.

(** The same for a loop that may raise: [None] is the exception. *)
Lemma fold_left_option_invariant {A B} (P : A -> Prop) (f : A -> B -> option A) (l : list B) o :
  (forall a, o = Some a -> P a) ->
  (forall acc x acc', In x l -> P acc -> f acc x = Some acc' -> P acc') ->
  forall a, fold_left (fun o x => o ≫= fun acc => f acc x) l o = Some a -> P a.
Proof.
  revert o. induction l as [|x l IH]; intros o Ho Hstep; simpl; [done|].
  apply IH; [|intros; eapply Hstep; simpl; eauto].
  intros a Ha. destruct o as [acc|]; simpl in Ha; [|discriminate].
  eapply Hstep; simpl; eauto.
Qed.

(** ** Dictionaries filled by a loop of assignments [d[k] = f(k)] *)

Lemma fold_insert_lookup {V} (f : string -> V) (order : list string) (m0 : gmap string V) t :
  fold_left (fun m k => <[k := f k]> m) order m0 !! t =
  if bool_decide (t ∈ order) then Some (f t) else m0 !! t.
Proof.
  revert m0. induction order as [|k order IH]; intros m0; cbn [fold_left].
  - case_bool_decide as H; [set_solver | done].
  - rewrite IH, lookup_insert.
    repeat case_bool_decide; repeat case_decide; subst; try done; set_solver.
Qed.

Lemma py_sum_pos xs : Forall (Qlt 0) xs -> xs <> [] -> (0 < py_sum xs)%Q.
Proof.
  destruct xs as [|x xs]; [done|]. intros Hf _. inversion Hf as [|? ? Hx Hxs]; subst.
  rewrite py_sum_cons. assert (0 <= py_sum xs)%Q.
  { apply py_sum_nonneg. eapply Forall_impl; [exact Hxs|]. intros y Hy. lra. }
  lra.
Qed.

(** ** [random.choice(seq)]

    The choice is an argument [rnd]: the element at [rnd mod len(seq)],
    so that every element is reachable.  The sources only call it on
    non-empty literal lists. *)
Definition py_choice {A} `{Inhabited A} (rnd : nat) (seq : list A) : A :=
  seq !!! (rnd mod length seq)%nat.

Lemma py_choice_In {A} `{Inhabited A} rnd (seq : list A) : seq <> [] -> In (py_choice rnd seq) seq.
Proof.
  intros Hs. unfold py_choice. apply list_elem_of_In, list_elem_of_lookup_total_2.
  apply Nat.mod_upper_bound. destruct seq; [done | discriminate].
Qed.

Lemma py_choice_Forall {A} `{Inhabited A} (P : A -> Prop) rnd (seq : list A) :
  seq <> [] -> Forall P seq -> P (py_choice rnd seq).
Proof. intros Hs Hf. apply (proj1 (List.Forall_forall _ _) Hf), py_choice_In, Hs. Qed.
