(* ===== verification/Text.v ===== *)
(** Python string primitives used by the detectors, on the UTF-8 bytes of
    the text: [str.lower] (ASCII range, see the header of [Prelude]),
    [s.startswith(p)], the substring test [p in s], [s.count(p)] (matches
    that do not overlap, with a fuel bound proved sufficient) and
    [not s.strip()] (every character is one of the 29 whitespace code
    points of [str.isspace]), each with its specification by string
    concatenation. *)

From Stdlib Require Import Ascii.
From S2P Require Import Prelude.

Local Open Scope string_scope.

Module PyStr.

(** ** [str.lower] *)

Definition lower_char (c : ascii) : ascii :=
  let n := nat_of_ascii c in
  if (65 <=? n)%nat && (n <=? 90)%nat then ascii_of_nat (n + 32) else c.

Fixpoint lower (s : string) : string :=
  match s with
  | EmptyString => EmptyString
  | String c s' => String (lower_char c) (lower s')
  end.

(** ** Concatenation

    stdpp declares [String.append] [simpl never]; these equations do the
    unfolding instead. *)

Lemma str_app_nil_l s : EmptyString ++ s = s.
Proof. reflexivity. Qed.

Lemma str_app_cons c s t : String c s ++ t = String c (s ++ t).
Proof. reflexivity. Qed.

Lemma str_app_nil_r s : s ++ EmptyString = s.
Proof. induction s as [|c s IH]; [done|]. rewrite str_app_cons. by rewrite IH. Qed.

Lemma str_app_assoc (a b c : string) : a ++ b ++ c = (a ++ b) ++ c.
Proof. induction a as [|x a IH]; [done |]. rewrite !str_app_cons. by rewrite IH. Qed.

Lemma str_length_app s t : String.length (s ++ t) = (String.length s + String.length t)%nat.
Proof. induction s as [|c s IH]; [done|]. rewrite str_app_cons. simpl. by rewrite IH. Qed.

Lemma str_app_inv_l w s t : w ++ s = w ++ t -> s = t.
Proof. induction w as [|c w IH]; [done|]. rewrite !str_app_cons. intros [= H]. auto. Qed.

#[export] Hint Rewrite str_app_nil_l str_app_cons str_app_nil_r str_length_app : crisis.

(** ** [s.startswith(p)] and [p in s] *)

Fixpoint startswith (s p : string) : bool :=
  match p, s with
  | EmptyString, _ => true
  | String a p', String b s' => Ascii.eqb a b && startswith s' p'
  | String _ _, EmptyString => false
  end.

(** [p in s]: some suffix of [s] starts with [p] (the empty string is in
    every string, as in Python). *)
Fixpoint str_in (p s : string) : bool :=
  startswith s p ||
  match s with
  | EmptyString => false
  | String _ s' => str_in p s'
  end.

(** The remainder of [s] after the prefix [p], when [s] starts with [p]. *)
Fixpoint strip_prefix (p s : string) : option string :=
  match p, s with
  | EmptyString, _ => Some s
  | String a p', String b s' => if Ascii.eqb a b then strip_prefix p' s' else None
  | String _ _, EmptyString => None
  end.

Lemma strip_prefix_spec p s r : strip_prefix p s = Some r <-> s = p ++ r.
Proof.
  revert s. induction p as [|a p IH]; intros s.
  - simpl. split; [intros [= ->] | intros ->]; reflexivity.
  - destruct s as [|b s]; simpl.
    + split; [discriminate | intros [=]].
    + destruct (Ascii.eqb_spec a b) as [->|Hne].
      * rewrite IH. split; [intros ->; reflexivity | intros [= H]; exact H].
      * split; [discriminate | intros [= ? ?]; congruence].
Qed.

Lemma strip_prefix_None p s : strip_prefix p s = None <-> forall r, s <> p ++ r.
Proof.
  split.
  - intros H r Hs. apply strip_prefix_spec in Hs. congruence.
  - intros H. destruct (strip_prefix p s) as [r|] eqn:E; [|done].
    apply strip_prefix_spec in E. by destruct (H r).
Qed.

Lemma startswith_spec s p : startswith s p = true <-> exists r, s = p ++ r.
Proof.
  revert s. induction p as [|a p IH]; intros [|b s]; simpl.
  - split; eauto.
  - split; eauto.
  - split; [discriminate | intros [r Hr]; discriminate].
  - rewrite andb_true_iff, Ascii.eqb_eq, IH. split.
    + intros [-> [r ->]]. eauto.
    + intros [r Hr]. injection Hr as -> ->. eauto.
Qed.

Lemma str_in_spec p s : str_in p s = true <-> exists x y, s = x ++ p ++ y.
Proof.
  induction s as [|c s IH]; cbn [str_in]; rewrite orb_true_iff, startswith_spec.
  - split.
    + intros [[r Hr] | H]; [exists "", r; exact Hr | discriminate].
    + intros [[|? x] [y Hy]]; [left; exists y; exact Hy | discriminate].
  - rewrite IH. split.
    + intros [[r Hr] | [x [y ->]]].
      * exists "", r. exact Hr.
      * exists (String c x), y. reflexivity.
    + intros [[|d x] [y Hy]].
      * left. exists y. exact Hy.
      * injection Hy as -> ->. right. eauto.
Qed.

Lemma str_in_app_r p x s : str_in p s = true -> str_in p (x ++ s) = true.
Proof.
  rewrite !str_in_spec. intros [a [b ->]]. exists (x ++ a), b.
  apply str_app_assoc.
Qed.

Lemma str_in_app_l p s y : str_in p s = true -> str_in p (s ++ y) = true.
Proof.
  rewrite !str_in_spec. intros [a [b ->]]. exists a, (b ++ y).
  rewrite <- !str_app_assoc. reflexivity.
Qed.

Lemma str_in_empty_text p : str_in p "" = true -> p = "".
Proof. destruct p; simpl; [done | discriminate]. Qed.

(** ** [s.count(p)] *)

(** The occurrences of [p] in [s] that do not overlap, scanning from the
    left: after a match the scan resumes behind it.  Each step consumes at
    least one byte when [p] is not empty, so [S (length s)] steps are
    enough ([count_from_enough]). *)
Fixpoint count_from (fuel : nat) (p s : string) : nat :=
  match fuel with
  | O => O
  | S f =>
      match strip_prefix p s with
      | Some r => S (count_from f p r)
      | None => match s with EmptyString => O | String _ s' => count_from f p s' end
      end
  end.

Definition str_count (p s : string) : nat := count_from (S (String.length s)) p s.

(** ** [not s.strip()]

    [s.strip()] is empty exactly when every character of [s] satisfies
    [str.isspace].  These are the 29 such code points, UTF-8 encoded
    (U+0009-U+000D, U+001C-U+0020, U+0085, U+00A0, U+1680, U+2000-U+200A,
    U+2028, U+2029, U+202F, U+205F, U+3000). *)
Definition bytes_str (l : list nat) : string :=
  fold_right (fun n s => String (ascii_of_nat n) s) EmptyString l.

Definition py_whitespace : list string := map bytes_str [
    [9]; [10]; [11]; [12]; [13]; [28];
    [29]; [30]; [31]; [32]; [194; 133]; [194; 160];
    [225; 154; 128]; [226; 128; 128]; [226; 128; 129]; [226; 128; 130]; [226; 128; 131]; [226; 128; 132];
    [226; 128; 133]; [226; 128; 134]; [226; 128; 135]; [226; 128; 136]; [226; 128; 137]; [226; 128; 138];
    [226; 128; 168]; [226; 128; 169]; [226; 128; 175]; [226; 129; 159]; [227; 128; 128]].

Fixpoint blank_from (fuel : nat) (s : string) : bool :=
  match s with
  | EmptyString => true
  | String _ _ =>
      match fuel with
      | O => false
      | S f =>
          match first_some (fun w => strip_prefix w s) py_whitespace with
          | Some r => blank_from f r
          | None => false
          end
      end
  end.

(** [not s.strip()] *)
Definition is_blank (s : string) : bool := blank_from (String.length s) s.

Lemma count_from_enough p f1 f2 s :
  p <> EmptyString -> (String.length s < f1)%nat -> (String.length s < f2)%nat ->
  count_from f1 p s = count_from f2 p s.
Proof.
  intros Hp. revert f2 s. induction f1 as [|f1 IH]; intros [|f2] s H1 H2; [lia..|].
  simpl. destruct (strip_prefix p s) as [r|] eqn:E.
  - apply strip_prefix_spec in E. subst s. rewrite str_length_app in H1, H2.
    destruct p as [|c p]; [done|]. simpl in *. f_equal. apply IH; lia.
  - destruct s as [|c s]; [done|]. simpl in *. apply IH; lia.
Qed.

Lemma startswith_strip_prefix s p : startswith s p = true <-> is_Some (strip_prefix p s).
Proof.
  rewrite startswith_spec. split.
  - intros [r Hr]. exists r. by apply strip_prefix_spec.
  - intros [r Hr]. exists r. by apply strip_prefix_spec.
Qed.

Lemma count_from_zero p f s :
  p <> EmptyString -> (String.length s < f)%nat ->
  count_from f p s = O <-> str_in p s = false.
Proof.
  intros Hp. revert s. induction f as [|f IH]; intros s Hf; [lia|]. simpl.
  destruct (strip_prefix p s) as [r|] eqn:E.
  - split; [discriminate|]. destruct s as [|c s]; cbn [str_in];
      rewrite (proj2 (startswith_strip_prefix _ _)) by (rewrite E; eauto); discriminate.
  - assert (Hs : startswith s p = false).
    { apply not_true_iff_false. rewrite startswith_strip_prefix, E. by intros [? ?]. }
    destruct s as [|c s]; cbn [str_in]; rewrite Hs; [done|].
    simpl in Hf. apply IH. lia.
Qed.

Lemma str_count_zero_iff p s :
  p <> EmptyString -> str_count p s = O <-> str_in p s = false.
Proof. intros Hp. apply count_from_zero; [exact Hp | lia]. Qed.

Lemma lower_nonempty s : s <> EmptyString -> lower s <> EmptyString.
Proof. by destruct s. Qed.

Lemma strip_prefix_app_other w w' s :
  startswith w w' = false -> startswith w' w = false -> strip_prefix w' (w ++ s) = None.
Proof.
  revert w. induction w' as [|a w' IH]; intros [|b w] H1 H2; simpl in *; try discriminate.
  rewrite ?str_app_cons. simpl. destruct (Ascii.eqb_spec a b) as [->|]; [|done].
  rewrite ?Ascii.eqb_refl in *. simpl in *. by apply IH.
Qed.

(** Two encodings of whitespace characters never extend one another. *)
Definition prefix_free (ws : list string) : bool :=
  forallb (fun w => forallb (fun w' =>
    String.eqb w w' || (negb (startswith w w') && negb (startswith w' w))) ws) ws.

Lemma prefix_free_spec ws w w' :
  prefix_free ws = true -> In w ws -> In w' ws ->
  w = w' \/ (startswith w w' = false /\ startswith w' w = false).
Proof.
  unfold prefix_free. rewrite forallb_forall. intros H Hw Hw'.
  specialize (H w Hw). rewrite forallb_forall in H. specialize (H w' Hw').
  rewrite orb_true_iff, andb_true_iff, !negb_true_iff, String.eqb_eq in H. tauto.
Qed.

Lemma py_whitespace_prefix_free : prefix_free py_whitespace = true.
Proof. vm_compute. reflexivity. Qed.

Lemma py_whitespace_nonempty : Forall (fun w => w <> EmptyString) py_whitespace.
Proof. vm_compute. repeat constructor; discriminate. Qed.

Lemma first_some_whitespace w s :
  In w py_whitespace ->
  first_some (fun w' => strip_prefix w' (w ++ s)) py_whitespace = Some s.
Proof.
  intros Hw. destruct (first_some_complete (fun w' => strip_prefix w' (w ++ s)) _ w s Hw)
    as [y Hy]; [by apply strip_prefix_spec|].
  rewrite Hy. destruct (first_some_sound _ _ _ Hy) as (w' & Hw' & Hs).
  destruct (prefix_free_spec _ w w' py_whitespace_prefix_free Hw Hw') as [<- | [H1 H2]].
  - apply strip_prefix_spec, str_app_inv_l in Hs. by f_equal.
  - by rewrite strip_prefix_app_other in Hs.
Qed.

(** Concatenation of a list of strings, [''.join(ws)]. *)
Definition str_concat (ws : list string) : string := fold_right String.append EmptyString ws.

Lemma blank_from_step f s r :
  first_some (fun w => strip_prefix w s) py_whitespace = Some r ->
  s <> EmptyString -> blank_from (S f) s = blank_from f r.
Proof. destruct s; [done|]. simpl. by intros -> _. Qed.

Lemma blank_from_concat ws f :
  Forall (fun w => In w py_whitespace) ws -> (length ws <= f)%nat ->
  blank_from f (str_concat ws) = true.
Proof.
  revert f. induction ws as [|w ws IH]; intros f Hws Hf; [by destruct f|].
  inversion Hws as [|? ? Hw Hws']; subst. destruct f as [|f]; [simpl in Hf; lia|].
  change (str_concat (w :: ws)) with (w ++ str_concat ws). pose proof (first_some_whitespace w (str_concat ws) Hw) as Hfs.
  rewrite (blank_from_step _ _ _ Hfs); [apply IH; [done | simpl in Hf; lia]|].
  pose proof (proj1 (List.Forall_forall _ _) py_whitespace_nonempty _ Hw).
  destruct w; [done|]. by rewrite str_app_cons.
Qed.

Lemma length_str_concat_ws ws :
  Forall (fun w => In w py_whitespace) ws -> (length ws <= String.length (str_concat ws))%nat.
Proof.
  induction 1 as [|w ws Hw _ IH]; [simpl; lia|]. cbn [str_concat fold_right].
  rewrite str_length_app. pose proof (proj1 (List.Forall_forall _ _) py_whitespace_nonempty _ Hw).
  destruct w; [done|]. simpl. fold (str_concat ws). lia.
Qed.

(** Every string made of whitespace characters strips to the empty string. *)
Lemma is_blank_whitespace ws :
  Forall (fun w => In w py_whitespace) ws -> is_blank (str_concat ws) = true.
Proof. intros H. apply blank_from_concat; [done | by apply length_str_concat_ws]. Qed.

(** The ASCII lower-casing leaves every non-ASCII byte, and so every
    Arabic letter of the tables, unchanged. *)
Lemma lower_char_high c : (128 <= nat_of_ascii c)%nat -> lower_char c = c.
Proof.
  intros H. unfold lower_char.
  replace (nat_of_ascii c <=? 90)%nat with false by (symmetry; apply Nat.leb_gt; lia).
  by rewrite andb_false_r.
Qed.

End PyStr.
