(* ===== verification/StrOps.v ===== *)
(** The Python [str] methods the text pipelines of the chat bot apply to
    messages, on the UTF-8 bytes of the text as in [Text]: [sep.join(xs)],
    [s.replace(old, new)], [s.split()], [s.strip()], [len(s)] and
    [s.endswith(suffixes)].  The loops that are not structural run on fuel
    with a lemma that the length of the text is enough; the theorems are
    the round trip of [split] on a [join] of words and the idempotence of
    the whitespace normalisation [' '.join(s.split())]. *)

From Stdlib Require Import Ascii.
From S2P Require Import Prelude Text.
Import PyStr.

Local Open Scope string_scope.

Module PyStrOps.

(** The double quote character, as a one-character string: the prompts
    of the sources quote phrases. *)
Definition dq : string := String "034"%char EmptyString.

(** ** [sep.join(xs)] *)

Fixpoint py_join (sep : string) (xs : list string) : string :=
  match xs with
  | [] => EmptyString
  | [x] => x
  | x :: xs' => x ++ sep ++ py_join sep xs'
  end.

(** ** [s.replace(old, new)]

    Every occurrence of [old], left to right, without overlaps.  Each step
    consumes at least one byte, so [length s] steps are enough
    ([replace_from_enough]).  Every call of the sources has a non-empty
    literal [old]. *)
Fixpoint replace_from (fuel : nat) (old new s : string) : string :=
  match fuel with
  | O => s
  | S f =>
      match s with
      | EmptyString => EmptyString
      | String c s' =>
          match strip_prefix old s with
          | Some r => new ++ replace_from f old new r
          | None => String c (replace_from f old new s')
          end
      end
  end.

Definition py_replace (old new s : string) : string := replace_from (String.length s) old new s.

(** ** Whitespace

    The whitespace character at the head of a text, and the rest.  The
    encodings of [py_whitespace] start with an ASCII or a lead byte, never
    a continuation byte, so scanning the bytes finds the same characters
    as scanning the code points of valid UTF-8. *)
Definition ws_tok (s : string) : option (string * string) :=
  first_some (fun w => pair w <$> strip_prefix w s) py_whitespace.

(** [s.lstrip()] *)
Fixpoint lstrip_from (fuel : nat) (s : string) : string :=
  match fuel with
  | O => s
  | S f => match ws_tok s with Some (_, r) => lstrip_from f r | None => s end
  end.

(** [s.rstrip()]: the text up to the end of its last character that is
    not whitespace. *)
Fixpoint rstrip_from (fuel : nat) (s : string) : string :=
  match fuel with
  | O => s
  | S f =>
      match s with
      | EmptyString => EmptyString
      | String c s' =>
          match ws_tok s with
          | Some (w, r) => let t := rstrip_from f r in if String.eqb t "" then "" else w ++ t
          | None => String c (rstrip_from f s')
          end
      end
  end.

(** [s.strip()] *)
Definition py_strip (s : string) : string :=
  let l := lstrip_from (String.length s) s in rstrip_from (String.length l) l.

(** [s.split()]: the maximal runs of characters that are not whitespace,
    in order.  [cur] is the word being read. *)
Fixpoint split_from (fuel : nat) (cur s : string) : list string :=
  match fuel, s with
  | O, _ | _, EmptyString => if String.eqb cur "" then [] else [cur]
  | S f, String c s' =>
      match ws_tok s with
      | Some (_, r) => ((if String.eqb cur "" then [] else [cur]) ++ split_from f "" r)%list
      | None => split_from f (cur ++ String c "") s'
      end
  end.

Definition py_split (s : string) : list string := split_from (String.length s) "" s.

(** [' '.join(s.split())]: runs of whitespace become one space, and the
    ends are stripped. *)
Definition normalize_spaces (s : string) : string := py_join " " (py_split s).

(** ** [str.upper()] on the ASCII range, as [lower] in [Text]: the
    provider names are ASCII. *)
Definition upper_char (c : ascii) : ascii :=
  let n := nat_of_ascii c in
  if (97 <=? n)%nat && (n <=? 122)%nat then ascii_of_nat (n - 32) else c.

Fixpoint upper (s : string) : string :=
  match s with
  | EmptyString => EmptyString
  | String c s' => String (upper_char c) (upper s')
  end.

(** ** [len(s)]: the code points, one per byte that is not a UTF-8
    continuation byte ([0x80]-[0xBF]). *)
Definition is_cont (c : ascii) : bool :=
  (128 <=? nat_of_ascii c)%nat && (nat_of_ascii c <? 192)%nat.

Fixpoint py_len (s : string) : nat :=
  match s with
  | EmptyString => O
  | String c s' => ((if is_cont c then O else 1) + py_len s')%nat
  end.

(** ** [s.endswith(p)] and [s.endswith((p1, ..., pn))] *)
Fixpoint endswith (s p : string) : bool :=
  String.eqb s p ||
  match s with
  | EmptyString => false
  | String _ s' => endswith s' p
  end.

Definition endswith_any (s : string) (ps : list string) : bool := existsb (endswith s) ps.

(** ** Lemmas *)

Lemma str_app_eq_app a b c d :
  a ++ b = c ++ d ->
  (exists m, a = c ++ m /\ d = m ++ b) \/ (exists m, c = a ++ m /\ b = m ++ d).
Proof.
  revert c. induction a as [|x a IH]; intros c H.
  - right. exists c. split; [done | exact H].
  - destruct c as [|y c].
    + left. exists (String x a). split; [done | symmetry; exact H].
    + rewrite !str_app_cons in H. injection H as -> H.
      destruct (IH c H) as [[m [-> ->]] | [m [-> ->]]]; [left | right]; by exists m.
Qed.

Lemma endswith_spec s p : endswith s p = true <-> exists r, s = r ++ p.
Proof.
  induction s as [|c s IH]; cbn [endswith]; rewrite orb_true_iff, String.eqb_eq.
  - split; [intros [<- | ?]; [by exists "" | discriminate] | intros [[|? r] Hr]; [by left | discriminate]].
  - rewrite IH. split.
    + intros [<- | [r ->]]; [by exists "" | by exists (String c r)].
    + intros [[|d r] Hr]; [by left|]. injection Hr as -> ->. right. eauto.
Qed.

Lemma endswith_app r p : endswith (r ++ p) p = true.
Proof. apply endswith_spec. eauto. Qed.

Lemma endswith_any_spec s ps : endswith_any s ps = true <-> exists p r, In p ps /\ s = r ++ p.
Proof.
  unfold endswith_any. rewrite existsb_exists. split.
  - intros [p [Hp Hs]]. apply endswith_spec in Hs as [r Hr]. eauto.
  - intros (p & r & Hp & Hs). exists p. split; [done|]. apply endswith_spec. eauto.
Qed.

(** *** The whitespace scanner *)

Lemma ws_tok_Some s w r : ws_tok s = Some (w, r) -> In w py_whitespace /\ s = w ++ r.
Proof.
  unfold ws_tok. intros (w' & Hw' & Hs)%first_some_sound.
  destruct (strip_prefix w' s) as [r'|] eqn:E; simpl in Hs; [|discriminate].
  injection Hs as -> ->. split; [done | by apply strip_prefix_spec].
Qed.

Lemma ws_tok_app w s : In w py_whitespace -> ws_tok (w ++ s) = Some (w, s).
Proof.
  intros Hw. unfold ws_tok.
  destruct (first_some_complete (fun w' => pair w' <$> strip_prefix w' (w ++ s)) _ w (w, s) Hw)
    as [[w1 r1] Hy]; [by rewrite (proj2 (strip_prefix_spec _ _ _) eq_refl)|].
  rewrite Hy. apply first_some_sound in Hy as (w' & Hw' & Hs).
  destruct (strip_prefix w' (w ++ s)) as [r'|] eqn:E; simpl in Hs; [|discriminate].
  injection Hs as -> ->.
  destruct (prefix_free_spec _ w w1 py_whitespace_prefix_free Hw Hw') as [<- | [H1 H2]].
  - apply strip_prefix_spec, str_app_inv_l in E. by subst.
  - by rewrite strip_prefix_app_other in E.
Qed.

Lemma ws_tok_length s w r : ws_tok s = Some (w, r) -> (String.length r < String.length s)%nat.
Proof.
  intros [Hw ->]%ws_tok_Some. rewrite str_length_app.
  pose proof (proj1 (List.Forall_forall _ _) py_whitespace_nonempty _ Hw).
  destruct w; [done|]. simpl. lia.
Qed.

(** No whitespace starts in front of a text when none starts in front of
    a longer one. *)
Lemma ws_tok_None_app x y : ws_tok (x ++ y) = None -> ws_tok x = None.
Proof.
  destruct (ws_tok x) as [[w r]|] eqn:E; [|done].
  apply ws_tok_Some in E as [Hw ->]. rewrite <- str_app_assoc, ws_tok_app by done.
  discriminate.
Qed.

Lemma space_whitespace : In " " py_whitespace.
Proof. vm_compute. tauto. Qed.

(** The space byte occurs in no whitespace encoding but the space
    itself. *)
Lemma space_only_head : forall w, In w py_whitespace ->
  forall a m, a <> EmptyString -> w <> a ++ " " ++ m.
Proof.
  assert (H : Forall (fun w => match w with
                              | EmptyString => True
                              | String _ w' => str_in " " w' = false end) py_whitespace)
    by (vm_compute; repeat constructor).
  intros w Hw a m Ha ->. apply (proj1 (List.Forall_forall _ _) H) in Hw.
  destruct a as [|c a]; [done|]. rewrite str_app_cons in Hw.
  assert (Hin : str_in " " (a ++ " " ++ m) = true) by (apply str_in_spec; eauto).
  congruence.
Qed.

(** *** Fuel *)

Lemma replace_from_enough old new f1 f2 s :
  old <> EmptyString -> (String.length s <= f1)%nat -> (String.length s <= f2)%nat ->
  replace_from f1 old new s = replace_from f2 old new s.
Proof.
  intros Hold. revert f2 s. induction f1 as [|f1 IH]; intros f2 s H1 H2.
  - destruct s; [by destruct f2 | simpl in H1; lia].
  - destruct f2 as [|f2]; [destruct s; [done | simpl in H2; lia]|].
    destruct s as [|c s]; [done|]. cbn [replace_from].
    destruct (strip_prefix old (String c s)) as [r|] eqn:E.
    + apply strip_prefix_spec in E. f_equal.
      assert (String.length r < String.length (String c s))%nat.
      { rewrite E, str_length_app. destruct old; [done|]. simpl. lia. }
      apply IH; lia.
    + f_equal. apply IH; simpl in *; lia.
Qed.

Lemma split_from_enough f1 f2 cur s :
  (String.length s <= f1)%nat -> (String.length s <= f2)%nat ->
  split_from f1 cur s = split_from f2 cur s.
Proof.
  revert f2 cur s. induction f1 as [|f1 IH]; intros f2 cur s H1 H2.
  - destruct s; [by destruct f2 | simpl in H1; lia].
  - destruct f2 as [|f2]; [destruct s; [done | simpl in H2; lia]|].
    destruct s as [|c s]; [done|]. cbn [split_from].
    destruct (ws_tok (String c s)) as [[w r]|] eqn:E.
    + apply ws_tok_length in E. f_equal. apply IH; lia.
    + apply IH; simpl in *; lia.
Qed.

(** *** [replace] of one character *)

Lemma str_in_char_cons a c s :
  str_in (String a "") (String c s) = Ascii.eqb a c || str_in (String a "") s.
Proof.
  cbn [str_in startswith]. replace (startswith s "") with true by (destruct s; reflexivity).
  by rewrite andb_true_r.
Qed.

Lemma str_in_char_app a x y :
  str_in (String a "") (x ++ y) = str_in (String a "") x || str_in (String a "") y.
Proof.
  induction x as [|c x IH]; [done|].
  rewrite str_app_cons, !str_in_char_cons, IH. by rewrite orb_assoc.
Qed.

(** Replacing a character by a text that does not contain it leaves no
    occurrence of the character. *)
Lemma replace_char_absent a new f s :
  str_in (String a "") new = false -> (String.length s <= f)%nat ->
  str_in (String a "") (replace_from f (String a "") new s) = false.
Proof.
  intros Hn. revert s. induction f as [|f IH]; intros s Hf.
  - destruct s; [done | simpl in Hf; lia].
  - destruct s as [|c s]; [done|]. cbn [replace_from strip_prefix].
    simpl in Hf. destruct (Ascii.eqb_spec a c) as [<- | Hne].
    + rewrite str_in_char_app, Hn. apply IH. lia.
    + rewrite str_in_char_cons. apply Ascii.eqb_neq in Hne. rewrite Hne. apply IH. lia.
Qed.

Lemma py_replace_char_absent a new s :
  str_in (String a "") new = false -> str_in (String a "") (py_replace (String a "") new s) = false.
Proof. intros Hn. by apply replace_char_absent. Qed.

(** *** Words *)

(** No whitespace character starts inside [w] when [w] is followed by
    [rest]. *)
Definition no_ws_before (w rest : string) : Prop :=
  forall x y, w = x ++ y -> y <> EmptyString -> ws_tok (y ++ rest) = None.

Fixpoint no_ws (s : string) : bool :=
  match s with
  | EmptyString => true
  | String _ s' => bool_decide (ws_tok s = None) && no_ws s'
  end.

(** A word of [s.split()]: not empty, no whitespace character in it. *)
Definition is_word (w : string) : bool := bool_decide (w <> EmptyString) && no_ws w.

Lemma str_app_eq_nil x y : x ++ y = EmptyString -> y = EmptyString.
Proof. destruct x, y; done. Qed.

Lemma no_ws_spec w : no_ws w = true <-> no_ws_before w "".
Proof.
  induction w as [|c w IH]; cbn [no_ws].
  - split; [|done]. intros _ x y Hxy Hy. by apply eq_sym, str_app_eq_nil in Hxy.
  - rewrite andb_true_iff, bool_decide_eq_true, IH. split.
    + intros [H0 Hw] [|d x] y Hxy Hy.
      * rewrite str_app_nil_l in Hxy. subst y. by rewrite str_app_nil_r.
      * rewrite str_app_cons in Hxy. injection Hxy as -> ->. by apply (Hw x).
    + intros Hw. split.
      * rewrite <- (str_app_nil_r (String c w)). by apply (Hw "").
      * intros x y -> Hy. by apply (Hw (String c x)).
Qed.

Lemma no_ws_before_nil rest : no_ws_before "" rest.
Proof. intros x y Hxy Hy. by apply eq_sym, str_app_eq_nil in Hxy. Qed.

Lemma no_ws_before_end w rest : no_ws_before w rest -> no_ws w = true.
Proof.
  intros Hw. apply no_ws_spec. intros x y Hxy Hy. rewrite str_app_nil_r.
  apply (ws_tok_None_app y rest). by apply (Hw x).
Qed.

(** A word stays a word in front of a space: no whitespace encoding but
    the space contains the space byte. *)
Lemma no_ws_before_space w r : no_ws w = true -> no_ws_before w (" " ++ r).
Proof.
  intros Hw%no_ws_spec x y -> Hy.
  assert (Hy0 : ws_tok y = None) by (rewrite <- (str_app_nil_r y); by apply (Hw x)).
  destruct (ws_tok (y ++ " " ++ r)) as [[t m]|] eqn:E; [exfalso|done].
  apply ws_tok_Some in E as [Ht E].
  destruct (str_app_eq_app _ _ _ _ E) as [[m' [-> _]] | [[|d m'] [-> Hm]]].
  - by rewrite ws_tok_app in Hy0.
  - rewrite str_app_nil_r in Ht. rewrite <- (str_app_nil_r y), ws_tok_app in Hy0 by done.
    discriminate.
  - rewrite str_app_cons in Hm. injection Hm as <- _.
    by apply (space_only_head _ Ht y m').
Qed.

Lemma split_from_word w rest f cur :
  no_ws_before w rest -> (String.length (w ++ rest) <= f)%nat ->
  split_from f cur (w ++ rest) = split_from (f - String.length w) (cur ++ w) rest.
Proof.
  revert f cur. induction w as [|c w IH]; intros f cur Hw Hf.
  - by rewrite str_app_nil_l, str_app_nil_r, Nat.sub_0_r.
  - destruct f as [|f]; [simpl in Hf; lia|].
    pose proof (Hw "" (String c w) eq_refl ltac:(discriminate)) as H0.
    rewrite str_app_cons in H0 |- *. cbn [split_from]. rewrite H0.
    rewrite IH; [| intros x y -> Hy; by apply (Hw (String c x)) | simpl in Hf; lia].
    by rewrite <- str_app_assoc.
Qed.

Lemma split_from_space f cur r :
  split_from (S f) cur (" " ++ r) = ((if String.eqb cur "" then [] else [cur]) ++ split_from f "" r)%list.
Proof.
  change (" " ++ r) with (String " "%char r). cbn [split_from].
  change (String " "%char r) with (" " ++ r). by rewrite ws_tok_app by apply space_whitespace.
Qed.

Lemma split_from_last f w : w <> EmptyString -> split_from f w "" = [w].
Proof.
  intros Hw. destruct f; cbn [split_from];
    by rewrite (proj2 (String.eqb_neq _ _) Hw).
Qed.

Lemma split_join_words ws f :
  Forall (fun w => is_word w = true) ws -> (String.length (py_join " " ws) <= f)%nat ->
  split_from f "" (py_join " " ws) = ws.
Proof.
  induction ws as [|w ws IH] in f |- *; intros Hws Hf; [by destruct f|].
  apply Forall_cons in Hws as [Hw Hws]. apply andb_true_iff in Hw as [Hne Hw].
  apply bool_decide_eq_true in Hne. destruct ws as [|w2 ws].
  - cbn [py_join] in *. pose proof (split_from_word w "" f "") as Hs.
    rewrite str_app_nil_r, str_app_nil_l in Hs.
    rewrite Hs; [by apply split_from_last | by apply no_ws_spec | exact Hf].
  - change (py_join " " (w :: w2 :: ws)) with (w ++ " " ++ py_join " " (w2 :: ws)) in *.
    rewrite split_from_word by (done || by apply no_ws_before_space).
    rewrite !str_length_app in Hf. cbn [String.length] in Hf.
    replace (f - String.length w)%nat with (S (f - String.length w - 1)) by lia.
    rewrite split_from_space, str_app_nil_l, (proj2 (String.eqb_neq _ _) Hne).
    simpl. f_equal. apply IH; [done | lia].
Qed.

Lemma split_from_words f cur s :
  no_ws_before cur s -> Forall (fun w => is_word w = true) (split_from f cur s).
Proof.
  assert (Hcur : forall cur s, no_ws_before cur s ->
            Forall (fun w => is_word w = true) (if String.eqb cur "" then [] else [cur])).
  { intros cur' s' Hc. destruct (String.eqb_spec cur' "") as [_ | Hne]; [done|].
    repeat constructor. unfold is_word. rewrite bool_decide_eq_true_2 by done.
    by apply no_ws_before_end in Hc. }
  revert cur s. induction f as [|f IH]; intros cur s Hc; [by apply (Hcur _ s)|].
  destruct s as [|c s]; [by apply (Hcur _ "")|]. cbn [split_from].
  destruct (ws_tok (String c s)) as [[w r]|] eqn:E.
  - apply Forall_app. split; [by apply (Hcur _ (String c s)) | apply IH, no_ws_before_nil].
  - apply IH. intros x y Hxy Hy.
    destruct (str_app_eq_app _ _ _ _ Hxy) as [[m [-> ->]] | [m [-> Hm]]].
    + destruct m as [|d m]; [exact E|]. rewrite <- str_app_assoc. by apply (Hc x).
    + destruct m as [|d m]; [rewrite str_app_nil_l in Hm; subst y; exact E|].
      rewrite str_app_cons in Hm. injection Hm as -> Hm. by apply eq_sym, str_app_eq_nil in Hm.
Qed.

(** The words of [s.split()] are words. *)
Lemma py_split_words s : Forall (fun w => is_word w = true) (py_split s).
Proof. apply split_from_words, no_ws_before_nil. Qed.

(** [s.split()] reads back the words that [' '.join] put together. *)
Lemma split_join_roundtrip ws :
  Forall (fun w => is_word w = true) ws -> py_split (py_join " " ws) = ws.
Proof. intros H. by apply split_join_words. Qed.

(** The normalisation of whitespace is idempotent. *)
Lemma normalize_spaces_idem s : normalize_spaces (normalize_spaces s) = normalize_spaces s.
Proof.
  unfold normalize_spaces, py_split at 1.
  rewrite split_join_words; [done | apply py_split_words | done].
Qed.

Lemma split_join_roundtrip_witness :
  py_split (py_join " " ["مرحبا"; "بك"]) = ["مرحبا"; "بك"].
Proof.
  apply split_join_roundtrip.
  repeat apply List.Forall_cons; try apply List.Forall_nil; vm_compute; reflexivity.
Defined.

End PyStrOps.
