(* ===== verification/Types.v ===== *)
(** The two enumerations of [crisis_detector.py]: [CrisisType] (lines
    9-17) and [CrisisLevel] (lines 19-24), with the [.value] strings the
    detector exchanges between its methods, decidable equality, the
    severity order of levels the spec defines (section 3; the code never
    compares levels, it tests them one by one). *)

From S2P Require Import Prelude.

Local Open Scope string_scope.

Module Types.

Inductive CrisisType :=
| SUICIDE
| SELF_HARM
| VIOLENCE
| SEVERE_DEPRESSION
| PSYCHOSIS
| SUBSTANCE_ABUSE
| EATING_DISORDER.

#[export] Instance CrisisType_eq_dec : EqDecision CrisisType.
Proof. solve_decision. Defined.

(** [CrisisType.X.value] *)
Definition crisis_type_value (t : CrisisType) : string :=
  match t with
  | SUICIDE => "suicide"
  | SELF_HARM => "self_harm"
  | VIOLENCE => "violence"
  | SEVERE_DEPRESSION => "severe_depression"
  | PSYCHOSIS => "psychosis"
  | SUBSTANCE_ABUSE => "substance_abuse"
  | EATING_DISORDER => "eating_disorder"
  end.

Inductive CrisisLevel :=
| LOW
| MEDIUM
| HIGH
| CRITICAL.

#[export] Instance CrisisLevel_eq_dec : EqDecision CrisisLevel.
Proof. solve_decision. Defined.

(** [CrisisLevel.X.value] *)
Definition crisis_level_value (l : CrisisLevel) : string :=
  match l with
  | LOW => "low"
  | MEDIUM => "medium"
  | HIGH => "high"
  | CRITICAL => "critical"
  end.

(** The severity order [low < medium < high < critical] of the spec. *)
Definition level_rank (l : CrisisLevel) : nat :=
  match l with
  | LOW => 0
  | MEDIUM => 1
  | HIGH => 2
  | CRITICAL => 3
  end.

Definition level_le (l1 l2 : CrisisLevel) : Prop := level_rank l1 <= level_rank l2.

#[export] Instance level_le_dec : RelDecision level_le.
Proof. intros l1 l2. unfold level_le. apply _. Defined.

#[export] Instance level_le_po : PartialOrder level_le.
Proof.
  unfold level_le. split; [split|].
  - intros l. lia.
  - intros l1 l2 l3. lia.
  - intros [] [] ? ?; simpl in *; done || lia.
Qed.

Lemma crisis_type_value_inj t1 t2 :
  crisis_type_value t1 = crisis_type_value t2 -> t1 = t2.
Proof. destruct t1, t2; simpl; congruence. Qed.

Lemma crisis_level_value_inj l1 l2 :
  crisis_level_value l1 = crisis_level_value l2 -> l1 = l2.
Proof. destruct l1, l2; simpl; congruence. Qed.

End Types.
