(* ===== verification/Tables.v ===== *)
(** The static tables built by [CrisisDetectionSystem.__init__]
    ([crisis_detector.py], the four [_build_*] methods), copied literally:
    Python dictionaries become association lists in their source order,
    which is the order in which the matchers iterate over them.  The regex
    table keeps the pattern source strings; [Channels] compiles them. *)

From S2P Require Import Prelude Types.
Import Types.

Local Open Scope string_scope.
Local Open Scope Q_scope.

Module Tables.

(** [_build_crisis_keywords], lines 51-134. *)
Definition crisis_keywords : list (CrisisType * list string) := [
  (SUICIDE, [
    "أريد أن أموت"; "بدي أموت"; "نفسي أموت";
    "أقتل نفسي"; "سأقتل نفسي"; "أنتحر";
    "انتحار"; "أنهي حياتي"; "لا أريد أن أعيش";
    "مللت من الحياة"; "الموت أحسن"; "أستحق الموت";
    "العالم أحسن بدوني"; "أذهب للأبد"; "لا فائدة من وجودي";
    "محد يحتاجني"; "عبء على الجميع"; "أرتاح لو مت";
    "أتمنى أنام ولا أصحى"; "خلصت من الدنيا"; "نهاية المطاف";
    "آخر خيار"; "حل نهائي"; "راحة أبدية";
    "أخطط لـ"; "قررت أن"; "لن أكون هنا";
    "وداعاً للجميع"; "آخر رسالة"; "توديع";
    "وصية"; "انتهى كل شيء"]);
  (SELF_HARM, [
    "أؤذي نفسي"; "أجرح نفسي"; "أقطع نفسي";
    "أضرب نفسي"; "أحرق نفسي"; "أعذب نفسي";
    "أكسر"; "أخدش"; "سكين";
    "شفرة"; "حرق"; "ضرب";
    "عض"; "خدش"; "أستحق الألم";
    "أعاقب نفسي"; "أستحق العذاب"; "ألم جسدي";
    "أشعر بالألم"; "دم"; "جروح";
    "ندوب"; "أريد أن أشعر بشيء"; "ألم حقيقي";
    "ألم أستطيع رؤيته"; "طريقة للتحكم"; "الألم الوحيد";
    "أتحكم في ألمي"]);
  (VIOLENCE, [
    "سأقتل"; "أريد أن أؤذي"; "سأضرب";
    "سأدمر"; "أنتقم"; "سأؤذي من";
    "أقتله"; "أكسر رأسه"; "أفجر";
    "أحرق"; "أدمر كل شيء"; "أنهي الجميع";
    "لا أستطيع التحكم"; "سأفقد السيطرة"; "غضب شديد";
    "أعمى من الغضب"; "سأفعل شيئاً سيئاً"; "أفقد عقلي"]);
  (SEVERE_DEPRESSION, [
    "لا أمل"; "لا فائدة"; "مستحيل";
    "ميؤوس منه"; "الظلام فقط"; "لا ضوء";
    "نفق مظلم"; "لا مخرج"; "مسدود الأفق";
    "لا حل"; "انتهى كل شيء"; "لا قيمة لي";
    "فاشل"; "عديم الفائدة"; "لا أستحق";
    "أسوأ شخص"; "لا أصلح لشيء"; "عبء على الجميع";
    "وحيد تماماً"; "محد يفهمني"; "محد يحبني";
    "منبوذ"; "لا أحد يهتم"; "معزول";
    "منفرد"; "وحش"]);
  (PSYCHOSIS, [
    "أسمع أصوات"; "أرى أشياء"; "يراقبونني";
    "يتجسسون"; "مؤامرة ضدي"; "يطاردونني";
    "صوت يقول لي"; "أشياء غريبة"; "لست حقيقي";
    "العالم ليس حقيقي"; "أفكاري مختلطة"; "لا أفهم نفسي";
    "كلام غير منطقي"; "رسائل خفية"; "معاني مخفية";
    "علامات"]);
  (SUBSTANCE_ABUSE, [
    "أفرط في"; "إدمان"; "مخدرات";
    "كحول"; "حبوب"; "لا أستطيع التوقف";
    "أحتاج المزيد"; "انسحاب"; "جرعة زائدة";
    "تسمم"; "أعراض"; "اعتماد"])].

(** [_build_omani_crisis_expressions], lines 162-190. *)
Definition omani_crisis_expressions : list (CrisisType * list string) := [
  (SUICIDE, [
    "خلاص تعبت من الدنيا"; "ما عد أقدر أكمل"; "أرتاح لو رحت";
    "مللت من كل شي"; "ما لي فايدة"; "الموت أحسن لي";
    "خلصت من هالحياة"]);
  (SELF_HARM, [
    "أعذب روحي"; "أوجع نفسي"; "أضر بروحي";
    "أستاهل الألم"; "ألم أحسه بجسمي"]);
  (SEVERE_DEPRESSION, [
    "محطم نفسياً واجد"; "ضايق صدري مرة"; "قلبي مكسور";
    "حالتي زينة ما هي"; "نفسيتي في الأرض"; "دايخ من الهموم"]);
  (VIOLENCE, [
    "راح أكسر كل شي"; "أفجر فيهم"; "أورجيهم";
    "أخليهم يندمون"; "ما راح أسكت"])].

(** [_build_crisis_patterns], lines 136-160: regex source, type, weight. *)
Definition crisis_patterns : list (string * (CrisisType * Q)) := [
  ("(أريد|بدي|نفسي).*(أموت|أقتل نفسي|أنتحر)", (SUICIDE, 0.9));
  ("(سأقتل|راح أقتل).*(نفسي|روحي)", (SUICIDE, 0.95));
  ("(لا أريد|ما بدي).*(أعيش|أكمل|أستمر)", (SUICIDE, 0.8));
  ("(أؤذي|أجرح|أقطع).*(نفسي|روحي)", (SELF_HARM, 0.85));
  ("(شفرة|سكين|حرق).*(نفس|جسم)", (SELF_HARM, 0.8));
  ("(سأقتل|راح أقتل|أقتل).*(كل|جميع|الناس)", (VIOLENCE, 0.9));
  ("(أؤذي|أضرب|أكسر).*(أحد|شخص|واحد)", (VIOLENCE, 0.7));
  ("(لا أمل|لا فائدة|مستحيل).*(نهائياً|أبداً|تماماً)", (SEVERE_DEPRESSION, 0.7));
  ("(عبء|فاشل|عديم).*(الجميع|الكل|الناس)", (SEVERE_DEPRESSION, 0.6))].

(** [_build_emergency_resources], lines 192-227. *)
Definition emergency_resources : list (string * list (string * string)) := [
  ("emergency", [
    ("general_emergency", "999");
    ("police", "999");
    ("ambulance", "999");
    ("fire", "999")]);
  ("hospitals", [
    ("sultan_qaboos_hospital", "+968 24211411");
    ("royal_hospital", "+968 24599000");
    ("khoula_hospital", "+968 24560441");
    ("nizwa_hospital", "+968 25431800")]);
  ("mental_health", [
    ("mental_health_hotline", "مكتوب قريباً");
    ("psychological_services", "وزارة الصحة - الخدمات النفسية");
    ("crisis_intervention", "قسم الطوارئ النفسية");
    ("social_services", "وزارة التنمية الاجتماعية")]);
  ("support", [
    ("family_guidance", "مراكز الإرشاد الأسري");
    ("youth_centers", "مراكز الشباب");
    ("women_centers", "مراكز المرأة");
    ("community_centers", "المراكز المجتمعية")])].

End Tables.
