(* ===== verification/Regex.v ===== *)
(** The regular expressions of the pattern table
    ([crisis_detector.py], [_build_crisis_patterns], lines 143-160) and the
    call [re.findall(pattern, text, re.IGNORECASE)] of
    [_check_crisis_patterns] (line 322).

    Every pattern of the table has the shape [(a1|...|an).*(b1|...|bm)]
    with literal alternatives.  [compile] parses that fragment (and returns
    [None] outside it); [match_here] is the backtracking match of Python's
    [re] engine at one position: the alternatives of the first group are
    tried in order, [.*] is greedy (it first takes the whole rest of the
    line, then gives characters back one by one) and does not cross a
    newline, and at each split point the alternatives of the second group
    are tried in order.  [search] finds the leftmost position with a
    match; [findall_fuel] restarts the search at the end of each match, as
    [findall] does, with a fuel bound proved sufficient.  [IGNORECASE] is
    the identity here: [Tables] holds no cased character (see [Channels]).

    [matches_at] is the declarative meaning of the pattern; the matcher is
    proved sound and complete for it. *)

From Stdlib Require Import Ascii.
From S2P Require Import Prelude Text.
Import PyStr.

Local Open Scope string_scope.

Module Regex.

(** [(a1|...|an).*(b1|...|bm)] *)
Record AltPat := mkAltPat {
  first_alts : list string;
  second_alts : list string
}.

(** ** Compilation of the supported fragment *)

Definition is_meta (c : ascii) : bool :=
  existsb (Ascii.eqb c)
    ["."; "^"; "$"; "*"; "+"; "?"; "{"; "}"; "["; "]"; "\"; "("]%char.

(** Reads [alt|alt|...|alt)] and returns the alternatives and what
    follows the closing parenthesis. *)
Fixpoint read_alts (s : string) : option (list string * string) :=
  match s with
  | EmptyString => None
  | String c s' =>
      if Ascii.eqb c ")" then Some ([EmptyString], s')
      else if is_meta c then None
      else
        match read_alts s' with
        | None => None
        | Some (alts, rest) =>
            if Ascii.eqb c "|" then Some (EmptyString :: alts, rest)
            else
              match alts with
              | a :: alts' => Some (String c a :: alts', rest)
              | [] => None
              end
        end
  end.

Definition compile (src : string) : option AltPat :=
  s1 ← strip_prefix "(" src;
  '(a1, r1) ← read_alts s1;
  s2 ← strip_prefix ".*(" r1;
  '(a2, r2) ← read_alts s2;
  if String.eqb r2 EmptyString then Some (mkAltPat a1 a2) else None.

(** ** Python's backtracking matcher on the fragment *)

Definition newline : ascii := "010"%char.

(** No newline in [s]: what Python's [.*] may consume. *)
Fixpoint nl_free (s : string) : bool :=
  match s with
  | EmptyString => true
  | String c s' => negb (Ascii.eqb c newline) && nl_free s'
  end.

(** The suffixes [.*] can leave over, from the shortest consumption to the
    longest; the greedy engine tries them in the reverse order. *)
Fixpoint dot_star (s : string) : list string :=
  match s with
  | EmptyString => [EmptyString]
  | String c s' => if Ascii.eqb c newline then [s] else s :: dot_star s'
  end.

(** The first alternative of a group that matches at [s]. *)
Definition match_group (alts : list string) (s : string) : option (string * string) :=
  first_some (fun a => r ← strip_prefix a s; Some (a, r)) alts.

(** [.*(b1|...|bm)] at [s]: greedy, then the alternatives in order. *)
Definition match_tail (p : AltPat) (s : string) : option (string * string) :=
  first_some (match_group (second_alts p)) (rev (dot_star s)).

(** The whole pattern anchored at [s]: the groups and the rest of [s]. *)
Definition match_here (p : AltPat) (s : string) : option (string * string * string) :=
  first_some
    (fun a => r ← strip_prefix a s;
              '(b, rest) ← match_tail p r;
              Some (a, b, rest))
    (first_alts p).

(** The leftmost match. *)
Fixpoint search (p : AltPat) (s : string) : option (string * string * string) :=
  match match_here p s with
  | Some m => Some m
  | None =>
      match s with
      | EmptyString => None
      | String _ s' => search p s'
      end
  end.

(** [re.findall]: the group tuples of the successive non-overlapping
    matches, each search starting where the previous match ended. *)
Fixpoint findall_fuel (fuel : nat) (p : AltPat) (s : string) : list (string * string) :=
  match fuel with
  | O => []
  | S fuel' =>
      match search p s with
      | Some (a, b, rest) => (a, b) :: findall_fuel fuel' p rest
      | None => []
      end
  end.

Definition findall (p : AltPat) (s : string) : list (string * string) :=
  findall_fuel (S (String.length s)) p s.

(** Every first alternative consumes a character: each match makes
    progress, which is what bounds the [findall] loop. *)
Definition wf_pat (p : AltPat) : Prop := Forall (fun a => a <> EmptyString) (first_alts p).

#[export] Instance wf_pat_dec p : Decision (wf_pat p).
Proof. unfold wf_pat. apply _. Defined.

(** ** Declarative meaning *)

Definition matches_at (p : AltPat) (s a b rest : string) : Prop :=
  In a (first_alts p) /\ In b (second_alts p) /\
  exists mid, nl_free mid = true /\ s = a ++ mid ++ b ++ rest.

(** ** The matcher refines [matches_at] *)

Lemma nl_free_app x y : nl_free (x ++ y) = nl_free x && nl_free y.
Proof.
  induction x as [|c x IH]; [done|]. rewrite str_app_cons. simpl.
  by rewrite IH, andb_assoc.
Qed.

Lemma dot_star_spec s t :
  In t (dot_star s) <-> exists mid, nl_free mid = true /\ s = mid ++ t.
Proof.
  induction s as [|c s IH]; simpl.
  - split.
    + intros [<- | []]. by exists EmptyString.
    + intros [[|d mid] [_ Hs]]; [left; exact Hs | discriminate].
  - destruct (Ascii.eqb_spec c newline) as [Hc | Hc]; simpl.
    + split.
      * intros [<- | []]. by exists EmptyString.
      * intros [[|d mid] [Hm Hs]]; [left; exact Hs|].
        injection Hs as -> _. simpl in Hm. rewrite Hc, Ascii.eqb_refl in Hm. discriminate.
    + rewrite IH. split.
      * intros [<- | [mid [Hm ->]]]; [by exists EmptyString|].
        exists (String c mid). simpl. apply Ascii.eqb_neq in Hc. by rewrite Hc, Hm.
      * intros [[|d mid] [Hm Hs]]; [left; exact Hs|].
        injection Hs as -> ->. simpl in Hm. apply andb_prop in Hm as [_ Hm]. eauto.
Qed.

Lemma match_group_sound alts s a r :
  match_group alts s = Some (a, r) -> In a alts /\ s = a ++ r.
Proof.
  unfold match_group. intros H. apply first_some_sound in H as (a' & Hin & Hf).
  destruct (strip_prefix a' s) as [r'|] eqn:E; simpl in Hf; [|discriminate].
  injection Hf as <- <-. apply strip_prefix_spec in E. auto.
Qed.

Lemma match_group_complete alts s a r :
  In a alts -> s = a ++ r -> exists m, match_group alts s = Some m.
Proof.
  intros Hin Hs. apply strip_prefix_spec in Hs.
  eapply first_some_complete; [exact Hin|]. by rewrite Hs.
Qed.

Lemma match_tail_sound p s b rest :
  match_tail p s = Some (b, rest) ->
  In b (second_alts p) /\ exists mid, nl_free mid = true /\ s = mid ++ b ++ rest.
Proof.
  unfold match_tail. intros H. apply first_some_sound in H as (t & Ht & Hg).
  apply match_group_sound in Hg as [Hb ->].
  rewrite <- in_rev, dot_star_spec in Ht. auto.
Qed.

Lemma match_tail_complete p s mid b rest :
  In b (second_alts p) -> nl_free mid = true -> s = mid ++ b ++ rest ->
  exists m, match_tail p s = Some m.
Proof.
  intros Hb Hm Hs. destruct (match_group_complete _ (b ++ rest) b rest Hb eq_refl) as [m Hg].
  eapply first_some_complete; [|exact Hg].
  rewrite <- in_rev, dot_star_spec. eauto.
Qed.

(** Soundness: what the matcher returns is a match of the pattern. *)
Lemma match_here_sound p s a b rest :
  match_here p s = Some (a, b, rest) -> matches_at p s a b rest.
Proof.
  unfold match_here. intros H. apply first_some_sound in H as (a' & Ha & Hf).
  destruct (strip_prefix a' s) as [r|] eqn:E; simpl in Hf; [|discriminate].
  destruct (match_tail p r) as [[b' rest']|] eqn:Et; simpl in Hf; [|discriminate].
  injection Hf as <- <- <-. apply strip_prefix_spec in E as ->.
  apply match_tail_sound in Et as (Hb & mid & Hm & ->).
  repeat split; eauto.
Qed.

(** Completeness: where the pattern matches, the matcher finds a match. *)
Lemma match_here_complete p s a b rest :
  matches_at p s a b rest -> exists m, match_here p s = Some m.
Proof.
  intros (Ha & Hb & mid & Hm & Hs).
  destruct (match_tail_complete p (mid ++ b ++ rest) mid b rest Hb Hm eq_refl) as [[b' r'] Ht].
  eapply first_some_complete; [exact Ha|].
  apply strip_prefix_spec in Hs. rewrite Hs. simpl. rewrite Ht. reflexivity.
Qed.

(** A match somewhere in [s]. *)
Definition matches_in (p : AltPat) (s a b rest : string) : Prop :=
  exists pre post, s = pre ++ post /\ matches_at p post a b rest.

Lemma search_sound p s a b rest :
  search p s = Some (a, b, rest) -> matches_in p s a b rest.
Proof.
  induction s as [|c s IH]; simpl; destruct (match_here p _) as [m|] eqn:E.
  - intros [= ->]. apply match_here_sound in E. by exists EmptyString, EmptyString.
  - discriminate.
  - intros [= ->]. apply match_here_sound in E. by exists EmptyString, (String c s).
  - intros H. destruct (IH H) as (pre & post & -> & Hm). by exists (String c pre), post.
Qed.

Lemma search_complete p s a b rest :
  matches_in p s a b rest -> exists m, search p s = Some m.
Proof.
  intros (pre & post & Hs & Hm). revert s Hs.
  induction pre as [|c pre IH]; intros s Hs.
  - rewrite str_app_nil_l in Hs. subst s.
    apply match_here_complete in Hm as [m Hm].
    destruct post; simpl; rewrite Hm; eauto.
  - rewrite str_app_cons in Hs. subst s. simpl.
    destruct (match_here p _); eauto.
Qed.

(** Progress: a match of a well-formed pattern consumes a character. *)
Lemma search_progress p s a b rest :
  wf_pat p -> search p s = Some (a, b, rest) ->
  (String.length rest < String.length s)%nat.
Proof.
  intros Hwf H. apply search_sound in H as (pre & post & -> & Ha & _ & mid & _ & ->).
  unfold wf_pat in Hwf. rewrite List.Forall_forall in Hwf.
  specialize (Hwf a Ha). destruct a as [|c a]; [done|].
  autorewrite with crisis. simpl. lia.
Qed.

(** Termination of the [findall] loop: any fuel above the length of the
    text gives the same list, so [findall] computes the whole result. *)
Lemma findall_fuel_enough p f1 f2 s :
  wf_pat p -> (String.length s < f1)%nat -> (String.length s < f2)%nat ->
  findall_fuel f1 p s = findall_fuel f2 p s.
Proof.
  intros Hwf. revert f2 s. induction f1 as [|f1 IH]; intros f2 s H1 H2; [lia|].
  destruct f2 as [|f2]; [lia|]. simpl.
  destruct (search p s) as [[[a b] rest]|] eqn:E; [|done].
  apply (search_progress _ _ _ _ _ Hwf) in E. f_equal. apply IH; lia.
Qed.

(** Every tuple [findall] returns is the pair of groups of a match of the
    pattern in the text. *)
Lemma findall_sound p s a b :
  In (a, b) (findall p s) -> exists rest, matches_in p s a b rest.
Proof.
  unfold findall. generalize (S (String.length s)) as fuel. revert s.
  assert (Hsuf : forall s rest a' b', search p s = Some (a', b', rest) ->
            forall x y r, matches_in p rest x y r -> matches_in p s x y r).
  { intros s rest a' b' Hs x y r (pre & post & -> & Hm).
    apply search_sound in Hs as (pre0 & post0 & Hs & _ & _ & mid & _ & Hpost0).
    exists (pre0 ++ a' ++ mid ++ b' ++ pre), post. split; [|exact Hm].
    rewrite Hs, Hpost0. rewrite <- !str_app_assoc. reflexivity. }
  intros s fuel. revert s. induction fuel as [|fuel IH]; intros s; simpl; [done|].
  destruct (search p s) as [[[a' b'] rest]|] eqn:E; [|done].
  intros [[= -> ->] | Hin].
  - apply search_sound in E. eauto.
  - destruct (IH rest Hin) as [r Hr]. eauto.
Qed.

(** [findall] returns the empty list exactly when the pattern
    matches nowhere in the text. *)
Lemma findall_nil_iff p s :
  findall p s = [] <-> forall a b rest, ~ matches_in p s a b rest.
Proof.
  unfold findall. simpl. destruct (search p s) as [[[a b] rest]|] eqn:E; split.
  - discriminate.
  - intros H. apply search_sound in E. by destruct (H a b rest).
  - intros _ a b rest Hm. apply search_complete in Hm as [m Hm]. congruence.
  - done.
Qed.

Lemma findall_sound_witness :
  exists rest, matches_in (mkAltPat ["ab"] ["cd"]) "xabyycdz" "ab" "cd" rest.
Proof. apply (findall_sound _ "xabyycdz"). vm_compute. left. reflexivity. Defined.

Lemma findall_fuel_enough_witness :
  findall_fuel 20 (mkAltPat ["ab"] ["cd"]) "xabyycdz" =
  findall_fuel 30 (mkAltPat ["ab"] ["cd"]) "xabyycdz".
Proof. apply findall_fuel_enough; [decide_true | simpl; lia | simpl; lia]. Defined.

End Regex.
