(* ===== verification/Channels.v ===== *)
(** The three channel matchers of [crisis_detector.py]:
    [_check_crisis_keywords] (lines 281-307), [_check_crisis_patterns]
    (lines 309-333) and [_check_omani_expressions] (lines 335-362).

    A result dictionary [{"types": [...], "scores": {...}, "<x>_found": [...]}]
    is the record [ChannelResult]: the types list in append order, the
    score dictionary as a [gmap], the found items.  The keyword and the
    dialect matchers are the same loop with a different increment (1 per
    keyword, 1.2 per idiom): [match_lexicon].  The pattern matcher compiles
    each regex source ([Regex.compile]); a source outside the supported
    fragment is the exception [re.error] of Python, the value [None].

    [result_wf] is what the fusion step relies on: every score is positive
    and the types list names exactly the scored types.  Each matcher
    establishes it by a loop invariant over its table. *)

From Stdlib Require Import Ascii.
From S2P Require Import Prelude Text Types Tables Regex.
Import PyStr Types Tables Regex.

Local Open Scope string_scope.
Local Open Scope Q_scope.

Module Channels.

Record ChannelResult (F : Type) := mkResult {
  cr_types : list string;
  cr_scores : gmap string Q;
  cr_found : list F
}.
Arguments mkResult {F} _ _ _.
Arguments cr_types {F} _.
Arguments cr_scores {F} _.
Arguments cr_found {F} _.

Definition empty_result {F} : ChannelResult F := mkResult [] ∅ [].

(** [results.get("scores", {}).get(t, 0)] *)
Definition score_of {F} (r : ChannelResult F) (t : string) : Q :=
  default 0 (cr_scores r !! t).

(** ** Keyword and dialect matchers *)

(** The inner loop over the strings of one type: [score += incr] and
    [found.append(s)] for each table string occurring in the text. *)
Definition lexicon_loop (incr : Q) (text : string) (entries : list string) : Q * list string :=
  fold_left
    (fun '(score, found) s =>
       if str_in (lower s) text then (score + incr, (found ++ [s])%list) else (score, found))
    entries (0, []).

(** One iteration of the outer loop, over a [(crisis_type, strings)] pair. *)
Definition lexicon_step (incr : Q) (text : string) (r : ChannelResult string)
    (entry : CrisisType * list string) : ChannelResult string :=
  let '(crisis_type, entries) := entry in
  let '(score, found) := lexicon_loop incr text entries in
  if score >? 0 then
    mkResult (cr_types r ++ [crisis_type_value crisis_type])%list
             (<[crisis_type_value crisis_type := score]> (cr_scores r))
             (cr_found r ++ found)%list
  else r.

Definition match_lexicon (incr : Q) (table : list (CrisisType * list string))
    (text : string) : ChannelResult string :=
  fold_left (lexicon_step incr text) table empty_result.

Definition check_crisis_keywords (text : string) : ChannelResult string :=
  match_lexicon 1 crisis_keywords text.

Definition check_omani_expressions (text : string) : ChannelResult string :=
  match_lexicon 1.2 omani_crisis_expressions text.

(** ** Pattern matcher *)

Definition pattern_step (text : string) (r : ChannelResult (string * string))
    (entry : string * (CrisisType * Q)) : option (ChannelResult (string * string)) :=
  let '(pattern, (crisis_type, weight)) := entry in
  p ← compile pattern;
  match findall p text with
  | [] => Some r
  | matches =>
      let type_name := crisis_type_value crisis_type in
      let r1 :=
        match cr_scores r !! type_name with
        | None => mkResult (cr_types r ++ [type_name])%list (<[type_name := 0]> (cr_scores r)) (cr_found r)
        | Some _ => r
        end in
      Some (mkResult (cr_types r1)
              (<[type_name := score_of r1 type_name
                              + inject_Z (Z.of_nat (length matches)) * weight]> (cr_scores r1))
              (cr_found r1 ++ matches)%list)
  end.

Definition check_crisis_patterns (text : string) : option (ChannelResult (string * string)) :=
  fold_left (fun o e => o ≫= fun r => pattern_step text r e) crisis_patterns (Some empty_result).

(** ** The contract of a channel result *)

Definition result_wf {F} (r : ChannelResult F) : Prop :=
  (forall t q, cr_scores r !! t = Some q -> 0 < q) /\
  (forall t, t ∈ cr_types r <-> is_Some (cr_scores r !! t)).

(** The table strings of one type that occur in the text. *)
Definition found_in (text : string) (entries : list string) : list string :=
  List.filter (fun s => str_in (lower s) text) entries.

Lemma lexicon_loop_acc incr text entries s0 f0 :
  let r := fold_left
             (fun '(score, found) s =>
                if str_in (lower s) text then (score + incr, (found ++ [s])%list) else (score, found))
             entries (s0, f0) in
  fst r == s0 + inject_Z (Z.of_nat (length (found_in text entries))) * incr /\
  snd r = (f0 ++ found_in text entries)%list.
Proof.
  revert s0 f0. induction entries as [|e entries IH]; intros s0 f0; cbv zeta.
  - simpl. split; [ring | by rewrite app_nil_r].
  - cbn [fold_left]. unfold found_in in *. cbn [List.filter].
    destruct (str_in (lower e) text) eqn:He.
    + destruct (IH (s0 + incr) (f0 ++ [e])%list) as [H1 H2]. split.
      * rewrite H1. cbn [length]. rewrite Nat2Z.inj_succ, <- Z.add_1_l, inject_Z_plus. ring.
      * by rewrite H2, <- app_assoc.
    + exact (IH s0 f0).
Qed.

(** A type's lexicon score is the increment times the number of distinct
    table strings that occur in the text; the found list is those strings
    in table order. *)
Lemma lexicon_loop_spec incr text entries :
  fst (lexicon_loop incr text entries)
    == inject_Z (Z.of_nat (length (found_in text entries))) * incr /\
  snd (lexicon_loop incr text entries) = found_in text entries.
Proof.
  destruct (lexicon_loop_acc incr text entries 0 []) as [H1 H2].
  unfold lexicon_loop. split; [rewrite H1; ring | exact H2].
Qed.

Lemma result_wf_empty {F} : result_wf (@empty_result F).
Proof.
  split; simpl.
  - intros t q H. by rewrite lookup_empty in H.
  - intros t. rewrite lookup_empty. split; [intros H; inversion H | intros [? H]; done].
Qed.

(** Adding a type with a positive score keeps the contract. *)
Lemma result_wf_add {F} (r : ChannelResult F) tn q (found : list F) :
  result_wf r -> 0 < q ->
  result_wf (mkResult (cr_types r ++ [tn])%list (<[tn := q]> (cr_scores r)) found).
Proof.
  intros [Hpos Hty] Hq. split; simpl.
  - intros t q' H. rewrite lookup_insert in H. case_decide; [congruence | eauto].
  - intros t. rewrite elem_of_app, list_elem_of_singleton, lookup_insert_is_Some', Hty.
    naive_solver.
Qed.

Lemma lexicon_step_wf incr text r entry :
  result_wf r -> result_wf (lexicon_step incr text r entry).
Proof.
  intros Hr. destruct entry as [ct entries]. unfold lexicon_step.
  destruct (lexicon_loop incr text entries) as [score found].
  qcase; [by apply result_wf_add | done].
Qed.

Lemma match_lexicon_wf incr table text : result_wf (match_lexicon incr table text).
Proof.
  unfold match_lexicon. apply fold_left_invariant; [apply result_wf_empty|].
  intros acc x _ H. by apply lexicon_step_wf.
Qed.

Lemma pattern_step_wf text r entry r' :
  0 < entry.2.2 -> result_wf r -> pattern_step text r entry = Some r' -> result_wf r'.
Proof.
  destruct entry as [pattern [ct w]]; simpl. intros Hw [Hpos Hty].
  destruct (compile pattern) as [p|]; simpl; [|discriminate].
  destruct (findall p text) as [|m ms] eqn:Hm; [by intros [= <-]|].
  set (tn := crisis_type_value ct). intros [= <-].
  assert (Hlen : 0 < inject_Z (Z.of_nat (length (m :: ms))) * w).
  { apply Qmult_lt_0_compat; [|done]. unfold Qlt, inject_Z. cbn [Qnum Qden length]. lia. }
  set (x := inject_Z _ * w) in *.
  destruct (cr_scores r !! tn) as [q0|] eqn:E; simpl.
  - split; simpl.
    + intros t q H. rewrite lookup_insert in H. case_decide; [|eauto].
      injection H as <-. unfold score_of. rewrite E. simpl.
      specialize (Hpos _ _ E). lra.
    + intros t. rewrite lookup_insert_is_Some', Hty. naive_solver.
  - unfold score_of; simpl. rewrite lookup_insert_eq, insert_insert_eq. simpl.
    split; simpl.
    + intros t q H. rewrite lookup_insert in H. case_decide; [|eauto].
      injection H as <-. lra.
    + intros t. rewrite elem_of_app, list_elem_of_singleton, lookup_insert_is_Some', Hty.
      naive_solver.
Qed.

(** Every weight of the regex table is positive. *)
Lemma crisis_patterns_weights_pos : Forall (fun e => 0 < e.2.2) crisis_patterns.
Proof. repeat constructor; simpl; lra. Qed.

Lemma check_crisis_patterns_wf text r :
  check_crisis_patterns text = Some r -> result_wf r.
Proof.
  unfold check_crisis_patterns. apply fold_left_option_invariant.
  - intros a [= <-]. apply result_wf_empty.
  - intros acc x acc' Hin Hacc Hstep. eapply pattern_step_wf; [|exact Hacc|exact Hstep].
    pose proof crisis_patterns_weights_pos as Hw. rewrite List.Forall_forall in Hw. auto.
Qed.

(** ** The tables compile, and the types come from the tables *)

(** Every regex source of the table is in the compiled fragment, and each
    compiled pattern consumes input at every match. *)
Lemma crisis_patterns_compile :
  Forall (fun e => exists p, compile e.1 = Some p /\ wf_pat p) crisis_patterns.
Proof.
  unfold crisis_patterns.
  repeat (apply List.Forall_cons;
          [eexists; split; [reflexivity | apply (bool_decide_unpack _); vm_compute; reflexivity] |]).
  apply List.Forall_nil.
Qed.

Lemma pattern_step_some text r e p :
  compile e.1 = Some p -> exists r', pattern_step text r e = Some r'.
Proof.
  destruct e as [pattern [ct w]]. simpl. intros ->. simpl.
  destruct (findall p text); eauto.
Qed.

(** [_check_crisis_patterns] never raises on the shipped table. *)
Lemma check_crisis_patterns_total text : exists r, check_crisis_patterns text = Some r.
Proof.
  unfold check_crisis_patterns. generalize (@empty_result (string * string)).
  pose proof crisis_patterns_compile as Hc. induction Hc as [|e l (p & Hp & _) _ IH];
    intros r0; simpl; [eauto|].
  destruct (pattern_step_some text r0 e p Hp) as [r1 ->]. apply IH.
Qed.

Lemma lexicon_types_from_table incr table text t :
  t ∈ cr_types (match_lexicon incr table text) ->
  exists ct, In ct (map fst table) /\ t = crisis_type_value ct.
Proof.
  unfold match_lexicon. revert t.
  apply (fold_left_invariant
           (fun r => forall t, t ∈ cr_types r ->
                     exists ct, In ct (map fst table) /\ t = crisis_type_value ct)).
  - simpl. intros t Ht. inversion Ht.
  - intros r [ct entries] Hin IH t. unfold lexicon_step.
    destruct (lexicon_loop incr text entries) as [score found].
    destruct (score >? 0); simpl; [|apply IH].
    rewrite elem_of_app, list_elem_of_singleton. intros [Ht | ->]; [by apply IH|].
    exists ct. split; [|done]. apply (in_map fst) in Hin. exact Hin.
Qed.

Lemma pattern_step_types text r e r' t :
  pattern_step text r e = Some r' -> t ∈ cr_types r' ->
  t ∈ cr_types r \/ t = crisis_type_value e.2.1.
Proof.
  destruct e as [pattern [ct w]]. unfold pattern_step. simpl.
  destruct (compile pattern) as [p|]; simpl; [|discriminate].
  destruct (findall p text) as [|m ms]; [intros [= <-]; auto|].
  intros [= <-]. simpl. destruct (cr_scores r !! crisis_type_value ct); simpl; [auto|].
  rewrite elem_of_app, list_elem_of_singleton. tauto.
Qed.

Lemma pattern_types_from_table text r t :
  check_crisis_patterns text = Some r -> t ∈ cr_types r ->
  exists ct, In ct (map (fun e => e.2.1) crisis_patterns) /\ t = crisis_type_value ct.
Proof.
  intros H. revert t. revert r H. unfold check_crisis_patterns.
  apply (fold_left_option_invariant
           (fun r => forall t, t ∈ cr_types r ->
                     exists ct, In ct (map (fun e => e.2.1) crisis_patterns) /\
                                t = crisis_type_value ct)).
  - intros a [= <-] t Ht. inversion Ht.
  - intros r e r' Hin IH Hstep t Ht.
    destruct (pattern_step_types _ _ _ _ _ Hstep Ht) as [Ht' | ->]; [by apply IH|].
    exists e.2.1. split; [|done]. by apply (in_map (fun e => e.2.1)).
Qed.

End Channels.
