(* ===== verification/Fusion.v ===== *)
(** Score fusion: [_calculate_combined_score] ([crisis_detector.py] lines
    364-408).

    Python collects the types of the three channel results in a [set] and
    iterates over it; the iteration order of a set of strings depends on
    the process's hash seed, so the code fixes no order.  [fuse_along order]
    is the computation for a given iteration order; the model instance
    [calculate_combined_score] uses the order of first appearance, and the
    theorems below show that every result the caller uses (types, score
    map, total) is the same for every order that enumerates the set.

    Arithmetic: [Q] is exact.  Python adds binary64 floats, whose sum does
    depend on the order of the terms; the order-independence of the total
    is a property of the exact model only (see the findings of the
    manifest).  The unused detail fields ([keyword_details] etc.) are not
    modelled. *)

From S2P Require Import Prelude Text Types Tables Regex Channels.
Import Types Channels.

Local Open Scope string_scope.
Local Open Scope Q_scope.

Module Fusion.

Record CombinedScore := mkCombined {
  cs_types : list string;
  cs_scores : gmap string Q;
  cs_total : Q
}.

Section Fuse.
Context {F1 F2 F3 : Type}.
Variables (kw : ChannelResult F1) (pat : ChannelResult F2) (dia : ChannelResult F3).

(** Lines 385-394: [total_score = 0], then the three weighted additions. *)
Definition combine_type (t : string) : Q :=
  0 + score_of kw t * 0.3 + score_of pat t * 0.5 + score_of dia t * 0.4.

(** Lines 384-399 for the iteration order [order] of [all_types]. *)
Definition fuse_along (order : list string) : CombinedScore :=
  mkCombined order
    (fold_left (fun m t => <[t := combine_type t]> m) order ∅)
    (py_sum (map combine_type order)).

(** Lines 376-381: the union of the three types lists. *)
Definition all_types : list string :=
  remove_dups (cr_types kw ++ cr_types pat ++ cr_types dia).

Definition calculate_combined_score : CombinedScore := fuse_along all_types.

(** ** The set of detected types *)

Lemma all_types_spec t :
  t ∈ all_types <-> t ∈ cr_types kw \/ t ∈ cr_types pat \/ t ∈ cr_types dia.
Proof. unfold all_types. rewrite elem_of_remove_dups, !elem_of_app. tauto. Qed.

Lemma all_types_NoDup : NoDup all_types.
Proof. apply NoDup_remove_dups. Qed.

Lemma fuse_along_lookup order t :
  cs_scores (fuse_along order) !! t =
  if bool_decide (t ∈ order) then Some (combine_type t) else None.
Proof. simpl. rewrite fold_insert_lookup, lookup_empty. done. Qed.

(** Whatever order Python's [set] iteration takes, the types, the score
    dictionary and the total are the same. *)
Lemma fuse_along_perm o1 o2 :
  Permutation o1 o2 ->
  (forall t, t ∈ cs_types (fuse_along o1) <-> t ∈ cs_types (fuse_along o2)) /\
  cs_scores (fuse_along o1) = cs_scores (fuse_along o2) /\
  cs_total (fuse_along o1) == cs_total (fuse_along o2).
Proof.
  intros Hp. split; [|split].
  - intros t. simpl. by rewrite Hp.
  - apply map_eq. intros t. rewrite !fuse_along_lookup.
    by rewrite (bool_decide_ext (t ∈ o1) (t ∈ o2)) by (by rewrite Hp).
  - simpl. apply py_sum_perm, Permutation_map, Hp.
Qed.

(** Each detected type is scored 0.3 * keyword + 0.5 * pattern + 0.4 *
    dialect score (a missing channel counts 0); no other key is scored. *)
Lemma calculate_combined_score_lookup t :
  match cs_scores calculate_combined_score !! t with
  | Some q => (t ∈ cr_types kw \/ t ∈ cr_types pat \/ t ∈ cr_types dia) /\
              q == 0.3 * score_of kw t + 0.5 * score_of pat t + 0.4 * score_of dia t
  | None => ~ (t ∈ cr_types kw \/ t ∈ cr_types pat \/ t ∈ cr_types dia)
  end.
Proof.
  unfold calculate_combined_score. rewrite fuse_along_lookup.
  case_bool_decide as Ht; rewrite all_types_spec in Ht;
    [split; [done | unfold combine_type; ring] | done].
Qed.

(** ** Scores under the channel contract *)

Section WithContract.
Hypotheses (Hkw : result_wf kw) (Hpat : result_wf pat) (Hdia : result_wf dia).

Lemma score_of_nonneg {F} (r : ChannelResult F) t : result_wf r -> 0 <= score_of r t.
Proof.
  intros [Hpos _]. unfold score_of. destruct (cr_scores r !! t) as [q|] eqn:E; simpl.
  - apply Qlt_le_weak. eauto.
  - apply Qle_refl.
Qed.

Lemma score_of_pos {F} (r : ChannelResult F) t : result_wf r -> t ∈ cr_types r -> 0 < score_of r t.
Proof.
  intros [Hpos Hty] Ht. apply Hty in Ht as [q Hq]. unfold score_of. rewrite Hq. simpl. eauto.
Qed.

Lemma combine_type_nonneg t : 0 <= combine_type t.
Proof.
  unfold combine_type.
  pose proof (score_of_nonneg kw t Hkw). pose proof (score_of_nonneg pat t Hpat).
  pose proof (score_of_nonneg dia t Hdia). lra.
Qed.

(** Every detected type has a positive fused score. *)
Lemma combine_type_pos t : t ∈ all_types -> 0 < combine_type t.
Proof.
  rewrite all_types_spec. unfold combine_type.
  pose proof (score_of_nonneg kw t Hkw). pose proof (score_of_nonneg pat t Hpat).
  pose proof (score_of_nonneg dia t Hdia).
  intros [Ht | [Ht | Ht]];
    [pose proof (score_of_pos kw t Hkw Ht) | pose proof (score_of_pos pat t Hpat Ht)
    | pose proof (score_of_pos dia t Hdia Ht)]; lra.
Qed.

Lemma total_score_nonneg : 0 <= cs_total calculate_combined_score.
Proof.
  simpl. apply py_sum_nonneg, List.Forall_forall. intros q Hq.
  apply in_map_iff in Hq as (t & <- & _). apply combine_type_nonneg.
Qed.

(** The total is positive exactly when some channel detected a type. *)
Lemma total_score_pos_iff :
  0 < cs_total calculate_combined_score <-> cs_types calculate_combined_score <> [].
Proof.
  simpl. split.
  - intros Hpos Hnil. rewrite Hnil in Hpos. simpl in Hpos. unfold py_sum in Hpos.
    simpl in Hpos. lra.
  - intros Hne. apply py_sum_pos.
    + apply List.Forall_forall. intros q Hq.
      apply in_map_iff in Hq as (t & <- & Ht). apply combine_type_pos.
      by apply list_elem_of_In.
    + destruct all_types; [done | discriminate].
Qed.

End WithContract.

End Fuse.

End Fusion.
