(* ===== verification/Level.v ===== *)
(** The level classifier: [_determine_crisis_level] ([crisis_detector.py]
    lines 410-448), an ordered list of eight rules where the first rule
    that fires decides.

    The theorems characterise each level by a closed condition on the
    total and the detected types, show that the level only grows with the
    total and with the set of detected types, and that the classifier
    respects [cs_equiv] (equal totals up to [==], same type sets), the
    equivalence under which [Fusion] proved the iteration order of Python's
    [set] irrelevant. *)

From S2P Require Import Prelude Text Types Tables Regex Channels Fusion.
Import Types Channels Fusion.

Local Open Scope string_scope.
Local Open Scope Q_scope.

Module Level.

Definition determine_crisis_level (combined_score : CombinedScore) : CrisisLevel :=
  let total_score := cs_total combined_score in
  let detected_types := cs_types combined_score in
  if total_score >=? 3.0 then CRITICAL
  else if bool_decide ("suicide" ∈ detected_types) && (total_score >=? 2.0) then CRITICAL
  else if bool_decide ("violence" ∈ detected_types) && (total_score >=? 2.5) then CRITICAL
  else if total_score >=? 2.0 then HIGH
  else if (bool_decide ("suicide" ∈ detected_types) || bool_decide ("self_harm" ∈ detected_types))
          && (total_score >=? 1.0) then HIGH
  else if total_score >=? 1.0 then MEDIUM
  else if bool_decide ("severe_depression" ∈ detected_types) && (total_score >=? 0.5) then MEDIUM
  else LOW.

(** Equal totals and equal type sets. *)
Definition cs_equiv (c1 c2 : CombinedScore) : Prop :=
  cs_total c1 == cs_total c2 /\ forall t, t ∈ cs_types c1 <-> t ∈ cs_types c2.

(** Splits every rule test of the classifier. *)
Ltac level_cases :=
  unfold determine_crisis_level; cbn zeta;
  repeat (qcase || case_bool_decide); simpl.

(** ** Each level by a closed condition *)

(** The three upward-closed conditions: the level is at least critical,
    at least high, at least medium. *)
Definition critical_cond (cs : CombinedScore) : Prop :=
  3 <= cs_total cs \/ ("suicide" ∈ cs_types cs /\ 2 <= cs_total cs) \/
  ("violence" ∈ cs_types cs /\ 2.5 <= cs_total cs).

Definition escalation_cond (cs : CombinedScore) : Prop :=
  2 <= cs_total cs \/
  (("suicide" ∈ cs_types cs \/ "self_harm" ∈ cs_types cs) /\ 1 <= cs_total cs).

Definition medium_cond (cs : CombinedScore) : Prop :=
  1 <= cs_total cs \/ ("severe_depression" ∈ cs_types cs /\ 0.5 <= cs_total cs).

Lemma level_ge_critical cs : determine_crisis_level cs = CRITICAL <-> critical_cond cs.
Proof. unfold critical_cond. level_cases; intuition (discriminate || lra). Qed.

Lemma level_ge_high cs :
  level_le HIGH (determine_crisis_level cs) <-> escalation_cond cs.
Proof.
  unfold escalation_cond, level_le. level_cases; simpl; intuition (lia || lra).
Qed.

Lemma level_ge_medium cs :
  level_le MEDIUM (determine_crisis_level cs) <-> medium_cond cs.
Proof.
  unfold medium_cond, level_le. level_cases; simpl; intuition (lia || lra).
Qed.

(** A level is determined by which of the three conditions hold. *)
Lemma level_le_by_conds cs1 cs2 :
  (critical_cond cs1 -> critical_cond cs2) ->
  (escalation_cond cs1 -> escalation_cond cs2) ->
  (medium_cond cs1 -> medium_cond cs2) ->
  level_le (determine_crisis_level cs1) (determine_crisis_level cs2).
Proof.
  rewrite <- !level_ge_critical, <- !level_ge_high, <- !level_ge_medium.
  unfold level_le. intros Hc Hh Hm.
  destruct (determine_crisis_level cs1); simpl in *; [lia| | |].
  - assert (1 <= 1)%nat as H by lia. specialize (Hm H). lia.
  - assert (2 <= 2)%nat as H by lia. specialize (Hh H). lia.
  - rewrite (Hc eq_refl). simpl. lia.
Qed.

#[export] Instance cs_equiv_equivalence : Equivalence cs_equiv.
Proof.
  unfold cs_equiv. split.
  - intros c. split; [reflexivity | tauto].
  - intros c1 c2 [H1 H2]. split; [by symmetry | intros t; by rewrite H2].
  - intros c1 c2 c3 [H1 H2] [H3 H4]. split; [by rewrite H1 | intros t; by rewrite H2, H4].
Qed.

#[export] Instance determine_crisis_level_proper :
  Proper (cs_equiv ==> eq) determine_crisis_level.
Proof.
  intros c1 c2 [Ht Hty]. unfold determine_crisis_level. cbn zeta.
  rewrite !(bool_decide_ext (_ ∈ cs_types c1) (_ ∈ cs_types c2)) by apply Hty.
  qrewrite Ht. reflexivity.
Qed.

(** ** Properties of the classifier *)

(** A turn is low exactly when its total is below 1.0 and, if severe
    depression is detected, below 0.5. *)
Lemma level_low_iff cs :
  determine_crisis_level cs = LOW <->
  cs_total cs < 1 /\ ("severe_depression" ∈ cs_types cs -> cs_total cs < 0.5).
Proof. level_cases; intuition (discriminate || lra). Qed.

(** C4: More evidence never lowers the level: the level is monotone in the
    total score for a fixed set of detected types. *)
Lemma level_mono_total cs1 cs2 :
  (forall t, t ∈ cs_types cs1 <-> t ∈ cs_types cs2) ->
  cs_total cs1 <= cs_total cs2 ->
  level_le (determine_crisis_level cs1) (determine_crisis_level cs2).
Proof.
  intros Hty Hle. apply level_le_by_conds;
    unfold critical_cond, escalation_cond, medium_cond; rewrite !Hty; intuition lra.
Qed.

Lemma level_mono_total_witness :
  level_le (determine_crisis_level (mkCombined ["self_harm"] ∅ 0.5))
           (determine_crisis_level (mkCombined ["self_harm"] ∅ 1.2)).
Proof. apply level_mono_total; [intros t; reflexivity | simpl; lra]. Defined.


(** ... and monotone in the set of detected types for a fixed total. *)
Lemma level_mono_types cs1 cs2 :
  (forall t, t ∈ cs_types cs1 -> t ∈ cs_types cs2) ->
  cs_total cs1 == cs_total cs2 ->
  level_le (determine_crisis_level cs1) (determine_crisis_level cs2).
Proof.
  intros Hty Heq. apply level_le_by_conds;
    unfold critical_cond, escalation_cond, medium_cond; rewrite !Heq; intuition auto.
Qed.

Lemma level_mono_types_witness :
  level_le (determine_crisis_level (mkCombined ["psychosis"] ∅ 2.1))
           (determine_crisis_level (mkCombined ["psychosis"; "suicide"] ∅ 2.1)).
Proof.
  apply level_mono_types; [|simpl; reflexivity].
  intros t Ht. simpl in *. set_solver.
Defined.


(** C3: The suicide boundary is inclusive at 2.0: with suicide detected the
    turn is critical exactly when the total reaches 2. *)
Lemma suicide_critical_boundary cs :
  "suicide" ∈ cs_types cs ->
  (determine_crisis_level cs = CRITICAL <-> 2 <= cs_total cs).
Proof.
  intros Hs. rewrite level_ge_critical. unfold critical_cond. intuition lra.
Qed.

Lemma suicide_critical_boundary_witness :
  "suicide" ∈ cs_types (mkCombined ["suicide"] ∅ 2) /\
  (determine_crisis_level (mkCombined ["suicide"] ∅ 2) = CRITICAL <->
   2 <= cs_total (mkCombined ["suicide"] ∅ 2)).
Proof.
  assert (H : "suicide" ∈ cs_types (mkCombined ["suicide"] ∅ 2))
    by (decide_true).
  split; [exact H | exact (suicide_critical_boundary _ H)].
Defined.


(** Below the boundary, from 1.0 on, a suicide signal is high. *)
Lemma suicide_high_band cs :
  "suicide" ∈ cs_types cs -> 1 <= cs_total cs -> cs_total cs < 2 ->
  determine_crisis_level cs = HIGH.
Proof. intros Hs H1 H2. level_cases; intuition (discriminate || lra). Qed.

Lemma suicide_high_band_witness :
  determine_crisis_level (mkCombined ["suicide"] ∅ 1.5) = HIGH.
Proof.
  apply suicide_high_band;
    [decide_true | simpl; lra | simpl; lra].
Defined.


(** The level does not depend on the order in which Python iterates the
    set of detected types. *)
Lemma level_order_independent {F1 F2 F3} (kw : ChannelResult F1)
    (pat : ChannelResult F2) (dia : ChannelResult F3) order :
  Permutation order (all_types kw pat dia) ->
  determine_crisis_level (fuse_along kw pat dia order) =
  determine_crisis_level (calculate_combined_score kw pat dia).
Proof.
  intros Hp. apply determine_crisis_level_proper.
  destruct (fuse_along_perm kw pat dia _ _ Hp) as (Hty & _ & Htot). split; assumption.
Qed.

Lemma level_order_independent_witness :
  determine_crisis_level
    (fuse_along (check_crisis_keywords "أؤذي نفسي وأريد أن أموت") (@empty_result (string * string))
       (@empty_result string) ["self_harm"; "suicide"]) =
  determine_crisis_level
    (calculate_combined_score (check_crisis_keywords "أؤذي نفسي وأريد أن أموت")
       (@empty_result (string * string)) (@empty_result string)).
Proof.
  apply level_order_independent. vm_compute. apply perm_swap.
Defined.


End Level.
