(* ===== verification/Session.v ===== *)
(** The session tracker: [_analyze_session_patterns] ([crisis_detector.py]
    lines 450-487) and the session map [self.session_history] (line 47).

    The tracker only uses the map through three operations -- look a
    session up, store a history, the empty map of [__init__] -- so it is
    written against the class [SessionStore] (the injectable store of the
    spec, section 9) and its laws; [gmap_session_store] is the instance for
    the Python [dict], a [gmap string (list SessionRecord)].

    The body performs the three writes of the Python code in order: the
    creation of an empty history for a new id (lines 461-462), the append
    (lines 465-469), the truncation to the last 10 entries (line 472); then
    it evaluates the two risk rules on the truncated history, first match
    wins.  [datetime.now()] is the argument [now]. *)

From S2P Require Import Prelude Text Types Tables Regex Channels Fusion.
Import Fusion.

Local Open Scope string_scope.
Local Open Scope Q_scope.

Module Session.

(** [{"timestamp": ..., "score": ..., "types": ...}] *)
Record SessionRecord := mkRecord {
  timestamp : Z;
  score : Q;
  types : list string
}.

Class SessionStore (S : Type) := {
  store_empty : S;
  store_get : S -> string -> option (list SessionRecord);
  store_put : string -> list SessionRecord -> S -> S;
  store_get_empty k : store_get store_empty k = None;
  store_get_put_eq s k h : store_get (store_put k h s) k = Some h;
  store_get_put_ne s k k' h : k <> k' -> store_get (store_put k h s) k' = store_get s k'
}.

#[export] Program Instance gmap_session_store : SessionStore (gmap string (list SessionRecord)) := {|
  store_empty := ∅;
  store_get m k := m !! k;
  store_put k h m := <[k := h]> m
|}.
Next Obligation. intros. apply lookup_empty. Qed.
Next Obligation. intros. apply lookup_insert_eq. Qed.
Next Obligation. intros. by apply lookup_insert_ne. Qed.

(** [all(xs[i] < xs[i+1] for i in range(len(xs) - 1))] *)
Fixpoint strictly_increasing (xs : list Q) : bool :=
  match xs with
  | x :: ((y :: _) as tl) => py_lt x y && strictly_increasing tl
  | _ => true
  end.

Definition max_history : nat := 10.

(** Lines 476-487: the escalating trend over the last three scores,
    else the persistent signal over the whole retained history. *)
Definition session_risk (history : list SessionRecord) : Q :=
  if (3 <=? length history)%nat &&
     strictly_increasing (map score (lastn 3 history)) then 0.5
  else if (2 <=? length (List.filter (fun entry => score entry >? 1.0) history))%nat then 0.3
  else 0.0.

(** The escalating trend of lines 477-480. *)
Definition escalating (history : list SessionRecord) : bool :=
  (3 <=? length history)%nat && strictly_increasing (map score (lastn 3 history)).

Lemma session_risk_escalating h : escalating h = true -> session_risk h = 0.5.
Proof. unfold session_risk, escalating. by intros ->. Qed.

(** The trend rule fires exactly when the last three recorded scores are
    strictly increasing; equal or decreasing scores do not fire it. *)
Lemma escalating_last_three pre r1 r2 r3 :
  escalating (pre ++ [r1; r2; r3])%list = true <->
  score r1 < score r2 /\ score r2 < score r3.
Proof.
  unfold escalating. rewrite lastn_app_exact by done. rewrite length_app.
  cbn [length map strictly_increasing].
  replace (3 <=? length pre + 3)%nat with true by (symmetry; apply Nat.leb_le; lia).
  rewrite !andb_true_iff, !py_lt_iff. tauto.
Qed.

Lemma session_risk_half h : session_risk h = 0.5 <-> escalating h = true.
Proof.
  unfold session_risk, escalating.
  destruct ((3 <=? length h)%nat && _); [done|].
  split; [|discriminate]. destruct (2 <=? _)%nat; discriminate.
Qed.

(** C10: The session risk [_analyze_session_patterns] returns is 0.5
    exactly when the last three recorded
    scores are strictly increasing, whatever precedes them. *)
Lemma session_risk_last_three pre r1 r2 r3 :
  session_risk (pre ++ [r1; r2; r3])%list = 0.5 <->
  score r1 < score r2 /\ score r2 < score r3.
Proof. by rewrite session_risk_half, escalating_last_three. Qed.

Section Tracker.
Context {St : Type} `{SessionStore St}.

Definition analyze_session_patterns (st : St) (session_id : string)
    (current_score : CombinedScore) (now : Z) : Q * St :=
  let st1 := match store_get st session_id with
             | None => store_put session_id [] st
             | Some _ => st
             end in
  let st2 := store_put session_id
               (default [] (store_get st1 session_id) ++
                [mkRecord now (cs_total current_score) (cs_types current_score)])%list st1 in
  let st3 := store_put session_id (lastn max_history (default [] (store_get st2 session_id))) st2 in
  let history := default [] (store_get st3 session_id) in
  (session_risk history, st3).

Definition turn_record (current_score : CombinedScore) (now : Z) : SessionRecord :=
  mkRecord now (cs_total current_score) (cs_types current_score).

(** The three writes amount to one: the session's history becomes the
    last 10 entries of the old history followed by this turn. *)
Lemma analyze_history st sid cs now :
  store_get (analyze_session_patterns st sid cs now).2 sid =
  Some (lastn max_history (default [] (store_get st sid) ++ [turn_record cs now])%list).
Proof.
  unfold analyze_session_patterns. simpl. rewrite !store_get_put_eq.
  destruct (store_get st sid) eqn:E; simpl; [rewrite E | rewrite store_get_put_eq]; done.
Qed.

(** Other sessions are not touched. *)
Lemma analyze_other st sid cs now k :
  sid <> k -> store_get (analyze_session_patterns st sid cs now).2 k = store_get st k.
Proof.
  intros Hne. unfold analyze_session_patterns. simpl.
  rewrite !store_get_put_ne by done.
  destruct (store_get st sid); [done | by rewrite store_get_put_ne].
Qed.

Lemma analyze_risk st sid cs now :
  (analyze_session_patterns st sid cs now).1 =
  session_risk (lastn max_history (default [] (store_get st sid) ++ [turn_record cs now])%list).
Proof.
  pose proof (analyze_history st sid cs now) as Hh.
  unfold analyze_session_patterns in *. simpl in *. by rewrite Hh.
Qed.

(** ** The bound on the history *)

Definition history_bounded (st : St) : Prop :=
  forall k h, store_get st k = Some h -> (length h <= max_history)%nat.

Inductive reachable : St -> Prop :=
| reachable_init : reachable store_empty
| reachable_turn st sid cs now :
    reachable st -> reachable (analyze_session_patterns st sid cs now).2.

Lemma analyze_bounded st sid cs now :
  history_bounded st -> history_bounded (analyze_session_patterns st sid cs now).2.
Proof.
  intros Hb k h. destruct (decide (sid = k)) as [<- | Hne].
  - rewrite analyze_history. intros [= <-]. rewrite length_lastn. lia.
  - rewrite analyze_other by done. apply Hb.
Qed.

(** ** The window refines the full log *)

(** A turn of a conversation: session id, fused score, time. *)
Definition turn := (string * CombinedScore * Z)%type.

Definition run_turns (st : St) (turns : list turn) : St :=
  fold_left (fun st '(sid, cs, now) => (analyze_session_patterns st sid cs now).2) turns st.

(** Every record ever produced for session [k], in order. *)
Definition session_log (k : string) (turns : list turn) : list SessionRecord :=
  map (fun '(_, cs, now) => turn_record cs now)
      (List.filter (fun '(sid, _, _) => bool_decide (sid = k)) turns).

Lemma session_log_cons k sid cs now turns :
  session_log k ((sid, cs, now) :: turns) =
  ((if bool_decide (sid = k) then [turn_record cs now] else []) ++ session_log k turns)%list.
Proof. unfold session_log. simpl. by case_bool_decide. Qed.

Lemma run_turns_window_gen st turns k :
  default [] (store_get st k) = lastn max_history (default [] (store_get st k)) ->
  default [] (store_get (run_turns st turns) k) =
  lastn max_history (default [] (store_get st k) ++ session_log k turns)%list.
Proof.
  revert st. induction turns as [|[[sid cs] now] turns IH]; intros st Hst.
  - unfold run_turns, session_log. simpl. by rewrite app_nil_r.
  - unfold run_turns in *. cbn [fold_left]. rewrite IH, session_log_cons.
    + case_bool_decide as Hk.
      * subst sid. rewrite analyze_history. simpl.
        by rewrite lastn_app_lastn, <- app_assoc.
      * by rewrite analyze_other.
    + destruct (decide (sid = k)) as [<- | Hne].
      * rewrite analyze_history. simpl. by rewrite lastn_lastn.
      * by rewrite analyze_other.
Qed.

(** The invariant [history_bounded] holds of every reachable store, by
    induction on [reachable]. *)
Lemma reachable_history_bounded st : reachable st -> history_bounded st.
Proof.
  induction 1 as [|st sid cs now _ IH].
  - intros k h. by rewrite store_get_empty.
  - by apply analyze_bounded.
Qed.

(** C7: Every store the tracker reaches from the empty map keeps at
    most 10 records per session. *)
Lemma reachable_bounded st :
  reachable st -> forall k h, store_get st k = Some h -> (length h <= 10)%nat.
Proof. intros Hr k h Hk. apply (reachable_history_bounded st Hr k h Hk). Qed.

(** C8: Refinement of the unbounded log: after any sequence of turns from the
    empty map, each session holds exactly the last 10 records of that
    session, in turn order. *)
Lemma session_window turns k :
  default [] (store_get (run_turns store_empty turns) k) = lastn 10 (session_log k turns).
Proof. rewrite run_turns_window_gen; rewrite store_get_empty; done. Qed.

End Tracker.

(** A store reached by two turns of session ["s"]. *)
Definition two_turn_store : gmap string (list SessionRecord) :=
  (analyze_session_patterns
     (analyze_session_patterns ∅ "s" (mkCombined [] ∅ 0) 0).2
     "s" (mkCombined ["suicide"] ∅ 1) 1).2.

Lemma reachable_bounded_witness :
  store_get two_turn_store "s" = Some [mkRecord 0 0 []; mkRecord 1 1 ["suicide"]] /\
  (length [mkRecord 0 0 []; mkRecord 1 1 ["suicide"]] <= 10)%nat.
Proof.
  assert (Hr : reachable two_turn_store) by (unfold two_turn_store; repeat constructor).
  assert (Hg : store_get two_turn_store "s" = Some [mkRecord 0 0 []; mkRecord 1 1 ["suicide"]])
    by (vm_compute; reflexivity).
  split; [exact Hg | exact (reachable_bounded _ Hr _ _ Hg)].
Defined.

End Session.
