(* ===== verification/Resources.v ===== *)
(** The resource resolver: [_get_relevant_resources] ([crisis_detector.py]
    lines 489-515) over the table [emergency_resources] of [Tables].

    The result dictionary is a [gmap string string]; [resources.update(d)]
    is [dict_update], a loop of assignments in the order of [d];
    [self.emergency_resources[name]] is [resource_group name] (the four
    names the resolver uses are keys of the table, so Python's [KeyError]
    cannot occur: [resource_groups_present]). *)

From S2P Require Import Prelude Text Types Tables.
Import Tables.

Local Open Scope string_scope.

Module Resources.

(** [resources.update(d)] *)
Definition dict_update (m : gmap string string) (d : list (string * string)) : gmap string string :=
  fold_left (fun m '(k, v) => <[k := v]> m) d m.

(** [self.emergency_resources[name]] *)
Definition resource_group (name : string) : list (string * string) :=
  default [] (snd <$> List.find (fun e => String.eqb e.1 name) emergency_resources).

(** Lines 499-515 once the two tests on the types are evaluated: [needs_mh]
    is [any(t in crisis_types for t in [...])] (line 505), [violent] is
    ["violence" in crisis_types] (line 509). *)
Definition resolve_resources (needs_mh violent : bool) : gmap string string :=
  let resources := dict_update ∅ (resource_group "emergency") in
  let resources :=
    if needs_mh
    then dict_update (dict_update resources (resource_group "mental_health"))
                     (resource_group "hospitals")
    else resources in
  let resources :=
    if violent
    then <["police" := default EmptyString (List.find (fun e => String.eqb e.1 "police")
                                              (resource_group "emergency") ≫= fun e => Some e.2)]>
           resources
    else resources in
  dict_update resources (resource_group "support").

(** Mental-health and hospital contacts are added for these types. *)
Definition mental_health_types : list string := ["suicide"; "self_harm"; "severe_depression"].

Definition get_relevant_resources (crisis_types : list string) : gmap string string :=
  resolve_resources
    (existsb (fun t => bool_decide (t ∈ crisis_types)) mental_health_types)
    (bool_decide ("violence" ∈ crisis_types)).

Lemma resource_groups_present :
  Forall (fun name => resource_group name <> []) ["emergency"; "hospitals"; "mental_health"; "support"].
Proof. repeat constructor; vm_compute; discriminate. Qed.

Lemma needs_mh_spec (types : list string) :
  existsb (fun t => bool_decide (t ∈ types)) mental_health_types = true <->
  exists t, t ∈ mental_health_types /\ t ∈ types.
Proof.
  rewrite existsb_exists. setoid_rewrite bool_decide_eq_true.
  setoid_rewrite list_elem_of_In. reflexivity.
Qed.

(** The general emergency number is in every bundle. *)
Lemma general_emergency_always (types : list string) :
  get_relevant_resources types !! "general_emergency" = Some "999".
Proof.
  unfold get_relevant_resources.
  destruct (existsb _ mental_health_types), (bool_decide ("violence" ∈ _));
    vm_compute; reflexivity.
Qed.

Lemma resolve_crisis_intervention needs_mh violent :
  resolve_resources needs_mh violent !! "crisis_intervention" =
  if needs_mh then Some "قسم الطوارئ النفسية" else None.
Proof. destruct needs_mh, violent; vm_compute; reflexivity. Qed.

(** The mental-health contacts are present exactly when one of the three
    mental-health types is detected. *)
Lemma crisis_intervention_iff (types : list string) :
  is_Some (get_relevant_resources types !! "crisis_intervention") <->
  exists t, t ∈ mental_health_types /\ t ∈ types.
Proof.
  rewrite <- needs_mh_spec. unfold get_relevant_resources.
  rewrite resolve_crisis_intervention.
  destruct (existsb _ mental_health_types); split; intros H; try done.
Qed.

(** The violence branch (lines 509-510) re-inserts the [police] entry that
    the general emergency group already holds: whether [violence] is
    detected never changes the bundle. *)
Lemma violence_branch_no_effect needs_mh :
  resolve_resources needs_mh true = resolve_resources needs_mh false.
Proof. destruct needs_mh; apply (bool_decide_unpack _); vm_compute; reflexivity. Qed.

End Resources.
