(* ===== verification/Engine.v ===== *)
(** The entry point [assess_crisis_level] ([crisis_detector.py] lines
    229-279) as a state-passing function: it takes the session store and
    returns the assessment with the new store, or [None] when Python would
    raise (only a pattern outside the compiled fragment can; the shipped
    table never does: [assess_total]).

    Python's [if session_id:] is false for [None] and for the empty string:
    both are the stateless single-turn mode.  The warning log of lines
    276-277 returns nothing and is not modelled. *)

From S2P Require Import Prelude Text Types Tables Regex Channels Fusion Level Session Resources.
Import PyStr Types Channels Fusion Level Session Resources.

Local Open Scope string_scope.
Local Open Scope Q_scope.

Module Engine.

(** The assessment dictionary of lines 265-273. *)
Record Assessment := mkAssessment {
  crisis_level : string;
  crisis_score : Q;
  detected_types : list string;
  requires_escalation : bool;
  requires_immediate_intervention : bool;
  session_pattern_risk : Q;
  emergency_resources : gmap string string
}.

(** Lines 240-254: the three channels on the lower-cased text and their
    fusion. *)
Definition score_text (text : string) : option CombinedScore :=
  let text_lower := lower text in
  let keyword_results := check_crisis_keywords text_lower in
  pattern_results ← check_crisis_patterns text_lower;
  let dialect_results := check_omani_expressions text_lower in
  Some (calculate_combined_score keyword_results pattern_results dialect_results).

Section Assess.
Context {St : Type} `{SessionStore St}.

(** Lines 259-262: the session update, only for a non-empty id. *)
Definition track_session (st : St) (session_id : option string)
    (combined_score : CombinedScore) (now : Z) : Q * St :=
  match session_id with
  | Some sid =>
      if bool_decide (sid <> EmptyString)
      then analyze_session_patterns st sid combined_score now
      else (0, st)
  | None => (0, st)
  end.

Definition assess_crisis_level (st : St) (text : string) (session_id : option string)
    (now : Z) : option (Assessment * St) :=
  combined_score ← score_text text;
  let level := determine_crisis_level combined_score in
  let '(session_pattern_risk, st') := track_session st session_id combined_score now in
  Some (mkAssessment
          (crisis_level_value level)
          (cs_total combined_score)
          (cs_types combined_score)
          (bool_decide (level ∈ [HIGH; CRITICAL]))
          (bool_decide (level = CRITICAL))
          session_pattern_risk
          (get_relevant_resources (cs_types combined_score)),
        st').

(** ** Properties of an assessment *)

Lemma score_text_total text : exists cs, score_text text = Some cs.
Proof.
  unfold score_text. destruct (check_crisis_patterns_total (lower text)) as [r ->].
  simpl. eauto.
Qed.

(** [assess_crisis_level] never raises. *)
Lemma assess_total st text session_id now :
  exists a st', assess_crisis_level st text session_id now = Some (a, st').
Proof.
  unfold assess_crisis_level. destruct (score_text_total text) as [cs ->]. simpl.
  destruct (track_session st session_id cs now). eauto.
Qed.

(** What an assessment is made of. *)
Lemma assess_inv st text session_id now a st' :
  assess_crisis_level st text session_id now = Some (a, st') ->
  exists cs, score_text text = Some cs /\
    crisis_level a = crisis_level_value (determine_crisis_level cs) /\
    crisis_score a = cs_total cs /\ detected_types a = cs_types cs /\
    requires_escalation a = bool_decide (determine_crisis_level cs ∈ [HIGH; CRITICAL]) /\
    requires_immediate_intervention a = bool_decide (determine_crisis_level cs = CRITICAL) /\
    emergency_resources a = get_relevant_resources (cs_types cs) /\
    track_session st session_id cs now = (session_pattern_risk a, st').
Proof.
  unfold assess_crisis_level. destruct (score_text text) as [cs|]; simpl; [|discriminate].
  destruct (track_session st session_id cs now) as [risk st''] eqn:E.
  intros [= <- <-]. exists cs. simpl. repeat split; done.
Qed.

End Assess.

(** ** Guarantees of every turn *)

Lemma score_text_wf text cs :
  score_text text = Some cs ->
  exists (kw : ChannelResult string) (pat : ChannelResult (string * string))
         (dia : ChannelResult string),
    cs = calculate_combined_score kw pat dia /\
    result_wf kw /\ result_wf pat /\ result_wf dia /\
    (forall t, t ∈ cs_types cs -> exists ct, t = crisis_type_value ct /\ ct <> EATING_DISORDER).
Proof.
  unfold score_text. destruct (check_crisis_patterns (lower text)) as [pat|] eqn:E;
    simpl; [|discriminate].
  intros [= <-]. do 3 eexists. split; [reflexivity|].
  split; [apply match_lexicon_wf|]. split; [exact (check_crisis_patterns_wf _ _ E)|].
  split; [apply match_lexicon_wf|].
  intros t Ht. simpl in Ht. apply all_types_spec in Ht as [Ht | [Ht | Ht]].
  - apply lexicon_types_from_table in Ht as (ct & Hin & ->).
    exists ct. split; [done|]. simpl in Hin. intuition congruence.
  - apply (pattern_types_from_table _ _ _ E) in Ht as (ct & Hin & ->).
    exists ct. split; [done|]. simpl in Hin. intuition congruence.
  - apply lexicon_types_from_table in Ht as (ct & Hin & ->).
    exists ct. split; [done|]. simpl in Hin. intuition congruence.
Qed.

Section Guarantees.
Context {St : Type} `{SessionStore St}.

(** The engine returns an assessment, and it satisfies [P]. *)
Definition assess_holds (P : Assessment -> St -> Prop) (st : St) (text : string)
    (session_id : option string) (now : Z) : Prop :=
  match assess_crisis_level st text session_id now with
  | Some (a, st') => P a st'
  | None => False
  end.

Lemma assess_holds_intro (P : Assessment -> St -> Prop) st text session_id now :
  (forall a st', assess_crisis_level st text session_id now = Some (a, st') -> P a st') ->
  assess_holds P st text session_id now.
Proof.
  intros HP. unfold assess_holds. destruct (assess_crisis_level st text session_id now)
    as [[a st']|] eqn:E; [eauto|].
  unfold assess_crisis_level in E. destruct (score_text_total text) as [cs Hs].
  rewrite Hs in E. simpl in E. by destruct (track_session st session_id cs now).
Qed.

(** C2: A turn requires escalation exactly when its total reaches 2.0, or 1.0
    with a suicide or self-harm signal. *)
Lemma assess_escalation_iff st text session_id now :
  assess_holds (fun a _ =>
      requires_escalation a = true <->
      2 <= crisis_score a \/
      (("suicide" ∈ detected_types a \/ "self_harm" ∈ detected_types a) /\ 1 <= crisis_score a))
    st text session_id now.
Proof.
  apply assess_holds_intro. intros a st' E.
  destruct (assess_inv _ _ _ _ _ _ E) as (cs & _ & _ & -> & -> & -> & _).
  assert (Hl : forall l, bool_decide (l ∈ [HIGH; CRITICAL]) = true <-> level_le HIGH l).
  { intros []; vm_compute; split; intros; (done || lia). }
  rewrite Hl, level_ge_high. reflexivity.
Qed.

(** C1: A turn requires immediate intervention exactly when its total reaches
    3.0, or 2.0 with a suicide signal, or 2.5 with a violence signal. *)
Lemma assess_immediate_iff st text session_id now :
  assess_holds (fun a _ =>
      requires_immediate_intervention a = true <->
      3 <= crisis_score a \/ ("suicide" ∈ detected_types a /\ 2 <= crisis_score a) \/
      ("violence" ∈ detected_types a /\ 2.5 <= crisis_score a))
    st text session_id now.
Proof.
  apply assess_holds_intro. intros a st' E.
  destruct (assess_inv _ _ _ _ _ _ E) as (cs & _ & _ & -> & -> & _ & -> & _).
  rewrite bool_decide_eq_true. apply level_ge_critical.
Qed.

(** The escalation flags follow the level: escalation for high and
    critical, immediate intervention for critical only. *)
Lemma assess_flags st text session_id now :
  assess_holds (fun a _ =>
      (requires_escalation a = true <-> crisis_level a = "high" \/ crisis_level a = "critical") /\
      (requires_immediate_intervention a = true <-> crisis_level a = "critical"))
    st text session_id now.
Proof.
  apply assess_holds_intro. intros a st' E.
  destruct (assess_inv _ _ _ _ _ _ E) as (cs & _ & -> & _ & _ & -> & -> & _).
  destruct (determine_crisis_level cs); vm_compute; intuition congruence.
Qed.

(** Without a session id, or with the empty one, the store is untouched
    and the risk is 0. *)
Lemma assess_stateless st text now :
  assess_holds (fun a st' => st' = st /\ session_pattern_risk a = 0) st text None now /\
  assess_holds (fun a st' => st' = st /\ session_pattern_risk a = 0) st text (Some EmptyString) now.
Proof.
  split; apply assess_holds_intro; intros a st' E;
    destruct (assess_inv _ _ _ _ _ _ E) as (cs & _ & _ & _ & _ & _ & _ & _ & Ht);
    simpl in Ht; injection Ht as <- <-; done.
Qed.

(** What a caller acts on. *)
Definition verdict (a : Assessment) :=
  (crisis_level a, crisis_score a, detected_types a, requires_escalation a,
   requires_immediate_intervention a, emergency_resources a).

(** C9: The verdict is a function of the text alone: neither the session
    store, nor the session id, nor the time changes it (in particular the
    session risk never raises the level). *)
Lemma assess_verdict_text_only (st1 st2 : St) text sid1 sid2 now1 now2 :
  option_map (fun p => verdict p.1) (assess_crisis_level st1 text sid1 now1) =
  option_map (fun p => verdict p.1) (assess_crisis_level st2 text sid2 now2).
Proof.
  unfold assess_crisis_level. destruct (score_text text) as [cs|]; simpl; [|done].
  destruct (track_session st1 sid1 cs now1), (track_session st2 sid2 cs now2). done.
Qed.

(** A turn keeps every session history within 10 records. *)
Lemma assess_history_bounded st text session_id now :
  history_bounded st -> assess_holds (fun _ st' => history_bounded st') st text session_id now.
Proof.
  intros Hb. apply assess_holds_intro. intros a st' E.
  destruct (assess_inv _ _ _ _ _ _ E) as (cs & _ & _ & _ & _ & _ & _ & _ & Ht).
  unfold track_session in Ht. destruct session_id as [sid|]; [case_bool_decide|];
    try (injection Ht as _ <-; done).
  destruct (analyze_session_patterns st sid cs now) eqn:Ea. injection Ht as _ <-.
  replace s with (analyze_session_patterns st sid cs now).2 by (by rewrite Ea).
  by apply analyze_bounded.
Qed.

(** Every assessment carries the general emergency number. *)
Lemma assess_general_emergency st text session_id now :
  assess_holds (fun a _ => emergency_resources a !! "general_emergency" = Some "999")
    st text session_id now.
Proof.
  apply assess_holds_intro. intros a st' E.
  destruct (assess_inv _ _ _ _ _ _ E) as (cs & _ & _ & _ & _ & _ & _ & -> & _).
  apply general_emergency_always.
Qed.

(** No table mentions [EATING_DISORDER]: that type is never detected. *)
Lemma assess_never_eating_disorder st text session_id now :
  assess_holds (fun a _ => "eating_disorder" ∉ detected_types a) st text session_id now.
Proof.
  apply assess_holds_intro. intros a st' E.
  destruct (assess_inv _ _ _ _ _ _ E) as (cs & Hs & _ & _ & -> & _).
  destruct (score_text_wf _ _ Hs) as (kw & pat & dia & _ & _ & _ & _ & Hty).
  intros Hin. destruct (Hty _ Hin) as ([] & Hv & Hne); simpl in Hv; congruence.
Qed.

(** The score is non-negative, and positive exactly when a type is
    detected. *)
Lemma assess_score_sign st text session_id now :
  assess_holds (fun a _ => 0 <= crisis_score a /\
                           (0 < crisis_score a <-> detected_types a <> []))
    st text session_id now.
Proof.
  apply assess_holds_intro. intros a st' E.
  destruct (assess_inv _ _ _ _ _ _ E) as (cs & Hs & _ & -> & -> & _).
  destruct (score_text_wf _ _ Hs) as (kw & pat & dia & -> & Hkw & Hpat & Hdia & _).
  split; [by apply total_score_nonneg | by apply total_score_pos_iff].
Qed.

End Guarantees.

Lemma assess_history_bounded_witness :
  assess_holds (St := gmap string (list SessionRecord)) (fun _ st' => history_bounded st')
    ∅ "أريد أن أموت" (Some "s") 0.
Proof.
  apply assess_history_bounded. intros k h. simpl. rewrite lookup_empty. discriminate.
Defined.

End Engine.
