(* ===== verification/Response.v ===== *)
(** The response composer: [generate_crisis_response] ([crisis_detector.py]
    lines 517-537) and its four helpers (lines 539-607).  The templates
    are the source's triple-quoted strings byte for byte, leading newline
    and trailing indentation included.  The composer dispatches on the
    level string of the assessment; any other string falls through to the
    low template, as the [else] branch of line 536 does. *)

From S2P Require Import Prelude Text Types Tables Regex Channels Fusion Level Session Resources Engine.
Import PyStr Engine.

Local Open Scope string_scope.

Module Response.

(** [_generate_critical_response], lines 542-551. *)
Definition critical_suicide_template : string := "
🚨 أفهم أنك تمر بوقت صعب جداً، لكن حياتك مهمة وقيمة.

يرجى التواصل فوراً مع:
📞 الطوارئ: 999
🏥 مستشفى السلطان قابوس: 24211411
🆘 أو توجه لأقرب قسم طوارئ

لست وحدك. هناك أشخاص يريدون مساعدتك.
            ".

(** [_generate_critical_response], lines 553-562. *)
Definition critical_violence_template : string := "
⚠️ أرى أنك تشعر بغضب شديد. دعنا نجد طرق آمنة للتعامل مع هذه المشاعر.

يرجى:
📞 الاتصال بـ 999 إذا كنت في خطر
🚶‍♂️ أخذ مساحة آمنة من الموقف
🧘‍♂️ التنفس بعمق وهدوء

أتفهم غضبك، لكن سلامتك وسلامة الآخرين أهم.
            ".

(** [_generate_critical_response], lines 564-572. *)
Definition critical_generic_template : string := "
🆘 أشعر بقلق شديد عليك. يرجى طلب المساعدة المهنية فوراً.

📞 اتصل بـ 999 أو توجه لأقرب مستشفى
👨‍⚕️ تحدث مع طبيب أو أخصائي نفسي
👨‍👩‍👧‍👦 أخبر شخص تثق به من عائلتك

وضعك يمكن تحسينه بالمساعدة المناسبة.
            ".

(** [_generate_high_response], lines 576-585. *)
Definition high_template : string := "
💛 أقدر ثقتك في مشاركة مشاعرك. ما تمر به صعب، لكن هناك حلول ومساعدة.

🔗 موارد المساعدة:
📞 خط المساعدة النفسية (قريباً)
🏥 مراكز الصحة النفسية
👨‍👩‍👧‍👦 التحدث مع شخص تثق به

🤲 تذكر أن الله معك في كل لحظة، والفرج قادم بإذن الله.
        ".

(** [_generate_medium_response], lines 589-599. *)
Definition medium_template : string := "
💙 أفهم أنك تواجه تحديات. هذا طبيعي في الحياة، والمهم كيف نتعامل معها.

💡 اقتراحات مفيدة:
🗣️ التحدث مع شخص تثق به
🤲 الدعاء والذكر للراحة النفسية
📚 قراءة القرآن للسكينة
🚶‍♂️ المشي والرياضة الخفيفة

أنا هنا لدعمك في هذه الرحلة.
        ".

(** [_generate_low_response], lines 603-607. *)
Definition low_template : string := "
💚 أسعدني أنك تشاركني أفكارك. التعبير عن المشاعر خطوة إيجابية.

دعنا نتحدث أكثر عما تشعر به وكيف يمكنني مساعدتك.
        ".

Definition generate_critical_response (crisis_types : list string) : string :=
  if bool_decide ("suicide" ∈ crisis_types) then critical_suicide_template
  else if bool_decide ("violence" ∈ crisis_types) then critical_violence_template
  else critical_generic_template.

Definition generate_high_response (crisis_types : list string) : string := high_template.
Definition generate_medium_response (crisis_types : list string) : string := medium_template.
Definition generate_low_response (crisis_types : list string) : string := low_template.

Definition generate_crisis_response (assessment : Assessment) : string :=
  let crisis_level := crisis_level assessment in
  let detected_types := detected_types assessment in
  if String.eqb crisis_level "critical" then generate_critical_response detected_types
  else if String.eqb crisis_level "high" then generate_high_response detected_types
  else if String.eqb crisis_level "medium" then generate_medium_response detected_types
  else generate_low_response detected_types.

(** ** Properties of the replies *)

(** Every critical reply gives the emergency number 999. *)
Lemma critical_response_has_999 (a : Assessment) :
  crisis_level a = "critical" -> str_in "999" (generate_crisis_response a) = true.
Proof.
  intros Hl. unfold generate_crisis_response, generate_critical_response. cbv zeta.
  rewrite Hl, String.eqb_refl.
  destruct (bool_decide ("suicide" ∈ detected_types a)), (bool_decide ("violence" ∈ detected_types a));
    vm_compute; reflexivity.
Qed.

(** The suicide-specific critical reply also names the Sultan Qaboos
    hospital line. *)
Lemma critical_suicide_response_hospital (a : Assessment) :
  crisis_level a = "critical" -> "suicide" ∈ detected_types a ->
  str_in "24211411" (generate_crisis_response a) = true.
Proof.
  intros Hl Hs. unfold generate_crisis_response, generate_critical_response. cbv zeta.
  rewrite Hl, String.eqb_refl, bool_decide_eq_true_2 by done. vm_compute. reflexivity.
Qed.

Definition ascii_digits : list string := ["0"; "1"; "2"; "3"; "4"; "5"; "6"; "7"; "8"; "9"].

(** The high reply, sent on turns that require escalation, contains no
    digit at all: no phone number reaches the user on a high turn. *)
Lemma high_response_has_no_number (a : Assessment) :
  crisis_level a = "high" ->
  Forall (fun d => str_in d (generate_crisis_response a) = false) ascii_digits.
Proof.
  intros Hl. replace (generate_crisis_response a) with high_template
    by (unfold generate_crisis_response; cbv zeta; rewrite Hl; reflexivity).
  assert (H : forallb (fun d => negb (str_in d high_template)) ascii_digits = true)
    by (vm_compute; reflexivity).
  rewrite forallb_forall in H. apply List.Forall_forall. intros d Hd.
  apply negb_true_iff. auto.
Qed.

(** A level string outside the four values gets the low reply. *)
Lemma unknown_level_low_response (a : Assessment) :
  crisis_level a ∉ ["critical"; "high"; "medium"] ->
  generate_crisis_response a = low_template.
Proof.
  intros Hl. unfold generate_crisis_response.
  destruct (String.eqb_spec (crisis_level a) "critical") as [E|_]; [rewrite E in Hl; set_solver|].
  destruct (String.eqb_spec (crisis_level a) "high") as [E|_]; [rewrite E in Hl; set_solver|].
  destruct (String.eqb_spec (crisis_level a) "medium") as [E|_]; [rewrite E in Hl; set_solver|].
  reflexivity.
Qed.

(** A sample assessment at the given level with the given types. *)
Definition sample_assessment (level : string) (types : list string) : Assessment :=
  mkAssessment level 2 types true true 0 ∅.

Lemma critical_response_has_999_witness :
  str_in "999" (generate_crisis_response (sample_assessment "critical" ["violence"])) = true.
Proof. apply critical_response_has_999. reflexivity. Defined.

Lemma critical_suicide_response_hospital_witness :
  str_in "24211411" (generate_crisis_response (sample_assessment "critical" ["suicide"])) = true.
Proof. apply critical_suicide_response_hospital; [reflexivity | decide_true]. Defined.

Lemma high_response_has_no_number_witness :
  Forall (fun d => str_in d (generate_crisis_response (sample_assessment "high" ["self_harm"])) = false)
    ascii_digits.
Proof. apply high_response_has_no_number. reflexivity. Defined.

Lemma unknown_level_low_response_witness :
  generate_crisis_response (sample_assessment "unknown" []) = low_template.
Proof. apply unknown_level_low_response. decide_true. Defined.

End Response.
