(* ===== verification/PyDict.v ===== *)
(** Python's [dict] with its insertion order, as the emotion detector uses
    it: an association list without duplicate keys, in the order the keys
    were first inserted.  [d[k] = v] replaces the value of an existing key
    in place and appends a new key at the end; iteration, [max] over
    [d.items()] and [sorted(d.items())] see the entries in that order,
    which decides ties. *)

From S2P Require Import Prelude.

Module PyDict.

Section Dict.
Context {K V : Type} `{EqDecision K}.

(** [d.get(k)] *)
Definition dict_get (d : list (K * V)) (k : K) : option V :=
  snd <$> List.find (fun e => bool_decide (e.1 = k)) d.

(** [k in d] *)
Definition dict_in (k : K) (d : list (K * V)) : bool :=
  match dict_get d k with Some _ => true | None => false end.

(** [d[k] = v] *)
Fixpoint dict_set (d : list (K * V)) (k : K) (v : V) : list (K * V) :=
  match d with
  | [] => [(k, v)]
  | (k', v') :: d' => if bool_decide (k' = k) then (k', v) :: d' else (k', v') :: dict_set d' k v
  end.

(** [for k in d: d[k] = f(d[k])]: the keys do not change, so the loop
    rewrites every value in place. *)
Definition dict_map (f : V -> V) (d : list (K * V)) : list (K * V) :=
  map (fun '(k, v) => (k, f v)) d.

Lemma dict_get_cons k v d k' :
  dict_get ((k, v) :: d) k' = if bool_decide (k = k') then Some v else dict_get d k'.
Proof. unfold dict_get. simpl. by case_bool_decide. Qed.

Lemma dict_get_set_eq d k v : dict_get (dict_set d k v) k = Some v.
Proof.
  induction d as [|[k' v'] d IH]; simpl; [by rewrite dict_get_cons, bool_decide_true|].
  case_bool_decide as Hk; rewrite dict_get_cons; [by rewrite bool_decide_true|].
  by rewrite bool_decide_false.
Qed.

Lemma dict_get_set_ne d k k' v : k <> k' -> dict_get (dict_set d k v) k' = dict_get d k'.
Proof.
  intros Hne. induction d as [|[k0 v0] d IH]; simpl.
  - rewrite dict_get_cons. by rewrite bool_decide_false.
  - case_bool_decide as Hk; rewrite !dict_get_cons; [subst k0|by rewrite IH].
    by rewrite !bool_decide_false.
Qed.

Lemma dict_get_set d k v k' :
  dict_get (dict_set d k v) k' = if bool_decide (k = k') then Some v else dict_get d k'.
Proof.
  case_bool_decide as Hk; [subst; apply dict_get_set_eq | by apply dict_get_set_ne].
Qed.

(** Assignment keeps the keys and their order, and appends a new key. *)
Lemma dict_keys_set d k v :
  (dict_set d k v).*1 = if dict_in k d then d.*1 else d.*1 ++ [k].
Proof.
  unfold dict_in. induction d as [|[k' v'] d IH]; [done|]. cbn [dict_set].
  rewrite dict_get_cons. case_bool_decide as Hk; rewrite !fmap_cons; [done|].
  rewrite IH. by destruct (dict_get d k).
Qed.

Lemma dict_get_Some_elem d k v : dict_get d k = Some v -> (k, v) ∈ d.
Proof.
  induction d as [|[k' v'] d IH]; [discriminate|]. rewrite dict_get_cons.
  case_bool_decide as Hk; [intros [= <-]; subst; by left|]. intros H. right. auto.
Qed.

Lemma dict_get_None d k : dict_get d k = None <-> k ∉ d.*1.
Proof.
  induction d as [|[k' v'] d IH]; simpl; [set_solver|]. rewrite dict_get_cons.
  case_bool_decide; set_solver.
Qed.

Lemma dict_get_map f d k : dict_get (dict_map f d) k = f <$> dict_get d k.
Proof.
  induction d as [|[k' v'] d IH]; [done|]. cbn [dict_map map].
  rewrite !dict_get_cons. case_bool_decide; [done|]. exact IH.
Qed.

Lemma dict_keys_map f d : (dict_map f d).*1 = d.*1.
Proof. induction d as [|[k v] d IH]; [done|]. simpl. by f_equal. Qed.

(** Every value satisfies [P]: assignments of values satisfying [P] keep
    it. *)
Lemma dict_set_Forall (P : V -> Prop) d k v :
  Forall (fun e => P e.2) d -> P v -> Forall (fun e => P e.2) (dict_set d k v).
Proof.
  induction 1 as [|[k' v'] d Hv Hd IH]; intros Hp; simpl; [by repeat constructor|].
  case_bool_decide; constructor; auto.
Qed.

Lemma dict_get_Forall (P : V -> Prop) d k v :
  Forall (fun e => P e.2) d -> dict_get d k = Some v -> P v.
Proof.
  intros Hd Hk. apply dict_get_Some_elem in Hk.
  by apply (proj1 (Forall_forall _ _) Hd) in Hk.
Qed.

Lemma dict_keys_set_elem d k k' v : k ∈ d.*1 \/ k = k' -> k ∈ (dict_set d k' v).*1.
Proof. rewrite dict_keys_set. unfold dict_in. destruct (dict_get d k') eqn:E; [|set_solver].
  intros [Hk | ->]; [done|]. apply list_elem_of_fmap. exists (k', v0).
  split; [done | by apply dict_get_Some_elem]. Qed.

Lemma dict_set_NoDup d k v : NoDup d.*1 -> NoDup (dict_set d k v).*1.
Proof.
  intros Hd. rewrite dict_keys_set. unfold dict_in. destruct (dict_get d k) eqn:E; [done|].
  apply NoDup_app. split; [done|]. split; [|by apply NoDup_singleton].
  apply dict_get_None in E. set_solver.
Qed.

Lemma dict_get_elem_NoDup d k v : NoDup d.*1 -> (k, v) ∈ d -> dict_get d k = Some v.
Proof.
  induction d as [|[k' v'] d IH]; [set_solver|]. rewrite fmap_cons, NoDup_cons.
  intros [Hk' Hd] Hin. rewrite dict_get_cons. apply elem_of_cons in Hin as [[= -> ->] | Hin].
  - by rewrite bool_decide_true.
  - rewrite bool_decide_false; [by apply IH|]. intros ->. apply Hk'.
    apply list_elem_of_fmap. by exists (k, v).
Qed.

(** Two dictionaries with the same entries hold them as a permutation:
    they differ at most in their order. *)
Lemma dict_perm d1 d2 :
  NoDup d1.*1 -> NoDup d2.*1 -> (forall k, dict_get d1 k = dict_get d2 k) -> Permutation d1 d2.
Proof.
  intros H1 H2 Hg. apply NoDup_Permutation.
  - by apply NoDup_fmap_1 in H1.
  - by apply NoDup_fmap_1 in H2.
  - intros [k v]. split; intros Hin.
    + apply dict_get_Some_elem. rewrite <- Hg. by apply dict_get_elem_NoDup.
    + apply dict_get_Some_elem. rewrite Hg. by apply dict_get_elem_NoDup.
Qed.

Lemma dict_get_set_if (g : K -> bool) (h : K -> V) acc x k :
  dict_get (if g x then dict_set acc x (h x) else acc) k =
  if bool_decide (x = k) && g x then Some (h x) else dict_get acc k.
Proof. destruct (g x); [rewrite andb_true_r; apply dict_get_set | by rewrite andb_false_r]. Qed.

(** A loop of conditional assignments [for e in l: if g(e): d[e] = h(e)]. *)
Lemma dict_get_fold_set (g : K -> bool) (h : K -> V) l acc k :
  dict_get (fold_left (fun acc e => if g e then dict_set acc e (h e) else acc) l acc) k =
  if bool_decide (k ∈ l) && g k then Some (h k) else dict_get acc k.
Proof.
  revert acc. induction l as [|x l IH]; intros acc; simpl; [done|].
  rewrite IH, dict_get_set_if. destruct (decide (x = k)) as [-> | Hne].
  - rewrite (bool_decide_true (k ∈ k :: l)) by apply list_elem_of_here.
    rewrite (bool_decide_true (k = k)) by done.
    by destruct (bool_decide (k ∈ l)), (g k).
  - rewrite (bool_decide_false (x = k)) by done.
    by rewrite (bool_decide_ext (k ∈ x :: l) (k ∈ l)) by set_solver.
Qed.

Lemma dict_map_elem (f : V -> V) d k v : (k, v) ∈ d -> (k, f v) ∈ dict_map f d.
Proof.
  induction d as [|[k' v'] d IH]; [set_solver|]. cbn [dict_map map].
  intros [[= -> ->] | Hin]%elem_of_cons; [left | right; auto].
Qed.

(** A loop whose every step keeps the keys and adds the key of its entry
    ends with the keys of all entries. *)
Lemma fold_keys_grow {A} (f : list (K * V) -> A -> list (K * V)) (key : A -> K) l d k :
  (forall acc x k, k ∈ acc.*1 \/ k = key x -> k ∈ (f acc x).*1) ->
  k ∈ d.*1 \/ k ∈ key <$> l -> k ∈ (fold_left f l d).*1.
Proof.
  intros Hf. revert d. induction l as [|x l IH]; intros d Hk; simpl.
  - destruct Hk as [Hk | Hk]; [exact Hk | set_solver].
  - apply IH. rewrite fmap_cons, elem_of_cons in Hk.
    destruct Hk as [Hk | [-> | Hk]]; [left; apply Hf; by left | left; apply Hf; by right | by right].
Qed.

Lemma dict_in_elem k d : dict_in k d = true -> k ∈ d.*1.
Proof.
  unfold dict_in. destruct (dict_get d k) as [v|] eqn:E; [|discriminate]. intros _.
  apply list_elem_of_fmap. exists (k, v). split; [done | by apply dict_get_Some_elem].
Qed.

End Dict.

End PyDict.
