(* ===== verification/EmotionTables.v ===== *)
(** The static tables of [EmotionDetector] ([emotion/detector.py]),
    copied literally: the two [_build_*] dictionaries, and the constant
    lists and dictionaries the methods build locally.  Dictionaries become
    association lists in source order, the order Python iterates them in;
    lists keep their duplicates (the lexicon lists some words twice). *)

From S2P Require Import Prelude.

Local Open Scope string_scope.

Module EmotionTables.

(** [_build_arabic_emotion_lexicon], lines 72-120. *)
Definition emotion_lexicon : list (string * list string) := [
  ("joy", [
    "سعيد"; "مبسوط"; "فرحان";
    "مرتاح"; "منشرح"; "سرور";
    "بهجة"; "حبور"; "غبطة";
    "ابتهاج"; "الحمد لله"; "فرحة";
    "سعادة"]);
  ("sadness", [
    "حزين"; "مكتئب"; "منكسر";
    "متألم"; "مهموم"; "كئيب";
    "محبط"; "يائس"; "متضايق";
    "مصدوم"; "حزن"; "أسى";
    "غم"; "هم"; "كآبة"]);
  ("anger", [
    "غاضب"; "زعلان"; "متضايق";
    "مستاء"; "محنق"; "ثائر";
    "منفعل"; "متوتر"; "عصبي";
    "مجنون"; "غضب"; "زعل";
    "انفعال"; "استياء"]);
  ("fear", [
    "خايف"; "قلق"; "متوتر";
    "مرعوب"; "فزعان"; "خوف";
    "قلق"; "رعب"; "فزع";
    "هلع"; "رهبة"; "وجل";
    "ترقب"]);
  ("anxiety", [
    "قلقان"; "متوتر"; "مضطرب";
    "مشتت"; "متردد"; "قلق";
    "توتر"; "اضطراب"; "ارتباك";
    "حيرة"; "شك"; "ريبة";
    "تردد"]);
  ("hope", [
    "متفائل"; "واثق"; "طموح";
    "أمل"; "تفاؤل"; "إن شاء الله";
    "بإذن الله"; "ثقة"; "يقين";
    "رجاء"; "تطلع"; "انتظار"]);
  ("gratitude", [
    "شاكر"; "ممتن"; "معترف";
    "مقدر"; "شكر"; "امتنان";
    "تقدير"; "اعتراف"; "الحمد لله";
    "جزاك الله خير"; "بارك الله فيك"]);
  ("love", [
    "محب"; "معجب"; "مولع";
    "مفتون"; "حب"; "عشق";
    "إعجاب"; "ولع"; "هيام";
    "مودة"; "رحمة"; "حنان"])].

(** [_build_omani_emotion_patterns], lines 122-150. *)
Definition omani_patterns : list (string * list string) := [
  ("joy", [
    "مبسوط واجد"; "فرحان زين"; "مرتاح بالي";
    "الحمد لله خلاص"; "زين جداً"; "والله حلو"]);
  ("sadness", [
    "محطم نفسياً"; "دايخ من الهم"; "مكسور خاطري";
    "قلبي ضايق"; "ما أدري شبي"; "تعبان نفسياً"]);
  ("anger", [
    "زعلان مرة"; "متضايق واجد"; "عصبي زين";
    "ما عد أقدر"; "خلاص تعبت"; "مستفز"]);
  ("worry", [
    "قلقان على روحي"; "خايف من البكرة"; "مهموم زين";
    "ما عندي راحة"; "دايماً أفكر"; "متوتر واجد"]);
  ("confusion", [
    "ما أدري شبي"; "محتار في أموري"; "مشتت بالي";
    "ما أعرف وين أروح"; "كله ملخبط"; "دايخ"])].

(** [emotion_mapping] of [_detect_emotions_ml], lines 245-253. *)
Definition emotion_mapping : list (string * string) := [
  ("joy", "joy");
  ("sadness", "sadness");
  ("anger", "anger");
  ("fear", "fear");
  ("surprise", "surprise");
  ("disgust", "anger");
  ("love", "love")].

(** [islamic_expressions] of [_adjust_for_cultural_context], lines 312-315. *)
Definition islamic_expressions : list string := [
  "الحمد لله"; "إن شاء الله"; "بإذن الله";
  "ما شاء الله"; "سبحان الله"; "اللهم";
  "توكلت على الله"].

(** [family_words] of [_adjust_for_cultural_context], line 337. *)
Definition family_words : list string := [
  "أهل"; "عائلة"; "والدي";
  "والدتي"; "أخوي"; "أختي";
  "زوجي"; "زوجتي"].

(** [emotion_names] of [get_emotion_summary], lines 380-391. *)
Definition emotion_names : list (string * string) := [
  ("joy", "سعادة");
  ("sadness", "حزن");
  ("anger", "غضب");
  ("fear", "خوف");
  ("anxiety", "قلق");
  ("hope", "أمل");
  ("gratitude", "امتنان");
  ("love", "محبة");
  ("worry", "قلق");
  ("confusion", "حيرة")].

End EmotionTables.
