(* ===== verification/Emotion.v ===== *)
(** The emotion detector: [EmotionDetector] of [emotion/detector.py], its
    constructor and the scoring path of [detect_emotions] (lines 26-346).

    Scores are [Dict[str, float]] in insertion order ([PyDict]), floats
    exact rationals.  The machine-learning model is an external
    collaborator: a [Pipeline] maps a text to the model's list of
    [(label, score)] results, or to [None] when the call raises.  The
    iteration order of the Python [set] in [_combine_emotion_results] is
    fixed per process by the salted string hashes; it is the argument
    [set_iter], and the theorems hold for every duplicate-free order of the
    keys ([set_iter_ok]). *)

From S2P Require Import Prelude Text PyDict EmotionTables.
Import PyStr PyDict EmotionTables.

Local Open Scope string_scope.
Local Open Scope Q_scope.

Module Emotion.

(** The text-classification pipeline applied to a text. *)
Definition Pipeline := string -> option (list (string * Q)).

Record EmotionDetector := mkDetector {
  use_ml : bool;
  emotion_pipeline : option Pipeline
}.

(** [_initialize_ml_model] (lines 52-70): [load] is the outcome of
    [pipeline(...)], [None] when it raises; the method catches the
    exception and returns [None]. *)
Definition initialize_ml_model (load : option Pipeline) : option Pipeline :=
  match load with Some p => Some p | None => None end.

(** [__init__] (lines 26-50): [has_transformers] is [HAS_TRANSFORMERS].
    The [try] around [_initialize_ml_model] never reaches its [except]:
    the method catches everything itself, so a failed load leaves
    [use_ml] true with no pipeline.  Without [use_ml] the attribute
    [emotion_pipeline] is never assigned (and never read). *)
Definition EmotionDetector_init (use_ml_arg has_transformers : bool) (load : option Pipeline) : EmotionDetector :=
  if use_ml_arg && has_transformers
  then mkDetector true (initialize_ml_model load)
  else mkDetector false None.

(** ** [_detect_emotions_rule_based] (lines 180-219) *)

(** [score += text_lower.count(keyword.lower()) * 0.3] over the keywords. *)
Definition keyword_score (text_lower : string) (keywords : list string) : Q :=
  fold_left (fun score keyword =>
      score + inject_Z (Z.of_nat (str_count (lower keyword) text_lower)) * 0.3)
    keywords 0.

(** The lexicon loop: a positive score is stored capped at 1.0. *)
Definition lexicon_scores (text_lower : string) : list (string * Q) :=
  fold_left (fun emotion_scores '(emotion, keywords) =>
      let score := keyword_score text_lower keywords in
      if score >? 0 then dict_set emotion_scores emotion (py_min score 1.0)
      else emotion_scores)
    emotion_lexicon [].

(** The dialect loop body for one emotion: the emotion gets an entry (0
    when missing), then 0.5 per pattern found.  The [+=] reads the entry
    just ensured, so it cannot raise [KeyError]. *)
Definition dialect_step (text_lower : string) (emotion_scores : list (string * Q))
    (entry : string * list string) : list (string * Q) :=
  let '(emotion, patterns) := entry in
  let emotion_scores :=
    if dict_in emotion emotion_scores then emotion_scores
    else dict_set emotion_scores emotion 0 in
  fold_left (fun emotion_scores pattern =>
      if str_in (lower pattern) text_lower
      then dict_set emotion_scores emotion (default 0 (dict_get emotion_scores emotion) + 0.5)
      else emotion_scores)
    patterns emotion_scores.

Definition dialect_scores (text_lower : string) (emotion_scores : list (string * Q)) :
    list (string * Q) :=
  fold_left (dialect_step text_lower) omani_patterns emotion_scores.

(** Division by the largest score when it is positive. *)
Definition normalize (emotion_scores : list (string * Q)) : list (string * Q) :=
  match emotion_scores with
  | [] => emotion_scores
  | (_, v) :: rest =>
      let max_score := py_max_list v rest.*2 in
      if max_score >? 0 then dict_map (fun x => x / max_score) emotion_scores
      else emotion_scores
  end.

Definition detect_emotions_rule_based (text : string) : list (string * Q) :=
  let text_lower := lower text in
  normalize (dialect_scores text_lower (lexicon_scores text_lower)).

(** ** [_detect_emotions_ml] (lines 221-262) *)

(** [emotion_mapping.get(emotion, emotion)] *)
Definition map_label (emotion : string) : string :=
  default emotion (dict_get emotion_mapping emotion).

Definition detect_emotions_ml (pipeline : option Pipeline) (text : string) : list (string * Q) :=
  match pipeline with
  | None => []
  | Some p =>
      match p text with
      | None => []
      | Some results =>
          fold_left (fun ml_emotions '(label, score) =>
              dict_set ml_emotions (map_label (lower label)) score)
            results []
      end
  end.

(** ** [_combine_emotion_results] (lines 264-291) *)

Definition combine_emotion_results (set_iter : list string -> list string)
    (rule_based ml_based : list (string * Q)) : list (string * Q) :=
  fold_left (fun combined emotion =>
      let rule_score := default 0 (dict_get rule_based emotion) in
      let ml_score := default 0 (dict_get ml_based emotion) in
      let combined_score := 0.7 * rule_score + 0.3 * ml_score in
      if combined_score >? 0 then dict_set combined emotion combined_score else combined)
    (set_iter (rule_based.*1 ++ ml_based.*1)%list) [].

(** [set_iter] iterates the set of the given keys: each once. *)
Definition set_iter_ok (set_iter : list string -> list string) : Prop :=
  forall l, NoDup (set_iter l) /\ forall x, x ∈ set_iter l <-> x ∈ l.

(** ** [_adjust_for_cultural_context] (lines 293-346) *)

(** [if emotion in adjusted: adjusted[emotion] = f(adjusted[emotion])] *)
Definition scale_if_present (f : Q -> Q) (adjusted : list (string * Q)) (emotion : string) :
    list (string * Q) :=
  match dict_get adjusted emotion with
  | Some v => dict_set adjusted emotion (f v)
  | None => adjusted
  end.

(** [adjusted[e] = min(1.0, adjusted[e] + 0.2)] if present, else [0.3]. *)
Definition boost_or_seed (adjusted : list (string * Q)) (emotion : string) : list (string * Q) :=
  match dict_get adjusted emotion with
  | Some v => dict_set adjusted emotion (py_min 1.0 (v + 0.2))
  | None => dict_set adjusted emotion 0.3
  end.

Definition negative_emotions : list string := ["sadness"; "anger"; "fear"; "anxiety"].
Definition family_emotions : list string := ["sadness"; "anxiety"; "worry"].

Definition has_islamic_expression (text_lower : string) : bool :=
  existsb (fun expr => str_in expr text_lower) islamic_expressions.

Definition has_family_context (text_lower : string) : bool :=
  existsb (fun word => str_in word text_lower) family_words.

Definition adjust_for_cultural_context (text : string) (emotions : list (string * Q)) :
    list (string * Q) :=
  let adjusted := emotions in
  let text_lower := lower text in
  let adjusted :=
    if has_islamic_expression text_lower then
      let adjusted := fold_left (scale_if_present (fun v => v * 0.8)) negative_emotions adjusted in
      boost_or_seed (boost_or_seed adjusted "hope") "gratitude"
    else adjusted in
  if has_family_context text_lower
  then fold_left (scale_if_present (fun v => py_min 1.0 (v * 1.2))) family_emotions adjusted
  else adjusted.

(** ** [detect_emotions] (lines 152-178) *)

Definition detect_emotions (det : EmotionDetector) (set_iter : list string -> list string)
    (text : string) : list (string * Q) :=
  if is_blank text then [] else
  let rule_based_emotions := detect_emotions_rule_based text in
  let combined_emotions :=
    if use_ml det && bool_decide (is_Some (emotion_pipeline det))
    then combine_emotion_results set_iter rule_based_emotions
           (detect_emotions_ml (emotion_pipeline det) text)
    else rule_based_emotions in
  adjust_for_cultural_context text combined_emotions.

(** ** Bounds of the scores *)

Definition in_unit (d : list (string * Q)) : Prop := Forall (fun e => 0 <= e.2 <= 1) d.
Definition nonneg (d : list (string * Q)) : Prop := Forall (fun e => 0 <= e.2) d.

Lemma inject_nat_nonneg n : 0 <= inject_Z (Z.of_nat n).
Proof. unfold Qle. simpl. lia. Qed.

Lemma div_unit v m : 0 <= v -> v <= m -> 0 < m -> 0 <= v / m <= 1.
Proof.
  intros Hv Hm Hpos. split.
  - apply Qle_shift_div_l; [exact Hpos | lra].
  - apply Qle_shift_div_r; [exact Hpos | lra].
Qed.

Lemma get0_nonneg d k : nonneg d -> 0 <= default 0 (dict_get d k).
Proof.
  intros Hd. destruct (dict_get d k) eqn:E; simpl; [|lra].
  exact (dict_get_Forall (fun v => 0 <= v) d k q Hd E).
Qed.

Lemma get0_unit d k : in_unit d -> 0 <= default 0 (dict_get d k) <= 1.
Proof.
  intros Hd. destruct (dict_get d k) eqn:E; simpl; [|lra].
  exact (dict_get_Forall (fun v => 0 <= v <= 1) d k q Hd E).
Qed.

Lemma keyword_score_nonneg t kws : 0 <= keyword_score t kws.
Proof.
  unfold keyword_score. apply (fold_left_invariant (fun q => 0 <= q)); [lra|].
  intros acc kw _ H. pose proof (inject_nat_nonneg (str_count (lower kw) t)). lra.
Qed.

Lemma lexicon_scores_unit t : in_unit (lexicon_scores t).
Proof.
  unfold lexicon_scores. apply (fold_left_invariant in_unit); [constructor|].
  intros acc [e kws] _ H. cbv beta iota zeta. qcase; [|exact H].
  apply (dict_set_Forall (fun v => 0 <= v <= 1)); [exact H|]. split; [apply py_min_glb; lra | pose proof (py_min_le_r (keyword_score t kws) 1.0); lra].
Qed.

Lemma dialect_scores_nonneg t d : nonneg d -> nonneg (dialect_scores t d).
Proof.
  intros Hd. unfold dialect_scores. apply (fold_left_invariant nonneg); [exact Hd|].
  intros acc [e pats] _ H. unfold dialect_step.
  apply (fold_left_invariant nonneg).
  - destruct (dict_in e acc); [exact H | apply (dict_set_Forall (fun v => 0 <= v)); [exact H | lra]].
  - intros acc' p _ H'. destruct (str_in _ _); [|exact H'].
    apply (dict_set_Forall (fun v => 0 <= v)); [exact H'|]. pose proof (get0_nonneg acc' e H'). lra.
Qed.

Lemma nonneg_of_unit d : in_unit d -> nonneg d.
Proof. intros H. eapply Forall_impl; [exact H|]. intros e He. apply He. Qed.

(** The largest score of a non-empty dictionary, and the scores below it. *)
Lemma normalize_cases (v : Q) (rest : list (string * Q)) :
  let m := py_max_list v rest.*2 in
  v <= m /\ Forall (fun e => e.2 <= m) rest /\ (m = v \/ exists e, e ∈ rest /\ e.2 = m).
Proof.
  cbv zeta. destruct (py_max_list_spec v rest.*2) as (H1 & H2 & H3). split; [exact H1|].
  split.
  { apply Forall_forall. intros e He. apply (proj1 (Forall_forall _ _) H2).
    by apply list_elem_of_fmap_2. }
  destruct H3 as [H3 | H3]; [by left|]. right.
  apply list_elem_of_In, list_elem_of_fmap in H3 as (e & -> & He). by exists e.
Qed.

Lemma normalize_unit d : nonneg d -> in_unit (normalize d).
Proof.
  destruct d as [|[k v] rest]; [constructor|]. intros Hd. inversion Hd as [|? ? Hv Hrest]; subst.
  simpl. destruct (normalize_cases v rest) as (Hvm & Hle & _). qcase.
  - constructor; [simpl in *; by apply div_unit|].
    apply Forall_fmap. apply Forall_forall. intros [k' v'] Hin. simpl.
    apply div_unit; [exact (proj1 (Forall_forall _ _) Hrest _ Hin)
                   | exact (proj1 (Forall_forall _ _) Hle _ Hin) | exact Hgt].
  - constructor; [simpl in *; lra|]. apply Forall_forall. intros e Hin.
    pose proof (proj1 (Forall_forall _ _) Hrest _ Hin). pose proof (proj1 (Forall_forall _ _) Hle _ Hin).
    simpl in *. lra.
Qed.

(** Normalisation keeps the keys, and a positive score somewhere leaves a
    score of exactly 1. *)
Lemma normalize_keys d : (normalize d).*1 = d.*1.
Proof.
  destruct d as [|[k v] rest]; [done|]. unfold normalize.
  destruct (py_gt _ 0); [apply dict_keys_map | done].
Qed.

Lemma rule_based_in_unit text : in_unit (detect_emotions_rule_based text).
Proof. apply normalize_unit, dialect_scores_nonneg, nonneg_of_unit, lexicon_scores_unit. Qed.

Lemma normalize_pos d :
  nonneg d -> Exists (fun e => 0 < e.2) (normalize d) -> Exists (fun e => e.2 == 1) (normalize d).
Proof.
  destruct d as [|[k v] rest]; [intros _ H; inversion H|]. intros Hd Hex.
  inversion Hd as [|? ? Hv Hrest]; subst.
  destruct (normalize_cases v rest) as (Hvm & Hle & Hm). revert Hex. unfold normalize. qcase; intros Hex.
  - apply Exists_exists. destruct Hm as [Hm | (e & He & Hm)].
    + exists (k, v / py_max_list v rest.*2). split; [left|]. simpl. rewrite Hm in *. field. lra.
    + exists (e.1, e.2 / py_max_list v rest.*2). split.
      * right. destruct e as [k' v']. by apply (dict_map_elem (fun x => x / py_max_list v rest.*2)).
      * simpl. rewrite <- Hm in *. field. lra.
  - exfalso. apply Exists_exists in Hex as (e & [-> | Hin]%elem_of_cons & He); simpl in *; [lra|].
    pose proof (proj1 (Forall_forall _ _) Hle _ Hin). simpl in H. lra.
Qed.

(** ** The machine-learning path and the combination *)

Lemma ml_in_unit pipeline text :
  (forall p results, pipeline = Some p -> p text = Some results ->
     Forall (fun r => 0 <= r.2 <= 1) results) ->
  in_unit (detect_emotions_ml pipeline text).
Proof.
  intros Hp. unfold detect_emotions_ml. destruct pipeline as [p|]; [|constructor].
  destruct (p text) as [results|] eqn:E; [|constructor].
  specialize (Hp p results eq_refl E).
  apply (fold_left_invariant in_unit); [constructor|]. intros acc [label score] Hin H.
  apply (dict_set_Forall (fun v => 0 <= v <= 1)); [exact H|].
  exact (proj1 (List.Forall_forall _ _) Hp _ Hin).
Qed.

(** [0.7 * rule_score + 0.3 * ml_score] of one emotion. *)
Definition combined_score (rule_based ml_based : list (string * Q)) (emotion : string) : Q :=
  0.7 * default 0 (dict_get rule_based emotion) + 0.3 * default 0 (dict_get ml_based emotion).

Lemma combine_get set_iter rb ml k :
  dict_get (combine_emotion_results set_iter rb ml) k =
  if bool_decide (k ∈ set_iter (rb.*1 ++ ml.*1)%list) && (combined_score rb ml k >? 0)
  then Some (combined_score rb ml k) else None.
Proof.
  exact (dict_get_fold_set (fun e => combined_score rb ml e >? 0) (combined_score rb ml)
           (set_iter (rb.*1 ++ ml.*1)%list) [] k).
Qed.

Lemma combine_NoDup set_iter rb ml : NoDup (combine_emotion_results set_iter rb ml).*1.
Proof.
  apply (fold_left_invariant (fun d => NoDup d.*1)); [constructor|].
  intros acc e _ H. cbv beta zeta. destruct (_ >? 0); [by apply dict_set_NoDup | exact H].
Qed.

Lemma combine_in_unit set_iter rb ml :
  in_unit rb -> in_unit ml -> in_unit (combine_emotion_results set_iter rb ml).
Proof.
  intros Hr Hm. apply (fold_left_invariant in_unit); [constructor|].
  intros acc e _ H. cbv beta zeta. qcase; [|exact H].
  apply (dict_set_Forall (fun v => 0 <= v <= 1)); [exact H|].
  pose proof (get0_unit rb e Hr). pose proof (get0_unit ml e Hm). lra.
Qed.

(** ** The cultural adjustment *)

Lemma scale_get f d x k :
  dict_get (scale_if_present f d x) k =
  if bool_decide (x = k) then f <$> dict_get d k else dict_get d k.
Proof.
  unfold scale_if_present. destruct (dict_get d x) eqn:E.
  - rewrite dict_get_set. case_bool_decide; subst; [by rewrite E | done].
  - case_bool_decide; subst; [by rewrite E | done].
Qed.

Lemma scale_fold_get f l d k :
  NoDup l ->
  dict_get (fold_left (scale_if_present f) l d) k =
  if bool_decide (k ∈ l) then f <$> dict_get d k else dict_get d k.
Proof.
  intros Hl. revert d. induction Hl as [|x l Hx Hl IH]; intros d; simpl; [done|].
  rewrite IH, scale_get. destruct (decide (x = k)) as [-> | Hne].
  - rewrite (bool_decide_false (k ∈ l)), !bool_decide_true by (done || set_solver). done.
  - rewrite (bool_decide_false (x = k)) by done.
    by rewrite (bool_decide_ext (k ∈ x :: l) (k ∈ l)) by set_solver.
Qed.

Lemma boost_get d x k :
  dict_get (boost_or_seed d x) k =
  if bool_decide (x = k)
  then Some (match dict_get d x with Some v => py_min 1.0 (v + 0.2) | None => 0.3 end)
  else dict_get d k.
Proof. unfold boost_or_seed. destruct (dict_get d x); apply dict_get_set. Qed.

Lemma scale_keys f d x : (scale_if_present f d x).*1 = d.*1.
Proof.
  unfold scale_if_present. destruct (dict_get d x) eqn:E; [|done].
  rewrite dict_keys_set. unfold dict_in. by rewrite E.
Qed.

Lemma scale_in_unit f d x :
  (forall v, 0 <= v <= 1 -> 0 <= f v <= 1) -> in_unit d -> in_unit (scale_if_present f d x).
Proof.
  intros Hf Hd. unfold scale_if_present. destruct (dict_get d x) eqn:E; [|exact Hd].
  apply (dict_set_Forall (fun v => 0 <= v <= 1)); [exact Hd|].
  apply Hf. exact (dict_get_Forall (fun v => 0 <= v <= 1) d x q Hd E).
Qed.

Lemma boost_in_unit d x : in_unit d -> in_unit (boost_or_seed d x).
Proof.
  intros Hd. unfold boost_or_seed. destruct (dict_get d x) eqn:E;
    apply (dict_set_Forall (fun v => 0 <= v <= 1)); try exact Hd; cbv beta; [|lra].
  pose proof (dict_get_Forall (fun v => 0 <= v <= 1) d x q Hd E) as Hq. cbv beta in Hq.
  pose proof (py_min_le_l 1.0 (q + 0.2)). split; [apply py_min_glb|]; lra.
Qed.

Lemma adjust_in_unit text d : in_unit d -> in_unit (adjust_for_cultural_context text d).
Proof.
  intros Hd. unfold adjust_for_cultural_context. cbv zeta.
  assert (Hs : forall f l d, (forall v, 0 <= v <= 1 -> 0 <= f v <= 1) -> in_unit d ->
                 in_unit (fold_left (scale_if_present f) l d)).
  { intros f l d' Hf Hd'. apply (fold_left_invariant in_unit); [exact Hd'|].
    intros acc x _ H. by apply scale_in_unit. }
  assert (Hd1 : in_unit (if has_islamic_expression (lower text) then
      boost_or_seed (boost_or_seed (fold_left (scale_if_present (fun v => v * 0.8))
        negative_emotions d) "hope") "gratitude" else d)).
  { destruct (has_islamic_expression _); [|exact Hd].
    apply boost_in_unit, boost_in_unit, Hs; [intros v Hv; lra | exact Hd]. }
  destruct (has_family_context _); [|exact Hd1]. apply Hs; [|exact Hd1].
  intros v Hv. pose proof (py_min_le_l 1.0 (v * 1.2)). split; [apply py_min_glb|]; lra.
Qed.

Lemma boost_keys d x k : k ∈ d.*1 -> k ∈ (boost_or_seed d x).*1.
Proof. intros Hk. unfold boost_or_seed. destruct (dict_get d x); apply dict_keys_set_elem; by left. Qed.

Lemma adjust_keys text d k : k ∈ d.*1 -> k ∈ (adjust_for_cultural_context text d).*1.
Proof.
  intros Hk. unfold adjust_for_cultural_context. cbv zeta.
  assert (Hs : forall f l d, (fold_left (scale_if_present f) l d).*1 = d.*1).
  { intros f l d'. apply (fold_left_invariant (fun e => e.*1 = d'.*1)); [done|].
    intros acc x _ H. by rewrite scale_keys. }
  assert (Hk1 : k ∈ (if has_islamic_expression (lower text) then
      boost_or_seed (boost_or_seed (fold_left (scale_if_present (fun v => v * 0.8))
        negative_emotions d) "hope") "gratitude" else d).*1).
  { destruct (has_islamic_expression _); [|exact Hk]. apply boost_keys, boost_keys. by rewrite Hs. }
  destruct (has_family_context _); [by rewrite Hs | exact Hk1].
Qed.

Lemma dialect_keys t d k : k ∈ d.*1 \/ k ∈ omani_patterns.*1 -> k ∈ (dialect_scores t d).*1.
Proof.
  apply (fold_keys_grow (dialect_step t) fst). intros acc [e pats] k' Hk'. unfold dialect_step.
  apply (fold_left_invariant (fun d => k' ∈ d.*1)).
  - destruct (dict_in e acc) eqn:E; [|by apply dict_keys_set_elem].
    destruct Hk' as [Hk' | ->]; [exact Hk' | by apply dict_in_elem].
  - intros acc' p _ H. destruct (str_in _ _); [apply dict_keys_set_elem; by left | exact H].
Qed.

Lemma keyword_score_gen t kws acc :
  0 <= acc -> Forall (fun kw => kw <> EmptyString) kws ->
  (0 < fold_left (fun score keyword =>
         score + inject_Z (Z.of_nat (str_count (lower keyword) t)) * 0.3) kws acc <->
   0 < acc \/ Exists (fun kw => str_in (lower kw) t = true) kws).
Proof.
  revert acc. induction kws as [|kw kws IH]; intros acc Hacc Hne; simpl.
  - split; [by left | intros [H | H]; [exact H | inversion H]].
  - inversion Hne as [|? ? Hkw Hkws]; subst.
    pose proof (inject_nat_nonneg (str_count (lower kw) t)) as Hn.
    rewrite IH by (lra || exact Hkws). rewrite Exists_cons.
    destruct (str_in (lower kw) t) eqn:Ein.
    + assert (Hc : str_count (lower kw) t <> O).
      { intros H0. apply (str_count_zero_iff _ _ (lower_nonempty _ Hkw)) in H0. congruence. }
      assert (0 < inject_Z (Z.of_nat (str_count (lower kw) t))) by (unfold Qlt; simpl; lia).
      split; [intros _; right; by left | intros _; left; lra].
    + rewrite (proj2 (str_count_zero_iff _ _ (lower_nonempty _ Hkw)) Ein).
      assert (Hz : forall q, q + inject_Z (Z.of_nat 0) * 0.3 == q).
      { intros q. change (inject_Z (Z.of_nat 0)) with 0. ring. }
      rewrite Hz. split.
      * intros [H | H]; [by left | by right; right].
      * intros [H | [H | H]]; [by left | discriminate | by right].
Qed.

(** ** Properties of the detector *)

(** The lexicon score of an emotion is positive exactly when one of its
    keywords occurs in the lower-cased text. *)
Lemma keyword_score_pos t kws :
  Forall (fun kw => kw <> EmptyString) kws ->
  0 < keyword_score t kws <-> Exists (fun kw => str_in (lower kw) t = true) kws.
Proof.
  intros H. unfold keyword_score. rewrite keyword_score_gen; [|lra | exact H].
  split; [intros [H1 | H1]; [lra | exact H1] | by right].
Qed.

(** Normalisation: when the rule-based detector reports a positive score,
    the largest score is exactly 1. *)
Lemma rule_based_has_one text :
  Exists (fun e => 0 < e.2) (detect_emotions_rule_based text) ->
  Exists (fun e => e.2 == 1) (detect_emotions_rule_based text).
Proof. apply normalize_pos, dialect_scores_nonneg, nonneg_of_unit, lexicon_scores_unit. Qed.

(** The combined scores do not depend on the order in which Python
    iterates the set of emotions: any two iteration orders give the same
    entries, as a permutation of one another. *)
Lemma combine_order_independent it1 it2 rb ml :
  set_iter_ok it1 -> set_iter_ok it2 ->
  Permutation (combine_emotion_results it1 rb ml) (combine_emotion_results it2 rb ml).
Proof.
  intros H1 H2. apply dict_perm; [apply combine_NoDup | apply combine_NoDup|].
  intros k. rewrite !combine_get.
  set (l := (rb.*1 ++ ml.*1)%list).
  rewrite (bool_decide_ext (k ∈ it1 l) (k ∈ it2 l)); [done|].
  rewrite (proj2 (H1 l)), (proj2 (H2 l)). reflexivity.
Qed.

(** What the cultural adjustment does to the score of one key. *)
Definition adjust_value (islamic family : bool) (k : string) (o : option Q) : option Q :=
  let o :=
    if islamic then
      if bool_decide (k ∈ negative_emotions) then (fun v => v * 0.8) <$> o
      else if bool_decide (k ∈ ["hope"; "gratitude"]) then
        Some (match o with Some v => py_min 1.0 (v + 0.2) | None => 0.3 end)
      else o
    else o in
  if family && bool_decide (k ∈ family_emotions) then (fun v => py_min 1.0 (v * 1.2)) <$> o else o.

(** C11: The cultural adjustment acts key by key: with an Islamic expression
    the negative emotions are scaled by 0.8 and hope and gratitude raised
    by 0.2 (at most 1) or seeded at 0.3; with a family word sadness,
    anxiety and worry are then scaled by 1.2 (at most 1); every other key
    keeps its score. *)
Lemma adjust_pointwise text d k :
  dict_get (adjust_for_cultural_context text d) k =
  adjust_value (has_islamic_expression (lower text)) (has_family_context (lower text)) k
    (dict_get d k).
Proof.
  assert (Hn : NoDup negative_emotions) by decide_true.
  assert (Hf : NoDup family_emotions) by decide_true.
  unfold adjust_for_cultural_context, adjust_value. cbv zeta.
  destruct (has_islamic_expression _), (has_family_context _); cbn [andb];
    rewrite ?scale_fold_get, ?boost_get, ?scale_fold_get by done; try reflexivity;
    unfold negative_emotions, family_emotions in *;
    repeat case_bool_decide; subst; try done; set_solver.
Qed.

(** Every score [detect_emotions] returns lies in [0, 1], provided the
    model's scores do. *)
Lemma detect_emotions_unit det set_iter text :
  (forall p results, emotion_pipeline det = Some p -> p text = Some results ->
     Forall (fun r => 0 <= r.2 <= 1) results) ->
  Forall (fun e => 0 <= e.2 <= 1) (detect_emotions det set_iter text).
Proof.
  intros Hp. unfold detect_emotions. destruct (is_blank text); [constructor|].
  apply adjust_in_unit. destruct (use_ml det && _).
  - apply combine_in_unit; [apply rule_based_in_unit | by apply ml_in_unit].
  - apply rule_based_in_unit.
Qed.

(** Text made only of whitespace characters has no emotion at all. *)
Lemma detect_emotions_whitespace det set_iter ws :
  Forall (fun w => w ∈ py_whitespace) ws -> detect_emotions det set_iter (str_concat ws) = [].
Proof.
  intros H. unfold detect_emotions. rewrite is_blank_whitespace; [done|].
  eapply Forall_impl; [exact H|]. intros w Hw. by apply list_elem_of_In.
Qed.

(** Without the model, every other text gets an entry for each of the five
    dialect emotions, with score 0 when nothing matched. *)
Lemma detect_dialect_keys det set_iter text e :
  is_blank text = false -> use_ml det = false -> e ∈ omani_patterns.*1 ->
  e ∈ (detect_emotions det set_iter text).*1.
Proof.
  intros Hb Hml He. unfold detect_emotions. rewrite Hb, Hml, andb_false_l. cbv beta iota zeta.
  apply adjust_keys. unfold detect_emotions_rule_based. rewrite normalize_keys.
  apply dialect_keys. by right.
Qed.

(** ** Sample inputs *)

(** A model answer with scores in [0, 1], labels as the model spells them. *)
Definition sample_pipeline : Pipeline :=
  fun _ => Some [("Sadness", 0.9); ("disgust", 0.05); ("joy", 0.05)].

(** Two iterations of a set: first occurrences in order, and reversed. *)
Definition dedup_iter (l : list string) : list string := remove_dups l.
Definition rev_dedup_iter (l : list string) : list string := reverse (remove_dups l).

Lemma dedup_iter_ok : set_iter_ok dedup_iter.
Proof. intros l. split; [apply NoDup_remove_dups | intros x; apply elem_of_remove_dups]. Qed.

Lemma rev_dedup_iter_ok : set_iter_ok rev_dedup_iter.
Proof.
  intros l. unfold rev_dedup_iter. split.
  - rewrite reverse_Permutation. apply NoDup_remove_dups.
  - intros x. rewrite reverse_Permutation. apply elem_of_remove_dups.
Qed.

Lemma keyword_score_pos_witness :
  0 < keyword_score "أنا حزين" ["حزين"; "مكتئب"] <->
  Exists (fun kw => str_in (lower kw) "أنا حزين" = true) ["حزين"; "مكتئب"].
Proof. apply keyword_score_pos. decide_true. Defined.

Lemma rule_based_has_one_witness :
  Exists (fun e => e.2 == 1) (detect_emotions_rule_based "أنا حزين").
Proof. apply rule_based_has_one. vm_compute. constructor. reflexivity. Defined.

Lemma combine_order_independent_witness :
  Permutation (combine_emotion_results dedup_iter [("joy", 1); ("sadness", 0.5)] [("fear", 0.2)])
              (combine_emotion_results rev_dedup_iter [("joy", 1); ("sadness", 0.5)] [("fear", 0.2)]).
Proof. apply combine_order_independent; [apply dedup_iter_ok | apply rev_dedup_iter_ok]. Defined.

Lemma detect_emotions_unit_witness :
  Forall (fun e => 0 <= e.2 <= 1)
    (detect_emotions (EmotionDetector_init true true (Some sample_pipeline)) dedup_iter "أنا حزين والحمد لله").
Proof.
  apply detect_emotions_unit. intros p results [= <-] Hr. injection Hr as <-.
  repeat constructor; simpl; lra.
Defined.

Lemma detect_emotions_whitespace_witness :
  detect_emotions (EmotionDetector_init false false None) dedup_iter
    (str_concat [bytes_str [32%nat]; bytes_str [194%nat; 160%nat]; bytes_str [227%nat; 128%nat; 128%nat]]) = [].
Proof. apply detect_emotions_whitespace. decide_true. Defined.

Lemma detect_dialect_keys_witness :
  "joy" ∈ (detect_emotions (EmotionDetector_init false false None) dedup_iter "hello").*1.
Proof. apply detect_dialect_keys; [reflexivity | reflexivity | decide_true]. Defined.

End Emotion.
