(* ===== verification/EmotionSummary.v ===== *)
(** The two read-outs of an emotion dictionary: [get_dominant_emotion]
    and [get_emotion_summary] ([emotion/detector.py] lines 348-402).

    [max(d.items(), key=...)] keeps the first entry that no later entry
    exceeds; [sorted(d.items(), key=..., reverse=True)] is stable, so an
    entry stays behind every earlier entry with the same score.  Both
    resolve ties by the insertion order of the dictionary.  The sort is
    modelled as the insertion sort that has this behaviour, and the
    theorems show it is a stable sort by decreasing score whose head is
    the dominant emotion. *)

From Stdlib Require Import Sorted.
From S2P Require Import Prelude Text PyDict EmotionTables Emotion.
Import PyStr PyDict EmotionTables.

Local Open Scope string_scope.
Local Open Scope Q_scope.

Module EmotionSummary.

(** One step of [max]: a later entry wins only with a greater score. *)
Definition best (b e : string * Q) : string * Q := if e.2 >? b.2 then e else b.

(** [get_dominant_emotion] (lines 348-361) *)
Definition get_dominant_emotion (emotions : list (string * Q)) : option string :=
  match emotions with
  | [] => None
  | e :: rest => Some (fold_left best rest e).1
  end.

(** An entry goes in front of the first entry with a smaller score. *)
Fixpoint insert_desc (x : string * Q) (l : list (string * Q)) : list (string * Q) :=
  match l with
  | [] => [x]
  | y :: l' => if py_lt y.2 x.2 then x :: l else y :: insert_desc x l'
  end.

(** [sorted(emotions.items(), key=lambda x: x[1], reverse=True)] *)
Definition sort_desc (l : list (string * Q)) : list (string * Q) :=
  fold_left (fun acc x => insert_desc x acc) l [].

(** [emotion_names.get(e, e)] *)
Definition emotion_name (e : string) : string := default e (dict_get emotion_names e).

Definition no_emotion_message : string := "لم يتم اكتشاف مشاعر واضحة".
Definition dominant_prefix : string := "المشاعر السائدة: ".
Definition secondary_infix : string := " مع ".

(** [get_emotion_summary] (lines 363-402).  The sorted list of a
    non-empty dictionary is not empty; its [sorted_emotions[0]] cannot
    raise. *)
Definition get_emotion_summary (emotions : list (string * Q)) : string :=
  match emotions with
  | [] => no_emotion_message
  | _ :: _ =>
      match sort_desc emotions with
      | [] => no_emotion_message
      | dominant :: rest =>
          let summary := dominant_prefix ++ emotion_name dominant.1 in
          match rest with
          | secondary :: _ =>
              if secondary.2 >? 0.3 then summary ++ secondary_infix ++ emotion_name secondary.1
              else summary
          | [] => summary
          end
      end
  end.


(** ** The sort *)

Definition desc (x y : string * Q) : Prop := y.2 <= x.2.

(** [e] has score [q] for Python's [==] on floats. *)
Definition same_score (q : Q) (e : string * Q) : bool := Qeq_bool e.2 q.

Lemma insert_desc_perm x l : Permutation (insert_desc x l) (x :: l).
Proof.
  induction l as [|y l IH]; simpl; [done|].
  destruct (py_lt _ _); [done|]. rewrite IH. apply perm_swap.
Qed.

Lemma insert_desc_sorted x l : StronglySorted desc l -> StronglySorted desc (insert_desc x l).
Proof.
  induction 1 as [|y l Hl IH Hy]; simpl; [by repeat constructor|].
  unfold desc in *. qcase.
  - constructor; [by constructor|]. constructor; [lra|].
    eapply Forall_impl; [exact Hy|]. simpl. intros z Hz. lra.
  - constructor; [exact IH|]. apply List.Forall_forall. intros z Hz.
    apply (Permutation_in _ (insert_desc_perm x l)) in Hz as [<- | Hz]; [lra|].
    exact (proj1 (List.Forall_forall _ _) Hy z Hz).
Qed.

Lemma filter_cons_b (p : string * Q -> bool) x l :
  List.filter p (x :: l) = ((if p x then [x] else []) ++ List.filter p l)%list.
Proof. simpl. by destruct (p x). Qed.

Lemma filter_same_score_nil q l :
  Forall (fun z => z.2 < q) l -> List.filter (same_score q) l = [].
Proof.
  induction 1 as [|z l Hz _ IH]; [done|]. rewrite filter_cons_b, IH.
  unfold same_score. destruct (Qeq_bool z.2 q) eqn:E; [|done].
  apply Qeq_bool_iff in E. lra.
Qed.

Lemma filter_insert_desc q x l :
  StronglySorted desc l ->
  List.filter (same_score q) (insert_desc x l) =
  (List.filter (same_score q) l ++ List.filter (same_score q) [x])%list.
Proof.
  induction 1 as [|y l Hl IH Hy]; [done|]. cbn [insert_desc]. qcase.
  - rewrite (filter_cons_b _ x (y :: l)), (filter_cons_b _ x []), app_nil_r.
    destruct (same_score q x) eqn:Ex; [|by rewrite app_nil_r].
    rewrite filter_same_score_nil; [done|]. unfold same_score in Ex.
    apply Qeq_bool_iff in Ex. constructor; [lra|].
    eapply Forall_impl; [exact Hy|]. unfold desc. simpl. intros z Hz. lra.
  - rewrite !(filter_cons_b _ y), IH. by rewrite app_assoc.
Qed.

Lemma sort_desc_gen l acc :
  StronglySorted desc acc ->
  let r := fold_left (fun acc x => insert_desc x acc) l acc in
  Permutation r (acc ++ l) /\ StronglySorted desc r /\
  forall q, List.filter (same_score q) r =
            (List.filter (same_score q) acc ++ List.filter (same_score q) l)%list.
Proof.
  revert acc. induction l as [|x l IH]; intros acc Hacc; simpl.
  - rewrite app_nil_r. split; [done|]. split; [done|]. intros q. by rewrite app_nil_r.
  - destruct (IH (insert_desc x acc)) as (Hp & Hs & Hf); [by apply insert_desc_sorted|].
    split; [|split; [exact Hs|]].
    + rewrite Hp, insert_desc_perm. simpl. apply Permutation_middle.
    + intros q. rewrite Hf, filter_insert_desc by done. rewrite <- app_assoc.
      f_equal. rewrite (filter_cons_b _ x []), app_nil_r. symmetry. apply filter_cons_b.
Qed.

(** ** The dominant emotion *)

Lemma head_insert_desc x l y : head l = Some y -> head (insert_desc x l) = Some (best y x).
Proof.
  destruct l as [|y' l]; [discriminate|]. intros [= ->]. simpl.
  unfold best, py_lt, py_gt. by destruct (Qle_bool x.2 y.2).
Qed.

Lemma head_sort_gen l acc y :
  head acc = Some y ->
  head (fold_left (fun acc x => insert_desc x acc) l acc) = Some (fold_left best l y).
Proof.
  revert acc y. induction l as [|x l IH]; intros acc y Hy; [exact Hy|].
  simpl. apply IH. by apply head_insert_desc.
Qed.

(** The running [max] is the first entry that no later one exceeds. *)
Lemma fold_best_spec l b :
  let r := fold_left best l b in
  (r = b /\ Forall (fun e => e.2 <= b.2) l) \/
  (exists pre post, l = (pre ++ r :: post)%list /\ b.2 < r.2 /\
     Forall (fun e => e.2 < r.2) pre /\ Forall (fun e => e.2 <= r.2) post).
Proof.
  revert b. induction l as [|x l IH]; intros b; simpl; [by left|].
  change (best b x) with (if py_gt x.2 b.2 then x else b). qcase; simpl.
  - destruct (IH x) as [[-> Hl] | (pre & post & Hl & Hx & Hpre & Hpost)]; right.
    + exists [], l. split; [done|]. split; [lra|]. split; [constructor | done].
    + exists (x :: pre), post. split; [simpl; f_equal; exact Hl|]. split; [lra|].
      split; [constructor; [simpl; lra | done] | done].
  - destruct (IH b) as [[-> Hl] | (pre & post & Hl & Hb & Hpre & Hpost)].
    + left. split; [done | by constructor].
    + right. exists (x :: pre), post. split; [simpl; f_equal; exact Hl|]. split; [lra|].
      split; [constructor; [simpl; lra | done] | done].
Qed.

Lemma head_sort_desc l : fst <$> head (sort_desc l) = get_dominant_emotion l.
Proof. destruct l as [|e l]; [done|]. unfold sort_desc. simpl. by rewrite (head_sort_gen l [e] e). Qed.

(** ** Properties of the read-outs *)

(** [sorted(d.items(), key=lambda x: x[1], reverse=True)] is a stable sort
    by decreasing score: a permutation of the entries, each score at least
    the scores after it, and the entries of any one score in dictionary
    order. *)
Lemma sort_desc_stable l :
  Permutation (sort_desc l) l /\ StronglySorted desc (sort_desc l) /\
  forall q, List.filter (same_score q) (sort_desc l) = List.filter (same_score q) l.
Proof.
  destruct (sort_desc_gen l [] (SSorted_nil _)) as (Hp & Hs & Hf).
  split; [exact Hp | split; [exact Hs | exact Hf]].
Qed.

(** An entry no later entry exceeds stays the running [max]. *)
Lemma fold_best_le l b : Forall (fun e => e.2 <= b.2) l -> fold_left best l b = b.
Proof.
  induction 1 as [|x l Hx _ IH]; [done|]. simpl.
  change (best b x) with (if py_gt x.2 b.2 then x else b). qcase; [lra | exact IH].
Qed.

(** The first entry of maximal score becomes the running [max], from any
    start below it. *)
Lemma fold_best_first pre post b k v :
  b.2 < v -> Forall (fun e => e.2 < v) pre -> Forall (fun e => e.2 <= v) post ->
  fold_left best (pre ++ (k, v) :: post)%list b = (k, v).
Proof.
  intros Hb Hpre Hpost. revert b Hb. induction Hpre as [|x pre Hx _ IH]; intros b Hb; simpl.
  - change (best b (k, v)) with (if py_gt v b.2 then (k, v) else b). qcase; [|lra].
    by apply fold_best_le.
  - change (best b x) with (if py_gt x.2 b.2 then x else b). qcase; apply IH; lra.
Qed.

(** C12: [get_dominant_emotion] returns the key of the first entry of
    maximal score in the dictionary's order: every earlier score is
    smaller and no later one is greater.  So between tied emotions the
    one inserted first wins, and with the model on the detector inserts
    them in the iteration order of a Python set, which the interpreter
    salts per process. *)
Theorem dominant_first_max l k :
  get_dominant_emotion l = Some k <->
  exists v pre post, l = (pre ++ (k, v) :: post)%list /\
    Forall (fun e => e.2 < v) pre /\ Forall (fun e => e.2 <= v) post.
Proof.
  split.
  - destruct l as [|e l]; [discriminate|]. simpl. intros Hk.
    pose proof (fold_best_spec l e) as H. simpl in H.
    destruct (fold_left best l e) as [k' v] eqn:E. injection Hk as <-.
    destruct H as [[<- Hl] | (pre & post & Hl & Hb & Hpre & Hpost)].
    + exists v, [], l. split; [done|]. split; [constructor | exact Hl].
    + exists v, (e :: pre), post. split; [simpl; by f_equal|].
      split; [constructor; [simpl in *; lra | exact Hpre] | exact Hpost].
  - intros (v & pre & post & -> & Hpre & Hpost).
    destruct pre as [|e pre]; simpl.
    + by rewrite fold_best_le.
    + inversion Hpre as [|? ? He Hpre']; subst. by rewrite (fold_best_first pre post e k v He Hpre' Hpost).
Qed.

(** The summary of a non-empty dictionary starts with the Arabic name of
    the emotion [get_dominant_emotion] returns. *)
Lemma summary_names_dominant l k :
  get_dominant_emotion l = Some k ->
  exists rest, get_emotion_summary l = (dominant_prefix ++ emotion_name k) ++ rest.
Proof.
  intros Hk. pose proof (head_sort_desc l) as Hh. rewrite Hk in Hh.
  destruct l as [|e l]; [discriminate|]. unfold get_emotion_summary.
  destruct (sort_desc (e :: l)) as [|d rest]; [discriminate|]. injection Hh as <-.
  destruct rest as [|s rest]; [exists EmptyString; by rewrite str_app_nil_r|].
  destruct (py_gt s.2 0.3); [eexists; reflexivity | exists EmptyString; by rewrite str_app_nil_r].
Qed.

Lemma dominant_first_max_witness :
  exists v pre post, [("joy", 0.5); ("sadness", 0.8); ("fear", 0.8)] =
    (pre ++ ("sadness", v) :: post)%list /\
    Forall (fun e => e.2 < v) pre /\ Forall (fun e => e.2 <= v) post.
Proof. apply dominant_first_max. vm_compute. reflexivity. Defined.

Lemma summary_names_dominant_witness :
  exists rest, get_emotion_summary [("joy", 0.5); ("sadness", 0.8); ("fear", 0.8)] =
    (dominant_prefix ++ emotion_name "sadness") ++ rest.
Proof. apply summary_names_dominant. vm_compute. reflexivity. Defined.

End EmotionSummary.
