(* ===== verification/AzureLLM.v ===== *)
(** The Azure OpenAI client of [llm/openai_client.py]
    ([AzureOmaniTherapistLLM]): its configuration, the system prompt and its
    enrichment with the turn's context, the messages it sends, and the
    conversation history it keeps across turns.

    The HTTP exchange is a parameter: a [Transport] maps the messages of
    the request to the contents of the [choices] of the answer, or to
    [None] when the request, [raise_for_status] or the decoding raises.
    [datetime.now().isoformat()] is the argument [now]; the environment
    variables are the arguments of [AzureOmaniTherapistLLM_init] ([None] when unset).  Python
    dictionaries of the context become records whose absent keys are
    [None] or empty; a [None] crisis level is the empty string (both are
    false in Python). *)

From Stdlib Require Import Ascii.
From S2P Require Import Prelude Text StrOps PyDict.
Import PyStr PyStrOps PyDict.

Local Open Scope string_scope.

Module AzureLLM.

(** [_build_omani_therapeutic_prompt], lines 46-91; the quotes of the
    source text are [dq]. *)
Definition omani_therapeutic_prompt : string :=
  "أنت مساعد علاجي متخصص في الثقافة العمانية والقيم الإسلامية. مهمتك هي تقديم الدعم النفسي والعلاجي باللغة العربية مع مراعاة:

## الهوية والدور:
- أنت مستشار نفسي مختص في الثقافة العمانية
- تتكلم باللهجة العمانية والعربية الفصحى المبسطة
- تراعي القيم الإسلامية والتقاليد العمانية
- تقدم الدعم النفسي المهني مع الحساسية الثقافية

## المبادئ الأساسية:
1. **الاحترام الثقافي**: احترم القيم والتقاليد العمانية
2. **القيم الإسلامية**: ادمج المفاهيم الإسلامية بطريقة علاجية
3. **الخصوصية**: حافظ على السرية المطلقة
4. **عدم الحكم**: لا تحكم على الشخص أو تنتقده
5. **التمكين**: ساعد الشخص على إيجاد الحلول بنفسه

## الأسلوب العلاجي:
- استخدم العلاج المعرفي السلوكي مع التكيف الثقافي
- اربط الحلول بالقيم الدينية والثقافية
- استخدم التعزيز الإيجابي والتشجيع
- قدم استراتيجيات عملية قابلة للتطبيق

## التعامل مع الحساسيات:
- **الشرف والسمعة**: تعامل بحذر شديد
- **العلاقات الأسرية**: أكد على أهمية الأسرة
- **الدين**: استخدم المفاهيم الإسلامية بإيجابية
- **الجنس**: تجنب المواضيع الحساسة إلا عند الضرورة

## اللغة والتواصل:
- استخدم اللهجة العمانية المناسبة
- ابدأ بالسلام والتحية الإسلامية
- استخدم كلمات مطمئنة ومشجعة
- تجنب المصطلحات الطبية المعقدة

## الكلمات المفتاحية العمانية:
- التحية: " ++ dq ++
  "السلام عليكم" ++ dq ++
  "، " ++ dq ++
  "أهلاً وسهلاً" ++ dq ++
  "، " ++ dq ++
  "حياك الله" ++ dq ++
  "
- التشجيع: " ++ dq ++
  "الله يعطيك العافية" ++ dq ++
  "، " ++ dq ++
  "إن شاء الله بخير" ++ dq ++
  "
- التطمين: " ++ dq ++
  "الحمد لله" ++ dq ++
  "، " ++ dq ++
  "الله كريم" ++ dq ++
  "، " ++ dq ++
  "ربنا معك" ++ dq ++
  "

تذكر: أنت هنا لتقديم الدعم والمساعدة، وليس لتقديم النصائح الطبية أو الدينية المتخصصة.".

Record Message := mkMessage { role : string; content : string }.

(** [context["cultural_analysis"]]: an absent key is the empty value. *)
Record CulturalAnalysis := mkCultural {
  sensitivity_level : string;
  categories : list string;
  guidance : list (string * string)
}.

(** The context dictionary: [None] for an absent key. *)
Record Context := mkContext {
  ctx_emotions : option (list string);
  ctx_cultural : option CulturalAnalysis;
  ctx_crisis_level : option string
}.

Definition emotional_header : string := "

## السياق العاطفي:
الشخص يشعر بـ: ".
Definition sensitivity_header : string := "

## الحساسية الثقافية:
مستوى الحساسية: ".
Definition categories_header : string := "
الفئات الثقافية: ".
Definition guidance_header : string := "

## التوجيه:
".
Definition alert_header : string := "

## تنبيه:
مستوى الأزمة: ".
Definition alert_suffix : string := " - تعامل بحذر إضافي".

(** The cultural part of [_enhance_prompt_with_context] (lines 197-208). *)
Definition enhance_cultural (enhanced_prompt : string) (cultural : CulturalAnalysis) : string :=
  let enhanced_prompt :=
    if bool_decide (sensitivity_level cultural <> EmptyString)
    then enhanced_prompt ++ sensitivity_header ++ sensitivity_level cultural
    else enhanced_prompt in
  let enhanced_prompt :=
    match categories cultural with
    | [] => enhanced_prompt
    | cats => enhanced_prompt ++ categories_header ++ py_join ", " cats
    end in
  match guidance cultural with
  | [] => enhanced_prompt
  | g => match dict_get g "approach" with
         | Some a => enhanced_prompt ++ guidance_header ++ a
         | None => enhanced_prompt
         end
  end.

(** [_enhance_prompt_with_context], lines 178-216. *)
Definition enhance_prompt_with_context (system_prompt : string) (context : option Context) : string :=
  let enhanced_prompt := system_prompt in
  match context with
  | None => enhanced_prompt
  | Some ctx =>
      let enhanced_prompt :=
        match ctx_emotions ctx with
        | Some emotions => enhanced_prompt ++ emotional_header ++ py_join ", " emotions
        | None => enhanced_prompt
        end in
      let enhanced_prompt :=
        match ctx_cultural ctx with
        | Some cultural => enhance_cultural enhanced_prompt cultural
        | None => enhanced_prompt
        end in
      match ctx_crisis_level ctx with
      | Some crisis_level =>
          if bool_decide (crisis_level <> EmptyString) && negb (String.eqb crisis_level "low")
          then enhanced_prompt ++ alert_header ++ crisis_level ++ alert_suffix
          else enhanced_prompt
      | None => enhanced_prompt
      end
  end.

Record LLMState := mkLLM {
  deployment : string;
  api_url : string;
  system_prompt : string;
  conversation_history : list Message
}.

(** [__init__], lines 13-44: [os.getenv] of the four variables, with the
    defaults of the deployment and the API version; [None] is the
    [ValueError] raised when a required value is missing or empty. *)
Definition AzureOmaniTherapistLLM_init (api_key endpoint deployment_env api_version_env : option string) : option LLMState :=
  let dep := default "gpt-4o" deployment_env in
  let version := default "2025-01-01-preview" api_version_env in
  match api_key, endpoint with
  | Some key, Some ep =>
      if bool_decide (key <> EmptyString) && bool_decide (ep <> EmptyString) && bool_decide (dep <> EmptyString)
      then Some (mkLLM dep (ep ++ "/openai/deployments/" ++ dep ++ "/chat/completions?api-version=" ++ version)
                       omani_therapeutic_prompt [])
      else None
  | _, _ => None
  end.

(** [create_azure_omani_llm()], lines 256-263: the constructor reads
    the four variables of [os.getenv] ([env]). *)
Definition create_azure_omani_llm (env : string -> option string) : option LLMState :=
  AzureOmaniTherapistLLM_init (env "AZURE_OPENAI_API_KEY") (env "AZURE_OPENAI_ENDPOINT")
    (env "AZURE_OPENAI_DEPLOYMENT") (env "AZURE_OPENAI_API_VERSION").

(** The request's messages (lines 115-123): the system prompt, the last
    10 messages of the history when there is one, the user's message. *)
Definition build_messages (history : list Message) (enhanced_prompt user_message : string) : list Message :=
  let messages := [mkMessage "system" enhanced_prompt; mkMessage "user" user_message] in
  match history with
  | [] => messages
  | _ :: _ => [mkMessage "system" enhanced_prompt] ++ lastn 10 history ++ [mkMessage "user" user_message]
  end.

Definition Transport := list Message -> option (list string).

Inductive Reply :=
| ReplySuccess (response : string) (session_id : option string) (timestamp : string)
    (model : string) (context_used : bool)
| ReplyError (response : string) (session_id : option string) (timestamp : string).

Definition error_response : string := "عذراً، حدث خطأ في النظام. يرجى المحاولة مرة أخرى.".

(** [generate_therapeutic_response], lines 93-176: on success the history
    gets the user's message and the answer; every exception, and an answer
    without choices, gives the error reply and leaves the history alone. *)
Definition generate_therapeutic_response (st : LLMState) (post : Transport) (user_message : string)
    (context : option Context) (session_id : option string) (now : string) : Reply * LLMState :=
  let enhanced_prompt := enhance_prompt_with_context (system_prompt st) context in
  let messages := build_messages (conversation_history st) enhanced_prompt user_message in
  match post messages with
  | Some (therapeutic_response :: _) =>
      (ReplySuccess therapeutic_response session_id now (deployment st) (bool_decide (is_Some context)),
       mkLLM (deployment st) (api_url st) (system_prompt st)
             (conversation_history st ++ [mkMessage "user" user_message;
                                          mkMessage "assistant" therapeutic_response]))
  | _ => (ReplyError error_response session_id now, st)
  end.

(** [generate_therapeutic_response_sync], lines 218-234: a fresh event
    loop runs the coroutine to completion and is closed; the coroutine
    catches every exception, so the reply and the state are its own. *)
Definition generate_therapeutic_response_sync (st : LLMState) (post : Transport) (user_message : string)
    (context : option Context) (session_id : option string) (now : string) : Reply * LLMState :=
  generate_therapeutic_response st post user_message context session_id now.

(** [clear_conversation_history], lines 236-239. *)
Definition clear_conversation_history (st : LLMState) : LLMState :=
  mkLLM (deployment st) (api_url st) (system_prompt st) [].

(** [get_conversation_summary], lines 241-253. *)
Record ConversationSummary := mkSummary {
  total_messages : nat;
  user_messages : nat;
  assistant_messages : nat;
  last_interaction : option Message
}.

Definition get_conversation_summary (st : LLMState) : ConversationSummary :=
  let h := conversation_history st in
  mkSummary (length h)
    (length (List.filter (fun msg => String.eqb (role msg) "user") h))
    (length (List.filter (fun msg => String.eqb (role msg) "assistant") h))
    (last h).

(** ** The conversation history *)

(** One exchange: the user's message followed by the answer. *)
Definition exchange (u a : string) : list Message := [mkMessage "user" u; mkMessage "assistant" a].

Definition exchanges (ps : list (string * string)) : list Message :=
  concat (map (fun '(u, a) => exchange u a) ps).

(** The history is a sequence of exchanges. *)
Definition paired (h : list Message) : Prop := exists ps, h = exchanges ps.

Inductive client_reachable : LLMState -> Prop :=
| client_reachable_init key ep dep ver st : AzureOmaniTherapistLLM_init key ep dep ver = Some st -> client_reachable st
| client_reachable_turn st post msg ctx sid now :
    client_reachable st -> client_reachable (generate_therapeutic_response st post msg ctx sid now).2
| client_reachable_clear st : client_reachable st -> client_reachable (clear_conversation_history st).

Lemma exchanges_app ps qs : exchanges (ps ++ qs)%list = (exchanges ps ++ exchanges qs)%list.
Proof. unfold exchanges. by rewrite map_app, concat_app. Qed.

Lemma length_exchanges ps : length (exchanges ps) = 2 * length ps.
Proof. induction ps as [|[u a] ps IH]; [done|]. simpl. unfold exchanges in IH. rewrite IH. lia. Qed.

Lemma drop_exchanges j ps : drop (2 * j) (exchanges ps) = exchanges (drop j ps).
Proof.
  revert j. induction ps as [|[u a] ps IH]; intros j; [unfold exchanges; simpl; by rewrite !drop_nil|].
  destruct j as [|j]; [done|]. replace (2 * S j) with (S (S (2 * j))) by lia. apply IH.
Qed.

(** The last 10 messages of a sequence of exchanges are the last 5
    exchanges. *)
Lemma lastn_exchanges ps : lastn 10 (exchanges ps) = exchanges (lastn 5 ps).
Proof.
  unfold lastn. rewrite length_exchanges.
  replace (2 * length ps - 10) with (2 * (length ps - 5)) by lia. apply drop_exchanges.
Qed.

Lemma generate_cases st post msg ctx sid now :
  (exists r, (generate_therapeutic_response st post msg ctx sid now).2 =
     mkLLM (deployment st) (api_url st) (system_prompt st) (conversation_history st ++ exchange msg r)%list) \/
  (generate_therapeutic_response st post msg ctx sid now).2 = st.
Proof.
  unfold generate_therapeutic_response. cbv zeta.
  destruct (post _) as [[|r rs]|]; [by right | left; by exists r | by right].
Qed.

Lemma count_role_exchanges r ps :
  r = "user" \/ r = "assistant" ->
  length (List.filter (fun msg => String.eqb (role msg) r) (exchanges ps)) = length ps.
Proof.
  intros Hr. induction ps as [|[u a] ps IH]; [done|]. unfold exchanges in *. simpl.
  destruct Hr as [-> | ->]; simpl; rewrite IH; reflexivity.
Qed.

Lemma last_exchanges ps :
  last (exchanges ps) = (fun '(u, a) => mkMessage "assistant" a) <$> last ps.
Proof.
  induction ps as [|[u a] ps IH] using rev_ind; [done|].
  rewrite exchanges_app, last_app, last_snoc. unfold exchanges. simpl. done.
Qed.

(** ** Properties of the client *)

(** The invariant of the history, by induction on [client_reachable]. *)
Lemma reachable_history_paired st : client_reachable st -> paired (conversation_history st).
Proof.
  induction 1 as [key ep dep ver st Hi | st post msg ctx sid now _ [ps Hps] | st _ _].
  - unfold AzureOmaniTherapistLLM_init in Hi. repeat case_match; simplify_eq. by exists [].
  - destruct (generate_cases st post msg ctx sid now) as [[r ->] | ->]; [|by exists ps].
    exists (ps ++ [(msg, r)])%list. simpl. rewrite Hps, exchanges_app. unfold exchanges. simpl. reflexivity.
  - by exists [].
Qed.

(** Every client state reachable from the constructor by turns and
    clears holds a history made of whole exchanges: user message, then
    answer. *)
Lemma reachable_paired st : client_reachable st -> paired (conversation_history st).
Proof. apply reachable_history_paired. Qed.

(** C23: The request of a turn is the (enhanced) system prompt, then the last
    10 messages of the history, then the user's message; on a history of
    whole exchanges that window is itself at most 5 whole exchanges, so it
    starts with a user message and alternates. *)
Lemma request_window h prompt u :
  paired h ->
  exists ps, build_messages h prompt u =
             (mkMessage "system" prompt :: exchanges ps ++ [mkMessage "user" u])%list /\
             length ps <= 5 /\ exchanges ps = lastn 10 h.
Proof.
  intros [qs ->]. exists (lastn 5 qs). rewrite <- lastn_exchanges.
  split; [|split; [rewrite length_lastn; lia | done]].
  unfold build_messages. destruct (exchanges qs) eqn:E; [|done].
  destruct qs as [|[? ?] ?]; [done | discriminate].
Qed.

(** The summary of a client_reachable client counts as many user messages as
    answers, and its last interaction, if any, is an answer. *)
Lemma reachable_summary st :
  client_reachable st ->
  let s := get_conversation_summary st in
  user_messages s = assistant_messages s /\
  total_messages s = user_messages s + assistant_messages s /\
  match last_interaction s with Some m => role m = "assistant" | None => True end.
Proof.
  intros Hr. destruct (reachable_history_paired st Hr) as [ps Hps]. unfold get_conversation_summary.
  cbv zeta. cbn [user_messages assistant_messages total_messages last_interaction]. rewrite Hps.
  rewrite !count_role_exchanges by auto. rewrite length_exchanges, last_exchanges.
  split; [done | split; [lia|]]. by destruct (last ps) as [[? ?]|].
Qed.

(** A transport that always answers [a]. *)
Definition answering (a : string) : Transport := fun _ => Some [a].

Definition chat (st : LLMState) (post : Transport) (msgs : list string) : LLMState :=
  fold_left (fun st msg => (generate_therapeutic_response st post msg None None EmptyString).2) msgs st.

(** The history is never trimmed: each answered turn adds two messages,
    although only the last 10 are ever sent. *)
Lemma history_grows st a msgs :
  length (conversation_history (chat st (answering a) msgs)) =
  length (conversation_history st) + 2 * length msgs.
Proof.
  revert st. induction msgs as [|m msgs IH]; intros st; simpl; [lia|].
  unfold chat in *. rewrite IH. simpl. rewrite length_app. simpl. lia.
Qed.

(** [t] starts with [s]. *)
Definition extends (s t : string) : Prop := exists r, t = s ++ r.

Lemma extends_refl s : extends s s.
Proof. exists EmptyString. by rewrite str_app_nil_r. Qed.

Lemma extends_app s r : extends s (s ++ r).
Proof. by exists r. Qed.

Lemma extends_trans s t u : extends s t -> extends t u -> extends s u.
Proof. intros [r1 ->] [r2 ->]. exists (r1 ++ r2). by rewrite str_app_assoc. Qed.

Lemma extends_cultural p cu : extends p (enhance_cultural p cu).
Proof.
  unfold enhance_cultural. cbv zeta.
  assert (H1 : extends p (if bool_decide (sensitivity_level cu <> EmptyString)
                          then p ++ sensitivity_header ++ sensitivity_level cu else p))
    by (case_bool_decide; [apply extends_app | apply extends_refl]).
  eapply extends_trans; [exact H1|]. set (p1 := if bool_decide _ then _ else _).
  assert (H2 : extends p1 (match categories cu with [] => p1
                           | cats => p1 ++ categories_header ++ py_join ", " cats end))
    by (destruct (categories cu); [apply extends_refl | apply extends_app]).
  eapply extends_trans; [exact H2|]. set (p2 := match categories cu with [] => _ | _ => _ end).
  destruct (guidance cu); [apply extends_refl|].
  destruct (dict_get _ "approach"); [apply extends_app | apply extends_refl].
Qed.

(** The enhanced prompt extends the system prompt, and ends with the crisis
    alert whenever the context carries a level other than low. *)
Lemma enhance_prompt_spec sp ctx :
  extends sp (enhance_prompt_with_context sp ctx) /\
  (forall c l, ctx = Some c -> ctx_crisis_level c = Some l -> l <> EmptyString -> l <> "low" ->
     exists pre, enhance_prompt_with_context sp ctx = pre ++ alert_header ++ l ++ alert_suffix).
Proof.
  split.
  - destruct ctx as [c|]; [|apply extends_refl]. simpl.
    set (p1 := match ctx_emotions c with Some _ => _ | None => sp end).
    assert (H1 : extends sp p1) by (subst p1; destruct (ctx_emotions c); [apply extends_app | apply extends_refl]).
    set (p2 := match ctx_cultural c with Some _ => _ | None => p1 end).
    assert (H2 : extends p1 p2) by (subst p2; destruct (ctx_cultural c); [apply extends_cultural | apply extends_refl]).
    apply (extends_trans _ p2); [exact (extends_trans _ _ _ H1 H2)|].
    destruct (ctx_crisis_level c); [|apply extends_refl].
    destruct (_ && _); [apply extends_app | apply extends_refl].
  - intros c l -> Hl Hne Hlow. simpl. rewrite Hl.
    rewrite bool_decide_true by done. rewrite (proj2 (String.eqb_neq _ _) Hlow). eexists. reflexivity.
Qed.

(** ** Sample client *)

Definition sample_client : LLMState :=
  mkLLM "gpt-4o"
    "https://example.openai.azure.com/openai/deployments/gpt-4o/chat/completions?api-version=2025-01-01-preview"
    omani_therapeutic_prompt [].

Lemma sample_client_init :
  AzureOmaniTherapistLLM_init (Some "key") (Some "https://example.openai.azure.com") None None = Some sample_client.
Proof. reflexivity. Qed.

Definition sample_chat : LLMState :=
  chat sample_client (answering "حياك الله") ["السلام عليكم"; "أشعر بالقلق"].

Lemma reachable_sample_chat : client_reachable sample_chat.
Proof.
  unfold sample_chat, chat. cbn [fold_left]. repeat apply client_reachable_turn.
  exact (client_reachable_init _ _ _ _ _ sample_client_init).
Qed.

Lemma reachable_paired_witness : paired (conversation_history sample_chat).
Proof. apply reachable_paired. exact reachable_sample_chat. Defined.

Lemma reachable_summary_witness :
  user_messages (get_conversation_summary sample_chat) =
  assistant_messages (get_conversation_summary sample_chat).
Proof. apply (reachable_summary sample_chat reachable_sample_chat). Defined.

Lemma request_window_witness :
  exists ps, build_messages (exchange "السلام عليكم" "حياك الله") "prompt" "أشعر بالقلق" =
             (mkMessage "system" "prompt" :: exchanges ps ++ [mkMessage "user" "أشعر بالقلق"])%list /\
             length ps <= 5 /\ exchanges ps = lastn 10 (exchange "السلام عليكم" "حياك الله").
Proof. apply request_window. exists [("السلام عليكم", "حياك الله")]. reflexivity. Defined.

End AzureLLM.
