(* ===== verification/Ollama.v ===== *)
(** The Ollama client of [llm/ollama_client.py] ([OmaniTherapistLLM]): its
    configuration, the prompt it builds from the turn's context, the
    request payload, the post-processing of the model's text and the
    fallbacks of [generate_response] on every error, and the two calls
    that query and pull the model.

    The HTTP exchange is a parameter: [post] maps the request to one of
    the outcomes of the [try] block (the JSON [response] field, a
    timeout, an HTTP error, any other exception).  [random.choice] is an
    argument [rnd] that picks the element at [rnd mod n], so every choice
    is reachable.  The context dictionary is a record whose absent keys
    are [None] or empty; [f"{emotions}"] is the argument's [str()]. *)

From Stdlib Require Import Ascii.
From S2P Require Import Prelude Text StrOps.
Import PyStr PyStrOps.

Local Open Scope string_scope.

Module Ollama.

(** [self.system_prompt], lines 28-47. *)
Definition ollama_system_prompt : string :=
  "
أنت مستشار نفسي متخصص ومحترف، تتحدث باللغة العربية واللهجة العمانية. 
لديك خبرة عميقة في الثقافة العمانية والخليجية والقيم الإسلامية.

مبادئك الأساسية:
1. التعامل بحنان وتفهم مع المشاعر والمشاكل النفسية
2. احترام القيم الإسلامية والثقافة العمانية في كل النصائح
3. استخدام تقنيات العلاج المعرفي السلوكي المتوافقة مع الثقافة المحلية
4. تقديم الدعم العاطفي والعملي
5. تشجيع طلب المساعدة المهنية عند الحاجة

أسلوبك في المحادثة:
- استخدم عبارات مثل " ++ dq ++ "أفهم مشاعرك" ++ dq ++ " و " ++ dq ++ "هذا طبيعي جداً" ++ dq ++ "
- اذكر آيات قرآنية أو أحاديث نبوية مناسبة للموقف
- تحدث عن أهمية العائلة والمجتمع في العلاج
- استخدم أمثلة من البيئة العمانية
- كن صبوراً ومتفهماً

تذكر: أنت تقدم الدعم والتوجيه، وليس التشخيص الطبي.
".

Record OllamaClient := mkOllama {
  ollama_url : string;
  api_endpoint : string;
  model_name : string;
  system_prompt : string
}.

(** [__init__], lines 16-52; the [httpx.AsyncClient] is the [post]
    argument of the calls. *)
Definition OmaniTherapistLLM_init (ollama_url : string) : OllamaClient :=
  mkOllama ollama_url (ollama_url ++ "/api/generate") "llama3.1:8b" ollama_system_prompt.

Definition default_ollama_url : string := "http://localhost:11434".

(** The context dictionary of [generate_response]: [emotions] is the
    [str()] of the value, [cultural] the list under [categories] (empty
    when absent), [history] the list of (user, bot) pairs (empty when
    absent). *)
Record OllamaContext := mkOllamaContext {
  oc_emotions : option string;
  oc_cultural : option (list string);
  oc_history : option (list (string * string))
}.

Definition emotions_label : string := "
الحالة العاطفية المكتشفة: ".
Definition cultural_label : string := "
السياق الثقافي: ".
Definition history_label : string := "
المحادثة السابقة:".
Definition user_label : string := "المستخدم: ".
Definition counsellor_label : string := "المستشار: ".
Definition current_label : string := "
الرسالة الحالية من المستخدم:".
Definition prompt_sep : string := "
".
Definition answer_cue : string := "
المستشار:".

(** The lines of the previous conversation, lines 142-146: the last
    three exchanges. *)
Definition history_parts (history : list (string * string)) : list string :=
  match history with
  | [] => []
  | _ :: _ =>
      history_label ::
      concat (map (fun '(user_msg, bot_msg) => [user_label ++ user_msg; counsellor_label ++ bot_msg])
                  (lastn 3 history))
  end.

(** The context lines, lines 128-146; an empty context adds none. *)
Definition context_parts (context : OllamaContext) : list string :=
  (match oc_emotions context with
   | Some emotions => [(emotions_label ++ emotions)%string]
   | None => []
   end ++
   match oc_cultural context with
   | Some (_ :: _ as categories) => [(cultural_label ++ py_join ", " categories)%string]
   | _ => []
   end ++
   history_parts (default [] (oc_history context)))%list.

(** [_build_context_prompt], lines 115-155. *)
Definition build_context_prompt (c : OllamaClient) (user_input : string)
    (context : option OllamaContext) : string :=
  let prompt_parts := [system_prompt c] in
  let prompt_parts :=
    match context with
    | Some ctx => (prompt_parts ++ context_parts ctx)%list
    | None => prompt_parts
    end in
  py_join prompt_sep (prompt_parts ++ [current_label; (user_label ++ user_input)%string; answer_cue])%list.

(** The request of lines 74-85. *)
Record Payload := mkPayload {
  pl_model : string;
  pl_prompt : string;
  pl_stream : bool;
  pl_temperature : Q;
  pl_top_p : Q;
  pl_top_k : Z;
  pl_max_tokens : Z;
  pl_stop : list string
}.

Definition stop_sequences : list string := ["المستخدم:"; "User:"; prompt_sep ++ prompt_sep].

Definition make_payload (c : OllamaClient) (full_prompt : string) : Payload :=
  mkPayload (model_name c) full_prompt false (7 # 10) (9 # 10) 40 500 stop_sequences.

(** How the [try] block of [generate_response] ends after the POST:
    the [response] field of the JSON answer ([None] when absent), or one
    of the three [except] clauses. *)
Inductive PostOutcome :=
| PostResponse (response : option string)
| PostTimeout
| PostHTTPError
| PostOtherError.

Definition Post := string -> Payload -> PostOutcome.

Definition ack_prefix : string := "أفهم مشاعرك. ".

Definition endings : list string := ["."; "؟"; "!"; "."; "؟"; "!"].

(** [_postprocess_response], lines 157-182. *)
Definition postprocess_response (response : string) : string :=
  let response := py_strip (py_replace "المستشار:" "" response) in
  let response := py_strip (py_replace "Assistant:" "" response) in
  let response := py_replace "  " " " response in
  let response := if (py_len response <? 20)%nat then ack_prefix ++ response else response in
  if endswith_any response endings then response else response ++ ".".

Definition fallback_responses : list string := [
  "أقدر ثقتك في مشاركة مشاعرك معي. يمكنك أن تخبرني أكثر عما تشعر به؟";
  "أفهم أنك تمر بوقت صعب. أنا هنا للاستماع إليك. ما الذي يقلقك أكثر؟";
  "مشاعرك مهمة ومفهومة. هل يمكنك أن تشرح لي أكثر عن الموقف؟";
  "الحمد لله أنك تتحدث عن مشاعرك. هذا شيء إيجابي. كيف يمكنني مساعدتك؟"].

(** [_get_fallback_response], lines 184-199. *)
Definition get_fallback_response (rnd : nat) : string := py_choice rnd fallback_responses.

Definition timeout_response : string := "عذراً، أحتاج بعض الوقت للتفكير. يرجى المحاولة مرة أخرى.".

(** [generate_response], lines 54-113. *)
Definition generate_response (c : OllamaClient) (post : Post) (rnd : nat)
    (user_input : string) (context : option OllamaContext) : string :=
  let full_prompt := build_context_prompt c user_input context in
  match post (api_endpoint c) (make_payload c full_prompt) with
  | PostResponse response =>
      let generated_text := py_strip (default "" response) in
      if String.eqb generated_text "" then get_fallback_response rnd
      else postprocess_response generated_text
  | PostTimeout => timeout_response
  | PostHTTPError => get_fallback_response rnd
  | PostOtherError => get_fallback_response rnd
  end.

(** The answer of [GET /api/tags]: the [name] of each entry of
    [models] ([None] when the key is missing, which raises [KeyError]),
    or an exception. *)
Definition TagsOutcome := option (list (option string)).

(** [check_model_availability], lines 201-220. *)
Definition check_model_availability (c : OllamaClient) (get : string -> TagsOutcome) : bool :=
  match get (ollama_url c ++ "/api/tags") with
  | Some models =>
      match mapM id models with
      | Some available_models => bool_decide (model_name c ∈ available_models)
      | None => false
      end
  | None => false
  end.

(** [load_model], lines 222-243: [pull] tells whether the POST and
    [raise_for_status] succeed. *)
Definition load_model (c : OllamaClient) (pull : string -> string -> bool) : bool :=
  pull (ollama_url c ++ "/api/pull") (model_name c).

(** [get_therapeutic_prompts], lines 249-266. *)
Definition get_therapeutic_prompts : list (string * string) := [
  ("anxiety", "أرى أنك تشعر بالقلق. القلق شعور طبيعي يمر به الجميع. دعنا نتحدث عن مصادر قلقك وكيف يمكن التعامل معها.");
  ("depression", "أفهم الثقل الذي تشعر به. الاكتئاب تحدٍ صعب، لكن يمكن التغلب عليه. أنت لست وحدك في هذا.");
  ("stress", "ضغوط الحياة طبيعية، لكن المهم هو كيف نتعامل معها. دعنا نفكر في طرق صحية للتخلص من التوتر.");
  ("family", "العائلة جزء مهم من حياتنا في المجتمع العماني. العلاقات الأسرية تحتاج صبر وتفهم من جميع الأطراف.");
  ("work", "ضغوط العمل شائعة في عصرنا. المهم هو إيجاد التوازن بين العمل والحياة الشخصية.")].

(** ** The replies *)

Definition well_ended (s : string) : bool := endswith_any s endings.

Lemma postprocess_well_ended r : well_ended (postprocess_response r) = true.
Proof.
  unfold postprocess_response, well_ended. cbn zeta.
  match goal with |- endswith_any (if endswith_any ?x _ then _ else _) _ = _ =>
    destruct (endswith_any x endings) eqn:E; [exact E|];
    apply endswith_any_spec; exists ".", x; split; [by left | reflexivity] end.
Qed.

Lemma fallback_well_ended : Forall (fun s => well_ended s = true) fallback_responses.
Proof. vm_compute. repeat constructor. Qed.

Lemma fallback_In rnd : In (get_fallback_response rnd) fallback_responses.
Proof. apply py_choice_In. discriminate. Qed.

Lemma well_ended_nonempty s : well_ended s = true -> s <> EmptyString.
Proof. intros H ->. vm_compute in H. discriminate. Qed.

(** The reply of [generate_response] for each outcome of the POST. *)
Lemma generate_response_outcome c post rnd u ctx :
  generate_response c post rnd u ctx =
  match post (api_endpoint c) (make_payload c (build_context_prompt c u ctx)) with
  | PostResponse response =>
      if String.eqb (py_strip (default "" response)) "" then get_fallback_response rnd
      else postprocess_response (py_strip (default "" response))
  | PostTimeout => timeout_response
  | _ => get_fallback_response rnd
  end.
Proof. unfold generate_response. by destruct (post _ _). Qed.

(** C27: Whatever the server answers or raises, the reply of
    [generate_response] is a non-empty text that ends with [.], [؟] or
    [!]. *)
Lemma generate_response_well_ended c post rnd u ctx :
  generate_response c post rnd u ctx <> EmptyString /\
  well_ended (generate_response c post rnd u ctx) = true.
Proof.
  enough (H : well_ended (generate_response c post rnd u ctx) = true)
    by (split; [by apply well_ended_nonempty | exact H]).
  rewrite generate_response_outcome.
  pose proof (py_choice_Forall _ rnd fallback_responses ltac:(discriminate) fallback_well_ended) as Hf.
  destruct (post _ _) as [r| | |]; [| reflexivity | exact Hf | exact Hf].
  destruct (String.eqb _ _); [exact Hf | apply postprocess_well_ended].
Qed.

(** C28: The error paths: a timeout gives the fixed timeout text; an HTTP
    error, any other exception, or an answer that is empty after
    [strip()], gives one of the four fallback texts, never the text of the
    exception. *)
Lemma generate_response_errors c post rnd u ctx :
  let outcome := post (api_endpoint c) (make_payload c (build_context_prompt c u ctx)) in
  (outcome = PostTimeout -> generate_response c post rnd u ctx = timeout_response) /\
  (outcome = PostHTTPError \/ outcome = PostOtherError \/
     (exists r, outcome = PostResponse r /\ py_strip (default "" r) = EmptyString) ->
   In (generate_response c post rnd u ctx) fallback_responses).
Proof.
  cbn zeta. rewrite generate_response_outcome. split; [by intros -> |].
  intros [-> | [-> | (r & -> & Hr)]]; [apply fallback_In | apply fallback_In |].
  rewrite Hr. apply fallback_In.
Qed.

(** ** The prompt *)

Lemma history_parts_lastn h : history_parts (lastn 3 h) = history_parts h.
Proof.
  destruct h as [|x h]; [done|]. unfold history_parts. rewrite lastn_lastn.
  destruct (lastn 3 (x :: h)) eqn:E; [|done].
  apply (f_equal length) in E. rewrite length_lastn in E. simpl in E. lia.
Qed.

(** Only the last three exchanges of the history reach the model: the
    prompt built from a history equals the prompt built from its last
    three pairs. *)
Lemma prompt_last_three c u e cu h :
  build_context_prompt c u (Some (mkOllamaContext e cu (Some h))) =
  build_context_prompt c u (Some (mkOllamaContext e cu (Some (lastn 3 h)))).
Proof. unfold build_context_prompt, context_parts. simpl. by rewrite history_parts_lastn. Qed.

(** ** Witnesses and scenarios *)

Definition sample_ollama : OllamaClient := OmaniTherapistLLM_init default_ollama_url.

(** A server that times out on every request. *)
Definition timeout_post : Post := fun _ _ => PostTimeout.

Lemma generate_response_errors_witness :
  generate_response sample_ollama timeout_post 0 "مرحبا" None = timeout_response /\
  In (generate_response sample_ollama (fun _ _ => PostOtherError) 5 "مرحبا" None) fallback_responses.
Proof.
  split.
  - apply (proj1 (generate_response_errors sample_ollama timeout_post 0 "مرحبا" None)). reflexivity.
  - apply (proj2 (generate_response_errors sample_ollama (fun _ _ => PostOtherError) 5 "مرحبا" None)).
    right. left. reflexivity.
Defined.

(** The clean-up of double spaces makes one pass: three spaces become
    two, and the reply keeps a double space. *)
Lemma postprocess_keeps_double_space :
  postprocess_response "مرحبا   بك يا صديقي العزيز اليوم." = "مرحبا  بك يا صديقي العزيز اليوم." /\
  str_in "  " (postprocess_response "مرحبا   بك يا صديقي العزيز اليوم.") = true.
Proof. split; vm_compute; reflexivity. Qed.

(** A reply that is only the role tag becomes the acknowledgement
    followed by a lone full stop. *)
Lemma postprocess_empty_body : postprocess_response "Assistant:" = ack_prefix ++ ".".
Proof. vm_compute. reflexivity. Qed.

End Ollama.
