(* ===== verification/Base64.v ===== *)
(** [base64.b64encode(data).decode('utf-8')], as [_audio_to_base64] of
    [speech_to_Text/whisper.py] applies it to the bytes of the audio file
    (RFC 4648, standard alphabet, [=] padding).  Each group of three bytes
    is one 24-bit value cut into four 6-bit indices by shifts and masks,
    as CPython's [binascii] does.  The decoder [b64decode] is the reference
    the encoder is checked against: decoding an encoding gives the bytes
    back, and the length of an encoding is four characters per started
    group of three bytes. *)

From Stdlib Require Import Ascii ZArith.
From S2P Require Import Prelude.

Local Open Scope Z_scope.
Local Open Scope string_scope.

Module Base64.

Definition b64_alphabet : string :=
  "ABCDEFGHIJKLMNOPQRSTUVWXYZabcdefghijklmnopqrstuvwxyz0123456789+/".

Definition pad : ascii := "="%char.

(** The character of a 6-bit index. *)
Definition b64_char (i : Z) : ascii := default pad (String.get (Z.to_nat i) b64_alphabet).

(** The character of bits [6k .. 6k+5] of a 24-bit group. *)
Definition sextet (v : Z) (k : Z) : ascii := b64_char (Z.land (Z.shiftr v (6 * k)) 63).

Fixpoint b64encode (bs : list Z) : string :=
  match bs with
  | b0 :: b1 :: b2 :: rest =>
      let v := Z.shiftl b0 16 + Z.shiftl b1 8 + b2 in
      String (sextet v 3) (String (sextet v 2) (String (sextet v 1) (String (sextet v 0)
        (b64encode rest))))
  | [b0; b1] =>
      let v := Z.shiftl b0 16 + Z.shiftl b1 8 in
      String (sextet v 3) (String (sextet v 2) (String (sextet v 1) (String pad EmptyString)))
  | [b0] =>
      let v := Z.shiftl b0 16 in
      String (sextet v 3) (String (sextet v 2) (String pad (String pad EmptyString)))
  | [] => EmptyString
  end.

(** ** The reference decoder *)

Fixpoint index_from (c : ascii) (s : string) (n : Z) : option Z :=
  match s with
  | EmptyString => None
  | String d s' => if Ascii.eqb c d then Some n else index_from c s' (n + 1)
  end.

Definition b64_index (c : ascii) : option Z := index_from c b64_alphabet 0.

Fixpoint b64decode (s : string) : option (list Z) :=
  match s with
  | EmptyString => Some []
  | String c0 (String c1 (String c2 (String c3 rest))) =>
      i0 ← b64_index c0; i1 ← b64_index c1;
      if Ascii.eqb c2 pad && Ascii.eqb c3 pad && String.eqb rest "" then
        Some [i0 * 4 + i1 / 16]
      else
        i2 ← b64_index c2;
        if Ascii.eqb c3 pad && String.eqb rest "" then
          Some [i0 * 4 + i1 / 16; (i1 mod 16) * 16 + i2 / 4]
        else
          i3 ← b64_index c3; r ← b64decode rest;
          Some ([i0 * 4 + i1 / 16; (i1 mod 16) * 16 + i2 / 4; (i2 mod 4) * 64 + i3] ++ r)%list
  | _ => None
  end.

Definition is_byte (b : Z) : Prop := 0 <= b < 256.

(** ** Lemmas *)

Lemma b64_index_char i : 0 <= i < 64 -> b64_index (b64_char i) = Some i.
Proof.
  intros Hi.
  assert (H : Forall (fun n => b64_index (b64_char (Z.of_nat n)) = Some (Z.of_nat n)) (seq 0 64))
    by (vm_compute; repeat constructor).
  rewrite <- (Z2Nat.id i) by lia. apply (proj1 (List.Forall_forall _ _) H).
  apply in_seq. lia.
Qed.

Lemma b64_char_not_pad i : 0 <= i < 64 -> Ascii.eqb (b64_char i) pad = false.
Proof.
  intros Hi. destruct (Ascii.eqb_spec (b64_char i) pad) as [E|]; [|done].
  pose proof (b64_index_char i Hi) as H. rewrite E in H. discriminate.
Qed.

Lemma divmod_eq x d q r : 0 <= r < d -> x = q * d + r -> x / d = q /\ x mod d = r.
Proof.
  intros Hr ->. split; [symmetry; apply Z.div_unique with r | symmetry; apply Z.mod_unique with q]; lia.
Qed.

Lemma sextet_index v k :
  0 <= k -> b64_index (sextet v k) = Some ((v / 2 ^ (6 * k)) mod 64) /\
  Ascii.eqb (sextet v k) pad = false.
Proof.
  intros Hk. unfold sextet. rewrite Z.shiftr_div_pow2 by lia. change 63 with (Z.ones 6).
  rewrite Z.land_ones by lia. pose proof (Z.mod_pos_bound (v / 2 ^ (6 * k)) (2 ^ 6) ltac:(lia)).
  split; [apply b64_index_char | apply b64_char_not_pad]; change (2 ^ 6) with 64 in *; lia.
Qed.

(** Decoding the four indices of a group gives its three bytes back. *)
Lemma group_decode b0 b1 b2 :
  is_byte b0 -> is_byte b1 -> is_byte b2 ->
  let v := b0 * 65536 + b1 * 256 + b2 in
  (v / 262144) mod 64 * 4 + (v / 4096) mod 64 / 16 = b0 /\
  (v / 4096) mod 64 mod 16 * 16 + (v / 64) mod 64 / 4 = b1 /\
  (v / 64) mod 64 mod 4 * 64 + (v / 1) mod 64 = b2.
Proof.
  unfold is_byte. intros H0 H1 H2. set (v := b0 * 65536 + b1 * 256 + b2). rewrite Z.div_1_r.
  pose proof (Z.div_mod b0 4 ltac:(lia)). pose proof (Z.mod_pos_bound b0 4 ltac:(lia)).
  pose proof (Z.div_mod b1 16 ltac:(lia)). pose proof (Z.mod_pos_bound b1 16 ltac:(lia)).
  pose proof (Z.div_mod b2 64 ltac:(lia)). pose proof (Z.mod_pos_bound b2 64 ltac:(lia)).
  destruct (divmod_eq v 262144 (b0 / 4) ((b0 mod 4) * 65536 + b1 * 256 + b2)) as [Q0 _];
    [lia | subst v; lia |].
  destruct (divmod_eq (b0 / 4) 64 0 (b0 / 4)) as [_ R0]; [lia | lia |].
  destruct (divmod_eq v 4096 (b0 * 16 + b1 / 16) ((b1 mod 16) * 256 + b2)) as [Q1 _];
    [lia | subst v; lia |].
  destruct (divmod_eq (b0 * 16 + b1 / 16) 64 (b0 / 4) ((b0 mod 4) * 16 + b1 / 16)) as [_ R1];
    [lia | lia |].
  destruct (divmod_eq v 64 (b0 * 1024 + b1 * 4 + b2 / 64) (b2 mod 64)) as [Q2 R3];
    [lia | subst v; lia |].
  destruct (divmod_eq (b0 * 1024 + b1 * 4 + b2 / 64) 64 (b0 * 16 + b1 / 16)
              ((b1 mod 16) * 4 + b2 / 64)) as [_ R2]; [lia | lia |].
  rewrite Q0, R0, Q1, R1, Q2, R2, R3.
  destruct (divmod_eq ((b0 mod 4) * 16 + b1 / 16) 16 (b0 mod 4) (b1 / 16)) as [D1 M1];
    [lia | lia |].
  destruct (divmod_eq ((b1 mod 16) * 4 + b2 / 64) 4 (b1 mod 16) (b2 / 64)) as [D2 M2];
    [lia | lia |].
  rewrite D1, M1, D2, M2. lia.
Qed.

Lemma shiftl_byte b n : 0 <= n -> Z.shiftl b n = b * 2 ^ n.
Proof. intros Hn. by apply Z.shiftl_mul_pow2. Qed.

(** The powers of two of the shifts, as numerals. *)
Ltac pow_consts :=
  change (2 ^ 16) with 65536 in *; change (2 ^ 8) with 256 in *;
  change (2 ^ (6 * 3)) with 262144 in *; change (2 ^ (6 * 2)) with 4096 in *;
  change (2 ^ (6 * 1)) with 64 in *; change (2 ^ (6 * 0)) with 1 in *.

(** Decoding an encoding gives the bytes back. *)
Lemma b64_roundtrip_fuel n bs :
  (length bs <= n)%nat -> Forall is_byte bs -> b64decode (b64encode bs) = Some bs.
Proof.
  revert bs. induction n as [|n IH]; intros bs Hn Hb; [by destruct bs; [|simpl in Hn; lia]|].
  destruct bs as [|b0 [|b1 [|b2 rest]]]; [done| | |];
    repeat match goal with H : Forall _ (_ :: _) |- _ => apply Forall_cons in H as [? H] end.
  - cbn [b64encode b64decode]. rewrite shiftl_byte by lia.
    destruct (sextet_index (b0 * 2 ^ 16) 3) as [-> _]; [lia|].
    destruct (sextet_index (b0 * 2 ^ 16) 2) as [-> _]; [lia|]. simpl.
    destruct (group_decode b0 0 0) as [E _]; [done | red; lia | red; lia |].
    rewrite Z.mul_0_l, !Z.add_0_r in E. pow_consts. by rewrite E.
  - cbn [b64encode b64decode]. rewrite !shiftl_byte by lia.
    set (v := b0 * 2 ^ 16 + b1 * 2 ^ 8).
    destruct (sextet_index v 3) as [-> _]; [lia|]. destruct (sextet_index v 2) as [-> _]; [lia|].
    destruct (sextet_index v 1) as [-> Hp]; [lia|]. simpl. rewrite Hp. simpl.
    destruct (group_decode b0 b1 0) as [E0 [E1 _]]; [done | done | red; lia |].
    subst v. pow_consts. rewrite Z.add_0_r in E0, E1. by rewrite E0, E1.
  - cbn [b64encode b64decode]. rewrite !shiftl_byte by lia.
    set (v := b0 * 2 ^ 16 + b1 * 2 ^ 8 + b2).
    destruct (sextet_index v 3) as [-> _]; [lia|]. destruct (sextet_index v 2) as [-> _]; [lia|].
    destruct (sextet_index v 1) as [-> Hp1]; [lia|]. destruct (sextet_index v 0) as [-> Hp0]; [lia|].
    simpl. rewrite Hp1, Hp0. simpl. rewrite IH by (simpl in Hn; lia || done). simpl.
    destruct (group_decode b0 b1 b2) as [E0 [E1 E2]]; [done | done | done |].
    subst v. pow_consts. by rewrite E0, E1, E2.
Qed.

(** Round trip: decoding the base64 text of any byte string gives the
    bytes back, so the encoding loses nothing of the audio. *)
Lemma b64_roundtrip bs : Forall is_byte bs -> b64decode (b64encode bs) = Some bs.
Proof. by apply (b64_roundtrip_fuel (length bs)). Qed.

(** Four characters per started group of three bytes. *)
Lemma b64encode_length bs : String.length (b64encode bs) = (4 * ((length bs + 2) / 3))%nat.
Proof.
  induction bs as [bs IH] using (induction_ltof1 _ (@length Z)); unfold ltof in *.
  destruct bs as [|b0 [|b1 [|b2 rest]]]; [done..|]. cbn [b64encode String.length length].
  rewrite IH by (simpl; lia). rewrite !Nat.add_succ_l.
  replace (S (S (S (length rest + 2)))) with ((length rest + 2) + 1 * 3)%nat by lia.
  rewrite Nat.div_add by lia. lia.
Qed.

(** ** The output is base64 text *)

Definition b64_chars : list ascii := String.list_ascii_of_string (b64_alphabet ++ "=").

Lemma get_In n s c : String.get n s = Some c -> In c (String.list_ascii_of_string s).
Proof.
  revert n. induction s as [|d s IH]; intros [|n]; simpl; [discriminate..| |].
  - intros [= ->]. by left.
  - intros H. right. by apply (IH n).
Qed.

Lemma list_ascii_of_string_app s t :
  String.list_ascii_of_string (s ++ t) = (String.list_ascii_of_string s ++ String.list_ascii_of_string t)%list.
Proof. induction s as [|c s IH]; [done|]. simpl. by rewrite IH. Qed.

Lemma b64_char_In i : In (b64_char i) b64_chars.
Proof.
  unfold b64_char, b64_chars. rewrite list_ascii_of_string_app. apply in_or_app.
  destruct (String.get _ _) as [c|] eqn:E; [left; exact (get_In _ _ _ E) | right; left; reflexivity].
Qed.

Lemma pad_In : In pad b64_chars.
Proof. vm_compute. tauto. Qed.

Lemma b64encode_chars bs : Forall (fun c => In c b64_chars) (String.list_ascii_of_string (b64encode bs)).
Proof.
  induction bs as [bs IH] using (induction_ltof1 _ (@length Z)); unfold ltof in *.
  destruct bs as [|b0 [|b1 [|b2 rest]]]; cbn [b64encode String.list_ascii_of_string];
    repeat (apply List.Forall_cons; [first [apply b64_char_In | apply pad_In] |]);
    [apply List.Forall_nil .. | apply IH; simpl; lia].
Qed.

(** Every encoding is base64 text: its length is a multiple of four and
    each of its characters is a letter, a digit, [+], [/] or the padding
    [=]. *)
Lemma b64encode_wellformed bs :
  (String.length (b64encode bs) mod 4 = 0)%nat /\
  Forall (fun c => In c b64_chars) (String.list_ascii_of_string (b64encode bs)).
Proof.
  split; [|apply b64encode_chars].
  rewrite b64encode_length, Nat.mul_comm. apply Nat.Div0.mod_mul.
Qed.

(** The first bytes of a RIFF header, and a group with the high bytes
    [255] and [254]. *)
Lemma b64_roundtrip_witness :
  b64encode [0; 1; 2; 255; 254] = "AAEC//4=" /\
  b64decode (b64encode [82; 73; 70; 70; 255]) = Some [82; 73; 70; 70; 255].
Proof.
  split; [vm_compute; reflexivity|].
  apply b64_roundtrip. repeat constructor; unfold is_byte; lia.
Defined.

End Base64.
