(* ===== verification/Wav.v ===== *)
(** The temporary WAV file of [speech_to_Text/whisper.py]:
    [OmaniSTT._save_temp_audio] (lines 194-232), which writes a numpy
    array of samples as a mono, 16-bit, 16 kHz WAV file, and
    [get_audio_duration] (lines 309-326).

    Samples.  The code converts the array to float32
    ([astype(np.float32)]), so the normalisation and the scaling to 16
    bits are binary32 arithmetic: Stdlib's [SpecFloat] at precision 24
    and maximal exponent 128, with rounding to nearest even.  An input
    array is a list of binary64 values, which covers float64 arrays and
    integer arrays of magnitude below 2^53.

    [astype(np.int16)] is numpy's C cast from float to short, undefined
    out of range; the model is the x86-64 build: truncation toward zero
    to a 32-bit integer (0x80000000 for NaN or out of range), then its
    low 16 bits read as a signed number.

    The disk maps a path to its bytes.  [NamedTemporaryFile(delete=False)]
    creates the empty file [temp_path] (a parameter, the fresh name), and
    Python's [wave] module writes its 44-byte RIFF header followed by the
    frames, little-endian. *)

From Stdlib Require Import Floats Ascii.
From S2P Require Import Prelude.

Local Open Scope Z_scope.

Module Wav.

Abbreviation Disk := (gmap string (list Z)).

(** ** float32 *)

Definition prec32 : Z := 24.
Definition emax32 : Z := 128.

(** [astype(np.float32)]: the binary64 value rounded to binary32. *)
Definition to_float32 (x : float) : spec_float :=
  match Prim2SF x with
  | S754_finite s m e => binary_round prec32 emax32 s m e
  | y => y
  end.

Definition is_nan (x : spec_float) : bool :=
  match x with S754_nan => true | _ => false end.

(** [np.maximum] of two float32: NaN propagates. *)
Definition max32 (x y : spec_float) : spec_float :=
  if is_nan x || is_nan y then S754_nan else if SFltb x y then y else x.

(** [a.max()]: [None] is the [ValueError] of a zero-size array. *)
Definition array_max (a : list spec_float) : option spec_float :=
  match a with [] => None | x :: a' => Some (fold_left max32 a' x) end.

(** The Python literals [1.0] and [32767] as float32 operands. *)
Definition one32 : spec_float := to_float32 1.
Definition full_scale32 : spec_float := to_float32 32767.

(** ** Machine integers *)

(** The integer part of a float, toward zero; [None] for NaN and the
    infinities. *)
Definition trunc_sf (x : spec_float) : option Z :=
  match x with
  | S754_zero _ => Some 0
  | S754_finite s m e =>
      let z := if 0 <=? e then Z.shiftl (Zpos m) e else Z.shiftr (Zpos m) (- e) in
      Some (if s then - z else z)
  | _ => None
  end.

(** [cvttss2si]: the truncation when it fits in 32 bits, else 0x80000000. *)
Definition to_int32 (x : spec_float) : Z :=
  match trunc_sf x with
  | Some z => if (- 2 ^ 31 <=? z) && (z <? 2 ^ 31) then z else - 2 ^ 31
  | None => - 2 ^ 31
  end.

(** The low 16 bits of an integer, read as a signed number. *)
Definition as_int16 (z : Z) : Z :=
  let u := z mod 2 ^ 16 in if u <? 2 ^ 15 then u else u - 2 ^ 16.

(** [astype(np.int16)] of one float32 sample. *)
Definition to_int16 (x : spec_float) : Z := as_int16 (to_int32 x).

(** ** Bytes *)

(** The [n] bytes of [w], least significant first. *)
Fixpoint le_split (n : nat) (w : Z) : list Z :=
  match n with
  | O => []
  | S n' => w mod 256 :: le_split n' (w / 256)
  end.

Fixpoint le_combine (l : list Z) : Z :=
  match l with
  | [] => 0
  | b :: l' => b + 256 * le_combine l'
  end.

(** [audio_16bit.tobytes()]: two bytes per sample, little-endian. *)
Definition tobytes (pcm : list Z) : list Z := pcm ≫= le_split 2.

Definition ascii_bytes (s : string) : list Z :=
  (fun c => Z.of_N (N_of_ascii c)) <$> String.list_ascii_of_string s.

(** The header [wave] writes: [RIFF], the form length, [WAVE], the
    [fmt ] chunk of PCM (format 1) with the channel count, the frame rate,
    the byte rate, the block alignment and the bits per sample, then the
    [data] chunk length. *)
Definition wav_header (nchannels sampwidth framerate datalength : Z) : list Z :=
  ascii_bytes "RIFF" ++ le_split 4 (36 + datalength) ++ ascii_bytes "WAVE" ++
  ascii_bytes "fmt " ++ le_split 4 16 ++ le_split 2 1 ++ le_split 2 nchannels ++
  le_split 4 framerate ++ le_split 4 (nchannels * framerate * sampwidth) ++
  le_split 2 (nchannels * sampwidth) ++ le_split 2 (sampwidth * 8) ++
  ascii_bytes "data" ++ le_split 4 datalength.

(** The [with wave.open(temp_path, 'wb')] block, lines 219-226: the file
    [wave] leaves for the frames [data]; [struct.pack('<L', ...)] raises
    when the form length does not fit in 32 bits, after [RIFF] was
    written, once by [writeframes] and once more by [close]. *)
Definition write_wav (nchannels sampwidth framerate : Z) (data : list Z) : list Z * bool :=
  let datalength := Z.of_nat (length data) in
  if 2 ^ 32 <=? 36 + datalength then (ascii_bytes "RIFFRIFF", false)
  else (wav_header nchannels sampwidth framerate datalength ++ data, true).

(** ** [_save_temp_audio] *)

(** What the method receives: a numpy array, or any other object, which
    fails the [isinstance] test of line 211. *)
Inductive AudioData :=
| NdArray (samples : list float)
| OtherData.

(** Lines 213-215: normalise by the largest magnitude when the largest
    sample exceeds 1.0; [None] when [max()] raises. *)
Definition normalize_audio (a : list spec_float) : option (list spec_float) :=
  match array_max a with
  | None => None
  | Some m =>
      if SFltb one32 m then
        match array_max (SFabs <$> a) with
        | None => None
        | Some peak => Some ((fun x => SFdiv prec32 emax32 x peak) <$> a)
        end
      else Some a
  end.

(** Line 225: [(audio_data * 32767).astype(np.int16)]. *)
Definition pcm16 (a : list spec_float) : list Z :=
  (fun x => to_int16 (SFmul prec32 emax32 x full_scale32)) <$> a.

(** [_save_temp_audio], lines 194-232: the disk afterwards and the path,
    or [None] when the method raises (it logs and re-raises). *)
Definition save_temp_audio (temp_path : string) (disk : Disk) (audio_data : AudioData)
    : Disk * option string :=
  let disk := <[temp_path := []]> disk in
  match audio_data with
  | OtherData => (disk, Some temp_path)
  | NdArray xs =>
      match normalize_audio (to_float32 <$> xs) with
      | None => (disk, None)
      | Some a =>
          let '(bytes, ok) := write_wav 1 2 16000 (tobytes (pcm16 a)) in
          (<[temp_path := bytes]> disk, if ok then Some temp_path else None)
      end
  end.

(** [get_audio_duration], lines 309-326: [librosa.load(audio_path,
    sr=None)] gives the number of samples and the file's own (positive)
    rate, or [None] when it raises; [len(audio) / sr] is Python's true
    division, correctly rounded, which is binary64 division of the two
    exactly converted integers below 2^53. *)
Definition get_audio_duration (load : string -> option (nat * positive)) (audio_path : string)
    : option float :=
  match load audio_path with
  | None => None
  | Some (n, sr) =>
      Some (PrimFloat.of_uint63 (Uint63.of_Z (Z.of_nat n)) / PrimFloat.of_uint63 (Uint63.of_Z (Zpos sr)))%float
  end.

(** ** Reading the file back *)

(** What a reader of the file finds, as [wave.open(path, 'rb')] and
    [np.frombuffer(frames, dtype='<i2')] read it: the channel count, the
    sample width, the frame rate and the samples, when the four chunk
    tags are in place. *)
Fixpoint from_bytes16 (bs : list Z) : list Z :=
  match bs with
  | b0 :: b1 :: bs' => as_int16 (le_combine [b0; b1]) :: from_bytes16 bs'
  | _ => []
  end.

Definition field (off len : nat) (bs : list Z) : Z := le_combine (take len (drop off bs)).

Definition read_wav (bs : list Z) : option (Z * Z * Z * list Z) :=
  if bool_decide (take 4 bs = ascii_bytes "RIFF" /\ take 4 (drop 8 bs) = ascii_bytes "WAVE" /\
                  take 4 (drop 12 bs) = ascii_bytes "fmt " /\ take 4 (drop 36 bs) = ascii_bytes "data")
  then Some (field 22 2 bs, field 34 2 bs / 8, field 24 4 bs,
             from_bytes16 (take (Z.to_nat (field 40 4 bs)) (drop 44 bs)))
  else None.

(** ** Machine integers *)

Lemma as_int16_range z : - 2 ^ 15 <= as_int16 z < 2 ^ 15.
Proof.
  unfold as_int16. pose proof (Z.mod_pos_bound z (2 ^ 16)).
  destruct (Z.ltb_spec (z mod 2 ^ 16) (2 ^ 15)); lia.
Qed.

Lemma as_int16_id z : - 2 ^ 15 <= z < 2 ^ 15 -> as_int16 z = z.
Proof.
  intros Hz. unfold as_int16. destruct (Z_lt_le_dec z 0).
  - rewrite <- (Z.mod_unique z (2 ^ 16) (-1) (z + 2 ^ 16)) by lia.
    destruct (Z.ltb_spec (z + 2 ^ 16) (2 ^ 15)); lia.
  - rewrite Z.mod_small by lia. destruct (Z.ltb_spec z (2 ^ 15)); lia.
Qed.

Lemma as_int16_mod z : as_int16 (z mod 2 ^ 16) = as_int16 z.
Proof. unfold as_int16. by rewrite Z.mod_mod by lia. Qed.

Lemma le_combine_split n w : le_combine (le_split n w) = w mod 2 ^ (8 * Z.of_nat n).
Proof.
  revert w; induction n as [|n IH]; intros w; cbn [le_split le_combine].
  - by rewrite Z.mul_0_r, Z.pow_0_r, Z.mod_1_r.
  - rewrite IH. replace (8 * Z.of_nat (S n)) with (8 + 8 * Z.of_nat n) by lia.
    rewrite Z.pow_add_r, (Z.rem_mul_r w (2 ^ 8)) by lia. reflexivity.
Qed.

Lemma length_le_split n w : length (le_split n w) = n.
Proof. revert w; induction n; intros w; simpl; auto. Qed.

Lemma from_bytes16_tobytes pcm : from_bytes16 (tobytes pcm) = as_int16 <$> pcm.
Proof.
  induction pcm as [|z pcm IH]; [done|].
  change (tobytes (z :: pcm)) with (z mod 256 :: z / 256 mod 256 :: tobytes pcm).
  cbn [from_bytes16]. rewrite IH, fmap_cons.
  change (le_combine [z mod 256; z / 256 mod 256]) with (le_combine (le_split 2 z)).
  by rewrite le_combine_split, as_int16_mod.
Qed.

Lemma length_tobytes pcm : length (tobytes pcm) = (2 * length pcm)%nat.
Proof.
  induction pcm as [|z pcm IH]; [done|].
  change (tobytes (z :: pcm)) with (z mod 256 :: z / 256 mod 256 :: tobytes pcm).
  cbn [length]. rewrite IH. lia.
Qed.

Lemma pcm16_int16 a : as_int16 <$> pcm16 a = pcm16 a.
Proof.
  unfold pcm16. rewrite <- list_fmap_compose. apply list_fmap_ext. intros _ x _.
  apply as_int16_id, as_int16_range.
Qed.

(** A field of 4 bytes reads back the value written, below 2^32. *)
Lemma le_split_4 d : 0 <= d < 2 ^ 32 -> le_combine (le_split 4 d) = d.
Proof. intros Hd. rewrite le_combine_split. apply Z.mod_small. simpl. lia. Qed.

(** ** [_save_temp_audio] *)

(** The method creates its file and touches no other path. *)
Lemma save_temp_audio_disk temp_path disk audio disk' r :
  save_temp_audio temp_path disk audio = (disk', r) ->
  is_Some (disk' !! temp_path) /\ forall q, q <> temp_path -> disk' !! q = disk !! q.
Proof.
  unfold save_temp_audio. intros H.
  repeat (case_match || simplify_eq); split;
    try (intros q Hq; by rewrite ?lookup_insert_ne by done); by simplify_map_eq.
Qed.

(** C30: The file [_save_temp_audio] writes for an array reads back as a
    mono, 16-bit, 16 kHz WAV whose samples are exactly the 16-bit values
    the method computed from the normalised float32 array: the header
    fields, including the data length bounded by the 32-bit check of
    [wave], and the little-endian frames decode to what was written. *)
Theorem save_temp_audio_roundtrip temp_path disk xs disk' p :
  save_temp_audio temp_path disk (NdArray xs) = (disk', Some p) ->
  p = temp_path /\ exists a bytes, normalize_audio (to_float32 <$> xs) = Some a /\
    disk' !! temp_path = Some bytes /\ read_wav bytes = Some (1, 2, 16000, pcm16 a).
Proof.
  unfold save_temp_audio, write_wav. destruct (normalize_audio _) as [a|]; [|discriminate].
  set (d := Z.of_nat (length (tobytes (pcm16 a)))).
  destruct (2 ^ 32 <=? 36 + d) eqn:Hd; [discriminate|]. apply Z.leb_gt in Hd.
  intros [= <- <-]. split; [done|]. eexists _, _. split; [done|]. split; [by simplify_map_eq|].
  assert (Hd0 : 0 <= d) by lia.
  unfold read_wav, field. cbn -[le_combine le_split ascii_bytes tobytes pcm16].
  rewrite bool_decide_true by (vm_compute; done).
  assert (H4 : le_combine (le_split 4 d) = d) by (apply le_split_4; lia). cbn [le_split] in H4.
  rewrite take_0, drop_0, H4. unfold d. rewrite Nat2Z.id, take_ge by lia.
  rewrite from_bytes16_tobytes, pcm16_int16. reflexivity.
Qed.

(** An empty array makes [max()] raise on line 214: the method re-raises
    after creating its temporary file, which stays on disk, empty. *)
Lemma save_temp_audio_empty temp_path disk :
  save_temp_audio temp_path disk (NdArray []) = (<[temp_path := []]> disk, None).
Proof. reflexivity. Qed.

(** An array whose largest sample is at most 1.0 is written unscaled. *)
Lemma normalize_audio_unscaled a m :
  array_max a = Some m -> SFltb one32 m = false -> normalize_audio a = Some a.
Proof. intros Hm Hlt. unfold normalize_audio. by rewrite Hm, Hlt. Qed.

(** The int16 cast of an integer in [-65536, -32769] adds 65536. *)
Lemma as_int16_wrap_low z : -65536 <= z < -32768 -> as_int16 z = z + 65536.
Proof.
  intros Hz. unfold as_int16.
  replace (z mod 2 ^ 16) with (z + 65536) by (apply Z.mod_unique with (-1); lia).
  destruct (z + 65536 <? 2 ^ 15) eqn:E; [reflexivity|]. apply Z.ltb_ge in E. lia.
Qed.

(** C31: The normalisation of [_save_temp_audio] tests the largest sample,
    not the largest magnitude.  In every array whose largest sample is at
    most 1.0, a sample whose product by 32767 truncates into
    [-65536, -32769] -- a negative peak between -2 and -1 -- is not
    scaled, and [astype(np.int16)] wraps it around to the positive
    number 65536 more: the sample -2.0 is stored as +2. *)
Theorem negative_peak_wraps a m i x z :
  array_max a = Some m -> SFltb one32 m = false -> a !! i = Some x ->
  trunc_sf (SFmul prec32 emax32 x full_scale32) = Some z -> -65536 <= z < -32768 ->
  (pcm16 <$> normalize_audio a) ≫= (fun pcm => pcm !! i) = Some (z + 65536).
Proof.
  intros Hm Hlt Hx Ht Hz. rewrite (normalize_audio_unscaled a m Hm Hlt). simpl.
  unfold pcm16. rewrite list_lookup_fmap, Hx. simpl. f_equal.
  unfold to_int16, to_int32. rewrite Ht.
  replace ((- 2 ^ 31 <=? z) && (z <? 2 ^ 31)) with true by (symmetry; apply andb_true_iff; lia).
  by apply as_int16_wrap_low.
Qed.

(** ** Witnesses *)

Definition peak_array : list spec_float := to_float32 <$> [0.5; -2]%float.

Lemma negative_peak_wraps_witness :
  (array_max peak_array = Some (to_float32 0.5) /\ SFltb one32 (to_float32 0.5) = false /\
   peak_array !! 1%nat = Some (to_float32 (-2)) /\
   trunc_sf (SFmul prec32 emax32 (to_float32 (-2)) full_scale32) = Some (-65534) /\
   -65536 <= -65534 < -32768) /\
  (pcm16 <$> normalize_audio peak_array) ≫= (fun pcm => pcm !! 1%nat) = Some 2.
Proof.
  assert (H1 : array_max peak_array = Some (to_float32 0.5)) by (vm_compute; reflexivity).
  assert (H2 : SFltb one32 (to_float32 0.5) = false) by (vm_compute; reflexivity).
  assert (H3 : peak_array !! 1%nat = Some (to_float32 (-2))) by (vm_compute; reflexivity).
  assert (H4 : trunc_sf (SFmul prec32 emax32 (to_float32 (-2)) full_scale32) = Some (-65534))
    by (vm_compute; reflexivity).
  assert (H5 : -65536 <= -65534 < -32768) by lia.
  split; [split; [exact H1 | split; [exact H2 | split; [exact H3 | split; [exact H4 | exact H5]]]]|].
  exact (negative_peak_wraps peak_array _ 1 _ _ H1 H2 H3 H4 H5).
Defined.

Definition sample_temp_path : string := "/tmp/tmpk2x9w1.wav".

Definition sample_save : Disk * option string :=
  save_temp_audio sample_temp_path ∅ (NdArray [0.5; -2]%float).

Lemma save_temp_audio_roundtrip_witness :
  sample_temp_path = sample_temp_path /\ exists a bytes,
    normalize_audio (to_float32 <$> [0.5; -2]%float) = Some a /\
    sample_save.1 !! sample_temp_path = Some bytes /\ read_wav bytes = Some (1, 2, 16000, pcm16 a).
Proof.
  apply (save_temp_audio_roundtrip sample_temp_path ∅ [0.5; -2]%float sample_save.1 sample_temp_path).
  vm_compute. reflexivity.
Defined.

End Wav.
