(* ===== verification/Stt.v ===== *)
(** The speech-to-text client of [speech_to_Text/whisper.py]
    ([OmaniSTT]): the provider configuration of [__init__] with its
    errors, the dispatch of [transcribe_audio] to Gemini or Groq with the
    requests they send, and the dialect post-processing of the text.

    The file system and the HTTP exchanges are parameters, gathered in
    [STTEnv]: whether a path exists, the bytes of a file ([None] when
    [open] raises), the temporary WAV file written for an array of
    samples ([None] when [_save_temp_audio] raises), and the JSON answers
    of the two services ([None] when the request, [raise_for_status] or
    the decoding raises).  Every [except] of the module logs and returns
    [None]; [__init__] re-raises, so its errors are the [inl] of a sum.
    [is_speech_detected], [get_audio_duration] (librosa) and the
    conversion of a numpy array to 16-bit PCM are not modelled: the
    sources never call the first two, and the third is the parameter
    [save_temp]. *)

From Stdlib Require Import Ascii.
From Stdlib Require Import Floats.
From S2P Require Import Prelude Text StrOps Base64 Wav.
Import PyStr PyStrOps Base64.

Local Open Scope string_scope.

Module STT.

(** [self.omani_context], lines 49-54. *)
Definition omani_context : list (string * string) := [
  ("initial_prompt", "هذا محادثة باللهجة العمانية والعربية الخليجية. يرجى النسخ بدقة مع مراعاة اللهجة المحلية العمانية.");
  ("language", "ar");
  ("task", "transcribe");
  ("cultural_context", "Omani dialect Arabic transcription")].

Definition initial_prompt : string := "هذا محادثة باللهجة العمانية والعربية الخليجية. يرجى النسخ بدقة مع مراعاة اللهجة المحلية العمانية.".

(** [self.omani_vocabulary], lines 57-62. *)
Definition omani_vocabulary : list string := [
  
  "شلونك";
  "كيفك";
  "وش أخبارك";
  "حمدالله";
  "إن شاء الله";
  "والله";
  "يالله";
  "طيب";
  "زين";
  "صج";
  "لا والله";
  "ما شاء الله";
  "سبحان الله";
  "الحمد لله";
  "بسم الله";
  "عساك بخير";
  "الله يعطيك العافية";
  "مشكور"].

Record OmaniSTT := mkSTT {
  provider : string;
  api_key : string;
  model_name : string;
  api_url : string;
  headers : list (string * string)
}.

Inductive STTError := ValueError (msg : string).

(** [x or y] on optional strings: [None] and the empty string are false. *)
Definition py_or (x y : option string) : option string :=
  match x with
  | Some s => if String.eqb s "" then y else x
  | None => y
  end.

Definition gemini_url : string :=
  "https://generativelanguage.googleapis.com/v1beta/models/{model}:generateContent".
Definition groq_url : string := "https://api.groq.com/openai/v1/audio/transcriptions".

(** [__init__], lines 17-68: [env] is [os.getenv]. *)
Definition OmaniSTT_init (provider_arg : string) (api_key_arg model_name_arg : option string)
    (env : string -> option string) : STTError + OmaniSTT :=
  let prov := lower provider_arg in
  match py_or api_key_arg (env (upper provider_arg ++ "_API_KEY")) with
  | Some key =>
      if String.eqb key "" then
        inl (ValueError ("API key required for " ++ provider_arg ++ ". Set " ++
                         upper provider_arg ++ "_API_KEY environment variable."))
      else if String.eqb prov "gemini" then
        inr (mkSTT prov key (default "gemini-1.5-pro" (py_or model_name_arg None)) gemini_url
                   [("Content-Type", "application/json")])
      else if String.eqb prov "groq" then
        inr (mkSTT prov key (default "whisper-large-v3" (py_or model_name_arg None)) groq_url
                   [("Authorization", "Bearer " ++ key); ("Content-Type", "multipart/form-data")])
      else inl (ValueError ("Unsupported provider: " ++ provider_arg ++ ". Use 'gemini' or 'groq'"))
  | None =>
      inl (ValueError ("API key required for " ++ provider_arg ++ ". Set " ++
                       upper provider_arg ++ "_API_KEY environment variable."))
  end.

(** [create_omani_stt(provider, **kwargs)], lines 329-347. *)
Definition create_omani_stt (provider_arg : string) (api_key_arg model_name_arg : option string)
    (env : string -> option string) : STTError + OmaniSTT :=
  OmaniSTT_init provider_arg api_key_arg model_name_arg env.

(** ** The dialect post-processing *)

(** [corrections], lines 257-269, in the order of the literal. *)
Definition corrections : list (string * string) := [
  ("شلون", "شلونك");
  ("كيف", "كيفك");
  ("وش", "وش أخبارك");
  ("ان شاء الله", "إن شاء الله");
  ("ما شاء الله", "ما شاء الله");
  ("الحمد لله", "الحمد لله");
  ("سبحان الله", "سبحان الله");
  ("بسم الله", "بسم الله");
  ("عساك بخير", "عساك بخير");
  ("الله يعطيك العافية", "الله يعطيك العافية")].

(** [_postprocess_omani_text], lines 245-282. *)
Definition postprocess_omani_text (text : string) : string :=
  let processed_text := fold_left (fun t '(mistake, correction) => py_replace mistake correction t)
                                  corrections text in
  let processed_text := normalize_spaces processed_text in
  py_replace "*" "" (py_replace "**" "" processed_text).

(** ** Transcription *)

(** The JSON body of the Gemini request, lines 115-132. *)
Record GeminiPayload := mkGeminiPayload {
  gp_text : string;
  gp_mime_type : string;
  gp_data : string;
  gp_temperature : Q;
  gp_max_output_tokens : Z
}.

(** The multipart form of the Groq request, lines 156-162. *)
Record GroqForm := mkGroqForm {
  gf_filename : string;
  gf_file : list Z;
  gf_model : string;
  gf_language : string;
  gf_prompt : string;
  gf_temperature : string
}.

(** The environment of a transcription.  [gemini_post] answers the
    texts at [candidates[i].content.parts[0].text] ([None] for a
    candidate where the path is missing); [groq_post] answers the
    [text] field ([None] when absent). *)
Record STTEnv := mkSTTEnv {
  path_exists : string -> bool;
  read_bytes : string -> option (list Z);
  save_temp : list float -> option string;
  gemini_post : string -> GeminiPayload -> option (list (option string));
  groq_post : string -> list (string * string) -> GroqForm -> option (option string)
}.

(** [os.path.basename(path)]: the text after the last [/]. *)
Fixpoint basename_from (s cur : string) : string :=
  match s with
  | EmptyString => cur
  | String c s' => if Ascii.eqb c "/"%char then basename_from s' "" else basename_from s' (cur ++ String c "")
  end.

Definition basename (path : string) : string := basename_from path "".

Definition gemini_instruction : string :=
  "Please transcribe this Arabic audio with focus on Omani dialect. " ++ initial_prompt.

(** [_transcribe_with_gemini], lines 105-148: the URL is the template
    with the model and the key, the audio is sent in base64. *)
Definition transcribe_with_gemini (st : OmaniSTT) (env : STTEnv) (audio_path : string) : option string :=
  match read_bytes env audio_path with
  | None => None
  | Some audio_bytes =>
      let audio_data := b64encode audio_bytes in
      let url := py_replace "{model}" (model_name st) (api_url st) ++ "?key=" ++ api_key st in
      let payload := mkGeminiPayload gemini_instruction "audio/wav" audio_data (1 # 10) 1000 in
      match gemini_post env url payload with
      | Some (Some text :: _) => Some (postprocess_omani_text (py_strip text))
      | _ => None
      end
  end.

(** [_transcribe_with_groq], lines 150-184. *)
Definition transcribe_with_groq (st : OmaniSTT) (env : STTEnv) (audio_path : string) : option string :=
  match read_bytes env audio_path with
  | None => None
  | Some audio_bytes =>
      let files := mkGroqForm (basename audio_path) audio_bytes (model_name st) "ar" initial_prompt "0.1" in
      match groq_post env (api_url st) [("Authorization", "Bearer " ++ api_key st)] files with
      | Some (Some text) => Some (postprocess_omani_text (py_strip text))
      | _ => None
      end
  end.

(** What [transcribe_audio] receives: a path, or an array of samples. *)
Inductive AudioInput :=
| AudioPath (path : string)
| AudioSamples (samples : list float).

(** [OmaniSTT.transcribe_audio], lines 70-103. *)
Definition OmaniSTT_transcribe_audio (st : OmaniSTT) (env : STTEnv) (audio_input : AudioInput) : option string :=
  let audio_path := match audio_input with
                    | AudioPath p => Some p
                    | AudioSamples a => save_temp env a
                    end in
  match audio_path with
  | None => None
  | Some p =>
      if negb (path_exists env p) then None
      else if String.eqb (provider st) "gemini" then transcribe_with_gemini st env p
      else if String.eqb (provider st) "groq" then transcribe_with_groq st env p
      else None
  end.

(** [transcribe_audio_sync], lines 234-243: a fresh event loop runs the
    coroutine to completion and is closed; [transcribe_audio] catches
    every exception, so the result is the coroutine's. *)
Definition transcribe_audio_sync (st : OmaniSTT) (env : STTEnv) (audio_input : AudioInput) : option string :=
  OmaniSTT_transcribe_audio st env audio_input.

(** [setup_environment_variables], lines 349-365: the instructions per
    provider. *)
Definition setup_environment_variables : list (string * list (string * string)) := [
  ("gemini", [("env_var", "GEMINI_API_KEY");
              ("description", "Get API key from Google AI Studio: https://makersuite.google.com/app/apikey");
              ("setup", "export GEMINI_API_KEY=your_api_key_here")]);
  ("groq", [("env_var", "GROQ_API_KEY");
            ("description", "Get API key from Groq Console: https://console.groq.com/keys");
            ("setup", "export GROQ_API_KEY=your_api_key_here")])].

(** ** Theorems *)

Lemma postprocess_no_star text : str_in "*" (postprocess_omani_text text) = false.
Proof. unfold postprocess_omani_text. cbn zeta. by apply py_replace_char_absent. Qed.

(** Every transcription that [transcribe_audio] returns is the
    post-processing of the text a service answered. *)
Lemma transcribe_postprocessed st env input t :
  OmaniSTT_transcribe_audio st env input = Some t -> exists raw, t = postprocess_omani_text raw.
Proof.
  unfold OmaniSTT_transcribe_audio, transcribe_with_gemini, transcribe_with_groq.
  destruct (match input with AudioPath p => Some p | AudioSamples a => save_temp env a end)
    as [p|]; [|discriminate].
  destruct (path_exists env p); [|discriminate]. simpl.
  destruct (String.eqb _ "gemini"); [|destruct (String.eqb _ "groq"); [|discriminate]];
    destruct (read_bytes env p); try discriminate;
    repeat case_match; try discriminate; intros [= <-]; eauto.
Qed.

(** C29: Whatever the provider and whatever the services answer, a
    transcription returned by [transcribe_audio] contains no asterisk. *)
Lemma transcribe_no_star st env input t :
  OmaniSTT_transcribe_audio st env input = Some t -> str_in "*" t = false.
Proof. intros (raw & ->)%transcribe_postprocessed. apply postprocess_no_star. Qed.

(** The variable each provider's setup instructions name is the one
    [__init__] reads for that provider. *)
Lemma setup_names_init_variable p v :
  (p, v) ∈ setup_environment_variables ->
  snd <$> List.find (fun e => String.eqb e.1 "env_var") v = Some (upper p ++ "_API_KEY").
Proof.
  unfold setup_environment_variables.
  intros [[= -> ->]|[[= -> ->]|[]%elem_of_nil]%elem_of_cons]%elem_of_cons;
    vm_compute; reflexivity.
Qed.

Lemma py_or_Some_nonempty x y key :
  py_or x y = Some key -> key <> "" -> x = Some key \/ (y = Some key /\ forall s, x = Some s -> s = "").
Proof.
  unfold py_or. destruct x as [s|]; [|intros ->; right; split; [done | discriminate]].
  destruct (String.eqb_spec s ""); intros Hk Hne; [right; split; [done | congruence] | left; done].
Qed.

(** [__init__] raises exactly when no non-empty API key is given, as
    argument or in [<PROVIDER>_API_KEY], or when the provider, lowered,
    is neither [gemini] nor [groq]; otherwise the model is the given
    non-empty name or the provider's default. *)
Lemma init_result p k m env :
  match OmaniSTT_init p k m env with
  | inl _ =>
      (forall key, py_or k (env (upper p ++ "_API_KEY")) = Some key -> key = "") \/
      (lower p <> "gemini" /\ lower p <> "groq")
  | inr st =>
      py_or k (env (upper p ++ "_API_KEY")) = Some (api_key st) /\ api_key st <> "" /\
      provider st = lower p /\
      ((lower p = "gemini" /\ model_name st = default "gemini-1.5-pro" (py_or m None)) \/
       (lower p = "groq" /\ model_name st = default "whisper-large-v3" (py_or m None)))
  end.
Proof.
  unfold OmaniSTT_init. destruct (py_or k _) as [key|] eqn:Ek; [|left; discriminate].
  destruct (String.eqb_spec key "") as [-> | Hne]; [left; by intros ? [= <-]|].
  destruct (String.eqb_spec (lower p) "gemini") as [Hg | Hg]; [simpl; tauto|].
  destruct (String.eqb_spec (lower p) "groq") as [Hq | Hq]; simpl; tauto.
Qed.

(** ** Witnesses and scenarios *)

Definition groq_env_vars (name : string) : option string :=
  if String.eqb name "GROQ_API_KEY" then Some "gsk-test" else None.

(** A Groq service that answers the same raw text for every file. *)
Definition echo_env (raw : string) : STTEnv :=
  mkSTTEnv (fun _ => true) (fun _ => Some [82; 73; 70; 70]%Z) (fun _ => Some "/tmp/a.wav")
           (fun _ _ => Some [Some raw]) (fun _ _ _ => Some (Some raw)).

Definition sample_stt : OmaniSTT := mkSTT "groq" "gsk-test" "whisper-large-v3" groq_url
  [("Authorization", "Bearer gsk-test"); ("Content-Type", "multipart/form-data")].

Lemma init_result_witness :
  OmaniSTT_init "Groq" None None groq_env_vars = inr sample_stt.
Proof. vm_compute. reflexivity. Qed.

Lemma transcribe_no_star_witness :
  OmaniSTT_transcribe_audio sample_stt (echo_env "**مرحبا**") (AudioPath "/tmp/a.wav") = Some "مرحبا" /\
  str_in "*" "مرحبا" = false.
Proof.
  assert (H : OmaniSTT_transcribe_audio sample_stt (echo_env "**مرحبا**") (AudioPath "/tmp/a.wav") = Some "مرحبا")
    by (vm_compute; reflexivity).
  split; [exact H | exact (transcribe_no_star _ _ _ _ H)].
Defined.

(** The correction of [كيف] also rewrites a correct [كيفك], and inside
    longer words: the corrections are substring replacements. *)
Lemma postprocess_corrupts_kaifak :
  postprocess_omani_text "كيفك" = "كيفكك" /\ postprocess_omani_text "شلونك" = "شلونكك" /\
  postprocess_omani_text "كيفية" = "كيفكية".
Proof. vm_compute. repeat split. Qed.

(** The asterisks are removed after the spaces are normalised: a lone
    asterisk between two words leaves a double space. *)
Lemma postprocess_star_double_space : postprocess_omani_text "a * b" = "a  b".
Proof. vm_compute. reflexivity. Qed.

(** A missing key is reported before an unsupported provider. *)
Lemma init_missing_key_first :
  OmaniSTT_init "whisper" None None (fun _ => None) =
  inl (ValueError "API key required for whisper. Set WHISPER_API_KEY environment variable.").
Proof. vm_compute. reflexivity. Qed.

End STT.
