(* ===== verification/ApiMonad.v ===== *)
(** The effects of the request handlers of [backend/api/main.py]: they
    read and write the module's globals and the temporary files, and
    they raise.  [M S A] is a state and exception monad: a handler maps
    the state to an outcome, an exception or a value, and the new state
    (the writes done before a [raise] stay done, as in Python).  The
    [try]/[except]/[finally] blocks of the handlers are [try_except] and
    [try_finally]; [x ← m; k] is the stdpp notation of [mbind]. *)

From stdpp Require Import pretty.
From S2P Require Import Prelude.

Module ApiMonad.

(** The exceptions a handler raises: FastAPI's [HTTPException] with its
    status and detail, or any other exception with its [str()]. *)
Inductive Exc :=
| HTTPException (status_code : Z) (detail : string)
| PyException (msg : string).

#[export] Instance Exc_eq_dec : EqDecision Exc.
Proof. solve_decision. Defined.

(** [str(e)]: Starlette's [HTTPException.__str__] is
    [f"{status_code}: {detail}"]. *)
Definition exc_str (e : Exc) : string :=
  match e with
  | HTTPException c d => (pretty (Z.to_N c) +:+ ": " +:+ d)%string
  | PyException m => m
  end.

Definition M (S A : Type) : Type := S -> (Exc + A) * S.

Section Monad.
Context {S : Type}.

Definition ret {A} (x : A) : M S A := fun s => (inr x, s).

Definition bind {A B} (m : M S A) (k : A -> M S B) : M S B :=
  fun s => match m s with
           | (inr x, s') => k x s'
           | (inl e, s') => (inl e, s')
           end.

Definition raise {A} (e : Exc) : M S A := fun s => (inl e, s).

Definition get : M S S := fun s => (inr s, s).

Definition modify (f : S -> S) : M S unit := fun s => (inr tt, f s).

(** [try: m] [except e: h(e)] *)
Definition try_except {A} (m : M S A) (h : Exc -> M S A) : M S A :=
  fun s => match m s with
           | (inl e, s') => h e s'
           | r => r
           end.

(** [try: m] [finally: f]: [f] runs after [m] on every path; an
    exception of [f] replaces the outcome of [m]. *)
Definition try_finally {A} (m : M S A) (f : M S unit) : M S A :=
  fun s => let '(r, s') := m s in
           match f s' with
           | (inl e, s'') => (inl e, s'')
           | (inr _, s'') => (r, s'')
           end.

(** ** Running a handler *)

Lemma run_ret {A} (x : A) s : ret x s = (inr x, s).
Proof. reflexivity. Qed.

Lemma run_bind {A B} (m : M S A) (k : A -> M S B) s :
  bind m k s = match m s with (inr x, s') => k x s' | (inl e, s') => (inl e, s') end.
Proof. reflexivity. Qed.

Lemma run_raise {A} e s : (raise e : M S A) s = (inl e, s).
Proof. reflexivity. Qed.

Lemma bind_ret_l {A B} (x : A) (k : A -> M S B) s : bind (ret x) k s = k x s.
Proof. reflexivity. Qed.

Lemma bind_ret_r {A} (m : M S A) s : bind m ret s = m s.
Proof. unfold bind, ret. by destruct (m s) as [[e|x] s']. Qed.

Lemma bind_assoc {A B C} (m : M S A) (k : A -> M S B) (h : B -> M S C) s :
  bind (bind m k) h s = bind m (fun x => bind (k x) h) s.
Proof. unfold bind. by destruct (m s) as [[e|x] s']. Qed.

Lemma bind_raise {A B} e (k : A -> M S B) s : bind (raise e) k s = (inl e, s).
Proof. reflexivity. Qed.

(** ** Invariants of the state

    [preserves P m]: from a state satisfying [P], [m] ends in a state
    satisfying [P], on every path. *)
Definition preserves {A} (P : S -> Prop) (m : M S A) : Prop := forall s, P s -> P (m s).2.

Lemma preserves_ret {A} P (x : A) : preserves P (ret x).
Proof. by intros s. Qed.

Lemma preserves_raise {A} P e : preserves P (raise e : M S A).
Proof. by intros s. Qed.

Lemma preserves_bind {A B} P (m : M S A) (k : A -> M S B) :
  preserves P m -> (forall x, preserves P (k x)) -> preserves P (bind m k).
Proof.
  intros Hm Hk s Hs. unfold bind. specialize (Hm s Hs).
  destruct (m s) as [[e|x] s']; [exact Hm | by apply Hk].
Qed.

Lemma preserves_try_except {A} P (m : M S A) (h : Exc -> M S A) :
  preserves P m -> (forall e, preserves P (h e)) -> preserves P (try_except m h).
Proof.
  intros Hm Hh s Hs. unfold try_except. specialize (Hm s Hs).
  destruct (m s) as [[e|x] s']; [by apply Hh | exact Hm].
Qed.

Lemma preserves_try_finally {A} P (m : M S A) f :
  preserves P m -> preserves P f -> preserves P (try_finally m f).
Proof.
  intros Hm Hf s Hs. unfold try_finally. specialize (Hm s Hs).
  destruct (m s) as [r s']. specialize (Hf s' Hm). by destruct (f s') as [[e|[]] s''].
Qed.

Lemma preserves_modify P f : (forall s, P s -> P (f s)) -> preserves P (modify f).
Proof. intros Hf s Hs. by apply Hf. Qed.

Lemma preserves_get P : preserves P get.
Proof. by intros s. Qed.

(** [safe P m]: from a state satisfying [P], [m] raises nothing and ends
    in a state satisfying [P].  An exception inside a [try] is allowed
    when its handler is safe. *)
Definition safe {A} (P : S -> Prop) (m : M S A) : Prop :=
  forall s, P s -> (exists x, (m s).1 = inr x) /\ P (m s).2.

Lemma safe_ret {A} P (x : A) : safe P (ret x).
Proof. intros s Hs. split; [by eexists|done]. Qed.

Lemma safe_get P : safe P get.
Proof. intros s Hs. split; [by eexists|done]. Qed.

Lemma safe_modify P f : (forall s, P s -> P (f s)) -> safe P (modify f).
Proof. intros Hf s Hs. split; [by eexists|by apply Hf]. Qed.

Lemma safe_bind {A B} P (m : M S A) (k : A -> M S B) :
  safe P m -> (forall x, safe P (k x)) -> safe P (bind m k).
Proof.
  intros Hm Hk s Hs. destruct (Hm s Hs) as [[x Hx] HP]. unfold bind.
  destruct (m s) as [r s']. simpl in *. subst r. by apply Hk.
Qed.

Lemma safe_try_except {A} P (m : M S A) (h : Exc -> M S A) :
  preserves P m -> (forall e, safe P (h e)) -> safe P (try_except m h).
Proof.
  intros Hm Hh s Hs. specialize (Hm s Hs). unfold try_except.
  destruct (m s) as [[e|x] s']; [by apply Hh|]. split; [by eexists|done].
Qed.

Lemma safe_try_finally {A} P (m : M S A) f : safe P m -> safe P f -> safe P (try_finally m f).
Proof.
  intros Hm Hf s Hs. destruct (Hm s Hs) as [[x Hx] HP]. unfold try_finally.
  destruct (m s) as [r s']. simpl in *. subst r.
  destruct (Hf s' HP) as [[y Hy] HP']. destruct (f s') as [r' s'']. simpl in *. by subst r'; split; [eexists|].
Qed.

Lemma safe_preserves {A} P (m : M S A) : safe P m -> preserves P m.
Proof. intros Hm s Hs. apply Hm, Hs. Qed.

End Monad.

#[export] Instance M_ret {S} : MRet (M S) := fun A x => ret x.
#[export] Instance M_bind {S} : MBind (M S) := fun A B k m => bind m k.

Lemma run_mbind {S A B} (m : M S A) (k : A -> M S B) s : (m ≫= k) s = bind m k s.
Proof. reflexivity. Qed.

Lemma preserves_mbind {S A B} (P : S -> Prop) (m : M S A) (k : A -> M S B) :
  preserves P m -> (forall x, preserves P (k x)) -> preserves P (m ≫= k).
Proof. apply preserves_bind. Qed.

Lemma safe_mbind {S A B} (P : S -> Prop) (m : M S A) (k : A -> M S B) :
  safe P m -> (forall x, safe P (k x)) -> safe P (m ≫= k).
Proof. apply safe_bind. Qed.

(** Runs a handler: unfolds the monad's operations. *)
Ltac run_handler := cbv [mbind M_bind mret M_ret bind ret raise get modify try_except try_finally].

(** [preserves] of a handler, from [preserves] of its parts, following
    the syntax of the handler (named handlers are not unfolded): the
    remaining goals are the steps that touch the state. *)
Ltac preserves_step :=
  lazymatch goal with
  | |- preserves _ (mbind _ _) => apply preserves_mbind; [|intros ?]
  | |- preserves _ (bind _ _) => apply preserves_bind; [|intros ?]
  | |- preserves _ (try_except _ _) => apply preserves_try_except; [|intros ?]
  | |- preserves _ (try_finally _ _) => apply preserves_try_finally
  | |- preserves _ (ret _) => apply preserves_ret
  | |- preserves _ (raise _) => apply preserves_raise
  | |- preserves _ get => apply preserves_get
  | |- preserves _ (let _ := _ in _) => cbv zeta
  | |- preserves _ _ => progress case_match
  end.

Ltac preserves_tac := repeat preserves_step.

(** [safe] of a handler, in the same way; the bodies of [try_except] are
    left to [preserves_tac]. *)
Ltac safe_step :=
  lazymatch goal with
  | |- safe _ (mbind _ _) => apply safe_mbind; [|intros ?]
  | |- safe _ (bind _ _) => apply safe_bind; [|intros ?]
  | |- safe _ (try_except _ _) => apply safe_try_except; [preserves_tac|intros ?]
  | |- safe _ (try_finally _ _) => apply safe_try_finally
  | |- safe _ (ret _) => apply safe_ret
  | |- safe _ get => apply safe_get
  | |- safe _ (let _ := _ in _) => cbv zeta
  | |- safe _ _ => progress case_match
  end.

Ltac safe_tac := repeat safe_step.

End ApiMonad.
