(* ===== verification/Api.v ===== *)
(** The FastAPI backend of [backend/api/main.py]: its globals
    ([stt_engine], [llm_engine], [conversation_history]), the temporary
    audio files of [SimpleAudioHelper], and the handlers of its routes,
    in the monad of [ApiMonad].

    The state [ApiState] holds the three globals, the files on disk (a
    map from path to bytes) and a clock whose ticks are the successive
    calls of [datetime.now()].  The section's parameters are what the
    module does not compute: [isoformat] of a tick, the name
    [NamedTemporaryFile] picks (a path that is not on disk), the HTTP
    exchanges of the Azure client and of the two speech services, and
    [os.getenv].  [random.choice] is the argument [rnd] of the handler.
    Logging is not modelled; [uvicorn.run] and the CORS middleware are
    configuration of the server. *)

From S2P Require Import Prelude Text StrOps PyDict Base64 Stt AzureLLM ApiMonad.
Import PyStr PyStrOps ApiMonad.

Local Open Scope string_scope.

Module Api.

(** An entry of [conversation_history]: [{"role", "content", "timestamp"}]. *)
Record HistEntry := mkEntry {
  entry_role : string;
  entry_content : string;
  entry_timestamp : string
}.

Record ApiState := mkApiState {
  stt_engine : option STT.OmaniSTT;
  llm_engine : option AzureLLM.LLMState;
  conversation_history : list HistEntry;
  disk : gmap string (list Z);
  clock : nat
}.

Definition set_stt (e : option STT.OmaniSTT) (s : ApiState) : ApiState :=
  mkApiState e (llm_engine s) (conversation_history s) (disk s) (clock s).
Definition set_llm (e : option AzureLLM.LLMState) (s : ApiState) : ApiState :=
  mkApiState (stt_engine s) e (conversation_history s) (disk s) (clock s).
Definition set_history (h : list HistEntry) (s : ApiState) : ApiState :=
  mkApiState (stt_engine s) (llm_engine s) h (disk s) (clock s).
Definition set_disk (d : gmap string (list Z)) (s : ApiState) : ApiState :=
  mkApiState (stt_engine s) (llm_engine s) (conversation_history s) d (clock s).

(** The module's globals when it is imported, lines 115-117. *)
Definition initial_state : ApiState := mkApiState None None [] ∅ 0.

(** [load_dotenv(env_path)], lines 21-27: each variable of the [.env]
    file ([dotenv]; [None] for a name it does not set) is added to
    [os.environ] ([os_env]) unless the name is already set -- to any
    value, the empty string included ([override=False]).  The result is
    what [os.getenv] answers afterwards. *)
Definition load_dotenv (os_env dotenv : string -> option string) : string -> option string :=
  fun name => match os_env name with Some v => Some v | None => dotenv name end.

(** The Pydantic models, lines 120-141. *)
Record ChatMessage := mkChatMessage {
  message : string;
  language : string;
  timestamp : option string
}.

Record ChatResponse := mkChatResponse {
  response : string;
  confidence : Q;
  cr_language : string;
  safety_score : Q
}.

Record SystemStatus := mkSystemStatus {
  stt_ready : bool;
  llm_ready : bool;
  services_healthy : bool;
  last_check : string
}.

Record AudioTranscription := mkAudioTranscription {
  text : string;
  tr_confidence : Q;
  tr_language : string;
  duration : Q
}.

(** The upload of a request: its file name ([None] when absent) and its
    bytes. *)
Record UploadFile := mkUploadFile {
  filename : option string;
  file_content : list Z
}.

(** ** The demo mode, lines 347-375 *)

Definition demo_responses : list (string * list string) := [
  ("arabic", [
    "أفهم مشاعرك وأقدر ثقتك في التحدث معي.";
    "شكراً لك على مشاركة هذا معي. مشاعرك مهمة ومعتبرة.";
    "أسمعك وأفهم ما تمر به. هل تريد التحدث أكثر عن ما يضايقك؟";
    "يتطلب الأمر شجاعة للتواصل. أنا هنا لدعمك.";
    "صحتك النفسية مهمة. دعنا نعمل على هذا معاً."]);
  ("english", [
    "I understand your feelings and appreciate your trust in talking to me.";
    "Thank you for sharing this with me. Your feelings are important and valid.";
    "I hear you and understand what you're going through. Would you like to talk more about what's bothering you?";
    "It takes courage to reach out. I'm here to support you.";
    "Your mental health matters. Let's work through this together."])].

(** [generate_demo_response]: [responses.get(language, responses["english"])]. *)
Definition generate_demo_response (msg lang : string) (rnd : nat) : string :=
  py_choice rnd (default (default [] (PyDict.dict_get demo_responses "english"))
                         (PyDict.dict_get demo_responses lang)).

Definition demo_transcriptions : list (string * string) := [
  ("arabic", "مرحبا، أشعر بالحزن اليوم وأحتاج إلى التحدث مع شخص ما");
  ("english", "Hello, I am feeling sad today and need to talk to someone")].

Definition generate_demo_transcription (lang : string) : string :=
  default (default "" (PyDict.dict_get demo_transcriptions "english"))
          (PyDict.dict_get demo_transcriptions lang).

(** [response_data.get("response", ...)]: both replies of the Azure
    client carry a [response]. *)
Definition reply_response (r : AzureLLM.Reply) : string :=
  match r with
  | AzureLLM.ReplySuccess resp _ _ _ _ => resp
  | AzureLLM.ReplyError resp _ _ => resp
  end.

(** [10 * 1024 * 1024], line 236. *)
Definition max_upload_size : nat := 10 * 1024 * 1024.

Section Handlers.

Context (isoformat : nat -> string).
Context (temp_name : gset string -> string).
Context (llm_post : AzureLLM.Transport).
Context (save_temp : list PrimFloat.float -> option string).
Context (gemini_post : string -> STT.GeminiPayload -> option (list (option string))).
Context (groq_post : string -> list (string * string) -> STT.GroqForm -> option (option string)).

(** [datetime.now().isoformat()] *)
Definition now : M ApiState string :=
  fun s => (inr (isoformat (clock s)),
            mkApiState (stt_engine s) (llm_engine s) (conversation_history s) (disk s) (S (clock s))).

(** [conversation_history.append(entry)] *)
Definition append_entry (e : HistEntry) : M ApiState unit :=
  modify (fun s => set_history (conversation_history s ++ [e])%list s).

(** ** [SimpleAudioHelper], lines 53-79 *)

(** [create_temp_audio_file]: a new file, named by [NamedTemporaryFile]. *)
Definition create_temp_audio_file (audio_data : list Z) : M ApiState string :=
  fun s => let name := temp_name (dom (disk s)) in
           (inr name, set_disk (<[name := audio_data]> (disk s)) s).

(** [validate_audio_file] *)
Definition validate_audio_file (file_path : string) : M ApiState (bool * string) :=
  fun s => (inr (match disk s !! file_path with
                 | None => (false, "File not found")
                 | Some bytes => if (length bytes =? 0)%nat then (false, "Empty file") else (true, "Valid")
                 end), s).

(** [cleanup_temp_file]: [os.unlink] when the file exists. *)
Definition cleanup_temp_file (file_path : string) : M ApiState unit :=
  modify (fun s => set_disk (delete file_path (disk s)) s).

(** The files and services the speech client sees. *)
Definition stt_env (s : ApiState) : STT.STTEnv :=
  STT.mkSTTEnv (fun p => bool_decide (is_Some (disk s !! p))) (fun p => disk s !! p)
               save_temp gemini_post groq_post.

(** ** The routes *)

(** [startup_event], lines 143-157: [create_omani_stt("groq")], then
    [create_azure_omani_llm()]; an exception of either is logged, and the
    globals assigned before it stay assigned. *)
Definition startup_event (backend_available : bool) (env : string -> option string) : M ApiState unit :=
  if backend_available then
    try_except
      (match STT.create_omani_stt "groq" None None env with
       | inl (STT.ValueError m) => raise (PyException m)
       | inr stt =>
           modify (set_stt (Some stt)) ;;
           match AzureLLM.create_azure_omani_llm env with
           | None => raise (PyException "Missing required Azure OpenAI configuration")
           | Some llm => modify (set_llm (Some llm))
           end
       end)
      (fun _ => ret tt)
  else ret tt.

(** [root], lines 159-162. *)
Definition root : M ApiState string := ret "OMANI Therapist API is running".

(** [health_check], lines 164-167. *)
Definition health_check : M ApiState (string * string) :=
  t ← now; ret ("healthy", t).

(** [get_system_status], lines 169-177. *)
Definition get_system_status : M ApiState SystemStatus :=
  s ← get; t ← now;
  ret (mkSystemStatus (bool_decide (is_Some (stt_engine s))) (bool_decide (is_Some (llm_engine s))) true t).

(** The call of the Azure client on line 194, with its own
    [datetime.now()]; the client's new history is stored back. *)
Definition llm_respond (llm : AzureLLM.LLMState) (msg : string) : M ApiState string :=
  t ← now;
  let '(reply, llm') := AzureLLM.generate_therapeutic_response llm llm_post msg None None t in
  modify (set_llm (Some llm')) ;;
  ret (reply_response reply).

(** [send_message], lines 179-218. *)
Definition send_message (rnd : nat) (msg : ChatMessage) : M ApiState ChatResponse :=
  try_except
    (t1 ← now;
     append_entry (mkEntry "user" (message msg) t1) ;;
     s ← get;
     response_text ← match llm_engine s with
                     | Some llm => llm_respond llm (message msg)
                     | None => ret (generate_demo_response (message msg) (language msg) rnd)
                     end;
     t2 ← now;
     append_entry (mkEntry "assistant" response_text t2) ;;
     ret (mkChatResponse response_text (85 # 100) (language msg) (95 # 100)))
    (fun e => raise (HTTPException 500 (exc_str e))).

(** The [except] clauses of lines 280-284: an [HTTPException] goes
    through, any other exception becomes a 500. *)
Definition reraise_http {A} (prefix : string) (e : Exc) : M ApiState A :=
  match e with
  | HTTPException _ _ => raise e
  | PyException m => raise (HTTPException 500 (prefix ++ m))
  end.

Definition no_speech : string := "Could not transcribe audio - no speech detected".

(** Lines 242-278, once the temporary file exists. *)
Definition transcribe_saved (audio_path lang : string) : M ApiState AudioTranscription :=
  '(is_valid, error_msg) ← validate_audio_file audio_path;
  if negb is_valid then raise (HTTPException 422 ("Invalid audio file: " ++ error_msg)) else
  s ← get;
  match stt_engine s with
  | Some stt =>
      try_except
        (match STT.OmaniSTT_transcribe_audio stt (stt_env s) (STT.AudioPath audio_path) with
         | Some transcription =>
             if String.eqb (py_strip transcription) "" then raise (HTTPException 422 no_speech)
             else ret (mkAudioTranscription transcription (9 # 10) lang 10)
         | None => raise (HTTPException 422 no_speech)
         end)
        (fun stt_error => raise (HTTPException 500 ("Speech recognition failed: " ++ exc_str stt_error)))
  | None => ret (mkAudioTranscription (generate_demo_transcription lang) (8 # 10) lang 5)
  end.

(** [transcribe_audio], lines 220-288.  The [finally] clause acts only
    once [audio_path] is assigned (line 240), so the [try] statement is
    split there: the checks before it under the [except] clauses alone,
    the rest under the [except] clauses and the clean-up. *)
Definition transcribe_audio (audio : UploadFile) (lang : string) : M ApiState AudioTranscription :=
  try_except
    (if String.eqb (default "" (filename audio)) "" then
       raise (HTTPException 400 "No audio file provided") else
     let content := file_content audio in
     if (length content =? 0)%nat then raise (HTTPException 400 "Audio file is empty") else
     if (max_upload_size <? length content)%nat then
       raise (HTTPException 413 "Audio file too large (max 10MB)") else
     audio_path ← create_temp_audio_file content;
     try_finally
       (try_except (transcribe_saved audio_path lang) (reraise_http "Audio processing failed: "))
       (cleanup_temp_file audio_path))
    (reraise_http "Audio processing failed: ").

(** [process_audio], lines 290-323: the transcription, then
    [send_message]; a [ChatResponse] has no attribute [transcription],
    so lines 313-314 do nothing. *)
Definition process_audio (rnd : nat) (audio : UploadFile) (lang : string) : M ApiState ChatResponse :=
  try_except
    (transcription_result ← transcribe_audio audio lang;
     if String.eqb (text transcription_result) "" then
       raise (HTTPException 422 "No transcription obtained from audio") else
     send_message rnd (mkChatMessage (text transcription_result) lang None))
    (reraise_http "Error processing audio for response: ").

(** [clear_conversation], lines 325-334. *)
Definition clear_conversation : M ApiState string :=
  modify (set_history []) ;;
  s ← get;
  match llm_engine s with
  | Some llm => modify (set_llm (Some (AzureLLM.clear_conversation_history llm)))
  | None => ret tt
  end ;;
  ret "Conversation cleared".

(** [get_conversation_history], lines 336-339. *)
Definition get_conversation_history : M ApiState (list HistEntry) :=
  s ← get; ret (conversation_history s).

(** [report_emergency], lines 341-345: the details are only logged. *)
Definition report_emergency (details : list (string * string)) : M ApiState string :=
  ret "Emergency reported successfully".

(** ** The temporary files *)

Definition disk_is (D : gmap string (list Z)) (s : ApiState) : Prop := disk s = D.

Lemma reraise_http_keeps {A} P prefix e : preserves P (reraise_http (A:=A) prefix e).
Proof. destruct e; apply preserves_raise. Qed.

Lemma transcribe_saved_disk p lang D : preserves (disk_is D) (transcribe_saved p lang).
Proof.
  unfold transcribe_saved, validate_audio_file. preserves_tac; by intros ??.
Qed.

(** A block run under [finally: cleanup_temp_file(path)] that does not
    write the disk ends with the file at [path] removed. *)
Lemma try_finally_cleanup {A} (m : M ApiState A) path s :
  preserves (disk_is (disk s)) m ->
  disk (try_finally m (cleanup_temp_file path) s).2 = delete path (disk s).
Proof.
  intros Hm. specialize (Hm s eq_refl). unfold try_finally, cleanup_temp_file, modify.
  destruct (m s) as [r s']. simpl in *. by rewrite Hm.
Qed.

(** ** The two histories *)

Definition to_message (e : HistEntry) : AzureLLM.Message :=
  AzureLLM.mkMessage (entry_role e) (entry_content e).

(** The history of the API is whole exchanges, and the history of the
    Azure client is a subsequence of it. *)
Definition histories_agree (s : ApiState) : Prop :=
  AzureLLM.paired (map to_message (conversation_history s)) /\
  forall llm, llm_engine s = Some llm ->
    AzureLLM.conversation_history llm `sublist_of` map to_message (conversation_history s).

(** What [send_message] does: it answers, and the history gets the
    user's message and the answer; the client, when there is one, is the
    one after its call. *)
Lemma send_message_spec rnd msg s :
  exists t1 t2 r llm' c,
    send_message rnd msg s =
      (inr (mkChatResponse r (85 # 100) (language msg) (95 # 100)),
       mkApiState (stt_engine s) llm'
         (conversation_history s ++ [mkEntry "user" (message msg) t1; mkEntry "assistant" r t2])%list
         (disk s) c) /\
    match llm_engine s with
    | None => llm' = None /\ r = generate_demo_response (message msg) (language msg) rnd
    | Some llm => exists t,
        llm' = Some (AzureLLM.generate_therapeutic_response llm llm_post (message msg) None None t).2 /\
        r = reply_response (AzureLLM.generate_therapeutic_response llm llm_post (message msg) None None t).1
    end.
Proof.
  unfold send_message, append_entry, llm_respond, now. run_handler. simpl.
  destruct (llm_engine s) as [llm|]; simpl.
  - match goal with |- context [AzureLLM.generate_therapeutic_response ?a ?b ?c ?d ?e ?f] =>
      destruct (AzureLLM.generate_therapeutic_response a b c d e f) as [reply llm'] eqn:E end.
    simpl. do 5 eexists. split; [rewrite <- app_assoc; reflexivity|]. eexists. by rewrite E.
  - do 5 eexists. split; [rewrite <- app_assoc; reflexivity | done].
Qed.

Lemma paired_app_exchange h u a :
  AzureLLM.paired h -> AzureLLM.paired (h ++ AzureLLM.exchange u a)%list.
Proof.
  intros [ps ->]. exists (ps ++ [(u, a)])%list. rewrite AzureLLM.exchanges_app.
  f_equal.
Qed.

Lemma clear_conversation_agree : preserves histories_agree clear_conversation.
Proof.
  intros s _. unfold clear_conversation. run_handler. cbn.
  destruct (llm_engine s) eqn:E; simpl; (split; [by exists [] |]);
    intros ? H; cbn in *; try congruence; injection H as <-; apply sublist_nil_l.
Qed.

Hypothesis temp_name_fresh : forall X, temp_name X ∉ X.

(** The body of [transcribe_audio] leaves the disk as it found it. *)
Lemma transcribe_audio_disk audio lang s : disk (transcribe_audio audio lang s).2 = disk s.
Proof.
  unfold transcribe_audio. unfold try_except at 1.
  set (body := if String.eqb _ _ then _ else _).
  enough (H : disk (body s).2 = disk s)
    by (destruct (body s) as [[e|x] s'] eqn:E; simpl in *; [|done];
        pose proof (reraise_http_keeps (A:=AudioTranscription) (disk_is (disk s')) "Audio processing failed: " e s' eq_refl) as He;
        unfold disk_is in He; by rewrite He).
  subst body. repeat case_match; try done.
  rewrite run_mbind. unfold bind, create_temp_audio_file. simpl.
  rewrite try_finally_cleanup.
  - simpl. apply delete_insert_id, not_elem_of_dom, temp_name_fresh.
  - preserves_tac; first [apply transcribe_saved_disk | apply reraise_http_keeps].
Qed.

(** The errors [transcribe_saved] raises are 422 and 500. *)
Lemma transcribe_saved_codes p lang s e :
  (transcribe_saved p lang s).1 = inl e -> exists d, e = HTTPException 422 d \/ e = HTTPException 500 d.
Proof.
  unfold transcribe_saved, validate_audio_file. run_handler.
  repeat (case_match; simpl in *); intros; simplify_eq; eauto.
Qed.

(** C19: The size limit of an upload: an upload with a name and some bytes
    is refused with 413 exactly when it has more than 10 MiB (10485760
    bytes); an upload of 10 MiB exactly is accepted. *)
Lemma upload_size_limit name content lang s :
  name <> "" -> content <> [] ->
  (transcribe_audio (mkUploadFile (Some name) content) lang s).1 =
    inl (HTTPException 413 "Audio file too large (max 10MB)") <->
  (max_upload_size < length content)%nat.
Proof.
  intros Hn Hc. unfold transcribe_audio. unfold try_except at 1. cbn [filename file_content default id].
  rewrite (proj2 (String.eqb_neq name "") Hn).
  destruct content as [|b bs]; [done|]. cbn [length Nat.eqb].
  destruct (max_upload_size <? S (length bs))%nat eqn:E.
  - apply Nat.ltb_lt in E. simpl. tauto.
  - apply Nat.ltb_nlt in E. split; [|lia].
    unfold create_temp_audio_file, try_finally, cleanup_temp_file, modify. run_handler. simpl.
    unfold try_except. destruct (transcribe_saved _ _ _) as [[e|x] s'] eqn:Es; simpl; [|discriminate].
    destruct (transcribe_saved_codes _ _ _ e ltac:(by rewrite Es)) as [d [-> | ->]]; simpl; discriminate.
Qed.

Lemma transcribe_audio_keeps audio lang D : preserves (disk_is D) (transcribe_audio audio lang).
Proof. intros s Hs. unfold disk_is in *. by rewrite transcribe_audio_disk. Qed.

Lemma send_message_disk rnd msg D : preserves (disk_is D) (send_message rnd msg).
Proof. unfold send_message, append_entry, llm_respond, now, modify. preserves_tac; by intros ??. Qed.

(** [process_audio] is the transcription followed by [send_message]
    on its text, in the state the transcription leaves. *)
Lemma process_audio_sends rnd audio lang s tr s1 :
  transcribe_audio audio lang s = (inr tr, s1) -> text tr <> "" ->
  process_audio rnd audio lang s = send_message rnd (mkChatMessage (text tr) lang None) s1.
Proof.
  intros Ht Hne. unfold process_audio. unfold try_except at 1. rewrite run_mbind. unfold bind.
  rewrite Ht. rewrite (proj2 (String.eqb_neq _ _) Hne).
  destruct (send_message_spec rnd (mkChatMessage (text tr) lang None) s1) as (? & ? & ? & ? & ? & -> & _).
  reflexivity.
Qed.

(** C18: No upload leaves a file behind: after a transcription request or
    an audio-processing request, whether it answers or raises, the files
    on disk are the files before the request. *)
Lemma upload_requests_keep_disk rnd audio lang s :
  disk (transcribe_audio audio lang s).2 = disk s /\
  disk (process_audio rnd audio lang s).2 = disk s.
Proof.
  split; [apply transcribe_audio_disk|].
  enough (H : preserves (disk_is (disk s)) (process_audio rnd audio lang)) by exact (H s eq_refl).
  unfold process_audio. preserves_tac;
    first [apply transcribe_audio_keeps | apply send_message_disk | apply reraise_http_keeps].
Qed.

(** C21: For every upload with a name and at most 10 MiB of bytes, and
    every state whose speech engine uses Groq: when the Groq service
    returns no transcript -- no answer at all, or an answer without
    [text] -- the 422 "no speech" raised in the [try] of line 252 is
    caught by its [except Exception] (line 265) and the client gets a
    500 whose detail carries the 422. *)
Theorem no_speech_reported_as_500 audio lang s stt :
  stt_engine s = Some stt -> STT.provider stt = "groq" ->
  default "" (filename audio) <> "" -> file_content audio <> [] ->
  (length (file_content audio) <= max_upload_size)%nat ->
  (forall url hs form, groq_post url hs form = None \/ groq_post url hs form = Some None) ->
  (transcribe_audio audio lang s).1 =
    inl (HTTPException 500 ("Speech recognition failed: 422: " ++ no_speech)).
Proof.
  intros Hst Hp Hn Hc Hl Hg. destruct audio as [name content]. cbn [filename file_content] in *.
  unfold transcribe_audio. unfold try_except at 1. cbn [filename file_content].
  rewrite (proj2 (String.eqb_neq _ "") Hn).
  destruct content as [|b bs]; [done|]. cbn [length Nat.eqb].
  assert (Hlt : (max_upload_size <? S (length bs))%nat = false) by (apply Nat.ltb_nlt; cbn [length] in Hl; lia).
  rewrite Hlt.
  unfold create_temp_audio_file, try_finally, cleanup_temp_file, modify. run_handler. simpl.
  unfold transcribe_saved, validate_audio_file. run_handler. simpl.
  rewrite lookup_insert_eq. simpl. rewrite Hst.
  unfold STT.OmaniSTT_transcribe_audio, STT.transcribe_with_groq, stt_env. simpl.
  rewrite lookup_insert_eq, Hp. simpl.
  match goal with |- context [groq_post ?u ?h ?f] => destruct (Hg u h f) as [-> | ->] end;
    vm_compute; reflexivity.
Qed.

(** C17: For every state with an Azure client and every message, when the
    service gives no answer -- an exception, or a reply without
    choices -- [send_message] still answers 200 with the client's
    error text, records that text as the assistant's reply in the API's
    history after the user's message, and the client's own history is
    unchanged: the failed turn is in the one history and not in the
    other. *)
Theorem failed_call_recorded_as_answer rnd msg s llm :
  llm_engine s = Some llm ->
  (forall ms, match llm_post ms with Some (_ :: _) => False | _ => True end) ->
  (send_message rnd msg s).1 =
    inr (mkChatResponse AzureLLM.error_response (85 # 100) (language msg) (95 # 100)) /\
  map entry_content (conversation_history (send_message rnd msg s).2) =
    (map entry_content (conversation_history s) ++ [message msg; AzureLLM.error_response])%list /\
  AzureLLM.conversation_history <$> llm_engine (send_message rnd msg s).2 =
    Some (AzureLLM.conversation_history llm).
Proof.
  intros E Hf. destruct (send_message_spec rnd msg s) as (t1 & t2 & r & llm' & c & -> & Hl).
  rewrite E in Hl. destruct Hl as (t & -> & ->). unfold AzureLLM.generate_therapeutic_response. cbv zeta.
  match goal with |- context [llm_post ?m] => specialize (Hf m); destruct (llm_post m) as [[|x xs]|] end;
    [| contradiction |]; simpl; rewrite map_app; repeat split.
Qed.

End Handlers.

(** ** Scenarios *)

(** C22: When the shell that starts the server sets [GROQ_API_KEY] to the
    empty string, [load_dotenv] keeps it over the key of the [.env]
    file, [create_omani_stt("groq")] raises, and the [except] of
    [startup_event] leaves the state as it was: neither the speech
    engine nor the Azure client is created, whatever the [.env] file
    configures. *)
Theorem empty_groq_var_disables_backend os_env dotenv s :
  os_env "GROQ_API_KEY" = Some "" ->
  (startup_event true (load_dotenv os_env dotenv) s).2 = s.
Proof.
  intros Hk. assert (H : load_dotenv os_env dotenv "GROQ_API_KEY" = Some "") by (unfold load_dotenv; by rewrite Hk).
  unfold startup_event, STT.create_omani_stt, STT.OmaniSTT_init.
  change (upper "groq" ++ "_API_KEY") with "GROQ_API_KEY". rewrite H. reflexivity.
Qed.

Definition iso0 : nat -> string := fun _ => "2025-01-01T00:00:00".

(** [NamedTemporaryFile] as stdpp's [fresh] name. *)
Definition fresh_tmp : gset string -> string := fun X => fresh X.

Lemma fresh_tmp_fresh X : fresh_tmp X ∉ X.
Proof. apply is_fresh. Qed.

Definition no_gemini : string -> STT.GeminiPayload -> option (list (option string)) := fun _ _ => None.

(** A Groq service whose answer has no [text]. *)
Definition silent_groq : string -> list (string * string) -> STT.GroqForm -> option (option string) :=
  fun _ _ _ => Some None.

Definition riff_upload : UploadFile := mkUploadFile (Some "a.wav") [82; 73; 70; 70]%Z.

Definition with_groq : ApiState := set_stt (Some STT.sample_stt) initial_state.

Lemma no_speech_reported_as_500_witness :
  (stt_engine with_groq = Some STT.sample_stt /\ STT.provider STT.sample_stt = "groq" /\
   default "" (filename riff_upload) <> "" /\ file_content riff_upload <> [] /\
   (length (file_content riff_upload) <= max_upload_size)%nat /\
   (forall url hs form, silent_groq url hs form = None \/ silent_groq url hs form = Some None)) /\
  (transcribe_audio fresh_tmp (fun _ => None) no_gemini silent_groq riff_upload "arabic" with_groq).1 =
    inl (HTTPException 500 ("Speech recognition failed: 422: " ++ no_speech)).
Proof.
  assert (H1 : stt_engine with_groq = Some STT.sample_stt) by reflexivity.
  assert (H2 : STT.provider STT.sample_stt = "groq") by reflexivity.
  assert (H3 : default "" (filename riff_upload) <> "") by discriminate.
  assert (H4 : file_content riff_upload <> []) by discriminate.
  assert (H5 : (length (file_content riff_upload) <= max_upload_size)%nat) by (unfold max_upload_size; cbn [riff_upload file_content length]; lia).
  assert (H6 : forall url hs form, silent_groq url hs form = None \/ silent_groq url hs form = Some None)
    by (intros; right; reflexivity).
  split; [repeat split; assumption|].
  exact (no_speech_reported_as_500 fresh_tmp (fun _ => None) no_gemini silent_groq riff_upload "arabic"
           with_groq STT.sample_stt H1 H2 H3 H4 H5 H6).
Defined.

Lemma upload_requests_keep_disk_witness :
  disk (transcribe_audio fresh_tmp (fun _ => None) no_gemini silent_groq riff_upload "arabic" with_groq).2 =
  disk with_groq /\
  disk (process_audio iso0 fresh_tmp (fun _ => None) (fun _ => None) no_gemini silent_groq 0
          riff_upload "arabic" with_groq).2 = disk with_groq.
Proof. exact (upload_requests_keep_disk iso0 fresh_tmp (fun _ => None) (fun _ => None) no_gemini silent_groq fresh_tmp_fresh 0 riff_upload "arabic" with_groq). Defined.

Lemma upload_size_limit_witness :
  (transcribe_audio fresh_tmp (fun _ => None) no_gemini silent_groq riff_upload "arabic" with_groq).1 =
    inl (HTTPException 413 "Audio file too large (max 10MB)") <->
  (max_upload_size < 4)%nat.
Proof.
  exact (upload_size_limit fresh_tmp (fun _ => None) no_gemini silent_groq
           "a.wav" [82; 73; 70; 70]%Z "arabic" with_groq ltac:(discriminate) ltac:(discriminate)).
Defined.

(** Without a speech engine the upload is transcribed by the demo text,
    and processing it is sending that text. *)
Definition demo_transcription_result : AudioTranscription :=
  mkAudioTranscription "مرحبا، أشعر بالحزن اليوم وأحتاج إلى التحدث مع شخص ما" (8 # 10) "arabic" 5.

Lemma process_audio_sends_witness :
  process_audio iso0 fresh_tmp (fun _ => None) (fun _ => None) no_gemini silent_groq 0 riff_upload "arabic"
    initial_state =
  send_message iso0 (fun _ => None) 0 (mkChatMessage (text demo_transcription_result) "arabic" None)
    initial_state.
Proof.
  apply (process_audio_sends iso0 fresh_tmp (fun _ => None) (fun _ => None) no_gemini silent_groq
           0 riff_upload "arabic" initial_state demo_transcription_result initial_state).
  - vm_compute. reflexivity.
  - discriminate.
Defined.

(** The environment of a deployment with both services configured. *)
Definition env_vars (name : string) : option string :=
  if String.eqb name "GROQ_API_KEY" then Some "gsk-test"
  else if String.eqb name "AZURE_OPENAI_API_KEY" then Some "az-key"
  else if String.eqb name "AZURE_OPENAI_ENDPOINT" then Some "https://example.openai.azure.com"
  else None.

Definition started : ApiState := (startup_event true env_vars initial_state).2.

(** A turn while the Azure service is down. *)
Definition after_failed_turn : ApiState :=
  (send_message iso0 (fun _ => None) 0 (mkChatMessage "مرحبا" "arabic" None) started).2.

(** The client [startup_event] creates from [env_vars]. *)
Definition started_client : AzureLLM.LLMState := default AzureLLM.sample_client (llm_engine started).

Lemma failed_call_recorded_as_answer_witness :
  (llm_engine started = Some started_client /\
   forall ms, match (fun _ : list AzureLLM.Message => @None (list string)) ms with Some (_ :: _) => False | _ => True end) /\
  map entry_content (conversation_history after_failed_turn) = ["مرحبا"; AzureLLM.error_response] /\
  AzureLLM.conversation_history <$> llm_engine after_failed_turn = Some [].
Proof.
  assert (H1 : llm_engine started = Some started_client) by (vm_compute; reflexivity).
  assert (H2 : forall ms, match (fun _ : list AzureLLM.Message => @None (list string)) ms with
                          | Some (_ :: _) => False | _ => True end) by (intros; exact I).
  split; [split; [exact H1 | exact H2]|].
  destruct (failed_call_recorded_as_answer iso0 (fun _ => None) 0 (mkChatMessage "مرحبا" "arabic" None)
              started started_client H1 H2) as (_ & Hh & Hl).
  unfold after_failed_turn. rewrite Hh, Hl. split; vm_compute; reflexivity.
Defined.

(** ** The states the server reaches

    From the module's globals, any sequence of requests to its routes;
    each request runs with its own clock, services and choices. *)
Inductive api_reachable : ApiState -> Prop :=
| api_init : api_reachable initial_state
| api_startup b env s :
    api_reachable s -> api_reachable (startup_event b env s).2
| api_send iso post rnd msg s :
    api_reachable s -> api_reachable (send_message iso post rnd msg s).2
| api_transcribe tn st gp qp audio lang s :
    api_reachable s -> api_reachable (transcribe_audio tn st gp qp audio lang s).2
| api_process iso tn post st gp qp rnd audio lang s :
    api_reachable s -> api_reachable (process_audio iso tn post st gp qp rnd audio lang s).2
| api_clear s :
    api_reachable s -> api_reachable (clear_conversation s).2
| api_health iso s :
    api_reachable s -> api_reachable (health_check iso s).2
| api_status iso s :
    api_reachable s -> api_reachable (get_system_status iso s).2.

(** C20: From every state the server reaches, a request to
    [/api/chat/clear] leads to a reachable state where the API's history
    and the Azure client's history are both empty, with the same engines
    configured: a conversation can always be reset. *)
Lemma api_clear_resets s :
  api_reachable s ->
  api_reachable (clear_conversation s).2 /\
  conversation_history (clear_conversation s).2 = [] /\
  stt_engine (clear_conversation s).2 = stt_engine s /\
  bool_decide (is_Some (llm_engine (clear_conversation s).2)) = bool_decide (is_Some (llm_engine s)) /\
  (forall llm, llm_engine (clear_conversation s).2 = Some llm -> AzureLLM.conversation_history llm = []).
Proof.
  intros Hr. split; [by apply api_clear|].
  unfold clear_conversation. run_handler. cbn.
  destruct (llm_engine s) eqn:E; cbn; rewrite ?E; (split; [done | split; [done | split; [done|]]]);
    intros ? H; [injection H as <-; reflexivity | congruence].
Qed.

Lemma api_clear_resets_witness :
  conversation_history (clear_conversation after_failed_turn).2 = [] /\
  option_map AzureLLM.conversation_history (llm_engine (clear_conversation after_failed_turn).2) = Some [].
Proof.
  assert (Hr : api_reachable after_failed_turn)
    by (unfold after_failed_turn, started; apply api_send, api_startup, api_init).
  destruct (api_clear_resets _ Hr) as (_ & Hh & _ & _ & Hl). split; [exact Hh|].
  destruct (llm_engine (clear_conversation after_failed_turn).2) as [llm|] eqn:E; [|vm_compute in E; discriminate].
  simpl. by rewrite (Hl llm eq_refl).
Defined.

(** A [.env] file that configures both services, and a shell that sets
    [GROQ_API_KEY] to the empty string. *)
Definition dotenv_file (name : string) : option string :=
  if String.eqb name "GROQ_API_KEY" then Some "gsk_example"
  else if String.eqb name "AZURE_OPENAI_API_KEY" then Some "azure-example"
  else if String.eqb name "AZURE_OPENAI_ENDPOINT" then Some "https://example.openai.azure.com"
  else None.

Definition shell_env (name : string) : option string :=
  if String.eqb name "GROQ_API_KEY" then Some "" else None.

(** With nothing set in the shell, the same [.env] file starts both
    engines. *)
Lemma dotenv_configures_backend :
  let s := (startup_event true (load_dotenv (fun _ => None) dotenv_file) initial_state).2 in
  is_Some (stt_engine s) /\ is_Some (llm_engine s).
Proof. vm_compute. split; eexists; reflexivity. Qed.

Lemma empty_groq_var_disables_backend_witness :
  shell_env "GROQ_API_KEY" = Some "" /\
  (startup_event true (load_dotenv shell_env dotenv_file) initial_state).2 = initial_state.
Proof.
  assert (H : shell_env "GROQ_API_KEY" = Some "") by reflexivity.
  split; [exact H | apply (empty_groq_var_disables_backend shell_env dotenv_file initial_state H)].
Defined.

End Api.
