(* ===== verification/ApiAsync.v ===== *)
(** Concurrent requests to the FastAPI backend of [backend/api/main.py].

    uvicorn runs the async handlers on one event loop: a request runs
    until it awaits, and another request may run before it resumes.
    [send_message] (lines 179-218) awaits the Azure client's
    [generate_therapeutic_response] (openai_client.py, lines 93-176),
    which suspends in [await client.post] (line 138) after it built its
    messages from the client's history, and again when the
    [async with httpx.AsyncClient] block exits after it extended that
    history (line 152).  So a request is three steps:
    - [send_start]: the user's entry appended to [conversation_history],
      the messages of the request built (or, without a client, the whole
      demo answer, which never awaits);
    - [post_returned]: the answer arrives, the client's history gets the
      exchange, the reply is prepared;
    - [exit_returned]: the assistant's entry appended, the response.
    [clear_conversation] (lines 325-334) never awaits: one step.  The
    client object is the one [startup_event] assigned; no request
    reassigns it.

    A configuration is the API state with the list of requests in
    flight; a schedule is the list of the requests the event loop
    resumes, in order.  [send_steps_refine] relates a request run alone
    to the atomic handler of [Api].  The theorems say what schedules do
    to the two histories: the client's stays whole exchanges under every
    schedule; the API's agrees with it under every serial schedule (no
    request resumed while another is suspended, as a client that waits
    for each answer produces); two overlapping sends, or a clear during a
    send, break that agreement. *)

From S2P Require Import Prelude Text StrOps PyDict AzureLLM ApiMonad Api.
Import PyStr PyStrOps ApiMonad.

Local Open Scope string_scope.

Module ApiAsync.

Import Api.

(** A request in flight, at one of its suspension points. *)
Inductive Task :=
| SendStart (rnd : nat) (msg : ChatMessage)
| SendAwaitPost (msg : ChatMessage) (messages : list AzureLLM.Message)
| SendAwaitExit (msg : ChatMessage) (response_text : string)
| SendDone (response : ChatResponse)
| ClearStart
| ClearDone.

(** The roles of a history alternate, starting with the user. *)
Fixpoint alternating (h : list AzureLLM.Message) : bool :=
  match h with
  | [] => true
  | u :: a :: rest =>
      String.eqb (AzureLLM.role u) "user" && String.eqb (AzureLLM.role a) "assistant" && alternating rest
  | [_] => false
  end.

Lemma paired_alternating h : AzureLLM.paired h -> alternating h = true.
Proof. intros [ps ->]. induction ps as [|[u a] ps IH]; [done|]. exact IH. Qed.

Lemma alternating_app (h l : list AzureLLM.Message) :
  alternating h = true -> alternating (h ++ l) = alternating l.
Proof.
  revert h. fix IH 1. intros [|u [|a h]] H; [done | discriminate |].
  cbn [alternating app] in *. apply andb_true_iff in H as [H1 H2]. rewrite H1. simpl. apply IH, H2.
Qed.

Section Tasks.

Context (isoformat : nat -> string).
Context (llm_post : AzureLLM.Transport).

(** Lines 185-196 and the Azure client's lines 111-138 up to the
    [await]; without a client, lines 198-216 at once. *)
Definition send_start (rnd : nat) (msg : ChatMessage) : M ApiState Task :=
  t1 ← now isoformat;
  append_entry (mkEntry "user" (message msg) t1) ;;
  s ← get;
  match llm_engine s with
  | Some llm =>
      ret (SendAwaitPost msg
             (AzureLLM.build_messages (AzureLLM.conversation_history llm)
                (AzureLLM.enhance_prompt_with_context (AzureLLM.system_prompt llm) None) (message msg)))
  | None =>
      let response_text := generate_demo_response (message msg) (language msg) rnd in
      t2 ← now isoformat;
      append_entry (mkEntry "assistant" response_text t2) ;;
      ret (SendDone (mkChatResponse response_text (85 # 100) (language msg) (95 # 100)))
  end.

(** The client's lines 138-176 after the [await]: on an answer the
    exchange extends the client's history as it is now; otherwise the
    error reply. *)
Definition post_returned (msg : ChatMessage) (messages : list AzureLLM.Message) : M ApiState Task :=
  t ← now isoformat;
  s ← get;
  match llm_engine s with
  | Some llm =>
      match llm_post messages with
      | Some (therapeutic_response :: _) =>
          modify (set_llm (Some (AzureLLM.mkLLM (AzureLLM.deployment llm) (AzureLLM.api_url llm)
                                   (AzureLLM.system_prompt llm)
                                   (AzureLLM.conversation_history llm ++
                                      [AzureLLM.mkMessage "user" (message msg);
                                       AzureLLM.mkMessage "assistant" therapeutic_response])))) ;;
          ret (SendAwaitExit msg (reply_response
                 (AzureLLM.ReplySuccess therapeutic_response None t (AzureLLM.deployment llm) false)))
      | _ => ret (SendAwaitExit msg (reply_response (AzureLLM.ReplyError AzureLLM.error_response None t)))
      end
  | None => ret (SendAwaitExit msg (reply_response (AzureLLM.ReplyError AzureLLM.error_response None t)))
  end.

(** Lines 197-216, after the client returned. *)
Definition exit_returned (msg : ChatMessage) (response_text : string) : M ApiState Task :=
  t2 ← now isoformat;
  append_entry (mkEntry "assistant" response_text t2) ;;
  ret (SendDone (mkChatResponse response_text (85 # 100) (language msg) (95 # 100))).

(** One resumption of a request. *)
Definition task_step (k : Task) : M ApiState Task :=
  match k with
  | SendStart rnd msg => send_start rnd msg
  | SendAwaitPost msg messages => post_returned msg messages
  | SendAwaitExit msg response_text => exit_returned msg response_text
  | ClearStart => _ ← clear_conversation; ret ClearDone
  | SendDone _ | ClearDone => ret k
  end.

Definition Config : Type := ApiState * list Task.

(** The event loop resumes request [i]; a request that finished, or an
    index with no request, leaves the configuration alone. *)
Definition sched_step (c : Config) (i : nat) : Config :=
  let '(s, tasks) := c in
  match tasks !! i with
  | None => c
  | Some k =>
      match task_step k s with
      | (inr k', s') => (s', <[i := k']> tasks)
      | (inl _, s') => (s', tasks)
      end
  end.

Definition run (sched : list nat) (c : Config) : Config := fold_left sched_step sched c.

(** ** A request run alone *)

(** Run alone, the three steps of a request do what the atomic
    handler [send_message] of [Api] does: the same response and the same
    state, for every state and every answer of the service. *)
Theorem send_steps_refine rnd msg s :
  exists resp,
    send_message isoformat llm_post rnd msg s = (inr resp, (run [0; 0; 0]%nat (s, [SendStart rnd msg])).1) /\
    (run [0; 0; 0]%nat (s, [SendStart rnd msg])).2 = [SendDone resp].
Proof.
  unfold send_message, llm_respond, run, append_entry, now. cbn [fold_left].
  unfold sched_step. cbn [lookup list_lookup].
  unfold task_step, send_start, post_returned, exit_returned, append_entry, now.
  run_handler. simpl.
  destruct (llm_engine s) as [llm|] eqn:E; simpl.
  - unfold AzureLLM.generate_therapeutic_response. simpl.
    destruct (llm_post _) as [[|r rs]|]; simpl; eexists; (split; [|reflexivity]); rewrite ?E; reflexivity.
  - eexists. split; reflexivity.
Qed.

(** ** The client's history under every interleaving *)

Definition client_paired (s : ApiState) : Prop :=
  forall llm, llm_engine s = Some llm -> AzureLLM.paired (AzureLLM.conversation_history llm).

Lemma task_step_client_paired k : preserves client_paired (task_step k).
Proof.
  intros s Hs. destruct k; unfold task_step, send_start, post_returned, exit_returned,
    clear_conversation, append_entry, now; run_handler; simpl;
    repeat (case_match; simpl); intros llm' Hl; simplify_eq/=; try by apply Hs.
  - apply paired_app_exchange. by apply Hs.
  - by exists [].
Qed.

Lemma sched_step_client_paired c i : client_paired c.1 -> client_paired (sched_step c i).1.
Proof.
  destruct c as [s tasks]. unfold sched_step. intros Hs.
  destruct (tasks !! i) as [k|]; [|done].
  pose proof (task_step_client_paired k s Hs) as H.
  destruct (task_step k s) as [[e|k'] s']; exact H.
Qed.

(** C14: Whatever the requests in flight and whatever order the event
    loop resumes them in, the Azure client's history stays a sequence of
    whole (user, assistant) exchanges: each exchange is added at once,
    after the answer arrived, and a clear empties it. *)
Theorem client_paired_every_schedule sched c : client_paired c.1 -> client_paired (run sched c).1.
Proof.
  unfold run. revert c. induction sched as [|i sched IH]; intros c Hc; [exact Hc|].
  apply IH, sched_step_client_paired, Hc.
Qed.

(** ** Requests that do not overlap *)

(** A request suspended at one of its awaits. *)
Definition suspended (k : Task) : bool :=
  match k with SendAwaitPost _ _ | SendAwaitExit _ _ => true | _ => false end.

Definition idle (tasks : list Task) : Prop := Forall (fun k => suspended k = false) tasks.

(** The event loop resumes request [i] while no other request is
    suspended: [i] is the suspended one, or none is.  This is the order a
    client that waits for each answer before it sends the next request
    produces. *)
Definition serial_ok (tasks : list Task) (i : nat) : bool :=
  default false (suspended <$> tasks !! i) || forallb (fun k => negb (suspended k)) tasks.

Fixpoint serial (sched : list nat) (c : Config) : bool :=
  match sched with
  | [] => true
  | i :: sched' => serial_ok c.2 i && serial sched' (sched_step c i)
  end.

(** While a send is suspended, the API's history is whole exchanges and
    the request's user entry; the client's history is a subsequence of
    the exchanges, extended by [bound] with what the client already
    recorded of this request. *)
Definition pending (s : ApiState) (msg : ChatMessage)
    (bound : list AzureLLM.Message -> list AzureLLM.Message) : Prop :=
  exists h t, conversation_history s = (h ++ [mkEntry "user" (message msg) t])%list /\
    AzureLLM.paired (map to_message h) /\
    forall llm, llm_engine s = Some llm ->
      AzureLLM.conversation_history llm `sublist_of` bound (map to_message h).

Definition task_agree (s : ApiState) (k : Task) : Prop :=
  match k with
  | SendAwaitPost msg _ => pending s msg id
  | SendAwaitExit msg r => pending s msg (fun h => h ++ AzureLLM.exchange (message msg) r)%list
  | _ => False
  end.

(** No request is suspended and the histories agree, or exactly one is
    and the state is the one its pending step expects. *)
Definition serial_inv (c : Config) : Prop :=
  (idle c.2 /\ histories_agree c.1) \/
  exists i k, c.2 !! i = Some k /\ task_agree c.1 k /\
    forall j k', j <> i -> c.2 !! j = Some k' -> suspended k' = false.

Lemma task_agree_suspended s k : task_agree s k -> suspended k = true.
Proof. by destruct k. Qed.

(** A step's outcome: no request left suspended and the histories agree,
    or the request suspended in the state its next step expects. *)
Definition step_agree (k' : Task) (s' : ApiState) : Prop :=
  (suspended k' = false /\ histories_agree s') \/ task_agree s' k'.

Lemma history_app_exchange h t1 t2 m r :
  AzureLLM.paired (map to_message h) ->
  AzureLLM.paired (map to_message (h ++ [mkEntry "user" m t1; mkEntry "assistant" r t2])%list) /\
  map to_message (h ++ [mkEntry "user" m t1; mkEntry "assistant" r t2])%list =
    (map to_message h ++ AzureLLM.exchange m r)%list.
Proof. intros Hp. rewrite map_app. split; [by apply paired_app_exchange | reflexivity]. Qed.

Lemma task_step_start k s :
  suspended k = false -> histories_agree s ->
  exists k' s', task_step k s = (inr k', s') /\ step_agree k' s'.
Proof.
  intros Hk [Hp Hs]. destruct k; try discriminate.
  - unfold task_step, send_start, append_entry, now. run_handler. simpl.
    destruct (llm_engine s) as [llm|] eqn:E; simpl; (eexists _, _; split; [reflexivity|]).
    + right. eexists _, _. split; [reflexivity|]. split; [exact Hp | exact Hs].
    + left. split; [done|]. split; [rewrite <- app_assoc; by apply history_app_exchange|].
      intros llm' Hl. cbn in Hl. congruence.
  - eexists _, _. split; [reflexivity|]. left. split; [done|]. split; done.
  - unfold task_step. run_handler.
    pose proof (clear_conversation_agree s (conj Hp Hs)) as Hc.
    destruct (clear_conversation s) as [[e|x] s'] eqn:Ec; [exfalso; revert Ec; unfold clear_conversation; run_handler; destruct (llm_engine _); discriminate|].
    eexists _, _. split; [reflexivity|]. left. by split.
  - eexists _, _. split; [reflexivity|]. left. split; done.
Qed.

Lemma task_step_resume k s :
  task_agree s k -> exists k' s', task_step k s = (inr k', s') /\ step_agree k' s'.
Proof.
  destruct k as [| msg msgs | msg r | | |]; try done; intros (h & t & Eh & Hp & Hs).
  - unfold task_step, post_returned, now. run_handler. simpl.
    destruct (llm_engine s) as [llm|] eqn:E; [destruct (llm_post msgs) as [[|a rs]|]|]; simpl;
      (eexists _, _; split; [reflexivity|]); right; exists h, t; (split; [exact Eh|]); (split; [exact Hp|]);
      simpl; rewrite ?E; intros llm' [= <-]; simpl;
      first [apply sublist_app; [by apply Hs | done] | apply sublist_inserts_r; by apply Hs].
  - unfold task_step, exit_returned, append_entry, now. run_handler. simpl.
    eexists _, _. split; [reflexivity|]. left. split; [done|]. unfold histories_agree. cbn [conversation_history set_history llm_engine].
    rewrite Eh, <- app_assoc. cbn [app].
    match goal with |- context [mkEntry "assistant" r ?t2] =>
      destruct (history_app_exchange h t t2 (message msg) r Hp) as [_ ->] end.
    split; [by apply paired_app_exchange | exact Hs].
Qed.

Lemma sched_step_serial c i : serial_inv c -> serial_ok c.2 i = true -> serial_inv (sched_step c i).
Proof.
  destruct c as [s tasks]. unfold serial_inv, sched_step, serial_ok, idle. simpl.
  intros Hinv Hok. destruct (tasks !! i) as [k|] eqn:Ei; [|exact Hinv].
  simpl in Hinv. rewrite Forall_lookup in Hinv.
  assert (exists k' s', task_step k s = (inr k', s') /\ step_agree k' s' /\
            forall j k'', j <> i -> tasks !! j = Some k'' -> suspended k'' = false) as (k' & s' & -> & Hst & Hoth).
  { destruct Hinv as [[Hidle Hag] | (i0 & k0 & E0 & Hk0 & Hoth)].
    - destruct (task_step_start k s (Hidle i k Ei) Hag) as (k' & s' & Hk & Hst).
      exists k', s'. split; [exact Hk|]. split; [exact Hst|]. intros j k'' _. apply Hidle.
    - assert (i = i0) as ->.
      { destruct (decide (i = i0)) as [|Hne]; [done|]. exfalso.
        simpl in Hok. rewrite (Hoth i k Hne Ei) in Hok. simpl in Hok.
        apply forallb_forall with (x := k0) in Hok; [|by eapply list_elem_of_In, list_elem_of_lookup_2].
        rewrite (task_agree_suspended _ _ Hk0) in Hok. discriminate. }
      rewrite E0 in Ei. injection Ei as <-.
      destruct (task_step_resume k0 s Hk0) as (k' & s' & Hk & Hst).
      exists k', s'. split; [exact Hk|]. split; [exact Hst | exact Hoth]. }
  simpl. rewrite Forall_lookup. destruct Hst as [[Hk' Hag] | Hag].
  - left. split; [|exact Hag]. intros j k'' Hj.
    destruct (decide (j = i)) as [->|Hne].
    + rewrite list_lookup_insert_eq in Hj by (eapply lookup_lt_Some; eauto). by injection Hj as <-.
    + rewrite list_lookup_insert_ne in Hj by done. by apply (Hoth j).
  - right. exists i, k'. split; [apply list_lookup_insert_eq; by eapply lookup_lt_Some|]. split; [exact Hag|].
    intros j k'' Hne Hj. rewrite list_lookup_insert_ne in Hj by done. by apply (Hoth j).
Qed.

Lemma run_serial sched c : serial_inv c -> serial sched c = true -> serial_inv (run sched c).
Proof.
  unfold run. revert c. induction sched as [|i sched IH]; intros c Hc Hs; [exact Hc|].
  simpl in Hs. apply andb_true_iff in Hs as [Hi Hs]. simpl. apply IH; [|exact Hs].
  by apply sched_step_serial.
Qed.

(** C13: When the event loop resumes a request only while no other
    request is suspended -- a client that waits for each answer -- the
    requests may still come in any order and the clears fall between
    them, and whenever no request is suspended the API's
    [conversation_history] is a sequence of whole (user, assistant)
    exchanges of which the Azure client's history is a subsequence: a
    failed model call is the one turn the client leaves out. *)
Theorem serial_schedules_agree sched c :
  histories_agree c.1 -> idle c.2 -> serial sched c = true -> idle (run sched c).2 ->
  histories_agree (run sched c).1.
Proof.
  intros Hag Hidle Hs Hend. destruct (run_serial sched c (or_introl (conj Hidle Hag)) Hs)
    as [[_ H] | (i & k & Ek & Hk & _)]; [exact H|].
  unfold idle in Hend. rewrite Forall_lookup in Hend.
  apply task_agree_suspended in Hk. by rewrite (Hend i k Ek) in Hk.
Qed.

(** ** What interleavings do to the API's history *)

(** C15: Two messages sent at once: when the second request starts while
    the first awaits the service, and each finishes in turn, the API's
    [conversation_history] gets both user entries before both answers,
    so it is no longer a sequence of whole exchanges and no longer
    agrees with the client's -- whatever the service answers. *)
Theorem concurrent_sends_break_agreement rA rB mA mB s :
  histories_agree s -> is_Some (llm_engine s) ->
  ~ histories_agree (run [0; 1; 0; 0; 1; 1]%nat (s, [SendStart rA mA; SendStart rB mB])).1.
Proof.
  intros [Hp _] [llm E] [Hp' _]. apply paired_alternating in Hp, Hp'.
  revert Hp'. unfold run. cbn [fold_left]. unfold sched_step. cbn [lookup list_lookup].
  unfold task_step, send_start, post_returned, exit_returned, append_entry, now. run_handler. simpl.
  rewrite E. simpl.
  repeat match goal with |- context [llm_post ?m] => destruct (llm_post m) as [[|? ?]|]; simpl end;
  rewrite ?map_app, <- ?app_assoc, alternating_app by done; simpl; congruence.
Qed.

(** C16: A clear that runs while a message awaits the service does not
    clear it: the API's history ends with the answer alone, an assistant
    entry without its user entry, and the client's history, just
    emptied, gets the whole exchange back when the service answered. *)
Theorem clear_during_send_orphan rnd msg s :
  is_Some (llm_engine s) ->
  map entry_role (conversation_history (run [0; 1; 0; 0]%nat (s, [SendStart rnd msg; ClearStart])).1) = ["assistant"] /\
  forall llm, llm_engine (run [0; 1; 0; 0]%nat (s, [SendStart rnd msg; ClearStart])).1 = Some llm ->
    AzureLLM.conversation_history llm = [] \/
    exists a, AzureLLM.conversation_history llm = AzureLLM.exchange (message msg) a.
Proof.
  intros [llm E]. unfold run. cbn [fold_left]. unfold sched_step. cbn [lookup list_lookup].
  unfold task_step, send_start, post_returned, exit_returned, clear_conversation, append_entry, now.
  run_handler. simpl. rewrite E. simpl.
  repeat match goal with |- context [llm_post ?m] => destruct (llm_post m) as [[|? ?]|]; simpl end;
    (split; [reflexivity|]); intros ? [= <-]; simpl; eauto.
Qed.

End Tasks.

(** ** Witnesses *)

(** The API after a successful start-up, with the Azure client and empty
    histories; two users' messages; a service that always answers. *)
Definition started_api : ApiState := set_llm (Some AzureLLM.sample_client) initial_state.

Definition msg_a : ChatMessage := mkChatMessage "أشعر بالحزن" "arabic" None.
Definition msg_b : ChatMessage := mkChatMessage "لا أستطيع النوم" "arabic" None.

Definition always_answers : AzureLLM.Transport := AzureLLM.answering "أنا هنا لأسمعك".

Lemma client_paired_every_schedule_witness :
  client_paired started_api /\
  client_paired (run iso0 always_answers [0; 1; 0; 1; 2; 0; 1; 2]%nat
                   (started_api, [SendStart 0 msg_a; SendStart 0 msg_b; ClearStart])).1.
Proof.
  assert (H : client_paired started_api) by (intros llm [= <-]; by exists []).
  split; [exact H | apply (client_paired_every_schedule iso0 always_answers _ (started_api, _) H)].
Defined.

Lemma concurrent_sends_break_agreement_witness :
  (histories_agree started_api /\ is_Some (llm_engine started_api)) /\
  ~ histories_agree (run iso0 always_answers [0; 1; 0; 0; 1; 1]%nat
                       (started_api, [SendStart 0 msg_a; SendStart 0 msg_b])).1.
Proof.
  assert (Ha : histories_agree started_api).
  { split; [by exists [] | intros llm [= <-]; apply sublist_nil_l]. }
  assert (Hs : is_Some (llm_engine started_api)) by (eexists; reflexivity).
  split; [split; [exact Ha | exact Hs] | apply (concurrent_sends_break_agreement iso0 always_answers 0 0 msg_a msg_b _ Ha Hs)].
Defined.

Lemma clear_during_send_orphan_witness :
  is_Some (llm_engine started_api) /\
  map entry_role (conversation_history
    (run iso0 always_answers [0; 1; 0; 0]%nat (started_api, [SendStart 0 msg_a; ClearStart])).1) = ["assistant"] /\
  forall llm, llm_engine (run iso0 always_answers [0; 1; 0; 0]%nat (started_api, [SendStart 0 msg_a; ClearStart])).1 = Some llm ->
    AzureLLM.conversation_history llm = [] \/
    exists a, AzureLLM.conversation_history llm = AzureLLM.exchange (message msg_a) a.
Proof.
  assert (Hs : is_Some (llm_engine started_api)) by (eexists; reflexivity).
  split; [exact Hs | apply (clear_during_send_orphan iso0 always_answers 0 msg_a _ Hs)].
Defined.

(** Two users' messages and a clear, each request run to its end before
    the next starts. *)
Definition serial_tasks : list Task := [SendStart 0 msg_a; ClearStart; SendStart 0 msg_b].
Definition serial_sched : list nat := [0; 0; 0; 1; 2; 2; 2]%nat.

Lemma serial_schedules_agree_witness :
  (histories_agree started_api /\ idle serial_tasks /\
   serial iso0 always_answers serial_sched (started_api, serial_tasks) = true /\
   idle (run iso0 always_answers serial_sched (started_api, serial_tasks)).2) /\
  histories_agree (run iso0 always_answers serial_sched (started_api, serial_tasks)).1.
Proof.
  assert (Ha : histories_agree started_api).
  { split; [by exists [] | intros llm [= <-]; apply sublist_nil_l]. }
  assert (Hi : idle serial_tasks) by (repeat constructor).
  assert (Hs : serial iso0 always_answers serial_sched (started_api, serial_tasks) = true) by (vm_compute; reflexivity).
  assert (He : idle (run iso0 always_answers serial_sched (started_api, serial_tasks)).2)
    by (vm_compute; repeat constructor).
  split; [split; [exact Ha | split; [exact Hi | split; [exact Hs | exact He]]]|].
  exact (serial_schedules_agree iso0 always_answers serial_sched (started_api, serial_tasks) Ha Hi Hs He).
Defined.

End ApiAsync.
