(* ===== verification/Tts.v ===== *)
(** The text-to-speech front end of [Text_to_Speech.py/arabic_tts.py]
    ([OmaniTTS]): the choice of the engine, the voice settings, the
    dispatch of [synthesize_speech] with its default output file, the
    three engines' calls, and the text preprocessing.

    What the module does not compute is a parameter, gathered in
    [TTSEnv]: the outcome of [espeak --version], whether [gtts] and
    [pyttsx3] import, [hash(text)] (salted per process), the [repr] of a
    float and [int()] of a string, the outcome of the [espeak] process
    for a command line, of [gTTS(...).save] for a request, the voices
    [pyttsx3] lists and the outcome of its synthesis for the properties
    set, and whether the output file exists afterwards.  Each
    [_synthesize_*] function builds what the code passes to its engine
    and returns the output path when the engine succeeded and the file
    exists, [None] on every [except] path.  The values of
    [voice_settings] are a small sum of Python values. *)

From Stdlib Require Import Ascii Floats.
From stdpp Require Import pretty.
From S2P Require Import Prelude Text StrOps PyDict Wav.
Import PyStr PyStrOps PyDict.

Local Open Scope string_scope.
Local Set Warnings "-inexact-float".

Module TTS.

(** The values of [voice_settings]. *)
Inductive PyVal :=
| VStr (s : string)
| VInt (z : Z)
| VFloat (f : float).

(** [subprocess.run] of [espeak --version] with a timeout of 5 s: its return
    code, or one of the two exceptions caught on line 95. *)
Inductive EspeakProbe :=
| ProbeReturned (returncode : Z)
| ProbeTimeoutExpired
| ProbeFileNotFound.

(** [subprocess.run(command, capture_output=True, text=True,
    timeout=30)] of a synthesis: the return code, or a caught exception. *)
Inductive RunResult :=
| RunReturned (returncode : Z)
| RunTimeoutExpired
| RunRaised.

(** The arguments of [gTTS(text=text, lang="ar", slow=False, tld="com")]. *)
Record GTTSRequest := mkGTTSRequest {
  gtts_text : string;
  gtts_lang : string;
  gtts_slow : bool;
  gtts_tld : string
}.

(** A voice of [engine.getProperty('voices')]. *)
Record Voice := mkVoice {
  voice_id : string;
  voice_name : string
}.

(** The properties the pyttsx3 engine gets: rate, volume, and the voice
    when one was selected. *)
Record Pyttsx3Props := mkPyttsx3Props {
  prop_rate : PyVal;
  prop_volume : PyVal;
  prop_voice : option string
}.

Record TTSEnv := mkTTSEnv {
  espeak_probe : EspeakProbe;
  has_gtts : bool;
  has_pyttsx3 : bool;
  py_hash : string -> Z;
  float_repr : float -> string;
  int_of_str : string -> option Z;
  run_espeak : list string -> RunResult;
  gtts_save : GTTSRequest -> string -> bool;
  pyttsx3_voices : option (list Voice);
  pyttsx3_save : Pyttsx3Props -> string -> string -> bool;
  engine_writes : string -> string -> string -> bool
}.

Record OmaniTTS := mkTTS {
  engine : string;
  temp_dir : string;
  voice_settings : list (string * PyVal);
  active_engine : string
}.

(** [_test_espeak], lines 79-95. *)
Definition test_espeak (env : TTSEnv) : bool :=
  match espeak_probe env with
  | ProbeReturned rc => bool_decide (rc = 0%Z)
  | ProbeTimeoutExpired | ProbeFileNotFound => false
  end.

(** [_initialize_engine], lines 58-77. *)
Definition initialize_engine (engine_arg : string) (env : TTSEnv) : string :=
  if String.eqb engine_arg "auto" then
    if test_espeak env then "espeak"
    else if has_gtts env then "gtts"
    else if has_pyttsx3 env then "pyttsx3"
    else "text"
  else engine_arg.

(** Lines 46-51. *)
Definition default_voice_settings : list (string * PyVal) :=
  [("language", VStr "ar"); ("rate", VInt 150); ("volume", VFloat 0.9%float); ("voice_id", VStr "ar")].

(** [__init__], lines 35-56: [tempfile.mkdtemp()] is [temp_dir_arg]. *)
Definition OmaniTTS_init (engine_arg temp_dir_arg : string) (env : TTSEnv) : OmaniTTS :=
  mkTTS engine_arg temp_dir_arg default_voice_settings (initialize_engine engine_arg env).

(** [os.path.join(a, b)] for a relative [b]. *)
Definition path_join (a b : string) : string :=
  if String.eqb a "" || endswith a "/" then a ++ b else a ++ "/" ++ b.

(** The f-string [tts_output_{hash(text) % 10000}.wav], line 115: Python's [%] by a positive
    number is [Z.modulo]; [str] of a non-negative integer is its decimal
    numeral. *)
Definition default_output_name (env : TTSEnv) (text : string) : string :=
  "tts_output_" ++ pretty (Z.to_N (py_hash env text mod 10000)) ++ ".wav".

Definition default_output_file (tts : OmaniTTS) (env : TTSEnv) (text : string) : string :=
  path_join (temp_dir tts) (default_output_name env text).

(** [str(v)] of a setting. *)
Definition py_str (env : TTSEnv) (v : PyVal) : string :=
  match v with
  | VStr s => s
  | VInt z => pretty z
  | VFloat f => float_repr env f
  end.

Fixpoint str_repeat (s : string) (n : nat) : string :=
  match n with O => "" | S n' => s ++ str_repeat s n' end.

(** [int(self.voice_settings["volume"] * 200)], line 150: an [int] is
    multiplied, a [float] multiplied in binary64 and truncated ([None]
    for [inf] and [nan], which raise), a [str] repeated 200 times and
    parsed. *)
Definition amplitude (env : TTSEnv) (volume : PyVal) : option Z :=
  match volume with
  | VInt z => Some (z * 200)%Z
  | VFloat f => Wav.trunc_sf (Prim2SF (f * 200)%float)
  | VStr s => int_of_str env (str_repeat s 200)
  end.

(** The command list of lines 146-153; [None] when a lookup or the
    conversion raises. *)
Definition espeak_command (env : TTSEnv) (settings : list (string * PyVal)) (text output_file : string)
    : option (list string) :=
  rate ← dict_get settings "rate";
  volume ← dict_get settings "volume";
  amp ← amplitude env volume;
  Some ["espeak"; "-v"; "ar"; "-s"; py_str env rate; "-a"; pretty amp; "-w"; output_file; text].

(** The check of lines 163, 200 and 240, after the engine ran. *)
Definition written (env : TTSEnv) (eng text output_file : string) (ok : bool) : option string :=
  if ok && engine_writes env eng text output_file then Some output_file else None.

(** [_synthesize_espeak], lines 133-175. *)
Definition synthesize_espeak (tts : OmaniTTS) (env : TTSEnv) (text output_file : string) : option string :=
  match espeak_command env (voice_settings tts) text output_file with
  | None => None
  | Some command =>
      match run_espeak env command with
      | RunReturned rc => written env "espeak" text output_file (bool_decide (rc = 0%Z))
      | RunTimeoutExpired | RunRaised => None
      end
  end.

(** [_synthesize_gtts], lines 177-209: the name [gTTS] is unbound when
    the import failed, a [NameError] caught like any other. *)
Definition synthesize_gtts (env : TTSEnv) (text output_file : string) : option string :=
  if negb (has_gtts env) then None
  else written env "gtts" text output_file (gtts_save env (mkGTTSRequest text "ar" false "com") output_file).

(** The voice test of line 232. *)
Definition is_arabic_voice (v : Voice) : bool :=
  str_in "ar" (lower (voice_id v)) || str_in "arabic" (lower (voice_name v)).

(** The loop of lines 231-234: the first voice that passes, if any. *)
Definition select_voice (voices : list Voice) : option string :=
  voice_id <$> List.find is_arabic_voice voices.

(** [_synthesize_pyttsx3], lines 211-249. *)
Definition synthesize_pyttsx3 (tts : OmaniTTS) (env : TTSEnv) (text output_file : string) : option string :=
  if negb (has_pyttsx3 env) then None else
  match pyttsx3_voices env with
  | None => None
  | Some voices =>
      rate ← dict_get (voice_settings tts) "rate";
      volume ← dict_get (voice_settings tts) "volume";
      written env "pyttsx3" text output_file
        (pyttsx3_save env (mkPyttsx3Props rate volume (select_voice voices)) text output_file)
  end.

(** [synthesize_speech], lines 97-131. *)
Definition synthesize_speech (tts : OmaniTTS) (env : TTSEnv) (text : string)
    (output_file : option string) : option string :=
  if String.eqb (py_strip text) "" then None else
  let output_file := match output_file with
                     | Some f => if String.eqb f "" then default_output_file tts env text else f
                     | None => default_output_file tts env text
                     end in
  if String.eqb (active_engine tts) "espeak" then synthesize_espeak tts env text output_file
  else if String.eqb (active_engine tts) "gtts" then synthesize_gtts env text output_file
  else if String.eqb (active_engine tts) "pyttsx3" then synthesize_pyttsx3 tts env text output_file
  else None.

(** [omani_pronunciations], lines 276-282, in the order of the literal. *)
Definition omani_pronunciations : list (string * string) := [
  ("شلونك", "شلون حالك");
  ("كيفك", "كيف حالك");
  ("وش أخبارك", "وش اخبارك");
  ("صج", "صحيح");
  ("زين", "زين جداً")].

(** [preprocess_arabic_text], lines 251-287. *)
Definition preprocess_arabic_text (text : string) : string :=
  let text := normalize_spaces text in
  let text := py_replace "." ". " text in
  let text := py_replace "،" "، " text in
  let text := py_replace "؟" "؟ " text in
  let text := py_replace "!" "! " text in
  let text := py_replace "أ" "ا" text in
  let text := py_replace "إ" "ا" text in
  let text := py_replace "آ" "ا" text in
  fold_left (fun t '(omani, standard) => py_replace omani standard t) omani_pronunciations text.

(** [_get_available_engines], lines 304-320. *)
Definition get_available_engines (env : TTSEnv) : list string :=
  (if test_espeak env then ["espeak"] else []) ++
  (if has_gtts env then ["gtts"] else []) ++
  (if has_pyttsx3 env then ["pyttsx3"] else []).

(** [get_voice_info], lines 289-302: a [KeyError] when a setting was
    removed is impossible, [set_voice_settings] never removes one. *)
Record VoiceInfo := mkVoiceInfo {
  vi_engine : string;
  vi_language : option PyVal;
  vi_rate : option PyVal;
  vi_volume : option PyVal;
  vi_available_engines : list string
}.

Definition get_voice_info (tts : OmaniTTS) (env : TTSEnv) : VoiceInfo :=
  mkVoiceInfo (active_engine tts) (dict_get (voice_settings tts) "language")
    (dict_get (voice_settings tts) "rate") (dict_get (voice_settings tts) "volume")
    (get_available_engines env).

(** [set_voice_settings] with its keyword arguments [kwargs], lines
    322-332: only the keys already
    present are updated. *)
Definition set_voice_settings (tts : OmaniTTS) (kwargs : list (string * PyVal)) : OmaniTTS :=
  mkTTS (engine tts) (temp_dir tts)
    (fold_left (fun vs '(key, value) => if dict_in key vs then dict_set vs key value else vs)
               kwargs (voice_settings tts))
    (active_engine tts).

(** [tts.voice_settings[key] = value]: a plain dictionary write, which
    unlike [set_voice_settings] also adds a key. *)
Definition set_setting (tts : OmaniTTS) (key : string) (value : PyVal) : OmaniTTS :=
  mkTTS (engine tts) (temp_dir tts) (dict_set (voice_settings tts) key value) (active_engine tts).

(** The paths [shutil.rmtree(dir)] removes: [dir] and every path under
    [os.path.join(dir, "")]. *)
Definition in_tree (dir p : string) : bool := String.eqb p dir || startswith p (path_join dir "").

(** [cleanup], lines 334-342, over the paths that exist: when
    [self.temp_dir] exists, [shutil.rmtree] removes the tree.  An
    [rmtree] that fails part-way (a file it may not delete) is logged
    after the files before it are gone; the model is the complete
    removal. *)
Definition cleanup (tts : OmaniTTS) (paths : gset string) : gset string :=
  if bool_decide (temp_dir tts ∈ paths) then filter (fun p => in_tree (temp_dir tts) p = false) paths
  else paths.

(** [__del__], lines 344-346. *)
Definition OmaniTTS_del (tts : OmaniTTS) (paths : gset string) : gset string := cleanup tts paths.

(** ** Theorems *)

(** With the engine argument [auto], the engine [__init__] activates is the first
    of [_get_available_engines()], and the text fallback when that list
    is empty: the two functions agree on the order of preference. *)
Lemma auto_engine_first_available env :
  initialize_engine "auto" env = default "text" (head (get_available_engines env)).
Proof.
  unfold initialize_engine, get_available_engines. simpl.
  by destruct (test_espeak env), (has_gtts env), (has_pyttsx3 env).
Qed.

Lemma set_voice_settings_keys tts kwargs :
  (voice_settings (set_voice_settings tts kwargs)).*1 = (voice_settings tts).*1.
Proof.
  unfold set_voice_settings. simpl. generalize (voice_settings tts) as vs.
  induction kwargs as [|[k v] kwargs IH]; intros vs; [done|]. simpl. rewrite IH.
  destruct (dict_in k vs) eqn:E; [|done]. rewrite dict_keys_set, E. reflexivity.
Qed.

(** The states of a synthesizer: built by [__init__], then any number of
    [set_voice_settings] calls. *)
Inductive tts_reachable : OmaniTTS -> Prop :=
| tts_init engine_arg dir env : tts_reachable (OmaniTTS_init engine_arg dir env)
| tts_set tts kwargs : tts_reachable tts -> tts_reachable (set_voice_settings tts kwargs).

Lemma dict_get_keys {V} (d : list (string * V)) k : k ∈ d.*1 -> is_Some (dict_get d k).
Proof.
  intros Hk. destruct (dict_get d k) eqn:E; [by eexists|].
  apply dict_get_None in E. contradiction.
Qed.

(** In every reachable synthesizer the settings have exactly the keys
    [language], [rate], [volume], [voice_id], in this order, so
    [get_voice_info] finds the three it reads: [set_voice_settings]
    never adds nor removes a key. *)
Lemma tts_reachable_settings tts env :
  tts_reachable tts ->
  (voice_settings tts).*1 = ["language"; "rate"; "volume"; "voice_id"] /\
  is_Some (vi_language (get_voice_info tts env)) /\ is_Some (vi_rate (get_voice_info tts env)) /\
  is_Some (vi_volume (get_voice_info tts env)).
Proof.
  intros Hr. assert (Hk : (voice_settings tts).*1 = ["language"; "rate"; "volume"; "voice_id"]).
  { induction Hr as [|tts kwargs _ IH]; [done|]. by rewrite set_voice_settings_keys. }
  split; [exact Hk|]. unfold get_voice_info. simpl.
  repeat split; apply dict_get_keys; rewrite Hk; set_solver.
Qed.

(** What [synthesize_speech] returns: nothing for a blank text or an
    unknown engine; otherwise the output path it chose, when the active
    engine ran without error and the file exists. *)
Lemma synthesize_speech_result tts env text out p :
  synthesize_speech tts env text out = Some p ->
  py_strip text <> "" /\
  p = match out with
      | Some f => if String.eqb f "" then default_output_file tts env text else f
      | None => default_output_file tts env text
      end /\
  active_engine tts ∈ ["espeak"; "gtts"; "pyttsx3"] /\
  engine_writes env (active_engine tts) text p = true.
Proof.
  unfold synthesize_speech.
  destruct (String.eqb_spec (py_strip text) "") as [_|Hne]; [discriminate|]. cbv zeta.
  set (o := match out with Some f => _ | None => _ end).
  assert (Hw : forall eng ok, written env eng text o ok = Some p -> p = o /\ engine_writes env eng text o = true).
  { unfold written. intros eng ok. destruct (ok && _) eqn:E; [|discriminate].
    apply andb_true_iff in E as [_ E]. intros [= <-]. done. }
  repeat match goal with |- context [String.eqb (active_engine tts) ?e] =>
    destruct (String.eqb_spec (active_engine tts) e) as [He|]; [rewrite He|] end; try discriminate;
  unfold synthesize_espeak, synthesize_gtts, synthesize_pyttsx3;
  intros H; repeat (case_match; simplify_eq/=; try discriminate);
  repeat (destruct (dict_get _ _); simplify_eq/=; try discriminate);
  match goal with H : written _ _ _ _ _ = Some _ |- _ => apply Hw in H as [-> ?] end;
  split_and!; first [done | set_solver].
Qed.

(** With the default settings [_synthesize_espeak] runs [espeak] at
    speed 150 and amplitude 180: [0.9 * 200] is exactly [180.0] in
    binary64. *)
Lemma espeak_default_command env text out :
  espeak_command env default_voice_settings text out =
    Some ["espeak"; "-v"; "ar"; "-s"; "150"; "-a"; "180"; "-w"; out; text].
Proof. vm_compute. reflexivity. Qed.

(** C33: The Arabic-voice test of [_synthesize_pyttsx3] looks for the
    substring [ar] in the lower-cased voice id: an id that contains
    [software] passes it, so when the first voice pyttsx3 lists has such
    an id -- every SAPI voice on Windows has one, under
    [HKEY_LOCAL_MACHINE\SOFTWARE] -- that voice is selected, whatever its
    language. *)
Theorem select_voice_software v vs :
  str_in "software" (lower (voice_id v)) = true -> select_voice (v :: vs) = Some (voice_id v).
Proof.
  intros H. unfold select_voice, is_arabic_voice. cbn [List.find].
  apply str_in_spec in H as (x & y & Hxy).
  assert (Har : str_in "ar" (lower (voice_id v)) = true).
  { apply str_in_spec. exists (x ++ "softw"), ("e" ++ y). rewrite Hxy, <- str_app_assoc. reflexivity. }
  by rewrite Har.
Qed.

Lemma set_setting_lookup tts key value k :
  key <> k -> dict_get (voice_settings (set_setting tts key value)) k = dict_get (voice_settings tts) k.
Proof. intros Hk. by apply dict_get_set_ne. Qed.

(** C32: The engines read only the [rate] and the [volume] of the
    settings: writing any other key, as [voice_id] and [pitch] are
    written for the female, male and child samples, leaves the result of
    [synthesize_speech] unchanged for every engine, text and output
    file. *)
Theorem synthesize_ignores_other_settings tts env text out key value :
  key <> "rate" -> key <> "volume" ->
  synthesize_speech (set_setting tts key value) env text out = synthesize_speech tts env text out.
Proof.
  intros Hr Hv. unfold synthesize_speech, default_output_file, synthesize_espeak, synthesize_pyttsx3,
    espeak_command. cbn [active_engine temp_dir set_setting].
  rewrite !set_setting_lookup by done. reflexivity.
Qed.

Lemma path_join_prefix a b : path_join a b = path_join a "" ++ b.
Proof.
  unfold path_join. destruct (String.eqb a "" || endswith a "/").
  - by rewrite str_app_nil_r.
  - by rewrite <- !str_app_assoc, str_app_nil_l.
Qed.

(** The default output file of [synthesize_speech] lies in the
    synthesizer's temporary directory, so [__del__] removes it: a path
    [synthesize_speech] returned without an [output_file] does not
    survive the object. *)
Lemma del_removes_default_output tts env text paths :
  temp_dir tts ∈ paths -> default_output_file tts env text ∉ OmaniTTS_del tts paths.
Proof.
  intros Hd. unfold OmaniTTS_del, cleanup. rewrite bool_decide_true by done.
  rewrite elem_of_filter. intros [Hin _]. revert Hin. unfold in_tree, default_output_file.
  rewrite (path_join_prefix (temp_dir tts)).
  assert (Hs : startswith (path_join (temp_dir tts) "" ++ default_output_name env text) (path_join (temp_dir tts) "") = true)
    by (apply startswith_spec; eauto).
  rewrite Hs, orb_true_r. discriminate.
Qed.

(** C34: The file [synthesize_speech] returns when it is given no
    [output_file] lies in the synthesizer's temporary directory, so once
    that directory exists, [__del__] (through [cleanup] and
    [shutil.rmtree]) removes the file: the path the caller got does not
    survive the object. *)
Theorem del_removes_synthesized_file tts env text p paths :
  synthesize_speech tts env text None = Some p -> temp_dir tts ∈ paths -> p ∉ OmaniTTS_del tts paths.
Proof.
  intros Hs Hd. destruct (synthesize_speech_result tts env text None p Hs) as [_ [Hp _]].
  subst p. by apply del_removes_default_output.
Qed.

(** A text of [n] letters. *)
Fixpoint a_text (n : nat) : string :=
  match n with O => EmptyString | S n' => String "a"%char (a_text n') end.

Lemma a_text_length n : String.length (a_text n) = n.
Proof. induction n; simpl; congruence. Qed.

#[local] Instance a_text_inj : Inj eq eq a_text.
Proof. intros n m H. by rewrite <- (a_text_length n), <- (a_text_length m), H. Qed.

Lemma output_name_hash env t1 t2 :
  (py_hash env t1 mod 10000 = py_hash env t2 mod 10000)%Z ->
  default_output_name env t1 = default_output_name env t2.
Proof. unfold default_output_name. by intros ->. Qed.

(** Pigeonhole: of 10001 texts, two have the same hash modulo 10000. *)
Lemma hash_mod_collision (h : string -> Z) :
  exists t1 t2, t1 <> t2 /\ (h t1 mod 10000 = h t2 mod 10000)%Z.
Proof.
  set (texts := (fun z => a_text (Z.to_nat z)) <$> seqZ 0 10001).
  destruct (decide (Exists (fun t1 => Exists (fun t2 => t1 <> t2 /\ (h t1 mod 10000 = h t2 mod 10000)%Z)
                               texts) texts)) as [Hx|Hx].
  - apply Exists_exists in Hx as (t1 & _ & Hx). apply Exists_exists in Hx as (t2 & _ & Hx). eauto.
  - exfalso.
    assert (Hinj : NoDup ((fun t => (h t mod 10000)%Z) <$> texts)).
    { apply NoDup_fmap_2_strong.
      - intros t1 t2 H1 H2 Heq. destruct (decide (t1 = t2)) as [|Hne]; [done|]. exfalso. apply Hx.
        apply Exists_exists. exists t1. split; [exact H1|].
        apply Exists_exists. exists t2. split; [exact H2 | done].
      - apply NoDup_fmap_2_strong; [|apply NoDup_seqZ].
        intros z1 z2 H1%elem_of_seqZ H2%elem_of_seqZ Heq. apply (inj a_text) in Heq. lia. }
    assert (Hincl : incl ((fun t => (h t mod 10000)%Z) <$> texts) (seqZ 0 10000)).
    { intros z Hz. apply list_elem_of_In in Hz. apply list_elem_of_fmap in Hz as (t & -> & _).
      apply list_elem_of_In, elem_of_seqZ. pose proof (Z.mod_pos_bound (h t) 10000 ltac:(lia)). lia. }
    apply NoDup_ListNoDup in Hinj. pose proof (NoDup_incl_length Hinj Hincl) as Hlen.
    unfold texts in Hlen. rewrite !length_fmap, !length_seqZ in Hlen. lia.
Qed.

(** Two different texts can get the same default output file: the
    file name keeps only [hash(text) % 10000], so a later synthesis can
    overwrite the audio of an earlier one. *)
Lemma default_output_collision tts env :
  exists t1 t2, t1 <> t2 /\ default_output_file tts env t1 = default_output_file tts env t2.
Proof.
  destruct (hash_mod_collision (py_hash env)) as (t1 & t2 & Hne & Heq).
  exists t1, t2. split; [done|]. unfold default_output_file. by rewrite (output_name_hash env t1 t2).
Qed.

(** ** Witnesses *)

(** A machine with [espeak] installed, whose engine writes every file. *)
Definition espeak_env : TTSEnv :=
  mkTTSEnv (ProbeReturned 0) true false (fun t => Z.of_nat (String.length t)) (fun _ => "")
    (fun _ => None) (fun _ => RunReturned 0) (fun _ _ => true) None (fun _ _ _ => true) (fun _ _ _ => true).

Definition sample_tts : OmaniTTS := OmaniTTS_init "auto" "/tmp/tts" espeak_env.

Lemma tts_reachable_settings_witness :
  (voice_settings (set_voice_settings sample_tts [("rate", VInt 120); ("pitch", VInt 3)])).*1 =
    ["language"; "rate"; "volume"; "voice_id"] /\
  is_Some (vi_language (get_voice_info (set_voice_settings sample_tts [("rate", VInt 120); ("pitch", VInt 3)]) espeak_env)) /\
  is_Some (vi_rate (get_voice_info (set_voice_settings sample_tts [("rate", VInt 120); ("pitch", VInt 3)]) espeak_env)) /\
  is_Some (vi_volume (get_voice_info (set_voice_settings sample_tts [("rate", VInt 120); ("pitch", VInt 3)]) espeak_env)).
Proof. apply tts_reachable_settings. apply tts_set. apply tts_init. Defined.

Lemma synthesize_speech_result_witness :
  synthesize_speech sample_tts espeak_env "مرحبا" None = Some "/tmp/tts/tts_output_10.wav" /\
  engine_writes espeak_env (active_engine sample_tts) "مرحبا" "/tmp/tts/tts_output_10.wav" = true.
Proof.
  assert (H : synthesize_speech sample_tts espeak_env "مرحبا" None = Some "/tmp/tts/tts_output_10.wav")
    by (vm_compute; reflexivity).
  split; [exact H | apply (synthesize_speech_result _ _ _ _ _ H)].
Defined.

(** The first two SAPI voices of a Windows installation with the Arabic
    (Saudi Arabia) language pack. *)
Definition sapi_david : Voice :=
  mkVoice "HKEY_LOCAL_MACHINE\SOFTWARE\Microsoft\Speech\Voices\Tokens\TTS_MS_EN-US_DAVID_11.0"
          "Microsoft David Desktop - English (United States)".

Definition sapi_naayf : Voice :=
  mkVoice "HKEY_LOCAL_MACHINE\SOFTWARE\Microsoft\Speech\Voices\Tokens\TTS_MS_AR-SA_NAAYF_11.0"
          "Microsoft Naayf Desktop - Arabic (Saudi)".

Lemma select_voice_software_witness :
  str_in "software" (lower (voice_id sapi_david)) = true /\
  select_voice [sapi_david; sapi_naayf] = Some (voice_id sapi_david).
Proof. split; [vm_compute; reflexivity | apply select_voice_software; vm_compute; reflexivity]. Defined.

Lemma synthesize_ignores_other_settings_witness :
  ("pitch" <> "rate" /\ "pitch" <> "volume") /\
  synthesize_speech (set_setting sample_tts "pitch" (VFloat 1.2)) espeak_env "مرحبا" None =
    synthesize_speech sample_tts espeak_env "مرحبا" None.
Proof.
  split; [split; discriminate|].
  apply synthesize_ignores_other_settings; discriminate.
Defined.

(** The synthesizer's directory with the file of a first synthesis. *)
Definition tts_paths : gset string := {[ "/tmp/tts"; "/tmp/tts/tts_output_10.wav" ]}.

Lemma del_removes_synthesized_file_witness :
  (synthesize_speech sample_tts espeak_env "مرحبا" None = Some "/tmp/tts/tts_output_10.wav" /\
   temp_dir sample_tts ∈ tts_paths) /\
  "/tmp/tts/tts_output_10.wav" ∉ OmaniTTS_del sample_tts tts_paths.
Proof.
  assert (H1 : synthesize_speech sample_tts espeak_env "مرحبا" None = Some "/tmp/tts/tts_output_10.wav")
    by (vm_compute; reflexivity).
  assert (H2 : temp_dir sample_tts ∈ tts_paths) by (unfold tts_paths; vm_compute; set_solver).
  split; [split; [exact H1 | exact H2]|].
  exact (del_removes_synthesized_file sample_tts espeak_env "مرحبا" _ tts_paths H1 H2).
Defined.

End TTS.
