(* ===== verification/TestAudio.v ===== *)
(** The test-audio generator [Testcases/generate_test_audio.py]: it
    builds an [OmaniTTS] with the automatic engine choice and synthesizes
    each text of its table into [<name>.mp3] (generate_test_audio), then
    writes [voice_id], [pitch] and [rate] straight into the settings
    dictionary and synthesizes a female, a male and a child sample
    (generate_gender_specific_audio).

    The generator is a client of [Tts]: its runs are values of
    [synthesize_speech] in the same [TTSEnv].  The output directory
    ([Path(__file__).parent / "test_data" / "audio"], created by
    [os.makedirs]) and the temporary directories of the two [OmaniTTS]
    objects are parameters.  The dictionary write [Tts.set_setting] and
    the theorem that no engine reads [voice_id] or [pitch]
    ([Tts.synthesize_ignores_other_settings]) are in [Tts]; this file
    shows that the one setting the child sample changes that is read,
    the rate, reaches [espeak] as a speed of 1.1 words per minute. *)

From Stdlib Require Import Floats.
From S2P Require Import Prelude Text StrOps PyDict Tts.
Import PyStr PyStrOps PyDict TTS.

Local Open Scope string_scope.
Local Set Warnings "-inexact-float".

Module TestAudio.

(** [test_texts], lines 41-71, in the order of the literal. *)
Definition test_texts : list (string * string) := [
  ("basic_greeting", "السلام عليكم، كيف حالك؟");
  ("medical_terms", "أشعر بالقلق والاكتئاب منذ فترة طويلة");
  ("code_switching", "أنا feeling depressed لأنني failed الامتحان");
  ("background_noise", "لدي صعوبة في التركيز على عملي");
  ("female_speaker", "أحتاج إلى مساعدة للتعامل مع ضغوط الحياة");
  ("male_speaker", "أشعر بالتوتر عندما أتحدث أمام الآخرين");
  ("child_speaker", "أخاف من الذهاب إلى المدرسة كل يوم");
  ("anxiety", "أشعر بالتوتر الشديد. قلبي يدق بسرعة وأجد صعوبة في التنفس. أخاف من المستقبل ولا أعرف ماذا سيحدث.");
  ("depression", "لا أشعر برغبة في فعل أي شيء. أنام كثيراً ولا أستطيع الاستمتاع بالأشياء التي كنت أحبها. الحياة تبدو بلا معنى.");
  ("mixed_emotions", "أنا سعيد بنجاحي في العمل لكنني قلق جداً من مشاكل عائلتي. لا أعرف إن كنت أشعر بالفرح أم بالحزن.");
  ("cultural_expression", "أشعر بالعيب من مشاركة مشاعري. عائلتي تقول إن الرجل يجب أن يكون قوياً ولا يُظهر ضعفه.");
  ("subtle_emotion", "الأمور تسير بشكل جيد. لدي عمل مستقر وعائلة جيدة. نعم، كل شيء على ما يرام.");
  ("suicidal", "لا أستطيع الاستمرار في الحياة. أفكر في الانتحار كل يوم. لقد كتبت وصيتي بالفعل.");
  ("self_harm", "عندما أشعر بألم نفسي، أقطع نفسي لأشعر بشيء حقيقي. ذراعي مليء بالجروح.");
  ("severe_anxiety", "قلبي يدق بسرعة جنونية. لا أستطيع التنفس. أشعر أنني سأموت الآن. هذا هلع حقيقي.");
  ("substance_abuse", "أشرب الكحول كل يوم لأنسى مشاكلي. لا أستطيع التوقف حتى لو حاولت.");
  ("immediate_danger", "لقد قررت إنهاء حياتي الليلة. لدي خطة واضحة وسأنفذها حالما ننتهي من المحادثة.");
  ("short_input", "مرحباً، كيف يمكنني مساعدتك اليوم؟");
  ("medium_input", "أشعر بالقلق حول عملي. مديري يضغط علي كثيراً وأنا لا أعرف كيف أتعامل مع هذا الضغط.");
  ("long_input", "أنا أعاني من مشاكل في علاقتي مع زوجتي. نحن متزوجان منذ خمس سنوات ولدينا طفلان. 
        المشكلة أننا لا نتواصل بشكل جيد. هي تقول إنني لا أصغي إليها وأنا أشعر أنها لا تقدر جهودي في العمل والمنزل. 
        نتشاجر كثيراً خاصة حول تربية الأطفال وإدارة أمورنا المالية. أخاف أن تنهار علاقتنا ولا أعرف ماذا أفعل.")].

(** [output_dir / f"{name}.mp3"]. *)
Definition mp3_file (output_dir name : string) : string := path_join output_dir (name ++ ".mp3").

(** [generate_test_audio], lines 31-88: one synthesis per text; the
    [except] of the loop is never taken, [synthesize_speech] catches
    everything itself. *)
Definition generate_test_audio (env : TTSEnv) (temp_dir output_dir : string) : list (string * option string) :=
  let tts := OmaniTTS_init "auto" temp_dir env in
  (fun '(name, text) => (name, synthesize_speech tts env text (Some (mp3_file output_dir name)))) <$> test_texts.

Definition female_text : string := "أحتاج إلى مساعدة للتعامل مع ضغوط الحياة".
Definition male_text : string := "أشعر بالتوتر عندما أتحدث أمام الآخرين".
Definition child_text : string := "أخاف من الذهاب إلى المدرسة كل يوم".

(** The settings of the three samples, lines 106-107, 118-119 and
    130-132. *)
Definition female_settings (tts : OmaniTTS) : OmaniTTS :=
  set_setting (set_setting tts "voice_id" (VStr "ar-female")) "pitch" (VFloat 1.2).

Definition male_settings (tts : OmaniTTS) : OmaniTTS :=
  set_setting (set_setting tts "voice_id" (VStr "ar-male")) "pitch" (VFloat 0.9).

Definition child_settings (tts : OmaniTTS) : OmaniTTS :=
  set_setting (set_setting (set_setting tts "voice_id" (VStr "ar-female")) "pitch" (VFloat 1.5))
    "rate" (VFloat 1.1).

(** [generate_gender_specific_audio], lines 92-138: the settings
    accumulate on the one object. *)
Definition generate_gender_specific_audio (env : TTSEnv) (temp_dir output_dir : string)
    : list (option string) :=
  let tts := female_settings (OmaniTTS_init "auto" temp_dir env) in
  let r1 := synthesize_speech tts env female_text (Some (mp3_file output_dir "female_speaker")) in
  let tts := male_settings tts in
  let r2 := synthesize_speech tts env male_text (Some (mp3_file output_dir "male_speaker")) in
  let tts := child_settings tts in
  let r3 := synthesize_speech tts env child_text (Some (mp3_file output_dir "child_speaker")) in
  [r1; r2; r3].

(** The script, lines 141-149: both generators, each with its own
    [OmaniTTS] and temporary directory. *)
Definition run_generate_test_audio (env : TTSEnv) (temp_dir1 temp_dir2 output_dir : string)
    : list (string * option string) * list (option string) :=
  (generate_test_audio env temp_dir1 output_dir, generate_gender_specific_audio env temp_dir2 output_dir).

(** ** Theorems *)

(** The child sample runs [espeak] with the speed [str(1.1)]: the rate
    meant as a slight speed-up is passed as 1.1 words per minute, where
    the default is 150. *)
Lemma child_espeak_speed env dir text out :
  espeak_command env (voice_settings (child_settings (male_settings (female_settings (OmaniTTS_init "auto" dir env)))))
    text out = Some ["espeak"; "-v"; "ar"; "-s"; float_repr env 1.1; "-a"; "180"; "-w"; out; text].
Proof. vm_compute. reflexivity. Qed.

End TestAudio.
