(* ===== verification/AudioHelper.v ===== *)
(** [src/frontend/audio_helper.py]: the static methods of [AudioHelper].
    The file system is a [gmap] from paths to bytes; the name
    [tempfile.NamedTemporaryFile] picks, [mimetypes.guess_type] and the
    [ffmpeg] subprocess are parameters.  [os.path.splitext] is written out
    as CPython's [genericpath._splitext] does it, with [str.rfind]. *)

From Stdlib Require Import Ascii.
From stdpp Require Import pretty.
From S2P Require Import Prelude Text StrOps PyDict.
Import PyStr PyStrOps PyDict.

Module AudioHelper.

Abbreviation Disk := (gmap string (list Z)).

(** [SUPPORTED_FORMATS] and [MAX_FILE_SIZE], lines 12-13. *)
Definition SUPPORTED_FORMATS : list string := [".wav"; ".mp3"; ".ogg"; ".m4a"; ".aac"; ".flac"].
Definition MAX_FILE_SIZE : Z := 10 * 1024 * 1024.

(** [p.rfind(c)] for a one-byte [c]: the last index of [c] in [p], [-1]
    when there is none. *)
Fixpoint rfind_from (c : ascii) (p : string) (i acc : Z) : Z :=
  match p with
  | EmptyString => acc
  | String d p' => rfind_from c p' (i + 1) (if Ascii.eqb c d then i else acc)
  end.

Definition rfind (c : ascii) (p : string) : Z := rfind_from c p 0 (-1).

(** The loop of [_splitext] that skips the leading dots of the file name:
    [true] when a byte other than [.] occurs at [filenameIndex] or in the
    [steps] bytes after it. *)
Fixpoint non_dot_before (p : string) (filenameIndex steps : nat) : bool :=
  match steps with
  | O => false
  | S steps' =>
      if negb (bool_decide (String.get filenameIndex p = Some "."%char)) then true
      else non_dot_before p (S filenameIndex) steps'
  end.

(** [os.path.splitext] on POSIX ([genericpath._splitext] with [sep = '/']
    and [extsep = '.']). *)
Definition splitext (p : string) : string * string :=
  let sepIndex := rfind "/" p in
  let dotIndex := rfind "." p in
  if (sepIndex <? dotIndex)%Z then
    if non_dot_before p (Z.to_nat (sepIndex + 1)) (Z.to_nat (dotIndex - (sepIndex + 1)))
    then (String.substring 0 (Z.to_nat dotIndex) p,
          String.substring (Z.to_nat dotIndex) (String.length p - Z.to_nat dotIndex) p)
    else (p, EmptyString)
  else (p, EmptyString).

(** The messages of [validate_audio_file], lines 26-41. *)
Definition too_large_message : string :=
  "Audio file too large. Maximum size is " +:+ pretty (Z.to_N (MAX_FILE_SIZE `div` (1024 * 1024))) +:+ "MB".

Definition unsupported_message : string :=
  "Unsupported audio format. Supported formats: " +:+ py_join ", " SUPPORTED_FORMATS.

(** [validate_audio_file], lines 16-45.  The [except] branch is reached
    only by an operating-system error of [os.path.getsize], which the
    model of the disk does not have. *)
Definition AudioHelper_validate_audio_file (disk : Disk) (file_path : string) : bool * string :=
  match disk !! file_path with
  | None => (false, "Audio file does not exist")
  | Some bytes =>
      let file_size := Z.of_nat (length bytes) in
      if (file_size =? 0)%Z then (false, "Audio file is empty")
      else if (MAX_FILE_SIZE <? file_size)%Z then (false, too_large_message)
      else let ext := (splitext (lower file_path)).2 in
           if bool_decide (ext ∈ SUPPORTED_FORMATS) then (true, "Valid audio file")
           else (false, unsupported_message)
  end.

(** The fallback table of [get_mime_type], lines 57-64. *)
Definition mime_types : list (string * string) := [
  (".wav", "audio/wav"); (".mp3", "audio/mpeg"); (".ogg", "audio/ogg");
  (".m4a", "audio/mp4"); (".aac", "audio/aac"); (".flac", "audio/flac")].

(** [get_mime_type], lines 47-66; [guess_type] is
    [mimetypes.guess_type(file_path)[0]]. *)
Definition get_mime_type (guess_type : string -> option string) (file_path : string) : string :=
  let fallback := default "audio/wav" (dict_get mime_types (splitext (lower file_path)).2) in
  match guess_type file_path with
  | Some mime_type => if startswith mime_type "audio/" then mime_type else fallback
  | None => fallback
  end.

(** The outcome of [subprocess.run(cmd)] for ffmpeg: exit status 0 with
    the converted file, another status, or no ffmpeg executable (the
    [FileNotFoundError] the [except] catches). *)
Inductive FfmpegResult :=
| FfmpegOk (wav : list Z)
| FfmpegFailed (stderr : string)
| FfmpegNotFound.

Section Files.
(** [tempfile.NamedTemporaryFile(delete=False, suffix, prefix)]: the name
    it picks among the existing paths. *)
Context (temp_name : string -> string -> gset string -> string).

(** [create_temp_audio_file], lines 68-90. *)
Definition AudioHelper_create_temp_audio_file (audio_data : list Z) (extension : string)
    (disk : Disk) : string * Disk :=
  let name := temp_name "audio_" extension (dom disk) in
  (name, <[name := audio_data]> disk).

(** [cleanup_temp_file], lines 92-100: [os.unlink] when the path exists;
    the [except] only logs. *)
Definition AudioHelper_cleanup_temp_file (file_path : string) (disk : Disk) : Disk :=
  if bool_decide (is_Some (disk !! file_path)) then delete file_path disk else disk.

(** [convert_to_wav], lines 102-140: without an output path, an empty
    named temporary file is created first; ffmpeg reads the input path
    and overwrites the output ([-y]); on failure the input path is
    returned. *)
Definition convert_to_wav (ffmpeg : option (list Z) -> string -> FfmpegResult)
    (input_path : string) (output_path : option string) (disk : Disk) : string * Disk :=
  let '(output_path, disk) :=
    match output_path with
    | None => let name := temp_name "converted_" ".wav" (dom disk) in (name, <[name := []]> disk)
    | Some o => (o, disk)
    end in
  match ffmpeg (disk !! input_path) output_path with
  | FfmpegOk wav => (output_path, <[output_path := wav]> disk)
  | FfmpegFailed _ => (input_path, disk)
  | FfmpegNotFound => (input_path, disk)
  end.

(** Freshness of the temporary names, for the lemmas on the disk. *)
Hypothesis temp_name_fresh : forall prefix suffix used, temp_name prefix suffix used ∉ used.

(** Creating a temporary file and cleaning it up leaves the disk as it
    was: the name is fresh, so [cleanup_temp_file] removes exactly what
    [create_temp_audio_file] wrote. *)
Lemma create_cleanup_roundtrip audio_data extension disk :
  let '(name, disk') := AudioHelper_create_temp_audio_file audio_data extension disk in
  AudioHelper_cleanup_temp_file name disk' = disk.
Proof.
  unfold AudioHelper_create_temp_audio_file, AudioHelper_cleanup_temp_file.
  rewrite lookup_insert_eq, bool_decide_true by done.
  apply delete_insert_id, not_elem_of_dom, temp_name_fresh.
Qed.

(** C35: When ffmpeg fails or is missing and no output path is given,
    [convert_to_wav] returns the input path and leaves behind the empty
    temporary file it created, under a name the caller never sees. *)
Lemma convert_failure_leaks ffmpeg input_path disk :
  let name := temp_name "converted_" ".wav" (dom disk) in
  (forall wav, ffmpeg ((<[name := []]> disk) !! input_path) name <> FfmpegOk wav) ->
  convert_to_wav ffmpeg input_path None disk = (input_path, <[name := []]> disk) /\
  disk !! name = None.
Proof.
  intros name Hf. split; [|apply not_elem_of_dom, temp_name_fresh].
  unfold convert_to_wav. fold name.
  destruct (ffmpeg _ name) eqn:E; [by destruct (Hf wav)|done|done].
Qed.

End Files.

(** ** [os.path.splitext] *)

Lemma substring_all p : String.substring 0 (String.length p) p = p.
Proof. induction p as [|c p IH]; simpl; by rewrite ?IH. Qed.

Lemma substring_split n p :
  (String.substring 0 n p ++ String.substring n (String.length p - n) p)%string = p.
Proof.
  revert n. induction p as [|c p IH]; intros [|n]; simpl; rewrite ?substring_all; try done.
  by rewrite str_app_cons, IH.
Qed.

(** The index [str.rfind] returns is [-1] or the index of an occurrence. *)
Lemma rfind_from_spec c p i acc :
  rfind_from c p i acc = acc \/
  exists k, rfind_from c p i acc = (i + Z.of_nat k)%Z /\ String.get k p = Some c.
Proof.
  revert i acc. induction p as [|d p IH]; intros i acc; simpl; [by left|].
  destruct (Ascii.eqb c d) eqn:E.
  - apply Ascii.eqb_eq in E as ->.
    destruct (IH (i + 1)%Z i) as [H|(k & H & Hk)]; rewrite H; right.
    + exists 0%nat. split; [lia|done].
    + exists (S k). split; [lia|done].
  - destruct (IH (i + 1)%Z acc) as [H|(k & H & Hk)]; rewrite H; [by left|right].
    exists (S k). split; [lia|done].
Qed.

Lemma rfind_spec c p :
  rfind c p = (-1)%Z \/ exists k, rfind c p = Z.of_nat k /\ String.get k p = Some c.
Proof.
  unfold rfind. destruct (rfind_from_spec c p 0 (-1)) as [H|(k & H & Hk)]; [by left|].
  right. exists k. split; [lia|done].
Qed.

Lemma get_Some_lt k p c : String.get k p = Some c -> (k < String.length p)%nat.
Proof. revert k. induction p as [|d p IH]; intros [|k]; simpl; try done; [lia|]. intros H. apply IH in H. lia. Qed.

Lemma substring_get k p c :
  String.get k p = Some c ->
  String.substring k (String.length p - k) p =
  String c (String.substring (S k) (String.length p - S k) p).
Proof.
  revert k. induction p as [|d p IH]; intros [|k]; simpl; try done.
  - intros [= ->]. by rewrite Nat.sub_0_r, substring_all.
  - intros Hk. rewrite IH by done. destruct (String.length p - k)%nat eqn:E; [|done].
    apply get_Some_lt in Hk. lia.
Qed.

(** [os.path.splitext] splits a path into its root and its extension:
    the two parts put together give the path back. *)
Lemma splitext_roundtrip p : ((splitext p).1 ++ (splitext p).2)%string = p.
Proof.
  unfold splitext. destruct (_ <? _)%Z; [destruct non_dot_before|]; simpl;
    rewrite ?str_app_nil_r; auto using substring_split.
Qed.

(** The extension [os.path.splitext] returns is empty or starts with a
    dot. *)
Lemma splitext_ext p : (splitext p).2 = EmptyString \/ exists r, (splitext p).2 = String "." r.
Proof.
  unfold splitext. destruct (_ <? _)%Z eqn:Hlt; [destruct non_dot_before|]; simpl; auto.
  destruct (rfind_spec "." p) as [H|(k & H & Hk)].
  - destruct (rfind_spec "/" p) as [H'|(k' & H' & _)]; rewrite H, ?H' in Hlt; lia.
  - right. rewrite H, Nat2Z.id. eexists. by apply substring_get.
Qed.

(** ** Validation and MIME types *)

(** [validate_audio_file] accepts a path exactly when the file exists,
    is not empty, has at most 10 MiB, and its lower-cased extension is
    one of [SUPPORTED_FORMATS]. *)
Lemma validate_audio_file_ok disk file_path :
  (AudioHelper_validate_audio_file disk file_path).1 = true <->
  exists bytes, disk !! file_path = Some bytes /\ bytes <> [] /\
    (Z.of_nat (length bytes) <= MAX_FILE_SIZE)%Z /\
    (splitext (lower file_path)).2 ∈ SUPPORTED_FORMATS.
Proof.
  unfold AudioHelper_validate_audio_file.
  destruct (disk !! file_path) as [bytes|]; [|split; [done|by intros (? & ? & _)]].
  destruct (Z.eqb_spec (Z.of_nat (length bytes)) 0) as [H0|H0];
    [split; [done|intros (? & [= <-] & Hne & _); destruct bytes; simpl in *; [done|lia]]|].
  destruct (Z.ltb_spec MAX_FILE_SIZE (Z.of_nat (length bytes))) as [Hmax|Hmax];
    [split; [done|intros (? & [= <-] & _ & ? & _); lia]|].
  case_bool_decide as Hext; simpl.
  - split; [intros _|done]. exists bytes. repeat split; try done. by intros ->.
  - split; [done|]. by intros (? & [= <-] & _ & _ & ?).
Qed.

Lemma mime_types_audio : Forall (fun e => startswith e.2 "audio/" = true) mime_types.
Proof. repeat constructor. Qed.

(** Whatever [mimetypes.guess_type] answers, [get_mime_type] returns an
    audio MIME type. *)
Lemma get_mime_type_audio guess_type file_path :
  startswith (get_mime_type guess_type file_path) "audio/" = true.
Proof.
  assert (Hfb : forall o, startswith (default "audio/wav" (dict_get mime_types o)) "audio/" = true).
  { intros o. destruct (dict_get _ _) eqn:E; [|done].
    exact (dict_get_Forall (fun v => startswith v "audio/" = true) _ _ _ mime_types_audio E). }
  unfold get_mime_type. destruct (guess_type file_path) as [m|]; [|apply Hfb].
  destruct (startswith m "audio/") eqn:E; [done|apply Hfb].
Qed.

(** ** Concrete runs *)

(** A temporary-file namer that always picks a fresh path, and a machine
    without ffmpeg. *)
Definition tmp_name (prefix suffix : string) (used : gset string) : string := fresh used.

Lemma tmp_name_fresh prefix suffix used : tmp_name prefix suffix used ∉ used.
Proof. apply is_fresh. Qed.

Definition no_ffmpeg (input : option (list Z)) (output : string) : FfmpegResult := FfmpegNotFound.

Definition upload_disk : Disk := {[ "/tmp/voice.MP3" := [73%Z; 68%Z; 51%Z] ]}.

Lemma create_cleanup_roundtrip_witness :
  let '(name, disk') := AudioHelper_create_temp_audio_file tmp_name [1%Z; 2%Z] ".wav" upload_disk in
  AudioHelper_cleanup_temp_file name disk' = upload_disk.
Proof. exact (create_cleanup_roundtrip tmp_name tmp_name_fresh [1%Z; 2%Z] ".wav" upload_disk). Defined.

Lemma convert_failure_leaks_witness :
  let name := tmp_name "converted_" ".wav" (dom upload_disk) in
  convert_to_wav tmp_name no_ffmpeg "/tmp/voice.MP3" None upload_disk =
    ("/tmp/voice.MP3", <[name := []]> upload_disk) /\
  upload_disk !! name = None.
Proof. apply (convert_failure_leaks tmp_name tmp_name_fresh). intros wav. discriminate. Defined.

(** An upper-case extension is accepted: the path is lower-cased first. *)
Lemma validate_upper_case_ok :
  AudioHelper_validate_audio_file upload_disk "/tmp/voice.MP3" = (true, "Valid audio file").
Proof. vm_compute. reflexivity. Qed.

End AudioHelper.
