(* ===== verification/Streamlit.v ===== *)
(** [src/streamlit_app.py]: the Streamlit front end.  Every interaction
    reruns the script for one browser session: the initialisation of
    [st.session_state] (lines 45-56), then [main()], which handles the
    language switch, checks the environment, initialises the components
    once and dispatches the input to [process_text_sync],
    [process_audio_sync] or the clear button.  [initialize_components] is
    decorated with [@st.cache_resource]: its result, and so the one
    [AzureOmaniTherapistLLM] object it creates, is shared by every
    session.  The state is therefore the sessions' [session_state], the
    cache, that shared object and the file system; a session refers to
    the object by [cached_llm].  A run begins with the imports of lines
    33-34, which name modules the repository does not have: with the
    repository's files every run raises [ModuleNotFoundError] before it
    touches any state.  The handlers below are what the script does once
    the modules exist, taken to be the backend's [whisper.py] and
    [openai_client.py].  The rendering calls of [st] only display and are
    not modelled. *)

From S2P Require Import Prelude Text StrOps PyDict Stt AzureLLM ApiMonad Api.
Import PyStr PyStrOps PyDict ApiMonad.

Module StreamlitApp.

(** [TRANSLATIONS], lines 59-130, literally. *)
Definition TRANSLATIONS : list (string * list (string * string)) := [
  ("arabic", [
    ("title", "🧠 المستشار النفسي العماني");
    ("subtitle", "OMANI Therapist Voice Solution");
    ("chat_placeholder", "اكتب رسالتك هنا... أو ارفع ملف صوتي");
    ("audio_message", "أو سجل رسالة صوتية:");
    ("upload_label", "📤 تحميل ملف صوتي (MP3, WAV, OGG)");
    ("record_label", "🎤 اضغط للتسجيل:");
    ("recording_unavailable", "التسجيل المباشر غير متاح. يرجى تحميل ملف صوتي.");
    ("processing_audio", "جاري تحليل الصوت...");
    ("thinking", "جاري التفكير...");
    ("audio_processing", "🎤 جاري معالجة الرسالة الصوتية...");
    ("audio_error", "عذراً، لم أتمكن من فهم الرسالة الصوتية. يرجى المحاولة مرة أخرى.");
    ("system_status", "📊 حالة النظام");
    ("stt_system", "نظام التعرف على الكلام");
    ("llm_system", "نظام الذكاء الاصطناعي");
    ("language_label", "اللغة");
    ("safety_label", "الأمان");
    ("safety_value", "مراعاة القيم الإسلامية والثقافة العمانية");
    ("clear_chat", "مسح المحادثة");
    ("about_section", "حول التطبيق");
    ("about_text", "**المستشار النفسي العماني** هو نظام ذكاء اصطناعي مصمم خصيصاً للثقافة العمانية واللهجة العربية، يقدم دعماً نفسياً مع مراعاة القيم الإسلامية والعادات المحلية.");
    ("initializing", "جاري تهيئة المكونات...");
    ("language_selector", "🌍 اختر اللغة:");
    ("error_prefix", "❌ خطأ:");
    ("audio_error_prefix", "❌ خطأ في معالجة الصوت:");
    ("upload_success", "✅ تم تحميل الملف الصوتي بنجاح");
    ("process_button", "🚀 معالجة الرسالة الصوتية");
    ("emergency_contacts", "📞 جهات الاتصال الطارئة");
    ("emergency_info", "
        **🆘 في حالة الطوارئ:**
        - الطوارئ العامة: 999
        - مستشفى السلطان قابوس: 24211411
        - الصحة النفسية: متاح 24/7
        ")]);
  ("english", [
    ("title", "🧠 OMANI Therapist");
    ("subtitle", "Omani Psychological Support Assistant");
    ("chat_placeholder", "Type your message here... or upload an audio file");
    ("audio_message", "Or record a voice message:");
    ("upload_label", "📤 Upload Audio File (MP3, WAV, OGG)");
    ("record_label", "🎤 Press to Record:");
    ("recording_unavailable", "Direct recording unavailable. Please upload an audio file.");
    ("processing_audio", "Processing audio...");
    ("thinking", "Thinking...");
    ("audio_processing", "🎤 Processing voice message...");
    ("audio_error", "Sorry, I couldn't understand the voice message. Please try again.");
    ("system_status", "📊 System Status");
    ("stt_system", "Speech Recognition System");
    ("llm_system", "AI System");
    ("language_label", "Language");
    ("safety_label", "Safety");
    ("safety_value", "Respectful of Islamic values and Omani culture");
    ("clear_chat", "Clear Chat");
    ("about_section", "About");
    ("about_text", "**OMANI Therapist** is an AI system designed for Omani culture and Arabic dialect, providing psychological support while respecting Islamic values and local customs.");
    ("initializing", "Initializing components...");
    ("language_selector", "🌍 Select Language:");
    ("error_prefix", "❌ Error:");
    ("audio_error_prefix", "❌ Error processing audio:");
    ("upload_success", "✅ Audio file uploaded successfully");
    ("process_button", "🚀 Process Voice Message");
    ("emergency_contacts", "📞 Emergency Contacts");
    ("emergency_info", "
        **🆘 In case of emergency:**
        - General Emergency: 999
        - Sultan Qaboos Hospital: 24211411
        - Mental Health Hotline: Available 24/7
        ")])].

(** [st.session_state.messages] entries. *)
Record ChatEntry := mkChatEntry { entry_role : string; entry_content : string }.

(** The one LLM object [@st.cache_resource] keeps: a session's
    [st.session_state.llm_engine] is [None] or a reference to it. *)
Inductive LLMRef := cached_llm.

(** One session's [st.session_state]. *)
Record SessionState := mkSession {
  messages : list ChatEntry;
  stt_engine : option STT.OmaniSTT;
  llm_engine : option LLMRef;
  components_ready : bool;
  language : string;
  processing_audio : bool
}.

(** The defaults of lines 45-56, set on the first run of a session. *)
Definition session_defaults : SessionState := mkSession [] None None false "arabic" false.

Record AppState := mkApp {
  sessions : gmap string SessionState;
  component_cache : option (option STT.OmaniSTT * option LLMRef * bool);
  llm_object : option AzureLLM.LLMState;
  disk : gmap string (list Z)
}.

Definition set_sessions f s := mkApp (f (sessions s)) (component_cache s) (llm_object s) (disk s).
Definition set_cache c s := mkApp (sessions s) c (llm_object s) (disk s).
Definition set_llm_object o s := mkApp (sessions s) (component_cache s) o (disk s).
Definition set_files d s := mkApp (sessions s) (component_cache s) (llm_object s) d.

Definition set_messages m ss :=
  mkSession m (stt_engine ss) (llm_engine ss) (components_ready ss) (language ss) (processing_audio ss).
Definition set_components stt llm ss :=
  mkSession (messages ss) stt llm true (language ss) (processing_audio ss).
Definition set_language l ss :=
  mkSession (messages ss) (stt_engine ss) (llm_engine ss) (components_ready ss) l (processing_audio ss).

(** [environment variables] checked by [main()], lines 337-338: a
    variable is missing when it is unset or empty. *)
Definition required_vars : list string := ["GROQ_API_KEY"; "AZURE_OPENAI_API_KEY"; "AZURE_OPENAI_ENDPOINT"].

Definition missing_vars (env : string -> option string) : list string :=
  List.filter (fun var => match env var with Some v => String.eqb v "" | None => true end) required_vars.

(** The options of the language radio, line 321. *)
Definition language_options : list string := ["arabic"; "english"].

(** What one run of the script receives from the widgets. *)
Inductive UIEvent :=
| NoInput
| SelectLanguage (language_option : string)
| ChatInput (user_input : string)
| ProcessAudio (audio_file : list Z)
| ClearChat.

(** The invariant of the language: the language of every session, and
    the one a new session starts with, is one of the radio's options, so
    [TRANSLATIONS[language]] never raises. *)
Definition langs_ok (s : AppState) : Prop :=
  map_Forall (fun _ ss => language ss ∈ language_options) (sessions s) /\
  language session_defaults ∈ language_options.

Definition disk_is (D : gmap string (list Z)) (s : AppState) : Prop := disk s = D.


(** ** The imports of lines 33-34

    [from src.stt.whisper_stt import create_omani_stt] and
    [from src.llm.azure_openai_client import create_azure_omani_llm] run
    at the top of the script, outside any [try].  Python imports [src],
    then [src.stt], then [src.stt.whisper_stt], each from the entries of
    [sys.path] (a module [a/b.py] or a package directory [a/b]; the
    repository has no [__init__.py], so a package is a namespace package
    whose path is every entry holding the directory); the first prefix
    no entry holds is the name [ModuleNotFoundError] reports.  A tree of
    files is the list of their paths, and an entry of [sys.path] a
    directory prefix ([""] for the working directory, ["src/"] for the
    script's own directory, which Streamlit puts first, and which line
    27 appends as [src/src/]). *)
Definition component_modules : list (list string) :=
  [["src"; "stt"; "whisper_stt"]; ["src"; "llm"; "azure_openai_client"]].

Definition dotted (parts : list string) : string := String.concat "." parts.
Definition module_path (parts : list string) : string := String.concat "/" parts.

Definition found_under (files : list string) (root : string) (parts : list string) : bool :=
  existsb (fun f => String.eqb f (root ++ module_path parts ++ ".py") ||
                    startswith f (root ++ module_path parts ++ "/")) files.

Definition module_found (files sys_path : list string) (parts : list string) : bool :=
  existsb (fun root => found_under files root parts) sys_path.

(** The first prefix of [rest], after [pre], that is not found. *)
Fixpoint first_missing (files sys_path : list string) (pre rest : list string) : option string :=
  match rest with
  | [] => None
  | p :: rest' =>
      let pre' := (pre ++ [p])%list in
      if module_found files sys_path pre' then first_missing files sys_path pre' rest'
      else Some (dotted pre')
  end.

(** The name the first failing import of lines 33-34 reports. *)
Definition import_components (files sys_path : list string) : option string :=
  fold_right (fun parts acc => match first_missing files sys_path [] parts with
                               | Some m => Some m
                               | None => acc
                               end) None component_modules.

Definition module_not_found (m : string) : Exc :=
  PyException ("ModuleNotFoundError: No module named '" ++ m ++ "'").

(** The files of the repository. *)
Definition repository_files : list string := [
  "src/Testcases/generate_test_audio.py"; "src/Testcases/run_tests.py";
  "src/Testcases/test_emotion_understanding.py"; "src/Testcases/test_performance.py";
  "src/Testcases/test_speech_recognition.py"; "src/Testcases/test_therapeutic_response.py";
  "src/backend/Text_to_Speech.py/arabic_tts.py"; "src/backend/api/main.py";
  "src/backend/emotion/__pycache__/detector.cpython-311.pyc"; "src/backend/emotion/detector.py";
  "src/backend/guardrailes/__pycache__/crisis_detector.cpython-311.pyc";
  "src/backend/guardrailes/crisis_detector.py"; "src/backend/llm/ollama_client.py";
  "src/backend/llm/openai_client.py"; "src/backend/speech_to_Text/whisper.py";
  "src/frontend/audio_helper.py"; "src/streamlit_app.py"].

Create HintDb streamlit.

Section App.
(** The clock of the replies, the HTTP exchanges of the two engines, the
    temporary names and the environment of the process. *)
Context (timestamp : string).
Context (llm_post : AzureLLM.Transport).
Context (save_temp : list PrimFloat.float -> option string).
Context (gemini_post : string -> STT.GeminiPayload -> option (list (option string))).
Context (groq_post : string -> list (string * string) -> STT.GroqForm -> option (option string)).
Context (temp_name : gset string -> string).
Context (sid : string).

(** [st.session_state] of the running session. *)
Definition session (s : AppState) : SessionState := default session_defaults (sessions s !! sid).

Definition get_session : M AppState SessionState := s ← get; ret (session s).

Definition modify_session (f : SessionState -> SessionState) : M AppState unit :=
  modify (fun s => set_sessions (<[sid := f (session s)]>) s).

(** Lines 45-56: the keys are set on the first run of a session and left
    alone afterwards. *)
Definition init_session_state : M AppState unit :=
  modify (fun s => if bool_decide (is_Some (sessions s !! sid)) then s
                   else set_sessions (<[sid := session_defaults]>) s).

(** [get_text], lines 132-134: [TRANSLATIONS[language]] raises
    [KeyError] for an unknown language; [.get(key, key)]. *)
Definition get_text (key : string) : M AppState string :=
  ss ← get_session;
  match dict_get TRANSLATIONS (language ss) with
  | Some table => ret (default key (dict_get table key))
  | None => raise (PyException ("'" +:+ language ss +:+ "'"))
  end.

(** [st.error]: displays only. *)
Definition st_error (msg : string) : M AppState unit := ret tt.

Definition append_message (role content : string) : M AppState unit :=
  modify_session (fun ss => set_messages (messages ss ++ [mkChatEntry role content]) ss).

(** [initialize_components], lines 136-151. *)
Definition initialize_components (env : string -> option string)
    : M AppState (option STT.OmaniSTT * option AzureLLM.LLMState * bool) :=
  match STT.create_omani_stt "groq" None None env with
  | inr stt_engine =>
      match AzureLLM.create_azure_omani_llm env with
      | Some llm_engine => ret (Some stt_engine, Some llm_engine, true)
      | None =>
          prefix ← get_text "error_prefix";
          st_error prefix ;; ret (None, None, false)
      end
  | inl _ =>
      prefix ← get_text "error_prefix";
      st_error prefix ;; ret (None, None, false)
  end.

(** [@st.cache_resource]: the first call runs the function and keeps its
    result (with the LLM object it created) for every later call, from
    any session. *)
Definition initialize_components_cached (env : string -> option string)
    : M AppState (option STT.OmaniSTT * option LLMRef * bool) :=
  s ← get;
  match component_cache s with
  | Some r => ret r
  | None =>
      '(stt, llm, ready) ← initialize_components env;
      let r := (stt, (fun _ => cached_llm) <$> llm, ready) in
      modify (fun s => set_llm_object llm (set_cache (Some r) s)) ;;
      ret r
  end.

(** [st.session_state.llm_engine.generate_therapeutic_response(message)]
    and [.get("response", ...)] of its answer: [None] has no such
    method. *)
Definition generate_reply (message : string) : M AppState string :=
  ss ← get_session;
  s ← get;
  match llm_engine ss, llm_object s with
  | Some cached_llm, Some llm =>
      let '(response_data, llm') :=
        AzureLLM.generate_therapeutic_response llm llm_post message None None timestamp in
      modify (set_llm_object (Some llm')) ;;
      _ ← get_text "error_prefix";
      ret (Api.reply_response response_data)
  | _, _ => raise (PyException "'NoneType' object has no attribute 'generate_therapeutic_response'")
  end.

(** [process_text_sync], lines 153-181. *)
Definition process_text_sync (message : string) : M AppState unit :=
  if String.eqb (py_strip message) "" then ret tt else
  try_except
    (append_message "user" message ;;
     response ← generate_reply message;
     append_message "assistant" response)
    (fun e => prefix ← get_text "error_prefix"; st_error (prefix +:+ " " +:+ exc_str e)).

(** [tempfile.NamedTemporaryFile(delete=False, suffix=".wav")] and its
    [write], lines 193-195. *)
Definition write_temp (data : list Z) : M AppState string :=
  fun s => let name := temp_name (dom (disk s)) in (inr name, set_files (<[name := data]> (disk s)) s).

(** [os.unlink] in the [finally] of lines 241-246; its error is caught. *)
Definition unlink_quiet (path : string) : M AppState unit :=
  modify (fun s => set_files (delete path (disk s)) s).

(** The STT engine's view of the file system and the network. *)
Definition app_stt_env (s : AppState) : STT.STTEnv :=
  STT.mkSTTEnv (fun p => bool_decide (is_Some (disk s !! p))) (fun p => disk s !! p)
               save_temp gemini_post groq_post.

(** [st.session_state.stt_engine.transcribe_audio(audio_path)]. *)
Definition transcribe (audio_path : string) : M AppState (option string) :=
  ss ← get_session;
  s ← get;
  match stt_engine ss with
  | Some stt => ret (STT.OmaniSTT_transcribe_audio stt (app_stt_env s) (STT.AudioPath audio_path))
  | None => raise (PyException "'NoneType' object has no attribute 'transcribe_audio'")
  end.

(** The else branch of lines 232-237. *)
Definition audio_error_reply : M AppState unit :=
  msg ← get_text "audio_error"; append_message "assistant" msg.

(** [process_audio_sync], lines 183-253. *)
Definition process_audio_sync (audio_file : option (list Z)) : M AppState unit :=
  match audio_file with
  | None => ret tt
  | Some data =>
      try_except
        (_ ← get_text "audio_processing";
         audio_path ← write_temp data;
         try_finally
           (transcription ← transcribe audio_path;
            match transcription with
            | Some t =>
                if String.eqb (py_strip t) "" then audio_error_reply else
                append_message "user" ("🎤 " +:+ t) ;;
                response ← generate_reply t;
                append_message "assistant" response
            | None => audio_error_reply
            end)
           (unlink_quiet audio_path))
        (fun e =>
           prefix ← get_text "audio_error_prefix";
           st_error (prefix +:+ " " +:+ exc_str e) ;;
           prefix' ← get_text "audio_error_prefix";
           append_message "assistant" (prefix' +:+ " " +:+ exc_str e))
  end.

(** The clear button, lines 413-417: the session's messages, and the
    history of the shared LLM object. *)
Definition clear_chat : M AppState unit :=
  modify_session (set_messages []) ;;
  ss ← get_session;
  match llm_engine ss with
  | Some cached_llm => modify (fun s => set_llm_object (AzureLLM.clear_conversation_history <$> llm_object s) s)
  | None => ret tt
  end.

(** Lines 345-356 of [main()]: initialise the components unless the
    session has them; [false] when [main()] returns. *)
Definition ensure_components (env : string -> option string) : M AppState bool :=
  ss ← get_session;
  if components_ready ss then ret true else
  bind (initialize_components_cached env) (fun '(stt, llm, ready) =>
    if ready then modify_session (set_components stt llm) ;; ret true else ret false).

(** The language radio, lines 318-329: a new language is stored and
    [st.rerun()] ends the run ([true]). *)
Definition select_language (ev : UIEvent) : M AppState bool :=
  match ev with
  | SelectLanguage language_option =>
      ss ← get_session;
      if String.eqb language_option (language ss) then ret false
      else modify_session (set_language language_option) ;; ret true
  | _ => ret false
  end.

(** [main()], lines 255-432, for one input: the language radio, the
    environment check, the initialisation of the
    components, then the chat input, the process button or the clear
    button. *)
Definition main (env : string -> option string) (ev : UIEvent) : M AppState unit :=
  rerun ← select_language ev;
  if (rerun : bool) then ret tt else
  if bool_decide (missing_vars env <> []) then ret tt else
  ready ← ensure_components env;
  if negb ready then ret tt else
  match ev with
  | ChatInput user_input => if String.eqb user_input "" then ret tt else process_text_sync user_input
  | ProcessAudio audio_file => process_audio_sync (Some audio_file)
  | ClearChat => clear_chat
  | _ => ret tt
  end.

(** One run of the script for the session [sid], from the files and the
    [sys.path] it runs with: the imports, then lines 45-56 and [main()].
    A failed import ends the run before it touched any state; Streamlit
    shows the exception. *)
Definition run_script (files sys_path : list string) (env : string -> option string) (ev : UIEvent)
    : M AppState unit :=
  match import_components files sys_path with
  | Some m => raise (module_not_found m)
  | None => init_session_state ;; main env ev
  end.

(** ** Handlers that only read, or only touch the sessions *)

Lemma session_insert x s : session (set_sessions <[sid := x]> s) = x.
Proof. unfold session. simpl. by rewrite lookup_insert_eq. Qed.

Lemma session_lang s : langs_ok s -> language (session s) ∈ language_options.
Proof.
  intros [H Hd]. unfold session. destruct (sessions s !! sid) eqn:E; simpl; [by eapply H|exact Hd].
Qed.

Lemma get_session_pure P : preserves P get_session.
Proof. by intros s. Qed.

Lemma get_text_pure P key : preserves P (get_text key).
Proof. unfold get_text, get_session. preserves_tac. Qed.

Lemma transcribe_pure P p : preserves P (transcribe p).
Proof. unfold transcribe, get_session. preserves_tac. Qed.

Lemma st_error_pure P msg : preserves P (st_error msg).
Proof. apply preserves_ret. Qed.

Lemma modify_session_disk D f : preserves (disk_is D) (modify_session f).
Proof. apply preserves_modify. by intros s. Qed.

Lemma append_message_disk D role content : preserves (disk_is D) (append_message role content).
Proof. apply modify_session_disk. Qed.

Lemma generate_reply_disk D m : preserves (disk_is D) (generate_reply m).
Proof.
  unfold generate_reply, get_session. preserves_tac; try apply get_text_pure.
  apply preserves_modify. by intros s'.
Qed.

Lemma audio_error_reply_disk D : preserves (disk_is D) audio_error_reply.
Proof. unfold audio_error_reply. preserves_tac; [apply get_text_pure|apply append_message_disk]. Qed.

#[local] Hint Resolve get_session_pure get_text_pure transcribe_pure st_error_pure modify_session_disk
  append_message_disk generate_reply_disk audio_error_reply_disk : streamlit.

(** ** No uncaught exception *)

Lemma get_text_safe key : safe langs_ok (get_text key).
Proof.
  intros s Hs. unfold get_text, get_session. run_handler.
  pose proof (session_lang s Hs) as Hl. apply list_elem_of_In in Hl.
  destruct Hl as [Hl|[Hl|[]]]; rewrite <- Hl; cbn; (split; [by eexists|done]).
Qed.

Lemma modify_session_safe f :
  (forall ss, language ss ∈ language_options -> language (f ss) ∈ language_options) ->
  safe langs_ok (modify_session f).
Proof.
  intros Hf. apply safe_modify. intros s Hs. split; [|apply Hs].
  apply map_Forall_insert_2; [apply Hf, session_lang, Hs|apply Hs].
Qed.

Lemma append_message_safe role content : safe langs_ok (append_message role content).
Proof. apply modify_session_safe. by intros ss. Qed.

Lemma modify_keeps_sessions f :
  (forall s, sessions (f s) = sessions s) -> safe langs_ok (modify f).
Proof. intros Hf. apply safe_modify. intros s Hs. unfold langs_ok. by rewrite Hf. Qed.

Lemma generate_reply_langs m : preserves langs_ok (generate_reply m).
Proof.
  unfold generate_reply, get_session. preserves_tac; try apply get_text_pure.
  apply safe_preserves, modify_keeps_sessions. done.
Qed.

Lemma write_temp_langs data : preserves langs_ok (write_temp data).
Proof. by intros s. Qed.

Lemma unlink_quiet_langs p : preserves langs_ok (unlink_quiet p).
Proof. by intros s. Qed.

Lemma append_message_langs role content : preserves langs_ok (append_message role content).
Proof. apply safe_preserves, append_message_safe. Qed.

Lemma audio_error_reply_langs : preserves langs_ok audio_error_reply.
Proof. unfold audio_error_reply. preserves_tac; [apply get_text_pure|apply append_message_langs]. Qed.

Lemma st_error_safe P msg : safe P (st_error msg).
Proof. apply safe_ret. Qed.

#[local] Hint Resolve get_text_safe st_error_safe append_message_safe generate_reply_langs write_temp_langs
  unlink_quiet_langs append_message_langs audio_error_reply_langs safe_ret : streamlit.











(** C26: The aliasing of [@st.cache_resource]: clearing the chat in one
    session empties the history of the LLM object that every session
    shares, and leaves the other sessions' messages as they were. *)
Lemma clear_chat_shared s :
  llm_engine (session s) = Some cached_llm ->
  (AzureLLM.conversation_history <$> llm_object (clear_chat s).2) = (fun _ => []) <$> llm_object s /\
  (forall other, other <> sid -> sessions (clear_chat s).2 !! other = sessions s !! other).
Proof.
  intros H. unfold clear_chat, modify_session, get_session. run_handler.
  rewrite session_insert. cbn. rewrite H. cbn.
  split; [by destruct (llm_object s)|]. intros other Hne. by rewrite lookup_insert_ne.
Qed.

(** ** The temporary audio file *)

Hypothesis temp_name_fresh : forall used, temp_name used ∉ used.

(** Writing a temporary file and unlinking it in [finally] leaves the
    disk as it was, whatever the body does with the disk in between. *)
Lemma temp_file_roundtrip {A} data (k : string -> M AppState A) D :
  (forall p D', preserves (disk_is D') (k p)) ->
  preserves (disk_is D) (p ← write_temp data; try_finally (k p) (unlink_quiet p)).
Proof.
  intros Hk s Hs. rewrite run_mbind. unfold bind, write_temp, try_finally, unlink_quiet, modify.
  cbn [fst snd].
  pose proof (Hk (temp_name (dom (disk s))) _ (set_files (<[temp_name (dom (disk s)) := data]> (disk s)) s) eq_refl)
    as Hd.
  destruct (k _ _) as [r s']. unfold disk_is in *. simpl in *. rewrite Hd, <- Hs.
  apply delete_insert_id, not_elem_of_dom, temp_name_fresh.
Qed.

(** C25: [process_audio_sync] leaves no temporary file behind: the disk is
    the same after the handler, on success, on a failed or empty
    transcription and on every exception. *)
Lemma process_audio_keeps_disk audio_file s : disk (process_audio_sync audio_file s).2 = disk s.
Proof.
  enough (H : preserves (disk_is (disk s)) (process_audio_sync audio_file)) by exact (H s eq_refl).
  unfold process_audio_sync. destruct audio_file as [data|]; [|apply preserves_ret].
  apply preserves_try_except; [apply preserves_mbind; [apply get_text_pure|intros _]|intros e].
  - apply temp_file_roundtrip. intros p D'. preserves_tac; auto with streamlit.
  - preserves_tac; auto with streamlit.
Qed.

End App.

(** ** Runs of the application *)

Definition app_initial : AppState := mkApp ∅ None None ∅.



(** No entry of [sys.path] in the repository's tree holds [src.stt]: no
    file of the repository has [src/stt] in its path. *)
Lemma repository_no_src_stt sys_path : module_found repository_files sys_path ["src"; "stt"] = false.
Proof.
  apply not_true_is_false. unfold module_found. rewrite existsb_exists. intros (root & _ & Hr).
  unfold found_under in Hr. rewrite existsb_exists in Hr. destruct Hr as (f & Hf & Hm).
  assert (Hin : str_in "src/stt" f = true).
  { apply str_in_spec. apply orb_true_iff in Hm as [E | E].
    - apply String.eqb_eq in E as ->. exists root, ".py". reflexivity.
    - apply startswith_spec in E as [r ->]. exists root, (String.append "/" r). by rewrite <- !str_app_assoc. }
  revert Hin. repeat (destruct Hf as [<- | Hf]; [vm_compute; discriminate|]). done.
Qed.


(** Every run of the script from the repository's tree raises, whatever
    [sys.path] is: [src.stt] is missing, or [src] itself. *)
Lemma repository_script_raises sys_path :
  exists m, import_components repository_files sys_path = Some m /\ (m = "src" \/ m = "src.stt").
Proof.
  unfold import_components. cbn [fold_right component_modules first_missing app].
  destruct (module_found repository_files sys_path ["src"]); [|eexists; split; [reflexivity | by left]].
  rewrite repository_no_src_stt. eexists; split; [reflexivity | by right].
Qed.

(** The layout the imports expect: the repository with the backend's
    speech and Azure modules at the paths lines 33-34 name. *)
Definition installed_files : list string :=
  (repository_files ++ ["src/stt/whisper_stt.py"; "src/llm/azure_openai_client.py"])%list.

(** A process with the three variables set, a model that always answers
    the same, and a Groq server that hears [مرحبا]. *)
Definition demo_env (k : string) : option string :=
  if String.eqb k "GROQ_API_KEY" then Some "gsk" else
  if String.eqb k "AZURE_OPENAI_API_KEY" then Some "key" else
  if String.eqb k "AZURE_OPENAI_ENDPOINT" then Some "https://omani.openai.azure.com" else None.

Definition demo_post : AzureLLM.Transport := fun _ => Some ["أنا هنا للاستماع إليك."].

Definition demo_groq (url : string) (headers : list (string * string)) (form : STT.GroqForm) : option (option string) :=
  Some (Some "مرحبا").

Definition demo_tmp (used : gset string) : string := fresh used.

Lemma demo_tmp_fresh used : demo_tmp used ∉ used.
Proof. apply is_fresh. Qed.

Definition demo_step (sid : string) (ev : UIEvent) (s : AppState) : AppState :=
  (run_script "2025-01-01T00:00:00" demo_post (fun _ => None) (fun _ _ => None) demo_groq demo_tmp
              sid installed_files [""] demo_env ev s).2.

(** Two browser sessions, each sending one message. *)
Definition two_sessions : AppState :=
  demo_step "b" (ChatInput "m2") (demo_step "a" (ChatInput "m1") app_initial).

(** Session [b] sees only its own exchange, but the LLM object both
    sessions share holds the exchanges of both: the request of [b]'s
    next message carries [a]'s message as context. *)
Lemma sessions_share_llm_history :
  AzureLLM.conversation_history <$> llm_object two_sessions =
    Some [AzureLLM.mkMessage "user" "m1"; AzureLLM.mkMessage "assistant" "أنا هنا للاستماع إليك.";
          AzureLLM.mkMessage "user" "m2"; AzureLLM.mkMessage "assistant" "أنا هنا للاستماع إليك."] /\
  messages (session "b" two_sessions) =
    [mkChatEntry "user" "m2"; mkChatEntry "assistant" "أنا هنا للاستماع إليك."].
Proof. split; vm_compute; reflexivity. Qed.


Lemma process_audio_keeps_disk_witness :
  disk (process_audio_sync "2025-01-01T00:00:00" demo_post (fun _ => None) (fun _ _ => None) demo_groq demo_tmp
          "a" (Some [82%Z; 73%Z; 70%Z; 70%Z]) two_sessions).2 = disk two_sessions.
Proof. exact (process_audio_keeps_disk _ _ _ _ _ demo_tmp "a" demo_tmp_fresh _ _). Defined.

Lemma clear_chat_shared_witness :
  llm_engine (session "a" two_sessions) = Some cached_llm /\
  (AzureLLM.conversation_history <$> llm_object (clear_chat "a" two_sessions).2) =
    (fun _ => []) <$> llm_object two_sessions.
Proof.
  assert (H : llm_engine (session "a" two_sessions) = Some cached_llm) by (vm_compute; reflexivity).
  split; [exact H|]. exact (proj1 (clear_chat_shared "a" two_sessions H)).
Defined.

End StreamlitApp.
