(* ===== verification/Binary64.v ===== *)
(** The scores of [crisis_detector.py] as Python computes them: binary64
    floats.  The channel, fusion and level models ([Channels], [Fusion],
    [Level]) compute with exact rationals; Python adds and multiplies
    [float]s, rounding each operation to the nearest binary64 value, and
    compares the rounded total with the thresholds.  This file computes the
    same verdict with the kernel's primitive floats ([PrimFloat], IEEE 754
    binary64 with round to nearest even, as CPython's [float]).

    Both evaluations start from the same [TypeMatches]: per crisis type,
    the number of keywords found, the [len(matches)] of each pattern of the
    type in table order, and the number of dialect expressions found --
    what the three matchers count before any arithmetic.  [combine_type_f]
    and [py_sum_f] perform Python's operations in Python's order;
    [combine_type_q] is the exact value, and [exact_refines_matches] shows
    it is the score the [Fusion] model computes.  The float total depends
    on the order in which [sum] visits the types -- the iteration order of
    a Python [set] -- since float addition is not associative.

    Where the two differ: [single_type_float_agreement] compares the two
    levels on every bounded detection of one type and finds five
    disagreements; [float_total_below_critical] and
    [python_level_depends_on_set_order] evaluate two Arabic texts whose
    float totals were also checked under CPython. *)

From Stdlib Require Import Floats.
From S2P Require Import Prelude Text Types Tables Regex Channels Fusion Level Engine.
Import PyStr Types Tables Regex Channels Fusion Level Engine.

Local Set Warnings "-inexact-float".

Module Binary64.

(** ** Python's numbers *)

(** [float(n)] of a non-negative Python [int]: [of_uint63] rounds to the
    nearest binary64, exactly as [int.__float__] does; the counts of the
    detector are far below [2^53], where the conversion is exact. *)
Definition float_of_nat (n : nat) : float := PrimFloat.of_uint63 (Uint63.of_Z (Z.of_nat n)).

(** A weight of the pattern table: the Python literal [0.85] is the
    binary64 nearest to [85/100], which is the correctly rounded quotient
    of the two exactly representable integers. *)
Definition float_of_Q (q : Q) : float :=
  PrimFloat.of_uint63 (Uint63.of_Z (Qnum q)) / PrimFloat.of_uint63 (Uint63.of_Z (Zpos (Qden q))).

(** ** What the matchers count *)

(** [self.crisis_keywords[t]] (and the dialect table): the entries of the
    type whose value is [t]. *)
Definition entries_of (table : list (CrisisType * list string)) (t : string) : list string :=
  default [] (snd <$> List.find (fun e => String.eqb (crisis_type_value e.1) t) table).

(** [len(re.findall(pattern, text))] for every pattern of the table, in
    table order, with its type and weight; [None] is [re.error]. *)
Definition pattern_count (text : string) (e : string * (CrisisType * Q))
    : option (CrisisType * Q * nat) :=
  let '(pattern, (crisis_type, weight)) := e in
  p ← compile pattern; Some (crisis_type, weight, length (findall p text)).

Definition pattern_counts (text : string) : option (list (CrisisType * Q * nat)) :=
  mapM (pattern_count text) crisis_patterns.

Record TypeMatches := mkMatches {
  kw_found : nat;
  pattern_hits : list (Q * nat);
  dialect_found : nat
}.

(** The weights and match counts of the patterns of type [t] that match. *)
Definition hits_of (counts : list (CrisisType * Q * nat)) (t : string) : list (Q * nat) :=
  (fun e : CrisisType * Q * nat => let '(_, w, n) := e in (w, n)) <$>
    List.filter (fun e : CrisisType * Q * nat => let '(ct, _, n) := e in
                   String.eqb (crisis_type_value ct) t && negb (n =? 0)%nat) counts.

Definition type_matches (text_lower : string) (counts : list (CrisisType * Q * nat)) (t : string)
    : TypeMatches :=
  mkMatches (length (found_in text_lower (entries_of crisis_keywords t)))
            (hits_of counts t)
            (length (found_in text_lower (entries_of omani_crisis_expressions t))).

(** ** Python's arithmetic *)

Local Open Scope float_scope.

(** [results["scores"][t] = 0] then [+= len(matches) * weight] for each
    matching pattern, line 329. *)
Definition pattern_score_f (hits : list (Q * nat)) : float :=
  fold_left (fun acc '(w, n) => acc + float_of_nat n * float_of_Q w) hits 0.

(** [score = 0] then [score += 1.2] per expression found, line 352. *)
Fixpoint repeat_add (x : float) (n : nat) (acc : float) : float :=
  match n with O => acc | S n' => repeat_add x n' (acc + x) end.

Definition dialect_score_f (d : nat) : float := repeat_add 1.2 d 0.

(** Lines 385-394: [total_score = 0] and the three weighted additions; a
    missing score is the [int] 0, whose product with a weight is 0.0. *)
Definition combine_type_f (m : TypeMatches) : float :=
  0 + float_of_nat (kw_found m) * 0.3 + pattern_score_f (pattern_hits m) * 0.5
    + dialect_score_f (dialect_found m) * 0.4.

(** [sum(combined_scores.values())], line 399: from the [int] 0, left to
    right in the dictionary's order. *)
Definition py_sum_f (xs : list float) : float := fold_left PrimFloat.add xs 0.

(** [_determine_crisis_level], lines 410-448, with Python's float
    comparisons. *)
Definition determine_crisis_level_f (detected_types : list string) (total_score : float) : CrisisLevel :=
  if 3.0 <=? total_score then CRITICAL
  else if bool_decide ("suicide" ∈ detected_types) && (2.0 <=? total_score) then CRITICAL
  else if bool_decide ("violence" ∈ detected_types) && (2.5 <=? total_score) then CRITICAL
  else if 2.0 <=? total_score then HIGH
  else if (bool_decide ("suicide" ∈ detected_types) || bool_decide ("self_harm" ∈ detected_types))
          && (1.0 <=? total_score) then HIGH
  else if 1.0 <=? total_score then MEDIUM
  else if bool_decide ("severe_depression" ∈ detected_types) && (0.5 <=? total_score) then MEDIUM
  else LOW.

Close Scope float_scope.

(** The total and the level of [assess_crisis_level] for a text, when
    Python's [set] of detected types iterates in the order [order]. *)
Definition python_total (text : string) (order : list string) : option float :=
  let text_lower := lower text in
  counts ← pattern_counts text_lower;
  Some (py_sum_f (map (fun t => combine_type_f (type_matches text_lower counts t)) order)).

Definition python_level (text : string) (order : list string) : option CrisisLevel :=
  total ← python_total text order;
  Some (determine_crisis_level_f order total).

(** ** The exact value of the same matches *)

Local Open Scope Q_scope.

Definition pattern_score_q (hits : list (Q * nat)) : Q :=
  fold_left (fun acc '(w, n) => acc + inject_Z (Z.of_nat n) * w) hits 0.

Definition combine_type_q (m : TypeMatches) : Q :=
  0 + inject_Z (Z.of_nat (kw_found m)) * 0.3 + pattern_score_q (pattern_hits m) * 0.5
    + inject_Z (Z.of_nat (dialect_found m)) * 1.2 * 0.4.

(** ** The exact model scores the same matches *)

Lemma entries_of_cons ct es table t :
  entries_of ((ct, es) :: table) t =
  if String.eqb (crisis_type_value ct) t then es else entries_of table t.
Proof. unfold entries_of. simpl. by destruct (String.eqb _ t). Qed.

Lemma lexicon_step_score incr text r ct es t :
  score_of (lexicon_step incr text r (ct, es)) t =
  if bool_decide (t = crisis_type_value ct) && (fst (lexicon_loop incr text es) >? 0)
  then fst (lexicon_loop incr text es) else score_of r t.
Proof.
  unfold lexicon_step. destruct (lexicon_loop incr text es) as [score found]. simpl.
  destruct (score >? 0); case_bool_decide as Ht; simpl; try done; unfold score_of; simpl.
  - subst t. by rewrite lookup_insert_eq.
  - by rewrite lookup_insert_ne by congruence.
Qed.

(** A lexicon score that is not positive is zero. *)
Lemma lexicon_score_zero incr text es :
  0 < incr -> (fst (lexicon_loop incr text es) >? 0) = false ->
  inject_Z (Z.of_nat (length (found_in text es))) * incr == 0.
Proof.
  intros Hi Hs. apply py_gt_false in Hs. destruct (lexicon_loop_spec incr text es) as [H _].
  rewrite H in Hs. apply Qle_antisym; [exact Hs|].
  apply Qmult_le_0_compat; [|by apply Qlt_le_weak].
  change 0 with (inject_Z 0). rewrite <- Zle_Qle. lia.
Qed.

Lemma lexicon_fold_score incr text table r t :
  0 < incr -> NoDup ((crisis_type_value ∘ fst) <$> table) ->
  (forall t', t' ∈ (crisis_type_value ∘ fst) <$> table -> score_of r t' == 0) ->
  score_of (fold_left (lexicon_step incr text) table r) t ==
  if bool_decide (t ∈ (crisis_type_value ∘ fst) <$> table)
  then inject_Z (Z.of_nat (length (found_in text (entries_of table t)))) * incr
  else score_of r t.
Proof.
  intros Hi. revert r. induction table as [|[ct es] table IH]; intros r Hnd Hr; [done|].
  rewrite fmap_cons in Hnd |- *. cbn [compose fst] in Hnd |- *. cbn [fold_left].
  apply NoDup_cons in Hnd as [Hct Hnd].
  etransitivity; [apply IH; [done|]|].
  { intros t' Ht'. rewrite lexicon_step_score, (bool_decide_false (t' = _)) by (intros ->; done).
    apply Hr. set_solver. }
  rewrite lexicon_step_score, entries_of_cons.
  destruct (String.eqb_spec (crisis_type_value ct) t) as [<-|Hne].
  - rewrite !bool_decide_false, !bool_decide_true by (done || set_solver). simpl.
    destruct (fst (lexicon_loop incr text es) >? 0) eqn:Hs.
    + apply lexicon_loop_spec.
    + rewrite (lexicon_score_zero incr text es Hi Hs). apply Hr. set_solver.
  - rewrite (bool_decide_false (t = _)) by congruence. simpl.
    repeat case_bool_decide; set_solver.
Qed.

(** The keyword and dialect scores of a type: the increment times the
    number of its entries found, [0] for a type the table does not list. *)
Lemma match_lexicon_score incr table text t :
  0 < incr -> NoDup ((crisis_type_value ∘ fst) <$> table) ->
  score_of (match_lexicon incr table text) t ==
  inject_Z (Z.of_nat (length (found_in text (entries_of table t)))) * incr.
Proof.
  intros Hi Hnd. unfold match_lexicon. rewrite lexicon_fold_score by done.
  case_bool_decide as Ht; [reflexivity|].
  replace (entries_of table t) with (@nil string); [unfold score_of; simpl; rewrite lookup_empty; simpl; ring|].
  unfold entries_of. destruct (List.find _ table) as [[ct es]|] eqn:E; [|done].
  apply List.find_some in E as [Hin Heq]. apply String.eqb_eq in Heq. simpl in Heq.
  exfalso. apply Ht. subst t. apply list_elem_of_fmap. exists (ct, es).
  split; [done|by apply list_elem_of_In].
Qed.

Lemma crisis_keywords_NoDup : NoDup ((crisis_type_value ∘ fst) <$> crisis_keywords).
Proof. apply NoDup_ListNoDup. vm_compute. repeat constructor; simpl; intuition discriminate. Qed.

Lemma omani_crisis_expressions_NoDup : NoDup ((crisis_type_value ∘ fst) <$> omani_crisis_expressions).
Proof. apply NoDup_ListNoDup. vm_compute. repeat constructor; simpl; intuition discriminate. Qed.

Lemma pattern_score_q_acc hits a :
  fold_left (fun acc '(w, n) => acc + inject_Z (Z.of_nat n) * w) hits a == a + pattern_score_q hits.
Proof.
  unfold pattern_score_q. revert a. induction hits as [|[w n] hits IH]; intros a; simpl; [ring|].
  rewrite (IH (a + _)), (IH (0 + _)). ring.
Qed.

Lemma pattern_score_q_app h1 h2 : pattern_score_q (h1 ++ h2) == pattern_score_q h1 + pattern_score_q h2.
Proof.
  unfold pattern_score_q at 1. rewrite fold_left_app. fold (pattern_score_q h1).
  apply pattern_score_q_acc.
Qed.

Lemma hits_of_cons c counts t : hits_of (c :: counts) t = hits_of [c] t ++ hits_of counts t.
Proof. unfold hits_of. simpl. destruct c as [[ct w] n]. by destruct (_ && _). Qed.

(** Adding the type to the dictionary with the score 0 does not change
    any score. *)
Lemma score_of_add_zero (r : ChannelResult (string * string)) tn t :
  score_of (match cr_scores r !! tn with
            | None => mkResult (cr_types r ++ [tn])%list (<[tn := 0]> (cr_scores r)) (cr_found r)
            | Some _ => r
            end) t = score_of r t.
Proof.
  destruct (cr_scores r !! tn) eqn:E; [done|]. unfold score_of. simpl.
  destruct (decide (t = tn)) as [->|Hne]; [by rewrite lookup_insert_eq, E|by rewrite lookup_insert_ne].
Qed.

(** One pattern adds [len(matches) * weight] to the score of its type. *)
Lemma pattern_step_score text r e r' :
  pattern_step text r e = Some r' ->
  exists c, pattern_count text e = Some c /\
    forall t, score_of r' t == score_of r t + pattern_score_q (hits_of [c] t).
Proof.
  destruct e as [pattern [ct w]]. unfold pattern_step, pattern_count. simpl.
  destruct (compile pattern) as [p|]; simpl; [|discriminate].
  destruct (findall p text) as [|m ms] eqn:Hf; intros [= <-].
  - exists (ct, w, 0%nat). split; [done|]. intros t.
    unfold hits_of. simpl. rewrite andb_false_r. simpl. unfold pattern_score_q. simpl. ring.
  - exists (ct, w, length (m :: ms)). split; [done|]. intros t.
    unfold hits_of. simpl. unfold score_of at 1. simpl.
    destruct (String.eqb_spec (crisis_type_value ct) t) as [<-|Hne]; simpl.
    + rewrite lookup_insert_eq. simpl. rewrite score_of_add_zero.
      unfold pattern_score_q. simpl. ring.
    + rewrite lookup_insert_ne by done. fold (score_of
        (match cr_scores r !! crisis_type_value ct with
         | None => mkResult (cr_types r ++ [crisis_type_value ct])%list
                     (<[crisis_type_value ct := 0]> (cr_scores r)) (cr_found r)
         | Some _ => r end) t).
      rewrite score_of_add_zero. unfold pattern_score_q. simpl. ring.
Qed.

Lemma pattern_fold_none text es :
  fold_left (fun o e => o ≫= fun r => pattern_step text r e) es None = None.
Proof. induction es; simpl; auto. Qed.

(** The pattern scores of a type: the sum of [len(matches) * weight] over
    its matching patterns. *)
Lemma pattern_fold_score text es r r' :
  fold_left (fun o e => o ≫= fun r => pattern_step text r e) es (Some r) = Some r' ->
  exists counts, mapM (pattern_count text) es = Some counts /\
    forall t, score_of r' t == score_of r t + pattern_score_q (hits_of counts t).
Proof.
  revert r. induction es as [|e es IH]; intros r; simpl.
  - intros [= <-]. exists []. split; [done|]. intros t. unfold pattern_score_q. simpl. ring.
  - destruct (pattern_step text r e) as [r1|] eqn:Hs; simpl; [|by rewrite pattern_fold_none].
    intros H. destruct (IH r1 H) as (cs & Hm & Hsc).
    destruct (pattern_step_score text r e r1 Hs) as (c & Hc & Hsc1).
    exists (c :: cs). split; [by rewrite Hc, Hm|]. intros t.
    rewrite Hsc, Hsc1, (hits_of_cons c cs), pattern_score_q_app. ring.
Qed.

Lemma score_of_empty {F} t : score_of (@empty_result F) t = 0.
Proof. unfold score_of. simpl. by rewrite lookup_empty. Qed.

Lemma py_sum_map_ext {A} (f g : A -> Q) l :
  (forall x, x ∈ l -> f x == g x) -> py_sum (map f l) == py_sum (map g l).
Proof.
  induction l as [|x l IH]; intros H; [reflexivity|]. cbn [map].
  rewrite !py_sum_cons, (H x), IH by set_solver. reflexivity.
Qed.

(** The score [Fusion] gives a type is the exact value of its matches. *)
Lemma combine_type_matches text pr counts :
  check_crisis_patterns text = Some pr ->
  pattern_counts text = Some counts ->
  (forall t, score_of pr t == pattern_score_q (hits_of counts t)) ->
  forall t, combine_type (check_crisis_keywords text) pr (check_omani_expressions text) t ==
            combine_type_q (type_matches text counts t).
Proof.
  intros _ _ Hsc t. unfold combine_type, combine_type_q, check_crisis_keywords, check_omani_expressions.
  cbn [type_matches kw_found pattern_hits dialect_found].
  rewrite (match_lexicon_score 1), (match_lexicon_score 1.2), Hsc
    by first [reflexivity | apply crisis_keywords_NoDup | apply omani_crisis_expressions_NoDup].
  ring.
Qed.

(** C5: The exact model evaluates the same matches as the float layer: for
    every text the detector scores, the score [calculate_combined_score]
    gives each detected type is [combine_type_q] of the type's matches --
    keywords found, pattern matches, dialect expressions found -- and the
    total is the sum of these scores over the detected types. *)
Theorem exact_refines_matches text cs :
  score_text text = Some cs ->
  exists counts, pattern_counts (lower text) = Some counts /\
    (forall t, t ∈ cs_types cs -> exists q, cs_scores cs !! t = Some q /\
                 q == combine_type_q (type_matches (lower text) counts t)) /\
    cs_total cs == py_sum (map (fun t => combine_type_q (type_matches (lower text) counts t)) (cs_types cs)).
Proof.
  unfold score_text. destruct (check_crisis_patterns (lower text)) as [pr|] eqn:Hp; [|discriminate].
  intros [= <-]. pose proof Hp as Hp'. unfold check_crisis_patterns in Hp'.
  destruct (pattern_fold_score _ _ _ _ Hp') as (counts & Hc & Hsc).
  exists counts. split; [exact Hc|].
  assert (Hct := combine_type_matches (lower text) pr counts Hp Hc).
  ospecialize (Hct _); [intros t; rewrite Hsc, score_of_empty; ring|].
  split.
  - intros t Ht. eexists. split; [unfold calculate_combined_score; rewrite fuse_along_lookup, bool_decide_true by done; done|].
    apply Hct.
  - apply py_sum_map_ext. intros t _. apply Hct.
Qed.

(** ** Single-type detections, exhaustively

    A text in which one crisis type is detected: its keyword count is at
    most the size of its keyword table, its dialect count at most the size
    of its dialect table, and each of its patterns matches from 0 to
    [bound] times. *)

(** The weights of the patterns of type [t], in table order. *)
Definition weights_of (t : string) : list Q :=
  (fun e : string * (CrisisType * Q) => e.2.2) <$>
    List.filter (fun e : string * (CrisisType * Q) => String.eqb (crisis_type_value e.2.1) t) crisis_patterns.

(** Every [hits] list the patterns of weights [ws] can produce with at
    most [bound] matches each: a pattern that does not match is absent. *)
Fixpoint hit_lists (bound : nat) (ws : list Q) : list (list (Q * nat)) :=
  match ws with
  | [] => [[]]
  | w :: ws' =>
      hs ← hit_lists bound ws';
      hs :: ((fun n => (w, n) :: hs) <$> seq 1 bound)
  end.

Definition single_type_matches (bound : nat) (t : string) : list TypeMatches :=
  k ← seq 0 (S (length (entries_of crisis_keywords t)));
  hs ← hit_lists bound (weights_of t);
  d ← seq 0 (S (length (entries_of omani_crisis_expressions t)));
  [mkMatches k hs d].

(** The level Python computes and the level of the exact model, when [t]
    is the only type detected. *)
Definition float_level (t : string) (m : TypeMatches) : CrisisLevel :=
  determine_crisis_level_f [t] (py_sum_f [combine_type_f m]).

Definition exact_level (t : string) (m : TypeMatches) : CrisisLevel :=
  determine_crisis_level (mkCombined [t] ∅ (py_sum [combine_type_q m])).

Definition all_type_values : list string := crisis_type_value <$> [SUICIDE; SELF_HARM; VIOLENCE; SEVERE_DEPRESSION; PSYCHOSIS; SUBSTANCE_ABUSE].

(** The single-type detections on which Python and the exact model
    disagree. *)
Definition single_type_disagreements (bound : nat) : list (string * TypeMatches) :=
  t ← all_type_values;
  m ← single_type_matches bound t;
  if decide (float_level t m = exact_level t m) then [] else [(t, m)].

(** ** What binary64 changes *)

(** Texts on which the float total lands just under the critical
    threshold.  Both were run through [CrisisDetectionSystem] under
    CPython: the first is reported as [high] with total
    2.9999999999999996; the second as [high] or [critical] depending on
    the hash seed. *)
Definition hopeless_text : string :=
  "ميؤوس منه والظلام فقط ولا ضوء ونفق مظلم ولا مخرج ومسدود الأفق ولا حل ولا قيمة لي و أنا فاشل مع الجميع".

Definition isolated_text : string :=
  "أكسر و معزول و أسمع أصوات و أرى أشياء و يراقبونني و يتجسسون و مؤامرة ضدي و يطاردونني و رسائل خفية و معاني مخفية".

(** C6: Binary64 and exact arithmetic agree on every detection of a single
    crisis type whose keyword and dialect counts are at most the sizes of
    their tables and whose patterns match at most six times each, except
    on five severe-depression detections, where the exact total is 3 and
    the float total falls under it, so Python reports [HIGH] for a
    [CRITICAL] detection. *)
Theorem single_type_float_agreement :
  single_type_disagreements 6 =
    [("severe_depression", mkMatches 0%nat [(0.7, 6%nat); (0.6, 3%nat)] 0);
     ("severe_depression", mkMatches 1%nat [(0.7, 6%nat); (0.6, 2%nat)] 0);
     ("severe_depression", mkMatches 2%nat [(0.7, 6%nat); (0.6, 1%nat)] 0);
     ("severe_depression", mkMatches 3%nat [(0.7, 6%nat)] 0);
     ("severe_depression", mkMatches 9%nat [(0.6, 1%nat)] 0)].
Proof. vm_compute. reflexivity. Qed.

(** On [hopeless_text] only severe depression is detected; its exact
    score is 3, the critical threshold, but the float score Python
    computes is 2.9999999999999996, so the detector reports [HIGH] and no
    immediate intervention where the scoring rule it implements gives
    [CRITICAL]. *)
Theorem float_total_below_critical :
  python_total hopeless_text ["severe_depression"] = Some 2.9999999999999996%float /\
  python_level hopeless_text ["severe_depression"] = Some HIGH /\
  exists cs, score_text hopeless_text = Some cs /\ cs_types cs = ["severe_depression"] /\
             cs_total cs == 3 /\ determine_crisis_level cs = CRITICAL.
Proof.
  split; [vm_compute; reflexivity|]. split; [vm_compute; reflexivity|].
  destruct (score_text hopeless_text) as [cs|] eqn:Hs; [|vm_compute in Hs; discriminate].
  exists cs. vm_compute in Hs. injection Hs as <-. vm_compute. done.
Qed.

(** Python sums the type scores in the iteration order of a set of
    strings, which depends on the hash seed.  On [isolated_text] two
    orders of the same detected types give different float totals and
    different levels: [CRITICAL] in the order of the exact model, [HIGH]
    in another. *)
Theorem python_level_depends_on_set_order :
  exists cs, score_text isolated_text = Some cs /\
    Permutation (cs_types cs) ["severe_depression"; "psychosis"; "self_harm"] /\
    python_level isolated_text (cs_types cs) = Some CRITICAL /\
    python_level isolated_text ["severe_depression"; "psychosis"; "self_harm"] = Some HIGH.
Proof.
  destruct (score_text isolated_text) as [cs|] eqn:Hs; [|vm_compute in Hs; discriminate].
  exists cs. split; [done|]. vm_compute in Hs. injection Hs as <-. cbn [cs_types].
  split; [apply (Permutation_app_comm [_] [_; _])|]. split; vm_compute; reflexivity.
Qed.

(** ** Witnesses *)

Definition hopeless_cs : CombinedScore := default (mkCombined [] ∅ 0) (score_text hopeless_text).

Lemma exact_refines_matches_witness :
  score_text hopeless_text = Some hopeless_cs /\
  exists counts, pattern_counts (lower hopeless_text) = Some counts /\
    (forall t, t ∈ cs_types hopeless_cs -> exists q, cs_scores hopeless_cs !! t = Some q /\
                 q == combine_type_q (type_matches (lower hopeless_text) counts t)) /\
    cs_total hopeless_cs ==
      py_sum (map (fun t => combine_type_q (type_matches (lower hopeless_text) counts t)) (cs_types hopeless_cs)).
Proof.
  assert (H : score_text hopeless_text = Some hopeless_cs) by (vm_compute; reflexivity).
  split; [exact H | exact (exact_refines_matches hopeless_text hopeless_cs H)].
Defined.

End Binary64.
