(* ===== verification/Scenarios.v ===== *)
(** The example scenarios of the spec (section 8) and the behaviours the
    model exposed, each evaluated on the literal input through the whole
    pipeline: [assess_crisis_level], [_analyze_session_patterns] and the
    emotion detector.  Scenario 1 of the spec does not hold of the code:
    the sentence reaches a total of 0.75 and is classified low.  A neutral
    sentence gets five zero emotion scores and is reported as joy; with the
    model on, a tie between emotions is broken by the iteration order of a
    Python set. *)

From S2P Require Import Prelude Text Types Tables Regex Channels Fusion Level Session Resources Engine.
From S2P Require Import PyDict EmotionTables Emotion EmotionSummary.
Import PyStr Types Channels Fusion Level Session Resources Engine Emotion EmotionSummary.

Local Open Scope string_scope.
Local Open Scope Q_scope.

Module Scenarios.

(** Evaluates the scoring stage on a literal text. *)
Ltac score_literal :=
  match goal with
  | E : score_text ?t = Some ?cs |- _ => vm_compute in E; injection E as <-
  end.

Section Turns.
Context {St : Type} `{SessionStore St}.

Lemma assess_holds_of_score (P : Assessment -> St -> Prop) st text session_id now :
  (forall cs, score_text text = Some cs ->
     forall a st', assess_crisis_level st text session_id now = Some (a, st') ->
     crisis_level a = crisis_level_value (determine_crisis_level cs) ->
     crisis_score a = cs_total cs -> detected_types a = cs_types cs ->
     requires_escalation a = bool_decide (determine_crisis_level cs ∈ [HIGH; CRITICAL]) ->
     requires_immediate_intervention a = bool_decide (determine_crisis_level cs = CRITICAL) ->
     P a st') ->
  assess_holds P st text session_id now.
Proof.
  intros HP. apply assess_holds_intro. intros a st' E.
  destruct (assess_inv _ _ _ _ _ _ E) as (cs & Hs & H1 & H2 & H3 & H4 & H5 & _).
  eapply HP; eauto.
Qed.

(** Spec scenario 1 ("I want to die, I decided to end my life tonight"):
    the spec expects critical.  The code finds one suicide keyword (score
    1) and one match of the first suicide pattern (0.9), a total of
    0.3 + 0.45 = 0.75, below every threshold of a suicide signal: the turn
    is low, with no escalation. *)
Lemma spec_scenario_1_is_low st now :
  assess_holds (fun a _ =>
      crisis_level a = "low" /\ requires_escalation a = false /\
      requires_immediate_intervention a = false /\
      detected_types a = ["suicide"] /\ crisis_score a == 0.75)
    st "أريد أن أموت، قررت إنهاء حياتي الليلة" None now.
Proof.
  apply assess_holds_of_score. intros cs E a st' _ -> -> -> -> ->.
  score_literal. vm_compute. repeat split; reflexivity.
Qed.

(** Spec scenario 2 ("I am worried about the exam"): nothing detected. *)
Lemma spec_scenario_2_is_low st now :
  assess_holds (fun a _ =>
      crisis_level a = "low" /\ requires_escalation a = false /\
      detected_types a = [] /\ crisis_score a == 0)
    st "أشعر بالقلق من الامتحان" None now.
Proof.
  apply assess_holds_of_score. intros cs E a st' _ -> -> -> -> _.
  score_literal. vm_compute. repeat split; reflexivity.
Qed.

(** The two-letter keyword "عض" (bite) of the self-harm list is a
    substring of the everyday word "بعض" (some): "I am worried about some
    exams" is reported as self-harm. *)
Lemma some_exams_flagged_self_harm st now :
  assess_holds (fun a _ =>
      detected_types a = ["self_harm"] /\
      is_Some (emergency_resources a !! "crisis_intervention"))
    st "أشعر بالقلق من بعض الامتحانات" None now.
Proof.
  apply assess_holds_intro. intros a st' E.
  destruct (assess_inv _ _ _ _ _ _ E) as (cs & Hs & _ & _ & -> & _ & _ & -> & _).
  score_literal. vm_compute. split; [reflexivity | eexists; reflexivity].
Qed.

End Turns.

(** A fused score with the given total, for the session scenarios. *)
Definition score_only (q : Q) : CombinedScore := mkCombined [] ∅ q.

Definition three_turns (s1 s2 s3 : Q) : Q :=
  let st0 : gmap string (list SessionRecord) := ∅ in
  let st1 := (analyze_session_patterns st0 "s" (score_only s1) 0).2 in
  let st2 := (analyze_session_patterns st1 "s" (score_only s2) 1).2 in
  (analyze_session_patterns st2 "s" (score_only s3) 2).1.

(** Spec scenario 3: totals 0.2, 0.6, 1.1 in one session give the
    escalating-trend risk 0.5 on the third turn. *)
Lemma spec_scenario_3_escalating : three_turns 0.2 0.6 1.1 = 0.5.
Proof. vm_compute. reflexivity. Qed.

(** Spec scenario 4: totals 1.2, 0.3, 1.5 are not increasing, but two of
    them exceed 1.0: the persistent-signal risk 0.3. *)
Lemma spec_scenario_4_persistent : three_turns 1.2 0.3 1.5 = 0.3.
Proof. vm_compute. reflexivity. Qed.

(** ** The emotion detector *)

(** A sentence with no emotion word ("I went to the market today"). *)
Definition neutral_text : string := "ذهبت إلى السوق اليوم".

(** A neutral sentence gets a zero entry for each dialect emotion; with
    every score tied at 0 the first entry wins, so the detector reports
    joy as the dominant emotion and summarises the text as happy. *)
Lemma neutral_text_dominant_joy set_iter :
  detect_emotions (EmotionDetector_init false false None) set_iter neutral_text =
    [("joy", 0); ("sadness", 0); ("anger", 0); ("worry", 0); ("confusion", 0)] /\
  get_dominant_emotion (detect_emotions (EmotionDetector_init false false None) set_iter neutral_text) = Some "joy" /\
  get_emotion_summary (detect_emotions (EmotionDetector_init false false None) set_iter neutral_text) =
    dominant_prefix ++ "سعادة".
Proof. vm_compute. repeat split; reflexivity. Qed.

(** A model that rates joy and sadness equally. *)
Definition tied_pipeline : Pipeline := fun _ => Some [("joy", 0.5); ("sadness", 0.5)].

(** With the model on, tied scores are ordered by the iteration of a Python
    set, which the interpreter salts per process: on the same text, two
    valid iteration orders make joy and sadness the dominant emotion. *)
Lemma emotion_tie_depends_on_set_order :
  set_iter_ok dedup_iter /\ set_iter_ok rev_dedup_iter /\
  get_dominant_emotion (detect_emotions (EmotionDetector_init true true (Some tied_pipeline)) dedup_iter neutral_text)
    = Some "joy" /\
  get_dominant_emotion (detect_emotions (EmotionDetector_init true true (Some tied_pipeline)) rev_dedup_iter neutral_text)
    = Some "sadness".
Proof.
  split; [apply dedup_iter_ok|]. split; [apply rev_dedup_iter_ok|].
  split; vm_compute; reflexivity.
Qed.

End Scenarios.
